(** * DataSleuth profiler: a shallow embedding of the profiling and
      quality-scoring engine (package [profiler]) and its properties.

    Conventions of the embedding.
    - Go's [int] is the 64-bit two's complement integer: a [Z] with the
      wrap-around of every addition, subtraction and multiplication
      written out ([GoInt]).
    - Go's [float64] is IEEE 754 binary64, round to nearest even: the
      Standard Library's executable specification [spec_float] at
      precision 53 and maximal exponent 1024 ([F64]).  Operations are
      rounded one by one (no fused multiply-add), as the amd64 compiler
      emits them.
    - A conversion [int(f)] whose operand is NaN or out of range is
      implementation-dependent in Go; it is modelled as the amd64
      targets of the repository's build produce it ([F64.to_int]).
    - Library functions that are not part of the repository (os.Open,
      strconv, time, fmt, filepath, strings.ToLower, the order of a range
      over a map, sort.Slice) are parameters, collected in the class
      [GoLib]; the CSV reader is modelled after its documentation.
    - profiler.go is there in two revisions, without and with the
      correlation engine: [ProfileDataset_v1] and [ProfileDataset].
    - A function that can fail returns a [result]: a value, a Go error,
      or a run-time panic.
    - The wall-clock fields of a profile (CreatedAt, ProcessingTime) are
      left out. *)

From stdpp Require Import gmap strings list sorting.
From Stdlib Require Import Ascii ZArith QArith Lia SpecFloat.

Local Open Scope Z_scope.

(** * Part I: the embedding *)

(** ** Go's [int] *)

Module GoInt.

Definition min_int : Z := - 2 ^ 63.
Definition max_int : Z := 2 ^ 63 - 1.

Definition in_range (z : Z) : Prop := min_int <= z <= max_int.

Definition wrap (z : Z) : Z := (z + 2 ^ 63) mod 2 ^ 64 - 2 ^ 63.

Definition add (a b : Z) : Z := wrap (a + b).
Definition sub (a b : Z) : Z := wrap (a - b).
Definition mul (a b : Z) : Z := wrap (a * b).

End GoInt.

(** ** Go's [float64] *)

Module F64.

Definition prec : Z := 53.
Definition emax : Z := 1024.

Definition float64 : Type := spec_float.

Definition add : float64 -> float64 -> float64 := SFadd prec emax.
Definition sub : float64 -> float64 -> float64 := SFsub prec emax.
Definition mul : float64 -> float64 -> float64 := SFmul prec emax.
Definition div : float64 -> float64 -> float64 := SFdiv prec emax.
Definition sqrt : float64 -> float64 := SFsqrt prec emax.
Definition abs : float64 -> float64 := SFabs.

(** [x == y], [x < y], [x <= y]; [x > y] is [ltb y x] and [x >= y] is
    [leb y x].  Every comparison with NaN is false. *)
Definition eqb : float64 -> float64 -> bool := SFeqb.
Definition ltb : float64 -> float64 -> bool := SFltb.
Definition leb : float64 -> float64 -> bool := SFleb.

(** [float64(n)] for an integer [n]. *)
Definition of_int (n : Z) : float64 := binary_normalize prec emax n 0 false.

Definition zero : float64 := S754_zero false.

(** The value of a finite float, truncated toward zero. *)
Definition trunc (f : float64) : Z :=
  match f with
  | S754_finite s m e =>
      let t := Z.shiftl (Zpos m) e in
      if s then - t else t
  | _ => 0
  end.

(** [int(f)].  In range, the conversion truncates toward zero.  For NaN,
    the infinities and values outside the 64-bit range the language
    leaves the result to the implementation; on amd64 the conversion
    instruction yields the "integer indefinite" value, the minimal
    integer. *)
Definition to_int (f : float64) : Z :=
  match f with
  | S754_zero _ => 0
  | S754_finite _ _ _ =>
      let v := trunc f in
      if (GoInt.min_int <=? v) && (v <=? GoInt.max_int) then v
      else GoInt.min_int
  | S754_infinity _ | S754_nan => GoInt.min_int
  end.

(** The magnitude of a finite float: the exponent of the least power of
    two above its absolute value. *)
Definition mag (f : float64) : Z :=
  match f with
  | S754_finite _ m e => Z.pos (digits2_pos m) + e
  | _ => 0
  end.

(** The constants [0.9], [0.7] and [0.1] as the compiler rounds them to
    binary64. *)
Definition c0_9 : float64 := S754_finite false 8106479329266893 (-53).
Definition c0_7 : float64 := S754_finite false 6305039478318694 (-53).
Definition c0_1 : float64 := S754_finite false 7205759403792794 (-56).

(** [math.Min]. *)
Definition Min (x y : float64) : float64 :=
  match x, y with
  | S754_infinity true, _ | _, S754_infinity true => S754_infinity true
  | S754_nan, _ | _, S754_nan => S754_nan
  | S754_zero sx, S754_zero sy => S754_zero (sx || sy)
  | _, _ => if ltb x y then x else y
  end.

End F64.

Abbreviation float64 := F64.float64.

(** ** The data model (profiler.go) *)

Module QualityIssue.
Record t := mk {
  Type_ : string;
  Description : string;
  Severity : Z  (* 1-3 (low to high) *)
}.
End QualityIssue.

Module HistogramBucket.
Record t := mk {
  LowerBound : float64;
  UpperBound : float64;
  Count : Z
}.
End HistogramBucket.

Module ValueCount.
Record t := mk {
  Value : string;
  Count : Z
}.
End ValueCount.

Module ColumnProfile.
Record t := mk {
  Name : string;
  DataType : string;
  Count : Z;
  MissingCount : Z;
  UniqueCount : Z;
  Min : option float64;  (* interface{}: nil or a float64 *)
  Max : option float64;
  Mean : float64;
  Median : float64;
  StdDev : float64;
  HistogramBuckets : list HistogramBucket.t;
  TopValues : list ValueCount.t;
  IsNumeric : bool;
  IsCategorical : bool;
  IsDateTime : bool;
  IsUnique : bool;
  QualityIssues : list QualityIssue.t
}.
End ColumnProfile.

Module CorrelationPair.
Record t := mk {
  Column1 : string;
  Column2 : string;
  Correlation : float64
}.
End CorrelationPair.

Module CorrelationMatrix.
Record t := mk {
  Columns : list string;
  Values : gmap string (gmap string float64);
  TopPairs : list CorrelationPair.t
}.
End CorrelationMatrix.

Module DatasetProfile.
Record t := mk {
  Filename : string;
  FileSize : Z;
  Format : string;
  RowCount : Z;
  ColumnCount : Z;
  MissingCells : Z;
  DuplicateRows : Z;
  Columns : gmap string ColumnProfile.t;
  QualityIssues : list QualityIssue.t;
  QualityScore : Z;
  CorrelationMatrix : option CorrelationMatrix.t;
  Recommendations : list string
}.
End DatasetProfile.

(** ** CalculateQualityScore (profiler.go) *)

(** The two loops that add up the issue penalty.  Go ranges over the
    column map in an unspecified order; wrap-around addition is
    commutative and associative, so the sum does not depend on it. *)
Definition datasetIssuePenalty (issues : list QualityIssue.t) (acc : Z) : Z :=
  fold_left (fun acc issue => GoInt.add acc (GoInt.mul (QualityIssue.Severity issue) 5))
    issues acc.

Definition columnIssuePenalty (issues : list QualityIssue.t) (acc : Z) : Z :=
  fold_left (fun acc issue => GoInt.add acc (QualityIssue.Severity issue)) issues acc.

Definition columnsIssuePenalty (cols : gmap string ColumnProfile.t) (acc : Z) : Z :=
  fold_left (fun acc kv => columnIssuePenalty (ColumnProfile.QualityIssues (snd kv)) acc)
    (map_to_list cols) acc.

(** [float64(part) / float64(total) * 100] *)
Definition percentage (part total : Z) : float64 :=
  F64.mul (F64.div (F64.of_int part) (F64.of_int total)) (F64.of_int 100).

(** The capped deduction [int(pct * k)], at most [cap], taken off [score]
    when [pct > 0]. *)
Definition deduct (score : Z) (pct : float64) (k cap : Z) : Z :=
  if F64.ltb F64.zero pct then
    let penalty := F64.to_int (F64.mul pct (F64.of_int k)) in
    let penalty := if cap <? penalty then cap else penalty in
    GoInt.sub score penalty
  else score.

Definition CalculateQualityScore (profile : DatasetProfile.t) : Z :=
  let score := 100 in
  if (DatasetProfile.RowCount profile =? 0) || (DatasetProfile.ColumnCount profile =? 0)
  then 0
  else
    let totalCells :=
      GoInt.mul (DatasetProfile.RowCount profile) (DatasetProfile.ColumnCount profile) in
    (* Deduct for missing values (up to 30 points) *)
    let score :=
      if 0 <? totalCells then
        deduct score (percentage (DatasetProfile.MissingCells profile) totalCells) 3 30
      else score in
    (* Deduct for quality issues (up to 40 points) *)
    let issuePenalty := datasetIssuePenalty (DatasetProfile.QualityIssues profile) 0 in
    let issuePenalty := columnsIssuePenalty (DatasetProfile.Columns profile) issuePenalty in
    let issuePenalty := if 40 <? issuePenalty then 40 else issuePenalty in
    let score := GoInt.sub score issuePenalty in
    (* Deduct for duplicate rows (up to 15 points) *)
    let score :=
      if 0 <? DatasetProfile.RowCount profile then
        deduct score
          (percentage (DatasetProfile.DuplicateRows profile) (DatasetProfile.RowCount profile))
          2 15
      else score in
    if score <? 0 then 0 else score.

(** *** Well-formed profiles

    A severity is an integer from 1 to 3 (the field's own comment), and a
    profile holds fewer than [2 ^ 59] issues (no slice can be that long). *)

Definition severity_ok (issue : QualityIssue.t) : bool :=
  (1 <=? QualityIssue.Severity issue) && (QualityIssue.Severity issue <=? 3).

Definition column_issues (cols : gmap string ColumnProfile.t) : list QualityIssue.t :=
  concat (map (fun kv => ColumnProfile.QualityIssues (snd kv)) (map_to_list cols)).

Definition all_issues (profile : DatasetProfile.t) : list QualityIssue.t :=
  DatasetProfile.QualityIssues profile ++ column_issues (DatasetProfile.Columns profile).

Definition valid_issues (profile : DatasetProfile.t) : bool :=
  forallb severity_ok (all_issues profile)
  && (Z.of_nat (length (all_issues profile)) <? 2 ^ 59).

(** The counts of a profile: the missing cells are among the
    [RowCount * ColumnCount] cells (a 64-bit number), the duplicate rows
    among the rows. *)
Definition valid_counts (profile : DatasetProfile.t) : bool :=
  (0 <=? DatasetProfile.MissingCells profile)
  && (DatasetProfile.MissingCells profile
      <=? DatasetProfile.RowCount profile * DatasetProfile.ColumnCount profile)
  && (DatasetProfile.RowCount profile * DatasetProfile.ColumnCount profile <? 2 ^ 63)
  && (0 <=? DatasetProfile.DuplicateRows profile)
  && (DatasetProfile.DuplicateRows profile <=? DatasetProfile.RowCount profile).

(** ** Errors, panics and results *)

Inductive error : Type :=
| io_EOF
| os_ErrOpen (path : string)                (* os.Open failed *)
| os_ErrStat (path : string)                (* File.Stat failed *)
| csv_ErrFieldCount                         (* csv.ErrFieldCount, in a ParseError *)
| csv_ErrSyntax (msg : string)              (* any other csv.ParseError *)
| fmt_Errorf (msg : string) (wrapped : error).

Inductive panic : Type :=
| IndexOutOfRange (index len : Z)
| NilDereference
| NilMapAssignment.

Inductive result (A : Type) : Type :=
| Ok (a : A)
| Err (e : error)
| Panic (p : panic).

Arguments Ok {A} a.
Arguments Err {A} e.
Arguments Panic {A} p.

Definition bind {A B : Type} (r : result A) (k : A -> result B) : result B :=
  match r with
  | Ok a => k a
  | Err e => Err e
  | Panic p => Panic p
  end.

Notation "x <- r ;; k" := (bind r (fun x => k))
  (at level 100, r at next level, right associativity).

(** [len(s)] and [s[i]] for a slice. *)
Definition len {A : Type} (s : list A) : Z := Z.of_nat (length s).

Definition index {A : Type} (s : list A) (i : Z) : result A :=
  if (0 <=? i) && (i <? len s) then
    match s !! Z.to_nat i with
    | Some a => Ok a
    | None => Panic (IndexOutOfRange i (len s))
    end
  else Panic (IndexOutOfRange i (len s)).

(** ** The Go library *)

Inductive FmtArg : Type :=
| FmtInt (n : Z)
| FmtFloat (f : float64)
| FmtString (s : string).

(** What [encoding/csv] finds in a file: the records in order, each
    either the fields of a record or the syntax error that stops it,
    before any check of the number of fields. *)
Inductive rawRecord : Type :=
| RawFields (fields : list string)
| RawError (msg : string).

(** An open file: its size ([None] when [Stat] fails) and its content. *)
Record File : Type := mkFile {
  file_stat : option Z;
  file_records : list rawRecord
}.

Class GoLib : Type := {
  (** [os.Open]: [None] when the file cannot be opened *)
  os_Open : string -> option File;
  (** [strconv.ParseInt(s, 10, 64)]: the value, [None] for an error *)
  strconv_ParseInt : string -> option Z;
  (** [strconv.ParseFloat(s, 64)] *)
  strconv_ParseFloat : string -> option float64;
  (** [time.Parse(layout, value)] returns no error *)
  time_Parse : string -> string -> bool;
  fmt_Sprintf : string -> list FmtArg -> string;
  filepath_Base : string -> string;
  filepath_Ext : string -> string;
  strings_ToLower : string -> string;
  (** the order in which a [range] statement visits a map *)
  map_range : forall V : Type, gmap string V -> list (string * V);
  map_range_perm : forall (V : Type) (m : gmap string V), map_range V m ≡ₚ map_to_list m;
  (** [sort.Slice]: sorts by [less]; the order of equal elements is not
      specified *)
  sort_Slice : forall A : Type, (A -> A -> bool) -> list A -> list A
}.

Arguments map_range {_ V} m.
Arguments sort_Slice {_ A} less s.

Definition time_RFC3339 : string := "2006-01-02T15:04:05Z07:00".

(** ** inferDataType (csv.go) *)

Record tally : Type := mkTally {
  intCount : Z;
  floatCount : Z;
  dateCount : Z
}.

Section InferDataType.
Context `{GoLib}.

(** The body of the sampling loop: the first parser that accepts the
    value counts it. *)
Definition classify (value : string) (t : tally) : tally :=
  if strconv_ParseInt value is Some _ then
    mkTally (GoInt.add (intCount t) 1) (floatCount t) (dateCount t)
  else if strconv_ParseFloat value is Some _ then
    mkTally (intCount t) (GoInt.add (floatCount t) 1) (dateCount t)
  else if time_Parse time_RFC3339 value then
    mkTally (intCount t) (floatCount t) (GoInt.add (dateCount t) 1)
  else if time_Parse "2006-01-02" value then
    mkTally (intCount t) (floatCount t) (GoInt.add (dateCount t) 1)
  else if time_Parse "01/02/2006" value then
    mkTally (intCount t) (floatCount t) (GoInt.add (dateCount t) 1)
  else t.

(** [for i := 0; i < sampleSize; i++ { ... values[i] ... }], with [n] the
    number of iterations left. *)
Fixpoint sampleLoop (values : list string) (n : nat) (i : Z) (t : tally) : result tally :=
  match n with
  | O => Ok t
  | S n' =>
      value <- index values i ;;
      sampleLoop values n' (GoInt.add i 1) (classify value t)
  end.

Definition inferDataType (values : list string) : result string :=
  if len values =? 0 then Ok "unknown"
  else
    let sampleSize := F64.to_int (F64.Min (F64.of_int (len values)) (F64.of_int 100)) in
    t <- sampleLoop values (Z.to_nat sampleSize) 0 (mkTally 0 0 0) ;;
    let threshold := F64.mul (F64.of_int sampleSize) F64.c0_9 in
    if F64.leb threshold (F64.of_int (intCount t)) then Ok "integer"
    else if F64.leb threshold (F64.of_int (GoInt.add (intCount t) (floatCount t)))
    then Ok "float"
    else if F64.leb threshold (F64.of_int (dateCount t)) then Ok "datetime"
    else Ok "string".

(** *** The type inferencer as the specification words it

    The sample is the first [min(len, 100)] values.  Each value is an
    integer, else a float, else a date in one of the three layouts, else
    nothing; the thresholds compare exact rationals. *)

Inductive ValueClass : Type := ClassInt | ClassFloat | ClassDate | ClassOther.

Definition classOf (value : string) : ValueClass :=
  if strconv_ParseInt value is Some _ then ClassInt
  else if strconv_ParseFloat value is Some _ then ClassFloat
  else if time_Parse time_RFC3339 value || time_Parse "2006-01-02" value
          || time_Parse "01/02/2006" value
  then ClassDate
  else ClassOther.

Definition ValueClass_eqb (a b : ValueClass) : bool :=
  match a, b with
  | ClassInt, ClassInt | ClassFloat, ClassFloat
  | ClassDate, ClassDate | ClassOther, ClassOther => true
  | _, _ => false
  end.

Definition countClass (c : ValueClass) (sample : list string) : Z :=
  len (List.filter (fun v => ValueClass_eqb (classOf v) c) sample).

(** [count >= 0.9 * sampleSize], in exact arithmetic. *)
Definition reaches90 (count sampleSize : Z) : bool :=
  Qle_bool (Qmult (9 # 10) (inject_Z sampleSize)) (inject_Z count).

Definition inferDataType_spec (values : list string) : string :=
  match values with
  | [] => "unknown"
  | _ :: _ =>
      let sample := take (Nat.min (length values) 100) values in
      let sampleSize := len sample in
      let intCount := countClass ClassInt sample in
      let floatCount := countClass ClassFloat sample in
      let dateCount := countClass ClassDate sample in
      if reaches90 intCount sampleSize then "integer"
      else if reaches90 (intCount + floatCount) sampleSize then "float"
      else if reaches90 dateCount sampleSize then "datetime"
      else "string"
  end.

(** The threshold test of the code agrees with the exact one at a sample
    size and a count. *)
Definition threshold_agrees (s c : Z) : bool :=
  Bool.eqb (F64.leb (F64.mul (F64.of_int s) F64.c0_9) (F64.of_int c)) (reaches90 c s).

(** The sample size the code computes for a slice of [n] values. *)
Definition sampleSize_of (n : Z) : Z :=
  F64.to_int (F64.Min (F64.of_int n) (F64.of_int 100)).

(** The tally of the sampling loop over a sample. *)
Definition tallyOf (sample : list string) (t : tally) : tally :=
  foldl (fun t value => classify value t) t sample.

End InferDataType.

(** ** Loops and slices *)

(** The in-place insertion sort of csv.go:
    [for j >= 0 && shift a[j] key { a[j+1] = a[j]; j-- }; a[j+1] = key].
    The sorted prefix is kept reversed, its last element first. *)
Fixpoint insertKey {A : Type} (shift : A -> A -> bool) (key : A) (prefix : list A)
  : list A :=
  match prefix with
  | [] => [key]
  | x :: rest => if shift x key then x :: insertKey shift key rest else key :: prefix
  end.

Definition insertionSort {A : Type} (shift : A -> A -> bool) (s : list A) : list A :=
  reverse (foldl (fun prefix key => insertKey shift key prefix) [] s).

(** [strings.Join] *)
Fixpoint strings_Join (elems : list string) (sep : string) : string :=
  match elems with
  | [] => ""
  | [e] => e
  | e :: rest => e ++ sep ++ strings_Join rest sep
  end.

(** [strings.Contains] *)
Fixpoint strings_Contains (s substr : string) : bool :=
  String.prefix substr s
  || match s with
     | EmptyString => false
     | String _ s' => strings_Contains s' substr
     end.

(** Every bucket holds a number of values that is not negative. *)
Definition counts_nonneg (buckets : list HistogramBucket.t) : Prop :=
  Forall (fun b => 0 <= HistogramBucket.Count b) buckets.

(** The panic of an indexing of the 10 buckets at a negative index. *)
Definition negative_index (p : panic) : Prop :=
  exists i, i < 0 /\ p = IndexOutOfRange i 10.

(** ** calculateNumericStats (csv.go) *)

Record sums : Type := mkSums {
  s_sum : float64;
  s_sumSquares : float64;
  s_min : float64;
  s_max : float64
}.

Definition bucketCount : Z := 10.

(** The number of values a histogram holds. *)
Definition totalCount (buckets : list HistogramBucket.t) : Z :=
  foldr (fun b acc => HistogramBucket.Count b + acc) 0 buckets.

Section NumericStats.
Context `{GoLib}.

Definition parseValues (values : list string) : list float64 :=
  omap strconv_ParseFloat values.

(** [for i, v := range numValues { sum += v; ... }] *)
Fixpoint sumLoop (numValues : list float64) (i : Z) (s : sums) : sums :=
  match numValues with
  | [] => s
  | v :: rest =>
      sumLoop rest (GoInt.add i 1)
        (mkSums (F64.add (s_sum s) v)
                (F64.add (s_sumSquares s) (F64.mul v v))
                (if (i =? 0) || F64.ltb v (s_min s) then v else s_min s)
                (if (i =? 0) || F64.ltb (s_max s) v then v else s_max s))
  end.

Definition median (sorted : list float64) : result float64 :=
  let mid := Z.quot (len sorted) 2 in
  if Z.rem (len sorted) 2 =? 0 then
    a <- index sorted (GoInt.sub mid 1) ;;
    b <- index sorted mid ;;
    Ok (F64.div (F64.add a b) (F64.of_int 2))
  else index sorted mid.

Definition makeBuckets (min max bucketSize : float64) : list HistogramBucket.t :=
  map (fun i =>
         let lower := F64.add min (F64.mul (F64.of_int i) bucketSize) in
         let upper := F64.add min (F64.mul (F64.of_int (GoInt.add i 1)) bucketSize) in
         let upper := if i =? GoInt.sub bucketCount 1 then max else upper in
         HistogramBucket.mk lower upper 0)
      (seqZ 0 bucketCount).

Definition bucketIndex (min bucketSize v : float64) : Z :=
  let bucketIndex := F64.to_int (F64.div (F64.sub v min) bucketSize) in
  if bucketCount <=? bucketIndex then GoInt.sub bucketCount 1 else bucketIndex.

(** [buckets[bucketIndex].Count++] *)
Definition countInBucket (buckets : list HistogramBucket.t) (i : Z)
  : result (list HistogramBucket.t) :=
  b <- index buckets i ;;
  Ok (<[Z.to_nat i := HistogramBucket.mk (HistogramBucket.LowerBound b)
                        (HistogramBucket.UpperBound b)
                        (GoInt.add (HistogramBucket.Count b) 1)]> buckets).

Fixpoint histogramLoop (min bucketSize : float64) (numValues : list float64)
    (buckets : list HistogramBucket.t) : result (list HistogramBucket.t) :=
  match numValues with
  | [] => Ok buckets
  | v :: rest =>
      buckets' <- countInBucket buckets (bucketIndex min bucketSize v) ;;
      histogramLoop min bucketSize rest buckets'
  end.

Definition countOutliers (mean stdDev : float64) (numValues : list float64) : Z :=
  if F64.ltb F64.zero stdDev then
    foldl (fun outlierCount v =>
             let zScore := F64.div (F64.abs (F64.sub v mean)) stdDev in
             if F64.ltb (F64.of_int 3) zScore then GoInt.add outlierCount 1
             else outlierCount)
          0 numValues
  else 0.

Definition outlierIssue (outlierCount n : Z) : QualityIssue.t :=
  let outlierPct :=
    F64.mul (F64.div (F64.of_int outlierCount) (F64.of_int n)) (F64.of_int 100) in
  let severity := 1 in
  let severity := if F64.ltb (F64.of_int 5) outlierPct then 2 else severity in
  let severity := if F64.ltb (F64.of_int 10) outlierPct then 3 else severity in
  QualityIssue.mk "outliers"
    (fmt_Sprintf "%d outliers detected (%.2f%%)" [FmtInt outlierCount; FmtFloat outlierPct])
    severity.

Definition calculateNumericStats (col : ColumnProfile.t) (values : list string)
  : result ColumnProfile.t :=
  let numValues := parseValues values in
  if len numValues =? 0 then Ok col
  else
    first <- index numValues 0 ;;
    let s := sumLoop numValues 0 (mkSums F64.zero F64.zero first first) in
    let n := F64.of_int (len numValues) in
    let mean := F64.div (s_sum s) n in
    let variance := F64.sub (F64.div (s_sumSquares s) n) (F64.mul mean mean) in
    let stdDev := F64.sqrt variance in
    let numValues := insertionSort (fun x key => F64.ltb key x) numValues in
    median <- median numValues ;;
    let bucketSize := F64.div (F64.sub (s_max s) (s_min s)) (F64.of_int bucketCount) in
    let buckets := makeBuckets (s_min s) (s_max s) bucketSize in
    buckets <- histogramLoop (s_min s) bucketSize numValues buckets ;;
    let outlierCount := countOutliers mean stdDev numValues in
    let issues :=
      if 0 <? outlierCount
      then ColumnProfile.QualityIssues col ++ [outlierIssue outlierCount (len numValues)]
      else ColumnProfile.QualityIssues col in
    Ok (ColumnProfile.mk
          (ColumnProfile.Name col) (ColumnProfile.DataType col) (ColumnProfile.Count col)
          (ColumnProfile.MissingCount col) (ColumnProfile.UniqueCount col)
          (Some (s_min s)) (Some (s_max s)) mean median stdDev buckets
          (ColumnProfile.TopValues col) (ColumnProfile.IsNumeric col)
          (ColumnProfile.IsCategorical col) (ColumnProfile.IsDateTime col)
          (ColumnProfile.IsUnique col) issues).

End NumericStats.

(** ** getTopValues, detectQualityIssues, collectDatasetQualityIssues (csv.go) *)

Definition with_QualityIssues (col : ColumnProfile.t) (issues : list QualityIssue.t)
  : ColumnProfile.t :=
  ColumnProfile.mk
    (ColumnProfile.Name col) (ColumnProfile.DataType col) (ColumnProfile.Count col)
    (ColumnProfile.MissingCount col) (ColumnProfile.UniqueCount col)
    (ColumnProfile.Min col) (ColumnProfile.Max col) (ColumnProfile.Mean col)
    (ColumnProfile.Median col) (ColumnProfile.StdDev col)
    (ColumnProfile.HistogramBuckets col) (ColumnProfile.TopValues col)
    (ColumnProfile.IsNumeric col) (ColumnProfile.IsCategorical col)
    (ColumnProfile.IsDateTime col) (ColumnProfile.IsUnique col) issues.

Definition with_MissingCount (col : ColumnProfile.t) (missingCount : Z) : ColumnProfile.t :=
  ColumnProfile.mk
    (ColumnProfile.Name col) (ColumnProfile.DataType col) (ColumnProfile.Count col)
    missingCount (ColumnProfile.UniqueCount col)
    (ColumnProfile.Min col) (ColumnProfile.Max col) (ColumnProfile.Mean col)
    (ColumnProfile.Median col) (ColumnProfile.StdDev col)
    (ColumnProfile.HistogramBuckets col) (ColumnProfile.TopValues col)
    (ColumnProfile.IsNumeric col) (ColumnProfile.IsCategorical col)
    (ColumnProfile.IsDateTime col) (ColumnProfile.IsUnique col)
    (ColumnProfile.QualityIssues col).

(** [&ColumnProfile{Name: colName, TopValues: ..., QualityIssues: ...}] *)
Definition newColumn (colName : string) : ColumnProfile.t :=
  ColumnProfile.mk colName "" 0 0 0 None None F64.zero F64.zero F64.zero [] []
    false false false false [].

Section Issues.
Context `{GoLib}.

Definition getTopValues (valueCounts : gmap string Z) (limit : Z) : list ValueCount.t :=
  let topValues := map (fun kv => ValueCount.mk (fst kv) (snd kv)) (map_range valueCounts) in
  let topValues :=
    insertionSort (fun x key => ValueCount.Count x <? ValueCount.Count key) topValues in
  if limit <? len topValues then take (Z.to_nat limit) topValues else topValues.

(** Severity 1, 2 above 5 percent, 3 above 20 percent. *)
Definition severityOf (pct : float64) : Z :=
  let severity := 1 in
  let severity := if F64.ltb (F64.of_int 5) pct then 2 else severity in
  if F64.ltb (F64.of_int 20) pct then 3 else severity.

Definition detectQualityIssues (col : ColumnProfile.t) (rowCount : Z) : ColumnProfile.t :=
  let issues := ColumnProfile.QualityIssues col in
  let issues :=
    if 0 <? ColumnProfile.MissingCount col then
      let missingPercentage := percentage (ColumnProfile.MissingCount col) rowCount in
      issues ++ [QualityIssue.mk "missing_values"
                   (fmt_Sprintf "Missing values: %.2f%%" [FmtFloat missingPercentage])
                   (severityOf missingPercentage)]
    else issues in
  let issues :=
    if (ColumnProfile.UniqueCount col =? ColumnProfile.Count col)
       && strings_Contains (strings_ToLower (ColumnProfile.Name col)) "id"
    then issues ++ [QualityIssue.mk "likely_id" "Likely ID column" 1]
    else issues in
  let issues :=
    match ColumnProfile.TopValues col with
    | top :: _ =>
        if ColumnProfile.IsCategorical col then
          let topValuePercentage :=
            percentage (ValueCount.Count top) (ColumnProfile.Count col) in
          if F64.ltb (F64.of_int 90) topValuePercentage then
            issues ++ [QualityIssue.mk "imbalanced"
                         (fmt_Sprintf "Imbalanced: top value appears in %.1f%% of records"
                            [FmtFloat topValuePercentage])
                         2]
          else issues
        else issues
    | [] => issues
    end in
  with_QualityIssues col issues.

Definition collectDatasetQualityIssues (profile : DatasetProfile.t) : DatasetProfile.t :=
  let rowCount := DatasetProfile.RowCount profile in
  let columnCount := DatasetProfile.ColumnCount profile in
  let issues := DatasetProfile.QualityIssues profile in
  let issues :=
    if (0 <? rowCount) && (0 <? columnCount) then
      let totalCells := GoInt.mul rowCount columnCount in
      let missingPercentage := percentage (DatasetProfile.MissingCells profile) totalCells in
      if F64.ltb (F64.of_int 5) missingPercentage then
        let severity := if F64.ltb (F64.of_int 20) missingPercentage then 3 else 2 in
        issues ++ [QualityIssue.mk "high_missing_values"
                     (fmt_Sprintf "High overall missing value rate: %.2f%%"
                        [FmtFloat missingPercentage])
                     severity]
      else issues
    else issues in
  let issues :=
    if (0 <? rowCount) && (0 <? DatasetProfile.DuplicateRows profile) then
      let duplicatePercentage := percentage (DatasetProfile.DuplicateRows profile) rowCount in
      issues ++ [QualityIssue.mk "duplicate_rows"
                   (fmt_Sprintf "Duplicate rows detected: %.2f%%"
                      [FmtFloat duplicatePercentage])
                   (severityOf duplicatePercentage)]
    else issues in
  DatasetProfile.mk
    (DatasetProfile.Filename profile) (DatasetProfile.FileSize profile)
    (DatasetProfile.Format profile) rowCount columnCount
    (DatasetProfile.MissingCells profile) (DatasetProfile.DuplicateRows profile)
    (DatasetProfile.Columns profile) issues (DatasetProfile.QualityScore profile)
    (DatasetProfile.CorrelationMatrix profile) (DatasetProfile.Recommendations profile).

End Issues.

(** ** The CSV reader (encoding/csv)

    [csv.NewReader] leaves [FieldsPerRecord] at 0: [Read] then sets it to
    the number of fields of the first record, and every later record must
    have that number of fields; a positive [FieldsPerRecord] is required of
    every record, a negative one disables the check.  A record of another
    length is returned together with [ErrFieldCount]. *)

Record Reader : Type := mkReader {
  FieldsPerRecord : Z;
  pending : list rawRecord
}.

Definition csv_NewReader (file : File) : Reader := mkReader 0 (file_records file).

Definition Reader_Read (r : Reader) : list string * option error * Reader :=
  match pending r with
  | [] => ([], Some io_EOF, r)
  | RawError msg :: rest => ([], Some (csv_ErrSyntax msg), mkReader (FieldsPerRecord r) rest)
  | RawFields record :: rest =>
      if 0 <? FieldsPerRecord r then
        if len record =? FieldsPerRecord r
        then (record, None, mkReader (FieldsPerRecord r) rest)
        else (record, Some csv_ErrFieldCount, mkReader (FieldsPerRecord r) rest)
      else if FieldsPerRecord r =? 0 then (record, None, mkReader (len record) rest)
      else (record, None, mkReader (FieldsPerRecord r) rest)
  end.

(** ** ProfileCSV (csv.go) *)

(** The variables of the scan. *)
Record scan : Type := mkScan {
  rowCount : Z;
  missingCells : Z;
  rowHashes : gmap string Z;
  columns : gmap string ColumnProfile.t;      (* profile.Columns *)
  columnValues : gmap string (list string);
  valueCounts : gmap string (gmap string Z)
}.

Section ProfileCSV.
Context `{GoLib}.

(** The body of [for i, value := range record]. *)
Definition scanField (header : list string) (st : scan) (i : Z) (value : string)
  : result scan :=
  if len header <=? i then Ok st
  else
    colName <- index header i ;;
    if String.eqb value "" then
      match columns st !! colName with
      | None => Panic NilDereference
      | Some col =>
          let col := with_MissingCount col (GoInt.add (ColumnProfile.MissingCount col) 1) in
          Ok (mkScan (rowCount st) (GoInt.add (missingCells st) 1) (rowHashes st)
                (<[colName := col]> (columns st)) (columnValues st) (valueCounts st))
      end
    else
      let values := default [] (columnValues st !! colName) ++ [value] in
      match valueCounts st !! colName with
      | None => Panic NilMapAssignment
      | Some counts =>
          let counts := <[value := GoInt.add (default 0 (counts !! value)) 1]> counts in
          Ok (mkScan (rowCount st) (missingCells st) (rowHashes st) (columns st)
                (<[colName := values]> (columnValues st))
                (<[colName := counts]> (valueCounts st)))
      end.

Fixpoint scanFields (header : list string) (st : scan) (i : Z) (record : list string)
  : result scan :=
  match record with
  | [] => Ok st
  | value :: rest =>
      st' <- scanField header st i value ;;
      scanFields header st' (GoInt.add i 1) rest
  end.

(** The body of the scan for one record. *)
Definition scanRecord (header : list string) (st : scan) (record : list string)
  : result scan :=
  let rowHash := strings_Join record "|" in
  let hashes :=
    match rowHashes st !! rowHash with
    | Some count => <[rowHash := GoInt.add count 1]> (rowHashes st)
    | None => <[rowHash := 1]> (rowHashes st)
    end in
  scanFields header
    (mkScan (GoInt.add (rowCount st) 1) (missingCells st) hashes (columns st)
       (columnValues st) (valueCounts st))
    0 record.

(** [for { record, err := reader.Read(); ... }].  Every call of [Read]
    takes one record off the input, so the loop is a recursion on the
    records that were pending when it started ([left]). *)
Fixpoint scanLoop (header : list string) (left : list rawRecord) (reader : Reader)
    (st : scan) : result scan :=
  match left with
  | [] => Ok st
  | _ :: left' =>
      let '(record, err, reader') := Reader_Read reader in
      match err with
      | Some io_EOF => Ok st
      | Some e => Err (fmt_Errorf "error reading CSV: %w" e)
      | None =>
          st' <- scanRecord header st record ;;
          scanLoop header left' reader' st'
      end
  end.

(** [for _, count := range rowHashes { if count > 1 { duplicateRows += count - 1 } }] *)
Definition countDuplicates (hashes : gmap string Z) : Z :=
  foldl (fun duplicateRows kv =>
           if 1 <? snd kv then GoInt.add duplicateRows (GoInt.sub (snd kv) 1)
           else duplicateRows)
        0 (map_to_list hashes).

(** The body of [for colName, values := range columnValues]. *)
Definition finalizeColumn (rowCount : Z) (col : ColumnProfile.t) (values : list string)
    (counts : gmap string Z) : result ColumnProfile.t :=
  let count := len values in
  dataType <- inferDataType values ;;
  let isNumeric := String.eqb dataType "integer" || String.eqb dataType "float" in
  let isDateTime := String.eqb dataType "datetime" in
  let uniqueCount := Z.of_nat (size counts) in
  let isCategorical := (uniqueCount <=? Z.quot rowCount 10) && (uniqueCount <=? 100) in
  let isUnique := uniqueCount =? count in
  let col :=
    ColumnProfile.mk (ColumnProfile.Name col) dataType count
      (ColumnProfile.MissingCount col) uniqueCount
      (ColumnProfile.Min col) (ColumnProfile.Max col) (ColumnProfile.Mean col)
      (ColumnProfile.Median col) (ColumnProfile.StdDev col)
      (ColumnProfile.HistogramBuckets col) (getTopValues counts 5)
      isNumeric isCategorical isDateTime isUnique (ColumnProfile.QualityIssues col) in
  col <- (if isNumeric then calculateNumericStats col values else Ok col) ;;
  Ok (detectQualityIssues col rowCount).

Fixpoint finalizeLoop (rowCount : Z) (valueCounts : gmap string (gmap string Z))
    (entries : list (string * list string)) (cols : gmap string ColumnProfile.t)
  : result (gmap string ColumnProfile.t) :=
  match entries with
  | [] => Ok cols
  | (colName, values) :: rest =>
      match cols !! colName with
      | None => Panic NilDereference
      | Some col =>
          col' <- finalizeColumn rowCount col values (default ∅ (valueCounts !! colName)) ;;
          finalizeLoop rowCount valueCounts rest (<[colName := col']> cols)
      end
  end.

Definition ProfileCSV (filePath : string) : result DatasetProfile.t :=
  match os_Open filePath with
  | None => Err (fmt_Errorf "failed to open file: %w" (os_ErrOpen filePath))
  | Some file =>
      match file_stat file with
      | None => Err (fmt_Errorf "failed to get file stats: %w" (os_ErrStat filePath))
      | Some fileSize =>
          let reader := csv_NewReader file in
          let '(header, err, reader) := Reader_Read reader in
          match err with
          | Some e => Err (fmt_Errorf "failed to read CSV header: %w" e)
          | None =>
              let cols :=
                foldl (fun cols colName => <[colName := newColumn colName]> cols) ∅ header in
              let st :=
                mkScan 0 0 ∅ cols ((fun _ => []) <$> cols) ((fun _ => ∅) <$> cols) in
              st <- scanLoop header (pending reader) reader st ;;
              let duplicateRows := countDuplicates (rowHashes st) in
              cols <- finalizeLoop (rowCount st) (valueCounts st)
                        (map_range (columnValues st)) (columns st) ;;
              let profile :=
                collectDatasetQualityIssues
                  (DatasetProfile.mk (filepath_Base filePath) fileSize "CSV"
                     (rowCount st) (len header) (missingCells st) duplicateRows
                     cols [] 0 None []) in
              Ok (DatasetProfile.mk
                    (DatasetProfile.Filename profile) (DatasetProfile.FileSize profile)
                    (DatasetProfile.Format profile) (DatasetProfile.RowCount profile)
                    (DatasetProfile.ColumnCount profile)
                    (DatasetProfile.MissingCells profile)
                    (DatasetProfile.DuplicateRows profile)
                    (DatasetProfile.Columns profile)
                    (DatasetProfile.QualityIssues profile)
                    (CalculateQualityScore profile)
                    (DatasetProfile.CorrelationMatrix profile)
                    (DatasetProfile.Recommendations profile))
          end
      end
  end.

End ProfileCSV.

(** ** The correlation engine (correlation.go) *)

Record pearsonSums : Type := mkPearsonSums {
  sumX : float64;
  sumY : float64;
  sumXY : float64;
  sumX2 : float64;
  sumY2 : float64
}.

(** [for i := 0; i < n; i += step { sampled_x = append(sampled_x, x[i]); ... }].
    The step is at least 1, so [n] iterations are enough to reach [n]. *)
Fixpoint downSample (x y : list float64) (n step : Z) (fuel : nat) (i : Z)
    (sampled : list float64 * list float64) : result (list float64 * list float64) :=
  match fuel with
  | O => Ok sampled
  | S fuel' =>
      if i <? n then
        xi <- index x i ;;
        yi <- index y i ;;
        downSample x y n step fuel' (GoInt.add i step)
          (fst sampled ++ [xi], snd sampled ++ [yi])
      else Ok sampled
  end.

(** [for i := 0; i < n; i++ { sumX += x[i]; ... }] *)
Fixpoint sumsLoop (x y : list float64) (left : nat) (i : Z) (s : pearsonSums)
  : result pearsonSums :=
  match left with
  | O => Ok s
  | S left' =>
      xi <- index x i ;;
      yi <- index y i ;;
      sumsLoop x y left' (GoInt.add i 1)
        (mkPearsonSums (F64.add (sumX s) xi) (F64.add (sumY s) yi)
           (F64.add (sumXY s) (F64.mul xi yi))
           (F64.add (sumX2 s) (F64.mul xi xi))
           (F64.add (sumY2 s) (F64.mul yi yi)))
  end.

Definition calculatePearsonCorrelation (x y : list float64) : result float64 :=
  let n := len x in
  if negb (n =? len y) || (n =? 0) then Ok F64.zero
  else
    let maxSampleSize := 10000 in
    xyn <- (if maxSampleSize <? n then
              let step := Z.quot n maxSampleSize in
              let step := if step <? 1 then 1 else step in
              sampled <- downSample x y n step (Z.to_nat n) 0 ([], []) ;;
              Ok (fst sampled, snd sampled, len (fst sampled))
            else Ok (x, y, n)) ;;
    let '(x, y, n) := xyn in
    s <- sumsLoop x y (Z.to_nat n) 0
           (mkPearsonSums F64.zero F64.zero F64.zero F64.zero F64.zero) ;;
    let nFloat := F64.of_int n in
    let numerator := F64.sub (F64.mul nFloat (sumXY s)) (F64.mul (sumX s) (sumY s)) in
    let denominator :=
      F64.sqrt (F64.mul (F64.sub (F64.mul nFloat (sumX2 s)) (F64.mul (sumX s) (sumX s)))
                        (F64.sub (F64.mul nFloat (sumY2 s)) (F64.mul (sumY s) (sumY s)))) in
    if F64.eqb denominator F64.zero then Ok F64.zero
    else Ok (F64.div numerator denominator).

Section Correlation.
Context `{GoLib}.

Definition reconstructNumericValues (col : ColumnProfile.t) : list float64 :=
  if negb (ColumnProfile.IsNumeric col) || (len (ColumnProfile.HistogramBuckets col) =? 0)
  then []
  else
    let values :=
      foldl (fun values bucket =>
               if HistogramBucket.Count bucket <=? 0 then values
               else
                 let bucketMidpoint :=
                   F64.div (F64.add (HistogramBucket.LowerBound bucket)
                                    (HistogramBucket.UpperBound bucket))
                           (F64.of_int 2) in
                 values ++ replicate (Z.to_nat (HistogramBucket.Count bucket)) bucketMidpoint)
            [] (ColumnProfile.HistogramBuckets col) in
    foldl (fun values topValue =>
             match strconv_ParseFloat (ValueCount.Value topValue) with
             | Some val => values ++ replicate (Z.to_nat (ValueCount.Count topValue)) val
             | None => values
             end)
          values (ColumnProfile.TopValues col).

(** [matrix.Values[col1][col2] = x]; every row exists when it is used. *)
Definition setValue (values : gmap string (gmap string float64)) (col1 col2 : string)
    (x : float64) : gmap string (gmap string float64) :=
  <[col1 := <[col2 := x]> (default ∅ (values !! col1))]> values.

Definition getValue (values : gmap string (gmap string float64)) (col1 col2 : string)
  : float64 :=
  default F64.zero (default ∅ (values !! col1) !! col2).

(** The pairs [(i, col1), (j, col2)] with [j > i], in the order of the two
    nested loops. *)
Fixpoint pairsAbove (cols : list string) : list (string * string) :=
  match cols with
  | [] => []
  | col1 :: rest => map (fun col2 => (col1, col2)) rest ++ pairsAbove rest
  end.

Fixpoint correlatePairs (numericData : gmap string (list float64))
    (pairs : list (string * string)) (values : gmap string (gmap string float64))
  : result (gmap string (gmap string float64)) :=
  match pairs with
  | [] => Ok values
  | (col1, col2) :: rest =>
      corr <- calculatePearsonCorrelation (default [] (numericData !! col1))
                (default [] (numericData !! col2)) ;;
      correlatePairs numericData rest (setValue (setValue values col1 col2 corr) col2 col1 corr)
  end.

Definition CalculateCorrelationMatrix (profile : DatasetProfile.t)
  : result (option CorrelationMatrix.t) :=
  let numeric :=
    List.filter (fun kv => ColumnProfile.IsNumeric (snd kv) && (0 <? ColumnProfile.Count (snd kv)))
      (map_to_list (DatasetProfile.Columns profile)) in
  let numericColumns := map fst numeric in
  let numericData : gmap string (list float64) :=
    list_to_map (map (fun kv => (fst kv, reconstructNumericValues (snd kv))) numeric) in
  if len numericColumns <? 2 then Ok None
  else
    (* sort.Strings *)
    let numericColumns := insertionSort (fun x key => String.ltb key x) numericColumns in
    let values : gmap string (gmap string float64) :=
      foldl (fun values col1 =>
               <[col1 := foldl (fun row col2 => <[col2 := F64.zero]> row) ∅ numericColumns]>
                 values)
            ∅ numericColumns in
    let values :=
      foldl (fun values col1 => setValue values col1 col1 (F64.of_int 1)) values numericColumns in
    values <- correlatePairs numericData (pairsAbove numericColumns) values ;;
    let allPairs :=
      map (fun p => CorrelationPair.mk (fst p) (snd p) (getValue values (fst p) (snd p)))
        (pairsAbove numericColumns) in
    let allPairs :=
      sort_Slice (fun a b => F64.ltb (F64.abs (CorrelationPair.Correlation b))
                               (F64.abs (CorrelationPair.Correlation a)))
        allPairs in
    let topLimit := 10 in
    let topLimit := if len allPairs <? topLimit then len allPairs else topLimit in
    let topPairs :=
      List.filter (fun p => F64.ltb F64.c0_1 (F64.abs (CorrelationPair.Correlation p)))
        (take (Z.to_nat topLimit) allPairs) in
    Ok (Some (CorrelationMatrix.mk numericColumns values topPairs)).

(** ** ProfileDataset (profiler.go) *)

(** The profile of a file in a format that is not supported yet. *)
Definition unsupportedProfile (filePath format description : string) : DatasetProfile.t :=
  DatasetProfile.mk filePath 0 format 0 0 0 0 ∅
    [QualityIssue.mk "unsupported_format" description 2] 0 None [].

(** The dispatch on the extension, common to both revisions. *)
Definition profileByExtension (filePath : string) : result DatasetProfile.t :=
  let extension := strings_ToLower (filepath_Ext filePath) in
  if String.eqb extension ".csv" then ProfileCSV filePath
  else if String.eqb extension ".parquet" then
    Ok (unsupportedProfile filePath "Parquet" "Parquet support is coming soon")
  else if String.eqb extension ".json" then
    Ok (unsupportedProfile filePath "JSON" "JSON support is coming soon")
  else ProfileCSV filePath.

(** The first revision returns what the dispatch returns. *)
Definition ProfileDataset_v1 (filePath : string) : result DatasetProfile.t :=
  profileByExtension filePath.

Definition recommendation (pair : CorrelationPair.t) : string :=
  if F64.ltb F64.zero (CorrelationPair.Correlation pair) then
    fmt_Sprintf
      "Strong positive correlation (%.2f) between '%s' and '%s' - consider if one could be derived from the other"
      [FmtFloat (CorrelationPair.Correlation pair); FmtString (CorrelationPair.Column1 pair);
       FmtString (CorrelationPair.Column2 pair)]
  else
    fmt_Sprintf
      "Strong negative correlation (%.2f) between '%s' and '%s' - these features may provide complementary information"
      [FmtFloat (CorrelationPair.Correlation pair); FmtString (CorrelationPair.Column1 pair);
       FmtString (CorrelationPair.Column2 pair)].

(** The second revision adds the correlation matrix and the
    recommendations to the profile of the dispatch. *)
Definition enrich (profile : DatasetProfile.t) : result DatasetProfile.t :=
  let qualityScore := CalculateQualityScore profile in
  matrix <- CalculateCorrelationMatrix profile ;;
  let recommendations :=
    match matrix with
    | Some m =>
        if 0 <? len (CorrelationMatrix.TopPairs m) then
          DatasetProfile.Recommendations profile
          ++ map recommendation
               (List.filter
                  (fun pair => F64.leb F64.c0_7 (F64.abs (CorrelationPair.Correlation pair)))
                  (CorrelationMatrix.TopPairs m))
        else DatasetProfile.Recommendations profile
    | None => DatasetProfile.Recommendations profile
    end in
  Ok (DatasetProfile.mk
        (DatasetProfile.Filename profile) (DatasetProfile.FileSize profile)
        (DatasetProfile.Format profile) (DatasetProfile.RowCount profile)
        (DatasetProfile.ColumnCount profile) (DatasetProfile.MissingCells profile)
        (DatasetProfile.DuplicateRows profile) (DatasetProfile.Columns profile)
        (DatasetProfile.QualityIssues profile) qualityScore matrix recommendations).

Definition ProfileDataset (filePath : string) : result DatasetProfile.t :=
  profile <- profileByExtension filePath ;;
  enrich profile.

End Correlation.

(** ** Predicates of the statements *)

(** The label of an unsupported format. *)
Definition formatLabel (extension : string) : string :=
  if String.eqb extension ".parquet" then "Parquet" else "JSON".

(** The state of the scan at a column without a value so far. *)
Definition no_value (colName : string) (st : scan) : Prop :=
  (exists k, columns st !! colName = Some (with_MissingCount (newColumn colName) k))
  /\ columnValues st !! colName = Some []
  /\ valueCounts st !! colName = Some ∅.

(** Every cell of the column [colName] is empty in the record. *)
Definition cells_missing (header : list string) (colName : string) (record : list string)
  : Prop :=
  forall (i : nat) (value : string),
    header !! i = Some colName -> record !! i = Some value -> value = ""%string.

(** Two profiles with the same file data, counts, columns, issues and
    quality score. *)
Definition same_data (p q : DatasetProfile.t) : Prop :=
  DatasetProfile.Filename p = DatasetProfile.Filename q
  /\ DatasetProfile.FileSize p = DatasetProfile.FileSize q
  /\ DatasetProfile.Format p = DatasetProfile.Format q
  /\ DatasetProfile.RowCount p = DatasetProfile.RowCount q
  /\ DatasetProfile.ColumnCount p = DatasetProfile.ColumnCount q
  /\ DatasetProfile.MissingCells p = DatasetProfile.MissingCells q
  /\ DatasetProfile.DuplicateRows p = DatasetProfile.DuplicateRows q
  /\ DatasetProfile.Columns p = DatasetProfile.Columns q
  /\ DatasetProfile.QualityIssues p = DatasetProfile.QualityIssues q
  /\ DatasetProfile.QualityScore p = DatasetProfile.QualityScore q.

(** ** Further notions of the statements *)

(** [math.IsNaN] *)
Definition isNaN (f : float64) : bool :=
  match f with S754_nan => true | _ => false end.

(** The names of the numeric columns that hold a value, in the order of
    [map_to_list]. *)
Definition numericColumnNames (profile : DatasetProfile.t) : list string :=
  map fst
    (List.filter
       (fun kv => ColumnProfile.IsNumeric (snd kv) && (0 <? ColumnProfile.Count (snd kv)))
       (map_to_list (DatasetProfile.Columns profile))).

(** The midpoint of a histogram bucket, as [reconstructNumericValues]
    computes it. *)
Definition bucketMidpoint (bucket : HistogramBucket.t) : float64 :=
  F64.div (F64.add (HistogramBucket.LowerBound bucket) (HistogramBucket.UpperBound bucket))
          (F64.of_int 2).

(** The number of points a histogram stands for: the positive counts of
    its buckets. *)
Definition bucketPoints (buckets : list HistogramBucket.t) : Z :=
  foldr (fun bucket acc => Z.max 0 (HistogramBucket.Count bucket) + acc) 0 buckets.

(** The occurrences of the most frequent values that parse as numbers. *)
Definition topPoints `{GoLib} (topValues : list ValueCount.t) : Z :=
  foldr (fun topValue acc =>
           if strconv_ParseFloat (ValueCount.Value topValue) is Some _
           then Z.max 0 (ValueCount.Count topValue) + acc
           else acc)
        0 topValues.

(** ** The content of a CSV file, column by column *)

(** The cells of a record that stand under the column name [colName]
    (one cell, when the names of the header are distinct). *)
Definition cellsOf (header : list string) (colName : string) (record : list string)
  : list string :=
  (List.filter (fun cell => String.eqb (fst cell) colName) (zip header record)).*2.

(** The cells of a column, row by row. *)
Definition columnCells (header : list string) (colName : string) (rows : list (list string))
  : list string :=
  concat (map (cellsOf header colName) rows).

(** The cells of the rows that stand under a name of the header. *)
Definition allCells (header : list string) (rows : list (list string)) : list string :=
  concat (map (fun record => (zip header record).*2) rows).

(** The cells that hold a value, and the number of the empty ones. *)
Definition present (cells : list string) : list string :=
  List.filter (fun value => negb (String.eqb value "")) cells.

Definition absent (cells : list string) : Z :=
  len (List.filter (fun value => String.eqb value "") cells).

(** [counts[value]++] on a map of counters, and the counters of a list of
    values. *)
Definition bump (counts : gmap string Z) (value : string) : gmap string Z :=
  <[value := GoInt.add (default 0 (counts !! value)) 1]> counts.

Definition occurrences (values : list string) : gmap string Z := foldl bump ∅ values.

(** The key under which [ProfileCSV] counts a row. *)
Definition rowHash (record : list string) : string := strings_Join record "|".

(** The number of different values of a list. *)
Definition distinct (values : list string) : Z :=
  Z.of_nat (size (list_to_set values : gset string)).

(** The state of the scan once the rows [rows] are read: what the
    columns hold. *)
Definition scannedColumns (header : list string) (rows : list (list string)) (st : scan)
  : Prop :=
  missingCells st = GoInt.wrap (absent (allCells header rows))
  /\ forall colName : string,
       if decide (colName ∈ header) then
         columns st !! colName
         = Some (with_MissingCount (newColumn colName)
                   (GoInt.wrap (absent (columnCells header colName rows))))
         /\ columnValues st !! colName = Some (present (columnCells header colName rows))
         /\ valueCounts st !! colName
            = Some (occurrences (present (columnCells header colName rows)))
       else
         columns st !! colName = None /\ columnValues st !! colName = None
         /\ valueCounts st !! colName = None.

(** The state of the scan once the rows [rows] are read. *)
Definition scanned (header : list string) (rows : list (list string)) (st : scan) : Prop :=
  rowCount st = GoInt.wrap (len rows)
  /\ rowHashes st = occurrences (map rowHash rows)
  /\ scannedColumns header rows st.

(** The number of occurrences of a value in a list. *)
Definition countOf (value : string) (values : list string) : Z :=
  len (List.filter (String.eqb value) values).

(** The sum of the counters of a map. *)
Definition sumCounts (counts : gmap string Z) : Z :=
  foldr (fun kv acc => snd kv + acc) 0 (map_to_list counts).

(** The profile [ProfileCSV] returns, from the size of the file, the
    state of the scan and the finalized columns. *)
Definition csvProfile `{GoLib} (filePath : string) (fileSize : Z) (header : list string)
    (st : scan) (cols : gmap string ColumnProfile.t) : DatasetProfile.t :=
  let profile :=
    collectDatasetQualityIssues
      (DatasetProfile.mk (filepath_Base filePath) fileSize "CSV"
         (rowCount st) (len header) (missingCells st) (countDuplicates (rowHashes st))
         cols [] 0 None []) in
  DatasetProfile.mk
    (DatasetProfile.Filename profile) (DatasetProfile.FileSize profile)
    (DatasetProfile.Format profile) (DatasetProfile.RowCount profile)
    (DatasetProfile.ColumnCount profile) (DatasetProfile.MissingCells profile)
    (DatasetProfile.DuplicateRows profile) (DatasetProfile.Columns profile)
    (DatasetProfile.QualityIssues profile) (CalculateQualityScore profile)
    (DatasetProfile.CorrelationMatrix profile) (DatasetProfile.Recommendations profile).

(** ** The labels of a correlation (correlation.go) *)

(** The binary64 numbers written [0.5] and [0.3]. *)
Definition c0_5 : float64 := S754_finite false 4503599627370496 (-53).
Definition c0_3 : float64 := S754_finite false 5404319552844595 (-54).

Definition GetCorrelationStrength (correlation : float64) : string :=
  let absCorr := F64.abs correlation in
  if F64.leb F64.c0_9 absCorr then "Very Strong"
  else if F64.leb F64.c0_7 absCorr then "Strong"
  else if F64.leb c0_5 absCorr then "Moderate"
  else if F64.leb c0_3 absCorr then "Weak"
  else if F64.leb F64.c0_1 absCorr then "Very Weak"
  else "Negligible".

Definition GetCorrelationDirection (correlation : float64) : string :=
  if F64.ltb F64.zero correlation then "Positive"
  else if F64.ltb correlation F64.zero then "Negative"
  else "None".

(** ** Further notions of the statements *)

(** The label of a class of values. *)
Definition classLabel `{GoLib} (c : ValueClass) : string :=
  match c with
  | ClassInt => "integer"
  | ClassFloat => "float"
  | ClassDate => "datetime"
  | ClassOther => "string"
  end.

(** The sum of the severities of a list of issues. *)
Definition severitySum (issues : list QualityIssue.t) : Z :=
  foldr (fun issue acc => QualityIssue.Severity issue + acc) 0 issues.

(** ** An instance of the library, for the examples

    It agrees with the Go library on the strings the examples use: signed
    decimal integers, plain decimal fractions of at most 15 digits (the
    quotient of two exactly represented integers is the correctly rounded
    value), and calendar dates in the layouts [2006-01-02] and
    [01/02/2006].  Other spellings (exponents, hexadecimal floats,
    timestamps) are rejected, formats are not interpreted, and a map is
    visited in the order of [map_to_list]. *)

Module Demo.

Definition digit_of (a : ascii) : option Z :=
  let n := Z.of_N (N_of_ascii a) in
  if (48 <=? n) && (n <=? 57) then Some (n - 48) else None.

Fixpoint digits_value (s : string) (acc : Z) : option Z :=
  match s with
  | EmptyString => Some acc
  | String a s' =>
      match digit_of a with
      | Some d => digits_value s' (10 * acc + d)
      | None => None
      end
  end.

Definition parse_digits (s : string) : option Z :=
  match s with
  | EmptyString => None
  | _ => digits_value s 0
  end.

Definition split_sign (s : string) : bool * string :=
  match s with
  | String "-" r => (true, r)
  | String "+" r => (false, r)
  | _ => (false, s)
  end.

Definition ParseInt (s : string) : option Z :=
  let '(neg, body) := split_sign s in
  match parse_digits body with
  | Some v =>
      let v := if neg then - v else v in
      if (GoInt.min_int <=? v) && (v <=? GoInt.max_int) then Some v else None
  | None => None
  end.

(** The part of [s] before the first ['.'], and the part after it. *)
Fixpoint split_dot (s : string) : string * option string :=
  match s with
  | EmptyString => (EmptyString, None)
  | String "." r => (EmptyString, Some r)
  | String a r => let '(i, f) := split_dot r in (String a i, f)
  end.

Definition ParseFloat (s : string) : option float64 :=
  let '(neg, body) := split_sign s in
  let '(ipart, fpart) := split_dot body in
  let fdigits := default EmptyString fpart in
  match parse_digits (ipart ++ fdigits) with
  | Some n =>
      if (String.length ipart =? 0)%nat || (Z.of_nat (String.length (ipart ++ fdigits)) >? 15)
         || (if fpart is Some EmptyString then true else false)
      then None
      else
        let v :=
          match fpart with
          | None => F64.of_int n
          | Some _ => F64.div (F64.of_int n) (F64.of_int (10 ^ Z.of_nat (String.length fdigits)))
          end in
        Some (if neg then SFopp v else v)
  | None => None
  end.

Definition days_in (year month : Z) : Z :=
  if (month =? 2) then
    if ((year mod 4 =? 0) && negb (year mod 100 =? 0)) || (year mod 400 =? 0) then 29 else 28
  else if (month =? 4) || (month =? 6) || (month =? 9) || (month =? 11) then 30
  else 31.

Definition valid_date (y m d : option Z) : bool :=
  match y, m, d with
  | Some y, Some m, Some d => (1 <=? m) && (m <=? 12) && (1 <=? d) && (d <=? days_in y m)
  | _, _, _ => false
  end.

Definition Parse (layout value : string) : bool :=
  if String.eqb layout "2006-01-02" then
    (String.length value =? 10)%nat
    && String.eqb (String.substring 4 1 value) "-" && String.eqb (String.substring 7 1 value) "-"
    && valid_date (parse_digits (String.substring 0 4 value)) (parse_digits (String.substring 5 2 value))
         (parse_digits (String.substring 8 2 value))
  else if String.eqb layout "01/02/2006" then
    (String.length value =? 10)%nat
    && String.eqb (String.substring 2 1 value) "/" && String.eqb (String.substring 5 1 value) "/"
    && valid_date (parse_digits (String.substring 6 4 value)) (parse_digits (String.substring 0 2 value))
         (parse_digits (String.substring 3 2 value))
  else false.

Fixpoint last_element (s acc : string) : string :=
  match s with
  | EmptyString => acc
  | String "/" r => last_element r EmptyString
  | String a r => last_element r (acc ++ String a EmptyString)
  end.

Definition Base (path : string) : string := last_element path EmptyString.

Fixpoint insert_by {A : Type} (less : A -> A -> bool) (x : A) (s : list A) : list A :=
  match s with
  | [] => [x]
  | y :: s' => if less x y then x :: s else y :: insert_by less x s'
  end.

Definition Slice (A : Type) (less : A -> A -> bool) (s : list A) : list A :=
  foldr (insert_by less) [] s.

(** [filepath.Ext] with ['/'] as the separator. *)
Fixpoint Ext_from (s : string) : option string :=
  match s with
  | EmptyString => None
  | String a r =>
      match Ext_from r with
      | Some ext => Some ext
      | None =>
          if Ascii.eqb a "/" then Some EmptyString
          else if Ascii.eqb a "." then Some s
          else None
      end
  end.

Definition Ext (path : string) : string := default EmptyString (Ext_from path).

Definition lower (a : ascii) : ascii :=
  let n := N_of_ascii a in
  if ((65 <=? n) && (n <=? 90))%N then ascii_of_N (n + 32) else a.

Fixpoint ToLower (s : string) : string :=
  match s with
  | EmptyString => EmptyString
  | String a r => String (lower a) (ToLower r)
  end.

(** The files of the examples. *)
Definition files (path : string) : option File :=
  if String.eqb path "two.csv" then
    Some (mkFile (Some 16)
            [RawFields ["a"; "b"]; RawFields ["1"; "3"]; RawFields ["2"; "4"]])
  else if String.eqb path "two.txt" then
    Some (mkFile (Some 16)
            [RawFields ["a"; "b"]; RawFields ["1"; "3"]; RawFields ["2"; "4"]])
  else if String.eqb path "wide.csv" then
    Some (mkFile (Some 10) [RawFields ["a"; "b"]; RawFields ["1"; "2"; "3"]])
  else if String.eqb path "blank.csv" then
    Some (mkFile (Some 12)
            [RawFields ["a"; "b"]; RawFields ["x"; ""]; RawFields ["y"; ""]])
  else if String.eqb path "constant.csv" then
    Some (mkFile (Some 8) [RawFields ["n"]; RawFields ["5"]; RawFields ["5"]])
  else None.

#[export] Instance lib : GoLib := {|
  os_Open := files;
  filepath_Ext := Ext;
  strings_ToLower := ToLower;
  strconv_ParseInt := ParseInt;
  strconv_ParseFloat := ParseFloat;
  time_Parse := Parse;
  fmt_Sprintf := fun format _ => format;
  filepath_Base := Base;
  map_range := fun V m => map_to_list m;
  map_range_perm := fun V m => reflexivity (map_to_list m);
  sort_Slice := Slice
|}.

End Demo.

(** ** Concrete profiles used as witnesses *)

Definition profile_empty : DatasetProfile.t :=
  DatasetProfile.mk "empty.csv" 0 "CSV" 0 0 0 0 ∅ [] 0 None [].

(** 1000 rows, 10 columns, 1000 missing cells: the score is 70. *)
Definition profile_missing_10pct : DatasetProfile.t :=
  DatasetProfile.mk "data.csv" 0 "CSV" 1000 10 1000 0 ∅ [] 0 None [].

(** A numeric column named [n], before its statistics are computed. *)
Definition column_n : ColumnProfile.t :=
  ColumnProfile.mk "n" "integer" 2 0 1 None None F64.zero F64.zero F64.zero [] []
    true false false false [].

(** The binary64 numbers written [0.3] and [1.3]. *)
Definition f0_3 : float64 := S754_finite false 5404319552844595 (-54).
Definition f1_3 : float64 := S754_finite false 5854679515581645 (-52).

(** Profiles outside the data model: a negative severity, and more
    missing cells than cells. *)
Definition profile_negative_severity : DatasetProfile.t :=
  DatasetProfile.mk "data.csv" 0 "CSV" 1 1 0 0 ∅
    [QualityIssue.mk "test_issue" "Test issue" (-1)] 0 None [].

Definition profile_excess_missing : DatasetProfile.t :=
  DatasetProfile.mk "data.csv" 0 "CSV" 1 1 (2 ^ 62) 0 ∅ [] 0 None [].

(** ** A second instance of the library

    As [Demo.lib], but [strconv.ParseFloat] also accepts the spelling
    [NaN], as the Go function does, and there are two more files: one with
    a header only and one with a row of a missing value. *)

Module Demo2.

Definition ParseFloat (s : string) : option float64 :=
  if String.eqb s "NaN" then Some S754_nan else Demo.ParseFloat s.

Definition files (path : string) : option File :=
  if String.eqb path "header.csv" then
    Some (mkFile (Some 9) [RawFields ["id"; "name"]])
  else if String.eqb path "people.csv" then
    Some (mkFile (Some 40)
            [RawFields ["id"; "name"]; RawFields ["1"; "ann"]; RawFields ["2"; ""];
             RawFields ["2"; ""]])
  else if String.eqb path "nostat.csv" then
    Some (mkFile None [RawFields ["a"]])
  else Demo.files path.

Definition lib : GoLib := {|
  os_Open := files;
  filepath_Ext := Demo.Ext;
  strings_ToLower := Demo.ToLower;
  strconv_ParseInt := Demo.ParseInt;
  strconv_ParseFloat := ParseFloat;
  time_Parse := Demo.Parse;
  fmt_Sprintf := fun format _ => format;
  filepath_Base := Demo.Base;
  map_range := fun V m => map_to_list m;
  map_range_perm := fun V m => reflexivity (map_to_list m);
  sort_Slice := Demo.Slice
|}.

End Demo2.

(** The profile of the file [two.csv] and its correlation matrix. *)
Definition profile_two : DatasetProfile.t :=
  match ProfileCSV (H := Demo.lib) "two.csv" with
  | Ok profile => profile
  | _ => profile_empty
  end.

Definition matrix_two : CorrelationMatrix.t :=
  match CalculateCorrelationMatrix (H := Demo.lib) profile_two with
  | Ok (Some m) => m
  | _ => CorrelationMatrix.mk [] ∅ []
  end.

(** 10 rows, 2 columns, nothing missing or duplicated, one issue of the
    dataset of severity 2: the score is 90. *)
Definition profile_one_issue : DatasetProfile.t :=
  DatasetProfile.mk "data.csv" 0 "CSV" 10 2 0 0 ∅
    [QualityIssue.mk "unsupported_format" "Test issue" 2] 0 None [].
(** * Part II: properties *)

Module GoIntFacts.

Lemma wrap_in_range z : GoInt.in_range (GoInt.wrap z).
Proof.
  unfold GoInt.in_range, GoInt.wrap, GoInt.min_int, GoInt.max_int.
  pose proof (Z.mod_pos_bound (z + 2 ^ 63) (2 ^ 64) ltac:(lia)). lia.
Qed.

Lemma wrap_small z : GoInt.in_range z -> GoInt.wrap z = z.
Proof.
  unfold GoInt.in_range, GoInt.wrap, GoInt.min_int, GoInt.max_int. intros Hz.
  rewrite Z.mod_small by lia. lia.
Qed.

Lemma wrap_above z : 2 ^ 63 <= z < 2 ^ 64 + 2 ^ 63 -> GoInt.wrap z = z - 2 ^ 64.
Proof.
  unfold GoInt.wrap. intros Hz.
  replace (z + 2 ^ 63) with ((z - 2 ^ 64 + 2 ^ 63) + 1 * 2 ^ 64) by lia.
  rewrite Z.mod_add by lia. rewrite Z.mod_small by lia. lia.
Qed.

Lemma wrap_below z : - 2 ^ 64 - 2 ^ 63 <= z < - 2 ^ 63 -> GoInt.wrap z = z + 2 ^ 64.
Proof.
  unfold GoInt.wrap. intros Hz.
  replace (z + 2 ^ 63) with ((z + 2 ^ 64 + 2 ^ 63) + (-1) * 2 ^ 64) by lia.
  rewrite Z.mod_add by lia. rewrite Z.mod_small by lia. lia.
Qed.

Lemma wrap_cases z :
  - 2 ^ 64 - 2 ^ 63 <= z < 2 ^ 64 + 2 ^ 63 ->
  (- 2 ^ 63 <= z < 2 ^ 63 /\ GoInt.wrap z = z)
  \/ (2 ^ 63 <= z /\ GoInt.wrap z = z - 2 ^ 64)
  \/ (z < - 2 ^ 63 /\ GoInt.wrap z = z + 2 ^ 64).
Proof.
  intros Hz.
  destruct (Z_lt_ge_dec z (- 2 ^ 63)) as [Hlo | Hlo].
  - right; right. split; [lia |]. apply wrap_below. lia.
  - destruct (Z_lt_ge_dec z (2 ^ 63)) as [Hhi | Hhi].
    + left. split; [lia |]. apply wrap_small.
      unfold GoInt.in_range, GoInt.min_int, GoInt.max_int. lia.
    + right; left. split; [lia |]. apply wrap_above. lia.
Qed.

End GoIntFacts.

Module F64Facts.

(** *** Binary digits *)

Lemma digits2_pos_size p : digits2_pos p = Pos.size p.
Proof. induction p; cbn; congruence. Qed.

Lemma Zdigits2_pos_bounds p :
  2 ^ (Z.pos (digits2_pos p) - 1) <= Z.pos p < 2 ^ Z.pos (digits2_pos p).
Proof.
  rewrite digits2_pos_size.
  pose proof (Pos.size_gt p) as Hgt. pose proof (Pos.size_le p) as Hle.
  apply Pos2Z.pos_lt_pos in Hgt. apply Pos2Z.pos_le_pos in Hle.
  rewrite Pos2Z.inj_pow in Hgt, Hle.
  change (Z.pos p~0) with (2 * Z.pos p) in Hle.
  replace (Z.pos (Pos.size p)) with (Z.succ (Z.pos (Pos.size p) - 1)) in Hle at 1 by lia.
  rewrite Z.pow_succ_r in Hle by lia. lia.
Qed.

Lemma Zdigits2_nonneg m : 0 <= Zdigits2 m.
Proof. destruct m; cbn; lia. Qed.

Lemma Zdigits2_bounds m :
  0 < m -> 2 ^ (Zdigits2 m - 1) <= m < 2 ^ Zdigits2 m.
Proof. destruct m as [| p | p]; try lia. intros _. apply Zdigits2_pos_bounds. Qed.

Lemma Zdigits2_unique m n :
  2 ^ (n - 1) <= m < 2 ^ n -> 0 < m -> Zdigits2 m = n.
Proof.
  intros Hm Hpos. pose proof (Zdigits2_bounds m Hpos) as Hb.
  pose proof (Zdigits2_nonneg m) as Hn.
  assert (Hn0 : 0 < n).
  { destruct (Z_lt_le_dec 0 n); [assumption |].
    assert (2 ^ n <= 2 ^ 0) by (apply Z.pow_le_mono_r; lia).
    change (2 ^ 0) with 1 in *. lia. }
  assert (Hd0 : 0 < Zdigits2 m) by (destruct m; cbn in *; lia).
  destruct (Z_lt_le_dec (Zdigits2 m) n) as [Hlt | Hge].
  - assert (2 ^ Zdigits2 m <= 2 ^ (n - 1)) by (apply Z.pow_le_mono_r; lia). lia.
  - destruct (Z_lt_le_dec n (Zdigits2 m)) as [Hlt | Hle]; [| lia].
    assert (2 ^ n <= 2 ^ (Zdigits2 m - 1)) by (apply Z.pow_le_mono_r; lia). lia.
Qed.

Lemma Zdigits2_lt_pow m n : 0 <= m -> 0 <= n -> m < 2 ^ n -> Zdigits2 m <= n.
Proof.
  intros Hm Hn Hlt.
  destruct (Z.eq_dec m 0) as [-> | Hne]; [cbn; lia |].
  pose proof (Zdigits2_bounds m ltac:(lia)) as Hb.
  destruct (Z_lt_le_dec n (Zdigits2 m)) as [Hgt | Hle]; [| lia].
  assert (2 ^ n <= 2 ^ (Zdigits2 m - 1)) by (apply Z.pow_le_mono_r; lia). lia.
Qed.

Lemma Zdigits2_ge_pow m n : 0 <= n -> 2 ^ n <= m -> n + 1 <= Zdigits2 m.
Proof.
  intros Hn Hle.
  assert (0 < 2 ^ n) by (apply Z.pow_pos_nonneg; lia).
  pose proof (Zdigits2_bounds m ltac:(lia)) as Hb.
  destruct (Z_lt_le_dec (Zdigits2 m) (n + 1)) as [Hlt | Hge]; [| lia].
  assert (2 ^ Zdigits2 m <= 2 ^ n) by (apply Z.pow_le_mono_r; lia). lia.
Qed.

Lemma Zdigits2_shiftr m k :
  0 <= m -> 0 <= k -> Zdigits2 (Z.shiftr m k) = Z.max 0 (Zdigits2 m - k).
Proof.
  intros Hm Hk.
  destruct (Z.eq_dec m 0) as [-> | Hne].
  { rewrite Z.shiftr_0_l. cbn. lia. }
  pose proof (Zdigits2_bounds m ltac:(lia)) as Hb.
  rewrite Z.shiftr_div_pow2 by lia.
  assert (Hk2 : 0 < 2 ^ k) by (apply Z.pow_pos_nonneg; lia).
  destruct (Z_lt_le_dec k (Zdigits2 m)) as [Hlt | Hge].
  - rewrite Z.max_r by lia.
    apply Zdigits2_unique.
    + split.
      * apply Z.div_le_lower_bound; [lia |].
        rewrite <- Z.pow_add_r by lia.
        replace (k + (Zdigits2 m - k - 1)) with (Zdigits2 m - 1) by lia. lia.
      * apply Z.div_lt_upper_bound; [lia |].
        rewrite <- Z.pow_add_r by lia.
        replace (k + (Zdigits2 m - k)) with (Zdigits2 m) by lia. lia.
    + apply Z.div_str_pos. split; [lia |].
      assert (2 ^ k <= 2 ^ (Zdigits2 m - 1)) by (apply Z.pow_le_mono_r; lia). lia.
  - rewrite Z.max_l by lia.
    rewrite Z.div_small; [reflexivity |].
    assert (2 ^ Zdigits2 m <= 2 ^ k) by (apply Z.pow_le_mono_r; lia). lia.
Qed.

Lemma Zdigits2_succ m : 0 <= m -> Zdigits2 m <= Zdigits2 (m + 1) <= Zdigits2 m + 1.
Proof.
  intros Hm.
  destruct (Z.eq_dec m 0) as [-> | Hne].
  { change (Zdigits2 (0 + 1)) with 1. change (Zdigits2 0) with 0. lia. }
  pose proof (Zdigits2_bounds m ltac:(lia)) as Hb.
  pose proof (Zdigits2_bounds (m + 1) ltac:(lia)) as Hb1.
  pose proof (Zdigits2_nonneg m).
  split.
  - assert (Hd0 : 0 < Zdigits2 m) by (destruct m; cbn in *; lia).
    pose proof (Zdigits2_ge_pow (m + 1) (Zdigits2 m - 1) ltac:(lia) ltac:(lia)). lia.
  - apply Zdigits2_lt_pow; [lia | lia |].
    rewrite Z.pow_add_r by lia. lia.
Qed.

(** shr *)
Lemma shr_1_m mrs : 0 <= shr_m mrs -> shr_m (shr_1 mrs) = Z.shiftr (shr_m mrs) 1.
Proof.
  destruct mrs as [m r s]. cbn [shr_m]. intros Hm.
  rewrite <- Z.div2_spec.
  destruct m as [| [p | p |] | p]; try reflexivity; lia.
Qed.

Lemma iter_shr_1_m p mrs :
  0 <= shr_m mrs ->
  shr_m (iter_pos shr_1 p mrs) = Z.shiftr (shr_m mrs) (Z.pos p).
Proof.
  revert mrs. induction p as [p IH | p IH |]; intros mrs Hm; cbn [iter_pos].
  - assert (H1 : 0 <= shr_m (shr_1 mrs)).
    { rewrite shr_1_m by lia. apply Z.shiftr_nonneg. lia. }
    assert (H2 : 0 <= shr_m (iter_pos shr_1 p (shr_1 mrs))).
    { rewrite IH by lia. apply Z.shiftr_nonneg. lia. }
    rewrite IH, IH, shr_1_m by lia.
    rewrite !Z.shiftr_shiftr by lia. f_equal. lia.
  - assert (H2 : 0 <= shr_m (iter_pos shr_1 p mrs)).
    { rewrite IH by lia. apply Z.shiftr_nonneg. lia. }
    rewrite IH, IH by lia.
    rewrite !Z.shiftr_shiftr by lia. f_equal. lia.
  - apply shr_1_m. lia.
Qed.

Lemma shr_record_of_loc_m m l : shr_m (shr_record_of_loc m l) = m.
Proof. destruct l as [| []]; reflexivity. Qed.

Lemma shr_fexp_spec m e l :
  0 <= m ->
  let k := fexp F64.prec F64.emax (Zdigits2 m + e) - e in
  shr_m (fst (shr_fexp F64.prec F64.emax m e l)) = Z.shiftr m (Z.max 0 k)
  /\ snd (shr_fexp F64.prec F64.emax m e l) = e + Z.max 0 k.
Proof.
  intros Hm k. unfold shr_fexp, shr. fold k.
  destruct k as [| p | p]; cbn [fst snd].
  - rewrite shr_record_of_loc_m, Z.shiftr_0_r. lia.
  - rewrite iter_shr_1_m by (rewrite shr_record_of_loc_m; lia).
    rewrite shr_record_of_loc_m. rewrite Z.max_r by lia. split; reflexivity.
  - rewrite shr_record_of_loc_m. rewrite Z.max_l by lia.
    rewrite Z.shiftr_0_r. lia.
Qed.

Lemma round_nearest_even_cases m l :
  round_nearest_even m l = m \/ round_nearest_even m l = m + 1.
Proof.
  destruct l as [| []]; cbn; auto. destruct (Z.even m); auto.
Qed.

(** *** Rounding *)

Lemma Zdigits2_zero_iff m : 0 <= m -> (Zdigits2 m = 0 <-> m = 0).
Proof. destruct m; cbn; intros; split; intros; lia || discriminate || reflexivity. Qed.

Lemma fexp_eq x : fexp F64.prec F64.emax x = Z.max (x - 53) (-1074).
Proof. reflexivity. Qed.

Lemma binary_round_aux_bounds s m e l :
  0 <= m -> e <= 971 -> Zdigits2 m + e <= 1023 ->
  match binary_round_aux F64.prec F64.emax s m e l with
  | S754_zero s' => s' = s /\ (m = 0 \/ Zdigits2 m + e < -1021)
  | S754_finite s' m' e' =>
      s' = s /\ Z.pos (digits2_pos m') <= 53
      /\ Z.pos (digits2_pos m') + e' <= Z.max (Zdigits2 m + e) (-1074) + 1
      /\ (0 < m -> -1021 <= Zdigits2 m + e ->
          Zdigits2 m + e <= Z.pos (digits2_pos m') + e')
  | _ => False
  end.
Proof.
  intros Hm He HM. unfold binary_round_aux.
  pose proof (shr_fexp_spec m e l Hm) as [Hm1 He1]. cbv zeta in Hm1, He1.
  destruct (shr_fexp F64.prec F64.emax m e l) as [mrs1 e1]. cbn [fst snd] in Hm1, He1.
  rewrite fexp_eq in Hm1, He1.
  set (K1 := Z.max 0 (Z.max (Zdigits2 m + e - 53) (-1074) - e)) in *.
  assert (Hm1' : 0 <= shr_m mrs1) by (rewrite Hm1; apply Z.shiftr_nonneg; lia).
  pose proof (Zdigits2_shiftr m K1 Hm ltac:(lia)) as Hd1. rewrite <- Hm1 in Hd1.
  set (m2 := round_nearest_even (shr_m mrs1) (loc_of_shr_record mrs1)).
  assert (Hm2 : 0 <= m2 /\ Zdigits2 (shr_m mrs1) <= Zdigits2 m2 <= Zdigits2 (shr_m mrs1) + 1).
  { pose proof (Zdigits2_succ (shr_m mrs1) Hm1').
    destruct (round_nearest_even_cases (shr_m mrs1) (loc_of_shr_record mrs1)) as [E | E];
      fold m2 in E; rewrite E; lia. }
  destruct Hm2 as [Hm2 Hd2].
  pose proof (shr_fexp_spec m2 e1 loc_Exact Hm2) as [Hm3 He3]. cbv zeta in Hm3, He3.
  destruct (shr_fexp F64.prec F64.emax m2 e1 loc_Exact) as [mrs3 e3].
  cbn [fst snd] in Hm3, He3. rewrite fexp_eq in Hm3, He3.
  set (K3 := Z.max 0 (Z.max (Zdigits2 m2 + e1 - 53) (-1074) - e1)) in *.
  pose proof (Zdigits2_shiftr m2 K3 Hm2 ltac:(lia)) as Hd3. rewrite <- Hm3 in Hd3.
  assert (Hm3' : 0 <= shr_m mrs3) by (rewrite Hm3; apply Z.shiftr_nonneg; lia).
  pose proof (Zdigits2_nonneg m) as Hdm.
  pose proof (Zdigits2_zero_iff m Hm) as Hz.
  pose proof (Zdigits2_zero_iff (shr_m mrs3) Hm3') as Hz3.
  destruct (shr_m mrs3) as [| m3 | m3] eqn:Em3; [| | lia].
  - split; [reflexivity |].
    destruct (Z.eq_dec m 0) as [-> | Hne]; [left; reflexivity | right].
    assert (Zdigits2 0 = 0) by reflexivity. lia.
  - replace (e3 <=? F64.emax - F64.prec) with true
      by (symmetry; apply Z.leb_le; unfold F64.emax, F64.prec; lia).
    change (Zdigits2 (Z.pos m3)) with (Z.pos (digits2_pos m3)) in *.
    repeat split; lia.
Qed.

(** *** Conversions, products and quotients *)

Lemma iter_xO_pow m d : Z.pos (Pos.iter xO m d) = Z.pos m * 2 ^ Z.pos d.
Proof.
  induction d as [| d IH] using Pos.peano_ind.
  - cbn. lia.
  - rewrite Pos.iter_succ, Pos2Z.inj_xO, IH, Pos2Z.inj_succ, Z.pow_succ_r by lia. lia.
Qed.

Lemma Zdigits2_mul_pow2 m k :
  0 < m -> 0 <= k -> Zdigits2 (m * 2 ^ k) = Zdigits2 m + k.
Proof.
  intros Hm Hk. pose proof (Zdigits2_bounds m Hm) as Hb.
  assert (0 < Zdigits2 m) by (destruct m; cbn in *; lia).
  assert (0 < 2 ^ k) by (apply Z.pow_pos_nonneg; lia).
  apply Zdigits2_unique; [| nia].
  replace (Zdigits2 m + k - 1) with ((Zdigits2 m - 1) + k) by lia.
  rewrite !Z.pow_add_r by lia. nia.
Qed.

Lemma shl_align_spec mx ex ex' :
  let '(mz, ez) := shl_align mx ex ex' in
  ez = Z.min ex ex' /\ Z.pos mz = Z.pos mx * 2 ^ (ex - ez).
Proof.
  unfold shl_align. destruct (ex' - ex) as [| d | d] eqn:E.
  - split; [lia |]. rewrite Z.sub_diag. cbn. lia.
  - split; [lia |]. rewrite Z.sub_diag. cbn. lia.
  - split; [lia |]. rewrite iter_xO_pow. f_equal. f_equal. lia.
Qed.

(** [float64(n)] for a positive [n] below [2 ^ 1000]: finite, positive, at
    most 53 digits, the magnitude of [n] or one more. *)
Lemma of_int_pos p :
  Z.pos (digits2_pos p) <= 1000 ->
  exists m e,
    F64.of_int (Z.pos p) = S754_finite false m e
    /\ Z.pos (digits2_pos m) <= 53
    /\ Z.pos (digits2_pos p) <= Z.pos (digits2_pos m) + e <= Z.pos (digits2_pos p) + 1.
Proof.
  intros Hd. unfold F64.of_int, binary_normalize, binary_round.
  pose proof (shl_align_spec p 0 (fexp F64.prec F64.emax (Z.pos (digits2_pos p) + 0))) as Hs.
  destruct (shl_align _ _ _) as [mz ez]. destruct Hs as [Hez Hmz].
  rewrite fexp_eq in Hez.
  assert (Hdz : Zdigits2 (Z.pos mz) + ez = Z.pos (digits2_pos p)).
  { rewrite Hmz, Zdigits2_mul_pow2 by lia. cbn [Zdigits2]. lia. }
  pose proof (binary_round_aux_bounds false (Z.pos mz) ez loc_Exact
                ltac:(lia) ltac:(lia) ltac:(lia)) as Hb.
  destruct (binary_round_aux _ _ _ _ _ _) as [s' | s' | | s' m' e']; try contradiction.
  - destruct Hb as [_ [Hb | Hb]]; lia.
  - destruct Hb as (-> & H53 & Hup & Hlo). exists m', e'.
    split; [reflexivity |]. split; [assumption |].
    specialize (Hlo ltac:(lia) ltac:(lia)). lia.
Qed.

Lemma Zdigits2_mul a b :
  0 < a -> 0 < b -> Zdigits2 (a * b) <= Zdigits2 a + Zdigits2 b.
Proof.
  intros Ha Hb.
  pose proof (Zdigits2_bounds a Ha). pose proof (Zdigits2_bounds b Hb).
  pose proof (Zdigits2_nonneg a). pose proof (Zdigits2_nonneg b).
  apply Zdigits2_lt_pow; [nia | lia |].
  rewrite Z.pow_add_r by lia. nia.
Qed.

(** The product of two finite numbers of small magnitude is a zero or a
    finite number, of magnitude at most the sum of theirs plus one. *)
Lemma mul_finite_bounds sx mx ex sy my ey :
  ex + ey <= 971 ->
  F64.mag (S754_finite sx mx ex) + F64.mag (S754_finite sy my ey) <= 1023 ->
  match F64.mul (S754_finite sx mx ex) (S754_finite sy my ey) with
  | S754_zero s' => s' = xorb sx sy
  | S754_finite s' m' e' =>
      s' = xorb sx sy /\ Z.pos (digits2_pos m') <= 53
      /\ F64.mag (S754_finite s' m' e')
         <= Z.max (F64.mag (S754_finite sx mx ex) + F64.mag (S754_finite sy my ey)) (-1074) + 1
  | _ => False
  end.
Proof.
  cbn [F64.mag]. intros He HM. unfold F64.mul, SFmul.
  pose proof (Zdigits2_mul (Z.pos mx) (Z.pos my) ltac:(lia) ltac:(lia)) as Hd.
  change (Z.pos mx * Z.pos my) with (Z.pos (mx * my)) in Hd. cbn [Zdigits2] in Hd.
  set (mz := (mx * my)%positive) in *.
  pose proof (binary_round_aux_bounds (xorb sx sy) (Z.pos mz) (ex + ey) loc_Exact
                ltac:(lia) He ltac:(cbn [Zdigits2]; lia)) as Hb.
  destruct (binary_round_aux _ _ _ _ _ _) as [s' | s' | | s' m' e']; try contradiction.
  - apply Hb.
  - destruct Hb as (-> & H53 & Hup & _). cbn [Zdigits2] in Hup.
    split; [reflexivity |]. split; [assumption |]. lia.
Qed.

Lemma div_core_bounds m1 e1 m2 e2 :
  let '(q, e', _) := SFdiv_core_binary F64.prec F64.emax (Z.pos m1) e1 (Z.pos m2) e2 in
  let M := (Z.pos (digits2_pos m1) + e1) - (Z.pos (digits2_pos m2) + e2) in
  0 <= q /\ e' <= e1 - e2
  /\ Zdigits2 q + e' <= Z.max (M + 1) (Z.max (M - 53) (-1074)).
Proof.
  unfold SFdiv_core_binary. cbn [Zdigits2]. rewrite fexp_eq.
  set (M := Z.pos (digits2_pos m1) + e1 - (Z.pos (digits2_pos m2) + e2)).
  set (e' := Z.min (Z.max (M - 53) (-1074)) (e1 - e2)).
  set (s := e1 - e2 - e').
  assert (Hs : 0 <= s) by lia.
  set (m' := match s with Z.pos _ => Z.shiftl (Z.pos m1) s | 0 => Z.pos m1 | Z.neg _ => 0 end).
  assert (Hm' : m' = Z.pos m1 * 2 ^ s).
  { subst m'. destruct s as [| ps | ps] eqn:Es; [cbn; lia | | lia].
    rewrite Z.shiftl_mul_pow2 by lia. reflexivity. }
  pose proof (Z_div_mod m' (Z.pos m2) ltac:(lia)) as Hdm.
  destruct (Z.div_eucl m' (Z.pos m2)) as [q r]. destruct Hdm as [Hq Hr].
  assert (0 < 2 ^ s) by (apply Z.pow_pos_nonneg; lia).
  assert (Hq0 : 0 <= q) by nia.
  split; [assumption |]. split; [lia |].
  pose proof (Zdigits2_pos_bounds m1) as B1. pose proof (Zdigits2_pos_bounds m2) as B2.
  set (d1 := Z.pos (digits2_pos m1)) in *. set (d2 := Z.pos (digits2_pos m2)) in *.
  destruct (Z_lt_le_dec (d1 + s - d2 + 1) 0) as [Hneg | Hnn].
  - (* the dividend is below the divisor *)
    assert (q = 0).
    { assert (m' < Z.pos m2); [| nia].
      rewrite Hm'.
      assert (Z.pos m1 * 2 ^ s < 2 ^ (d1 + s)) by (rewrite Z.pow_add_r by lia; nia).
      assert (2 ^ (d1 + s) <= 2 ^ (d2 - 1)) by (apply Z.pow_le_mono_r; lia). lia. }
    subst q. cbn [Zdigits2]. lia.
  - assert (Zdigits2 q <= d1 + s - d2 + 1); [| lia].
    apply Zdigits2_lt_pow; [assumption | assumption |].
    assert (q * Z.pos m2 < 2 ^ (d1 + s - d2 + 1) * 2 ^ (d2 - 1)); [| nia].
    rewrite <- Z.pow_add_r by lia.
    replace (d1 + s - d2 + 1 + (d2 - 1)) with (d1 + s) by lia.
    rewrite Z.pow_add_r by lia. nia.
Qed.

(** The quotient of two finite numbers of comparable magnitude. *)
Lemma div_finite_bounds sx mx ex sy my ey :
  Z.pos (digits2_pos my) <= 53 ->
  -200 <= F64.mag (S754_finite sx mx ex) - F64.mag (S754_finite sy my ey) <= 200 ->
  match F64.div (S754_finite sx mx ex) (S754_finite sy my ey) with
  | S754_zero s' => s' = xorb sx sy
  | S754_finite s' m' e' =>
      s' = xorb sx sy /\ Z.pos (digits2_pos m') <= 53
      /\ F64.mag (S754_finite s' m' e')
         <= F64.mag (S754_finite sx mx ex) - F64.mag (S754_finite sy my ey) + 2
  | _ => False
  end.
Proof.
  cbn [F64.mag]. intros H53 HM. unfold F64.div, SFdiv.
  pose proof (div_core_bounds mx ex my ey) as Hc.
  destruct (SFdiv_core_binary _ _ _ _ _ _) as [[q e'] l].
  destruct Hc as (Hq & He' & Hd).
  pose proof (binary_round_aux_bounds (xorb sx sy) q e' l Hq ltac:(lia) ltac:(lia)) as Hb.
  destruct (binary_round_aux _ _ _ _ _ _) as [s' | s' | | s' m' e'']; try contradiction.
  - apply Hb.
  - destruct Hb as (-> & Hm' & Hup & _).
    split; [reflexivity |]. split; [assumption |]. lia.
Qed.

Lemma digits2_pos_mono p q : (p <= q)%positive -> Z.pos (digits2_pos p) <= Z.pos (digits2_pos q).
Proof.
  intros Hpq.
  pose proof (Zdigits2_pos_bounds p) as Bp. pose proof (Zdigits2_pos_bounds q) as Bq.
  destruct (Z_lt_le_dec (Z.pos (digits2_pos q)) (Z.pos (digits2_pos p))) as [Hlt | Hle]; [| lia].
  assert (2 ^ Z.pos (digits2_pos q) <= 2 ^ (Z.pos (digits2_pos p) - 1))
    by (apply Z.pow_le_mono_r; lia).
  lia.
Qed.

(** A percentage of a part of a total is a zero or a positive number
    below [2 ^ 11]. *)
Lemma percentage_bounds part total :
  0 <= part <= total -> 0 < total < 2 ^ 63 ->
  match percentage part total with
  | S754_zero _ => True
  | S754_finite s m e => s = false /\ F64.mag (S754_finite s m e) <= 11
  | _ => False
  end.
Proof.
  intros Hpart Htotal. unfold percentage.
  destruct total as [| t | t]; try lia.
  assert (Hdt : Z.pos (digits2_pos t) <= 63).
  { apply (Zdigits2_lt_pow (Z.pos t)); lia. }
  destruct (of_int_pos t ltac:(lia)) as (mB & eB & -> & HB53 & HBmag).
  change (F64.of_int 100) with (S754_finite false 7036874417766400 (-46)).
  destruct part as [| p | p]; try lia.
  - exact I.
  - pose proof (digits2_pos_mono p t ltac:(lia)) as Hmono.
    destruct (of_int_pos p ltac:(lia)) as (mA & eA & -> & HA53 & HAmag).
    pose proof (div_finite_bounds false mA eA false mB eB HB53 ltac:(cbn [F64.mag]; lia)) as Hq.
    destruct (F64.div _ _) as [s' | s' | | s' mQ eQ]; try contradiction.
    + exact I.
    + destruct Hq as (-> & HQ53 & HQmag). cbn [F64.mag xorb] in *.
      pose proof (mul_finite_bounds false mQ eQ false 7036874417766400 (-46)
                    ltac:(lia) ltac:(cbn [F64.mag digits2_pos Pos.succ]; lia)) as Hm.
      destruct (F64.mul _ _) as [s' | s' | | s' m' e']; try contradiction.
      * exact I.
      * destruct Hm as (-> & _ & Hmag). split; [reflexivity |].
        cbn [F64.mag digits2_pos Pos.succ] in *. lia.
Qed.

Lemma to_int_small m e :
  F64.mag (S754_finite false m e) <= 63 ->
  0 <= F64.to_int (S754_finite false m e) < 2 ^ 63.
Proof.
  cbn [F64.mag]. intros Hmag. unfold F64.to_int, F64.trunc.
  assert (Hb : 0 <= Z.shiftl (Z.pos m) e < 2 ^ 63).
  { split; [apply Z.shiftl_nonneg; lia |].
    pose proof (Zdigits2_pos_bounds m) as B.
    destruct (Z_lt_le_dec e 0) as [Hneg | Hnn].
    - rewrite <- Z.shiftr_opp_r.
      pose proof (Zdigits2_shiftr (Z.pos m) (- e) ltac:(lia) ltac:(lia)) as Hd.
      cbn [Zdigits2] in Hd.
      assert (Hsn : 0 <= Z.shiftr (Z.pos m) (- e)) by (apply Z.shiftr_nonneg; lia).
      destruct (Z.eq_dec (Z.shiftr (Z.pos m) (- e)) 0) as [-> | Hne]; [lia |].
      pose proof (Zdigits2_bounds (Z.shiftr (Z.pos m) (- e)) ltac:(lia)) as B'.
      assert (2 ^ Zdigits2 (Z.shiftr (Z.pos m) (- e)) <= 2 ^ 63)
        by (apply Z.pow_le_mono_r; lia).
      lia.
    - rewrite Z.shiftl_mul_pow2 by lia.
      assert (Z.pos m * 2 ^ e < 2 ^ (Z.pos (digits2_pos m) + e)).
      { rewrite Z.pow_add_r by lia.
        assert (0 < 2 ^ e) by (apply Z.pow_pos_nonneg; lia). nia. }
      assert (2 ^ (Z.pos (digits2_pos m) + e) <= 2 ^ 63)
        by (apply Z.pow_le_mono_r; lia).
      lia. }
  replace ((GoInt.min_int <=? _) && _) with true; [lia |].
  symmetry. apply andb_true_intro.
  unfold GoInt.min_int, GoInt.max_int. split; [apply Z.leb_le | apply Z.leb_le]; lia.
Qed.

End F64Facts.

Section QualityScore.

(** Without overflow the penalty loops compute plain sums. *)
Lemma datasetIssuePenalty_sum issues acc :
  forallb severity_ok issues = true ->
  0 <= acc -> acc + 15 * Z.of_nat (length issues) < 2 ^ 63 ->
  acc <= datasetIssuePenalty issues acc <= acc + 15 * Z.of_nat (length issues).
Proof.
  unfold datasetIssuePenalty.
  revert acc. induction issues as [| i issues IH]; intros acc Hok Hacc Hlen.
  - cbn in *. lia.
  - cbn [forallb] in Hok. apply andb_prop in Hok as [Hi Hok].
    unfold severity_ok in Hi. apply andb_prop in Hi as [Hi1 Hi3].
    apply Z.leb_le in Hi1, Hi3.
    cbn [fold_left length] in *.
    assert (Hstep : GoInt.add acc (GoInt.mul (QualityIssue.Severity i) 5)
                    = acc + 5 * QualityIssue.Severity i).
    { unfold GoInt.add, GoInt.mul.
      rewrite (GoIntFacts.wrap_small (_ * 5)), GoIntFacts.wrap_small;
        unfold GoInt.in_range, GoInt.min_int, GoInt.max_int; lia. }
    rewrite Hstep.
    specialize (IH (acc + 5 * QualityIssue.Severity i) Hok). lia.
Qed.

Lemma columnIssuePenalty_sum issues acc :
  forallb severity_ok issues = true ->
  0 <= acc -> acc + 15 * Z.of_nat (length issues) < 2 ^ 63 ->
  acc <= columnIssuePenalty issues acc <= acc + 15 * Z.of_nat (length issues).
Proof.
  unfold columnIssuePenalty.
  revert acc. induction issues as [| i issues IH]; intros acc Hok Hacc Hlen.
  - cbn in *. lia.
  - cbn [forallb] in Hok. apply andb_prop in Hok as [Hi Hok].
    unfold severity_ok in Hi. apply andb_prop in Hi as [Hi1 Hi3].
    apply Z.leb_le in Hi1, Hi3.
    cbn [fold_left length] in *.
    assert (Hstep : GoInt.add acc (QualityIssue.Severity i)
                    = acc + QualityIssue.Severity i).
    { unfold GoInt.add. rewrite GoIntFacts.wrap_small;
        unfold GoInt.in_range, GoInt.min_int, GoInt.max_int; lia. }
    rewrite Hstep.
    specialize (IH (acc + QualityIssue.Severity i) Hok). lia.
Qed.

Lemma columnsIssuePenalty_sum cols acc :
  forallb severity_ok (column_issues cols) = true ->
  0 <= acc -> acc + 15 * Z.of_nat (length (column_issues cols)) < 2 ^ 63 ->
  acc <= columnsIssuePenalty cols acc
      <= acc + 15 * Z.of_nat (length (column_issues cols)).
Proof.
  unfold columnsIssuePenalty, column_issues.
  generalize (map_to_list cols) as kvs.
  intros kvs. revert acc.
  induction kvs as [| kv kvs IH]; intros acc Hok Hacc Hlen.
  - cbn in *. lia.
  - cbn [map concat fold_left] in *.
    rewrite forallb_app in Hok. apply andb_prop in Hok as [Hkv Hok].
    rewrite length_app, Nat2Z.inj_add in Hlen |- *.
    pose proof (columnIssuePenalty_sum _ acc Hkv Hacc ltac:(lia)) as Hcol.
    specialize (IH (columnIssuePenalty (ColumnProfile.QualityIssues kv.2) acc) Hok).
    lia.
Qed.

Lemma issuePenalty_bounds profile :
  valid_issues profile = true ->
  0 <= columnsIssuePenalty (DatasetProfile.Columns profile)
         (datasetIssuePenalty (DatasetProfile.QualityIssues profile) 0).
Proof.
  unfold valid_issues, all_issues. intros Hv.
  apply andb_prop in Hv as [Hok Hlen]. apply Z.ltb_lt in Hlen.
  rewrite forallb_app in Hok. apply andb_prop in Hok as [Hd Hc].
  rewrite length_app, Nat2Z.inj_add in Hlen.
  pose proof (datasetIssuePenalty_sum _ 0 Hd ltac:(lia) ltac:(lia)) as H1.
  pose proof (columnsIssuePenalty_sum _
                (datasetIssuePenalty (DatasetProfile.QualityIssues profile) 0)
                Hc ltac:(lia) ltac:(lia)) as H2.
  lia.
Qed.

(** Rounding keeps the sign: the result of [binary_round_aux] is a zero,
    a finite number or an infinity of the sign it was given (or NaN). *)
Lemma binary_round_aux_sign s m e l :
  match binary_round_aux F64.prec F64.emax s m e l with
  | S754_zero s' | S754_infinity s' | S754_finite s' _ _ => s' = s
  | S754_nan => True
  end.
Proof.
  unfold binary_round_aux.
  destruct (shr_fexp _ _ m e l) as [mrs' e'].
  destruct (shr_fexp _ _ _ e' loc_Exact) as [mrs'' e''].
  destruct (shr_m mrs''); [reflexivity | | exact I].
  destruct (_ <=? _); reflexivity.
Qed.

(** The conversion of a product of two positive numbers is not negative,
    unless it is out of range. *)
Lemma to_int_mul_pos pct mk ek :
  F64.ltb F64.zero pct = true ->
  let v := F64.to_int (F64.mul pct (S754_finite false mk ek)) in
  v = GoInt.min_int \/ 0 <= v.
Proof.
  intros Hpos v. subst v.
  destruct pct as [s | s | | s m e]; try discriminate.
  - left. destruct s; reflexivity.
  - destruct s; [discriminate |].
    unfold F64.mul, SFmul. cbn [xorb].
    pose proof (binary_round_aux_sign false (Z.pos (m * mk)) (e + ek) loc_Exact) as Hs.
    destruct (binary_round_aux _ _ _ _ _ _) as [s' | s' | | s' m' e'].
    + right. cbn. lia.
    + left. reflexivity.
    + left. reflexivity.
    + subst s'. unfold F64.to_int.
      destruct (_ && _); [right | left; reflexivity].
      cbn [F64.trunc]. apply Z.shiftl_nonneg. lia.
Qed.

(** A deduction leaves the score, or takes off between 0 and [cap]
    points, or takes off the minimal integer (the conversion of a value
    that is out of range). *)
Lemma deduct_cases score pct k cap :
  0 <= cap ->
  (exists mk ek, F64.of_int k = S754_finite false mk ek) ->
  deduct score pct k cap = score
  \/ (exists p, 0 <= p <= cap /\ deduct score pct k cap = GoInt.sub score p)
  \/ deduct score pct k cap = GoInt.sub score GoInt.min_int.
Proof.
  intros Hcap (mk & ek & Hk). unfold deduct.
  destruct (F64.ltb F64.zero pct) eqn:Hpos; [| left; reflexivity].
  right. rewrite Hk.
  pose proof (to_int_mul_pos pct mk ek Hpos) as Hv. cbv zeta in Hv.
  set (v := F64.to_int _) in *.
  destruct (Z.ltb_spec cap v) as [Hlt | Hge].
  - left. exists cap. split; [lia | reflexivity].
  - destruct Hv as [Hv | Hv].
    + right. rewrite Hv. reflexivity.
    + left. exists v. split; [lia | reflexivity].
Qed.

Ltac wrap_split :=
  repeat match goal with
    | |- context [GoInt.wrap ?z] =>
        let H := fresh "Hw" in
        let G := fresh "Hg" in
        destruct (GoIntFacts.wrap_cases z ltac:(lia)) as [[G H] | [[G H] | [G H]]];
        rewrite H; clear H
    end.

Lemma score_steps (ip : Z) (d1 d3 : Z -> Z) :
  0 <= ip <= 40 ->
  (d1 100 = 100
   \/ (exists p, 0 <= p <= 30 /\ d1 100 = GoInt.sub 100 p)
   \/ d1 100 = GoInt.sub 100 GoInt.min_int) ->
  (forall s, d3 s = s
   \/ (exists p, 0 <= p <= 15 /\ d3 s = GoInt.sub s p)
   \/ d3 s = GoInt.sub s GoInt.min_int) ->
  let score := d3 (GoInt.sub (d1 100) ip) in
  0 <= (if score <? 0 then 0 else score) <= 100.
Proof.
  intros Hip H1 H3 score. subst score.
  assert (Hmin : GoInt.min_int = - 2 ^ 63) by reflexivity.
  destruct (H3 (GoInt.sub (d1 100) ip)) as [-> | [(p3 & Hp3 & ->) | ->]];
    destruct H1 as [-> | [(p1 & Hp1 & ->) | ->]];
    unfold GoInt.sub; rewrite ?Hmin;
    wrap_split; try lia;
    match goal with |- context [?a <? 0] => destruct (Z.ltb_spec a 0) end; lia.
Qed.

(** On the counts of a well-formed profile a deduction leaves the score
    or takes off between 0 and [cap] points. *)
Lemma deduct_valid score part total k cap :
  0 <= part <= total -> 0 < total < 2 ^ 63 -> 0 <= cap ->
  k = 2 \/ k = 3 ->
  deduct score (percentage part total) k cap = score
  \/ exists p, 0 <= p <= cap /\ deduct score (percentage part total) k cap = GoInt.sub score p.
Proof.
  intros Hpart Htotal Hcap Hk. unfold deduct.
  pose proof (F64Facts.percentage_bounds part total Hpart Htotal) as Hp.
  destruct (percentage part total) as [s | s | | s m e]; try contradiction.
  - left. reflexivity.
  - destruct Hp as [-> Hmag]. right.
    change (F64.ltb F64.zero (S754_finite false m e)) with true. cbv iota.
    assert (Hkf : exists mk, F64.of_int k = S754_finite false mk (-51)
                             /\ Z.pos (digits2_pos mk) = 53).
    { destruct Hk as [-> | ->]; eexists; split; reflexivity. }
    destruct Hkf as (mk & -> & Hdk).
    cbn [F64.mag] in Hmag.
    pose proof (F64Facts.mul_finite_bounds false m e false mk (-51)
                  ltac:(lia) ltac:(cbn [F64.mag]; lia)) as Hm.
    set (v := F64.to_int _).
    assert (Hv : 0 <= v).
    { subst v. destruct (F64.mul _ _) as [s' | s' | | s' m' e']; try contradiction.
      - cbn. lia.
      - destruct Hm as (-> & _ & Hm). cbn [xorb].
        apply F64Facts.to_int_small. cbn [F64.mag] in *. lia. }
    destruct (Z.ltb_spec cap v).
    + exists cap. split; [lia | reflexivity].
    + exists v. split; [lia | reflexivity].
Qed.

End QualityScore.

(** C1. For every profile (its severities from 1 to 3, as the data
    model has them), [CalculateQualityScore] returns an integer between 0
    and 100, and it returns exactly 0 when the row count or the column
    count is 0. *)
Theorem CalculateQualityScore_range (profile : DatasetProfile.t) :
  (DatasetProfile.RowCount profile = 0 \/ DatasetProfile.ColumnCount profile = 0 ->
   CalculateQualityScore profile = 0)
  /\ (valid_issues profile = true -> 0 <= CalculateQualityScore profile <= 100).
Proof.
  unfold CalculateQualityScore. split.
  - intros [-> | ->]; [reflexivity |]. rewrite orb_true_r. reflexivity.
  - intros Hv.
    destruct (_ || _); [lia |].
    pose proof (issuePenalty_bounds profile Hv) as Hip.
    set (raw := columnsIssuePenalty _ _) in *.
    set (ip := if 40 <? raw then 40 else raw).
    assert (Hip' : 0 <= ip <= 40) by (subst ip; destruct (Z.ltb_spec 40 raw); lia).
    set (totalCells := GoInt.mul _ _).
    set (d1 := fun s : Z =>
                 if 0 <? totalCells
                 then deduct s (percentage (DatasetProfile.MissingCells profile) totalCells) 3 30
                 else s).
    set (d3 := fun s : Z =>
                 if 0 <? DatasetProfile.RowCount profile
                 then deduct s (percentage (DatasetProfile.DuplicateRows profile)
                                  (DatasetProfile.RowCount profile)) 2 15
                 else s).
    apply (score_steps ip d1 d3 Hip').
    + subst d1. cbv beta. destruct (0 <? totalCells); [| left; reflexivity].
      apply deduct_cases; [lia |]. vm_compute. eauto.
    + intros s. subst d3. cbv beta.
      destruct (0 <? DatasetProfile.RowCount profile); [| left; reflexivity].
      apply deduct_cases; [lia |]. vm_compute. eauto.
Qed.

(** C8. For every (well-formed) profile with a positive row count and a
    positive column count, [CalculateQualityScore] returns at least 15:
    the three deductions are capped at 30, 40 and 15. *)
Theorem CalculateQualityScore_floor (profile : DatasetProfile.t) :
  0 < DatasetProfile.RowCount profile ->
  0 < DatasetProfile.ColumnCount profile ->
  valid_issues profile = true ->
  valid_counts profile = true ->
  15 <= CalculateQualityScore profile.
Proof.
  intros HR HC Hv Hc. unfold CalculateQualityScore.
  unfold valid_counts in Hc.
  repeat (apply andb_prop in Hc as [Hc ?]).
  repeat match goal with
         | H : (_ <=? _) = true |- _ => apply Z.leb_le in H
         | H : (_ <? _) = true |- _ => apply Z.ltb_lt in H
         end.
  destruct (Z.eqb_spec (DatasetProfile.RowCount profile) 0) as [? | _]; [lia |].
  destruct (Z.eqb_spec (DatasetProfile.ColumnCount profile) 0) as [? | _]; [lia |].
  cbn [orb].
  pose proof (issuePenalty_bounds profile Hv) as Hip.
  set (raw := columnsIssuePenalty _ _) in *.
  set (ip := if 40 <? raw then 40 else raw).
  assert (Hip' : 0 <= ip <= 40) by (subst ip; destruct (Z.ltb_spec 40 raw); lia).
  set (R := DatasetProfile.RowCount profile) in *.
  set (C := DatasetProfile.ColumnCount profile) in *.
  assert (HRC : 0 < R * C) by nia.
  assert (HR63 : R < 2 ^ 63) by nia.
  unfold GoInt.mul. rewrite (GoIntFacts.wrap_small (R * C))
    by (unfold GoInt.in_range, GoInt.min_int, GoInt.max_int; lia).
  destruct (Z.ltb_spec 0 (R * C)) as [_ | ?]; [| lia].
  destruct (Z.ltb_spec 0 R) as [_ | ?]; [| lia].
  set (s1 := deduct 100 _ 3 30).
  assert (Hs1 : 70 <= s1 <= 100).
  { subst s1.
    destruct (deduct_valid 100 (DatasetProfile.MissingCells profile) (R * C) 3 30)
      as [-> | (p & Hp & ->)]; try lia.
    unfold GoInt.sub. rewrite GoIntFacts.wrap_small
      by (unfold GoInt.in_range, GoInt.min_int, GoInt.max_int; lia).
    lia. }
  set (s2 := GoInt.sub s1 ip).
  assert (Hs2 : 30 <= s2 <= 100).
  { subst s2. unfold GoInt.sub. rewrite GoIntFacts.wrap_small
      by (unfold GoInt.in_range, GoInt.min_int, GoInt.max_int; lia).
    lia. }
  set (s3 := deduct s2 _ 2 15).
  assert (Hs3 : 15 <= s3 <= 100).
  { subst s3.
    destruct (deduct_valid s2 (DatasetProfile.DuplicateRows profile) R 2 15)
      as [-> | (p & Hp & ->)]; try lia.
    unfold GoInt.sub. rewrite GoIntFacts.wrap_small
      by (unfold GoInt.in_range, GoInt.min_int, GoInt.max_int; lia).
    lia. }
  destruct (Z.ltb_spec s3 0); lia.
Qed.

(** The hypotheses on the profile are needed: with a negative severity
    the score exceeds 100, and with more missing cells than cells the
    conversion of the penalty overflows and the score drops to 0. *)
Example CalculateQualityScore_negative_severity :
  CalculateQualityScore profile_negative_severity = 105.
Proof. vm_compute. reflexivity. Qed.

Example CalculateQualityScore_excess_missing :
  CalculateQualityScore profile_excess_missing = 0.
Proof. vm_compute. reflexivity. Qed.

Lemma CalculateQualityScore_range_witness :
  CalculateQualityScore profile_empty = 0
  /\ 0 <= CalculateQualityScore profile_missing_10pct <= 100.
Proof.
  split.
  - apply (proj1 (CalculateQualityScore_range profile_empty)). left. reflexivity.
  - apply (proj2 (CalculateQualityScore_range profile_missing_10pct)).
    vm_compute. reflexivity.
Defined.

Lemma CalculateQualityScore_floor_witness :
  15 <= CalculateQualityScore profile_missing_10pct.
Proof.
  apply CalculateQualityScore_floor; vm_compute; reflexivity.
Defined.

(** ** inferDataType *)

Section InferDataTypeFacts.
Context `{GoLib}.

(** On a sample of at most 100 values the floating-point threshold test
    is the exact one: checked on every sample size and every count. *)
Lemma threshold_table :
  forallb (fun s => forallb (threshold_agrees s) (seqZ 0 (s + 1))) (seqZ 1 100) = true.
Proof. vm_compute. reflexivity. Qed.

Lemma threshold_exact s c :
  1 <= s <= 100 -> 0 <= c <= s ->
  F64.leb (F64.mul (F64.of_int s) F64.c0_9) (F64.of_int c) = reaches90 c s.
Proof.
  intros Hs Hc.
  pose proof threshold_table as Ht.
  rewrite forallb_forall in Ht.
  specialize (Ht s). rewrite forallb_forall in Ht.
  apply Bool.eqb_prop. apply Ht.
  - apply list_elem_of_In, elem_of_seqZ. lia.
  - apply list_elem_of_In, elem_of_seqZ. lia.
Qed.

Lemma sampleSize_table :
  forallb (fun n => sampleSize_of n =? Z.min n 100) (seqZ 1 127) = true.
Proof. vm_compute. reflexivity. Qed.

Lemma sampleSize_min n :
  1 <= n < 2 ^ 63 -> sampleSize_of n = Z.min n 100.
Proof.
  intros Hn. destruct (Z_lt_le_dec n 128) as [Hsmall | Hbig].
  - pose proof sampleSize_table as Ht. rewrite forallb_forall in Ht.
    apply Z.eqb_eq, Ht, list_elem_of_In, elem_of_seqZ. lia.
  - destruct n as [| p | p]; try lia.
    assert (Hd : 8 <= Z.pos (digits2_pos p) <= 63).
    { split.
      - apply (F64Facts.Zdigits2_ge_pow (Z.pos p) 7); lia.
      - apply (F64Facts.Zdigits2_lt_pow (Z.pos p)); lia. }
    unfold sampleSize_of.
    destruct (F64Facts.of_int_pos p ltac:(lia)) as (m & e & -> & H53 & Hmag).
    change (F64.of_int 100) with (S754_finite false 7036874417766400 (-46)).
    unfold F64.Min, F64.ltb, SFltb, SFcompare.
    destruct (Z.compare_spec e (-46)) as [? | ? | ?]; try lia.
    rewrite Z.min_r by lia. reflexivity.
Qed.


Lemma index_lookup {A : Type} (s : list A) (i : nat) (a : A) :
  s !! i = Some a -> index s (Z.of_nat i) = Ok a.
Proof.
  intros Hl. unfold index, len.
  pose proof (lookup_lt_Some _ _ _ Hl) as Hlt.
  replace ((0 <=? Z.of_nat i) && (Z.of_nat i <? Z.of_nat (length s))) with true
    by (symmetry; apply andb_true_intro; split; [apply Z.leb_le | apply Z.ltb_lt]; lia).
  rewrite Nat2Z.id, Hl. reflexivity.
Qed.

(** The sampling loop visits the values at the indices [i], [i + 1], ...
    and never leaves the slice. *)
Lemma sampleLoop_tally values n i t :
  (i + n <= length values)%nat ->
  len values < 2 ^ 63 ->
  sampleLoop values n (Z.of_nat i) t = Ok (tallyOf (take n (drop i values)) t).
Proof.
  revert i t. induction n as [| n IH]; intros i t Hn Hlen.
  - reflexivity.
  - destruct (lookup_lt_is_Some_2 values i ltac:(lia)) as [v Hv].
    cbn [sampleLoop]. rewrite (index_lookup _ _ _ Hv). cbn [bind].
    unfold len in Hlen.
    assert (Hi : GoInt.add (Z.of_nat i) 1 = Z.of_nat (S i)).
    { unfold GoInt.add. rewrite GoIntFacts.wrap_small; [lia |].
      unfold GoInt.in_range, GoInt.min_int, GoInt.max_int. lia. }
    rewrite Hi, IH by (unfold len; lia).
    rewrite (drop_S _ _ _ Hv). reflexivity.
Qed.

Lemma countClass_cons c v sample :
  countClass c (v :: sample)
  = (if ValueClass_eqb (classOf v) c then 1 else 0) + countClass c sample.
Proof.
  unfold countClass, len. cbn [List.filter].
  destruct (ValueClass_eqb (classOf v) c); cbn [length]; lia.
Qed.

Lemma countClass_bounds sample :
  0 <= countClass ClassInt sample /\ 0 <= countClass ClassFloat sample
  /\ 0 <= countClass ClassDate sample
  /\ countClass ClassInt sample + countClass ClassFloat sample
     + countClass ClassDate sample <= len sample.
Proof.
  induction sample as [| v sample IH].
  - unfold countClass, len. cbn. lia.
  - rewrite !countClass_cons. unfold len in *. cbn [length].
    destruct (classOf v); cbn [ValueClass_eqb]; lia.
Qed.

Lemma tallyOf_counts sample a b c :
  0 <= a -> 0 <= b -> 0 <= c ->
  a + len sample < 2 ^ 63 -> b + len sample < 2 ^ 63 -> c + len sample < 2 ^ 63 ->
  tallyOf sample (mkTally a b c)
  = mkTally (a + countClass ClassInt sample) (b + countClass ClassFloat sample)
      (c + countClass ClassDate sample).
Proof.
  revert a b c. induction sample as [| v sample IH]; intros a b c Ha Hb Hc Hla Hlb Hlc.
  - unfold countClass, len. cbn. f_equal; lia.
  - unfold tallyOf in *. cbn [foldl]. rewrite !countClass_cons.
    unfold len in *. cbn [length] in *.
    assert (Hadd : forall x, 0 <= x -> x + Z.of_nat (S (length sample)) < 2 ^ 63 ->
                             GoInt.add x 1 = x + 1).
    { intros x Hx Hxl. unfold GoInt.add. apply GoIntFacts.wrap_small.
      unfold GoInt.in_range, GoInt.min_int, GoInt.max_int. lia. }
    unfold classify, classOf. cbn [intCount floatCount dateCount].
    destruct (strconv_ParseInt v) as [? |].
    { rewrite Hadd, IH by lia. cbn [ValueClass_eqb]. f_equal; lia. }
    destruct (strconv_ParseFloat v) as [? |].
    { rewrite Hadd, IH by lia. cbn [ValueClass_eqb]. f_equal; lia. }
    destruct (time_Parse time_RFC3339 v).
    { rewrite Hadd, IH by lia. cbn [orb ValueClass_eqb]. f_equal; lia. }
    destruct (time_Parse "2006-01-02" v).
    { rewrite Hadd, IH by lia. cbn [orb ValueClass_eqb]. f_equal; lia. }
    destruct (time_Parse "01/02/2006" v).
    { rewrite Hadd, IH by lia. cbn [orb ValueClass_eqb]. f_equal; lia. }
    rewrite IH by lia. cbn [orb ValueClass_eqb]. f_equal; lia.
Qed.

Lemma inferDataType_refines values :
  len values < 2 ^ 63 -> inferDataType values = Ok (inferDataType_spec values).
Proof.
  intros Hlen. unfold inferDataType, inferDataType_spec.
  destruct values as [| v0 values0]; [reflexivity |].
  assert (Hpos : 1 <= len (v0 :: values0)) by (unfold len; cbn [length]; lia).
  set (values := v0 :: values0) in *.
  destruct (Z.eqb_spec (len values) 0) as [? | _]; [lia |].
  fold (sampleSize_of (len values)). rewrite sampleSize_min by lia.
  set (n := Nat.min (length values) 100).
  assert (Hn : Z.to_nat (Z.min (len values) 100) = n) by (unfold len; lia).
  rewrite Hn.
  pose proof (sampleLoop_tally values n 0 (mkTally 0 0 0) ltac:(lia) Hlen) as Hloop.
  change (Z.of_nat 0) with 0 in Hloop. change (drop 0 values) with values in Hloop.
  rewrite Hloop. cbn [bind].
  set (sample := take n values).
  assert (Hs : len sample = Z.min (len values) 100).
  { unfold len, sample. rewrite length_take. lia. }
  rewrite <- Hs.
  pose proof (countClass_bounds sample) as (HI & HF & HD & Hsum).
  rewrite tallyOf_counts by lia.
  cbn [intCount floatCount dateCount]. rewrite !Z.add_0_l.
  assert (Hadd : GoInt.add (countClass ClassInt sample) (countClass ClassFloat sample)
                 = countClass ClassInt sample + countClass ClassFloat sample).
  { unfold GoInt.add. apply GoIntFacts.wrap_small.
    unfold GoInt.in_range, GoInt.min_int, GoInt.max_int. lia. }
  rewrite Hadd, !threshold_exact by lia.
  repeat (destruct (reaches90 _ _); [reflexivity |]). reflexivity.
Qed.

Lemma inferDataType_spec_take values :
  inferDataType_spec values = inferDataType_spec (take 100 values).
Proof.
  destruct values as [| v0 values0]; [reflexivity |].
  change (take 100 (v0 :: values0)) with (v0 :: take 99 values0).
  unfold inferDataType_spec.
  change (v0 :: take 99 values0) with (take 100 (v0 :: values0)).
  set (values := v0 :: values0).
  assert (Ht : take (Nat.min (length values) 100) values = take 100 values).
  { destruct (Nat.le_ge_cases (length values) 100) as [Hle | Hge].
    - rewrite Nat.min_l by lia. rewrite !take_ge by lia. reflexivity.
    - rewrite Nat.min_r by lia. reflexivity. }
  assert (Ht2 : take (Nat.min (length (take 100 values)) 100) (take 100 values)
                = take 100 values).
  { apply take_ge. rewrite length_take. lia. }
  rewrite Ht2, Ht. reflexivity.
Qed.

End InferDataTypeFacts.

(** C2. [inferDataType] returns "unknown" on the empty sequence;
    otherwise, over the sample of the first [min(len, 100)] values, it
    returns "integer" if [intCount >= 0.9 * sampleSize], else "float" if
    [intCount + floatCount >= 0.9 * sampleSize], else "datetime" if
    [dateCount >= 0.9 * sampleSize], else "string"; the values after the
    first 100 do not affect the result. *)
Theorem inferDataType_correct `{GoLib} (values : list string) :
  len values < 2 ^ 63 ->
  inferDataType values = Ok (inferDataType_spec values)
  /\ (forall values' : list string,
        len values' < 2 ^ 63 -> take 100 values' = take 100 values ->
        inferDataType values' = inferDataType values).
Proof.
  intros Hlen. split.
  - apply inferDataType_refines, Hlen.
  - intros values' Hlen' Htake.
    rewrite !inferDataType_refines by assumption.
    rewrite (inferDataType_spec_take values), (inferDataType_spec_take values'), Htake.
    reflexivity.
Qed.

Lemma inferDataType_correct_witness :
  len ["1"; "2"; "3"; "4"; "x"]%string < 2 ^ 63
  /\ inferDataType (H := Demo.lib) ["1"; "2"; "3"; "4"; "x"]
     = Ok (inferDataType_spec (H := Demo.lib) ["1"; "2"; "3"; "4"; "x"]).
Proof.
  split; [reflexivity |].
  apply (proj1 (inferDataType_correct (H := Demo.lib) ["1"; "2"; "3"; "4"; "x"]%string
                  ltac:(reflexivity))).
Defined.

(** ** calculateNumericStats *)

Section NumericStatsFacts.
Context `{GoLib}.

Lemma insertKey_length {A : Type} (shift : A -> A -> bool) key prefix :
  length (insertKey shift key prefix) = S (length prefix).
Proof.
  induction prefix as [| x rest IH]; cbn; [reflexivity |].
  destruct (shift x key); cbn; congruence.
Qed.

Lemma insertionSort_length {A : Type} (shift : A -> A -> bool) (s : list A) :
  length (insertionSort shift s) = length s.
Proof.
  unfold insertionSort. rewrite length_reverse.
  assert (Hgen : forall prefix,
             length (foldl (fun prefix key => insertKey shift key prefix) prefix s)
             = (length prefix + length s)%nat).
  { induction s as [| key s IH]; intros prefix; cbn [foldl length]; [lia |].
    rewrite IH, insertKey_length. lia. }
  apply (Hgen []).
Qed.

(** Sorting a constant slice leaves it as it is. *)
Lemma insertionSort_replicate {A : Type} (shift : A -> A -> bool) (v : A) n :
  shift v v = false -> insertionSort shift (replicate n v) = replicate n v.
Proof.
  intros Hs. unfold insertionSort.
  assert (Hgen : forall k,
             foldl (fun prefix key => insertKey shift key prefix) (replicate k v)
               (replicate n v) = replicate (n + k) v).
  { induction n as [| n IH]; intros k; cbn [replicate foldl]; [reflexivity |].
    assert (Hins : insertKey shift v (replicate k v) = replicate (S k) v).
    { destruct k; cbn; [reflexivity |]. rewrite Hs. reflexivity. }
    rewrite Hins, IH. f_equal. lia. }
  change (@nil A) with (replicate 0 v).
  rewrite (Hgen 0%nat), Nat.add_0_r.
  apply reverse_replicate.
Qed.

Lemma ltb_irrefl (v : float64) : F64.ltb v v = false.
Proof.
  unfold F64.ltb, SFltb, SFcompare.
  destruct v as [s | s | | s m e]; try reflexivity.
  - destruct s; reflexivity.
  - destruct s; rewrite Z.compare_refl, Pos.compare_cont_refl; reflexivity.
Qed.

(** Over a constant slice the minimum and the maximum are its value. *)
Lemma sumLoop_replicate v n i s :
  s_min s = v -> s_max s = v ->
  s_min (sumLoop (replicate n v) i s) = v /\ s_max (sumLoop (replicate n v) i s) = v.
Proof.
  revert i s. induction n as [| n IH]; intros i s Hmin Hmax; cbn [replicate sumLoop].
  - split; assumption.
  - apply IH; cbn [s_min s_max].
    + destruct (_ || _); auto.
    + destruct (_ || _); auto.
Qed.

(** [v - v] is a zero or NaN. *)
Lemma sub_diag_cases (v : float64) :
  (exists s, F64.sub v v = S754_zero s) \/ F64.sub v v = S754_nan.
Proof.
  destruct v as [s | s | | s m e].
  - left. exists false. destruct s; reflexivity.
  - right. destruct s; reflexivity.
  - right. reflexivity.
  - left. exists false. unfold F64.sub, SFsub.
    rewrite Z.min_id. unfold shl_align. rewrite Z.sub_diag. cbn [fst].
    rewrite ?Z.sub_diag. reflexivity.
Qed.

(** With a zero bucket width the bucket of the value [min] is the
    conversion of NaN. *)
Lemma bucketIndex_zero_width v :
  bucketIndex v (F64.div (F64.sub v v) (F64.of_int bucketCount)) v = GoInt.min_int.
Proof.
  unfold bucketIndex.
  change (F64.of_int bucketCount) with (S754_finite false 5629499534213120 (-49)).
  destruct (sub_diag_cases v) as [[s ->] | ->]; reflexivity.
Qed.

Lemma makeBuckets_length lo hi size : len (makeBuckets lo hi size) = 10.
Proof. unfold makeBuckets, len. rewrite length_map. reflexivity. Qed.

Lemma parseValues_length values : (length (parseValues values) <= length values)%nat.
Proof.
  unfold parseValues. induction values as [| v values IH]; cbn; [lia |].
  destruct (strconv_ParseFloat v); cbn; lia.
Qed.

Lemma median_ok (sorted : list float64) :
  0 < len sorted < 2 ^ 63 -> exists m, median sorted = Ok m.
Proof.
  intros Hlen. unfold median.
  assert (Hq : 0 <= Z.quot (len sorted) 2 < len sorted).
  { rewrite Z.quot_div_nonneg by lia. split; [apply Z.div_pos; lia |].
    apply Z.div_lt_upper_bound; lia. }
  assert (Hidx : forall i, 0 <= i < len sorted -> exists a, index sorted i = Ok a).
  { intros i Hi. unfold len in Hi.
    destruct (lookup_lt_is_Some_2 sorted (Z.to_nat i) ltac:(lia)) as [a Ha].
    exists a. rewrite <- (Z2Nat.id i) by lia. apply index_lookup, Ha. }
  destruct (Z.eqb_spec (Z.rem (len sorted) 2) 0) as [Heven | Hodd].
  - assert (Hq1 : 1 <= Z.quot (len sorted) 2).
    { rewrite Z.quot_div_nonneg in * by lia. rewrite Z.rem_mod_nonneg in Heven by lia.
      pose proof (Z.div_mod (len sorted) 2 ltac:(lia)). lia. }
    unfold GoInt.sub. rewrite GoIntFacts.wrap_small
      by (unfold GoInt.in_range, GoInt.min_int, GoInt.max_int; lia).
    destruct (Hidx (Z.quot (len sorted) 2 - 1) ltac:(lia)) as [a ->].
    destruct (Hidx (Z.quot (len sorted) 2) ltac:(lia)) as [b ->].
    cbn [bind]. eauto.
  - apply Hidx. lia.
Qed.

(** A column whose parsed values are all equal: the bucket index of its
    first value is the minimal integer, and the indexing panics. *)
Lemma calculateNumericStats_constant col values v n :
  len values < 2 ^ 63 ->
  parseValues values = replicate (S n) v ->
  calculateNumericStats col values = Panic (IndexOutOfRange GoInt.min_int 10).
Proof.
  intros Hlen Hparse. unfold calculateNumericStats. rewrite Hparse.
  assert (Hn : len (replicate (S n) v) = Z.of_nat (S n))
    by (unfold len; rewrite length_replicate; reflexivity).
  assert (HnS : Z.of_nat (S n) < 2 ^ 63).
  { pose proof (parseValues_length values) as Hp. rewrite Hparse in Hp.
    rewrite length_replicate in Hp. unfold len in Hlen. lia. }
  destruct (Z.eqb_spec (len (replicate (S n) v)) 0) as [? | _]; [lia |].
  change (index (replicate (S n) v) 0) with (Ok (A := float64) v). cbn [bind].
  rewrite insertionSort_replicate by apply ltb_irrefl.
  destruct (median_ok (replicate (S n) v) ltac:(lia)) as [m ->]. cbn [bind].
  destruct (sumLoop_replicate v (S n) 0 (mkSums F64.zero F64.zero v v)
              eq_refl eq_refl) as [-> ->].
  cbn [replicate histogramLoop].
  rewrite bucketIndex_zero_width.
  unfold countInBucket, index. rewrite makeBuckets_length. reflexivity.
Qed.


Lemma totalCount_insert buckets i b b' :
  buckets !! i = Some b ->
  totalCount (<[i := b']> buckets)
  = totalCount buckets - HistogramBucket.Count b + HistogramBucket.Count b'.
Proof.
  revert i. induction buckets as [| x buckets IH]; intros i Hi; [discriminate |].
  destruct i as [| i].
  - cbn in Hi. injection Hi as ->.
    change (<[0%nat := b']> (b :: buckets)) with (b' :: buckets).
    unfold totalCount. cbn [foldr]. lia.
  - change (<[S i := b']> (x :: buckets)) with (x :: <[i := b']> buckets).
    change ((x :: buckets) !! S i) with (buckets !! i) in Hi.
    change (totalCount (x :: <[i := b']> buckets))
      with (HistogramBucket.Count x + totalCount (<[i := b']> buckets)).
    change (totalCount (x :: buckets)) with (HistogramBucket.Count x + totalCount buckets).
    rewrite (IH i Hi). lia.
Qed.

Lemma totalCount_lookup_le buckets i b :
  counts_nonneg buckets -> buckets !! i = Some b ->
  HistogramBucket.Count b <= totalCount buckets.
Proof.
  intros Hnn. revert i. induction Hnn as [| x buckets Hx Hnn IH]; intros i Hi; [discriminate |].
  assert (Hrest : 0 <= totalCount buckets).
  { clear -Hnn. induction Hnn as [| y l Hy Hl IHl]; [cbn; lia |].
    change (totalCount (y :: l)) with (HistogramBucket.Count y + totalCount l). lia. }
  change (totalCount (x :: buckets)) with (HistogramBucket.Count x + totalCount buckets).
  destruct i as [| i].
  - cbn in Hi. injection Hi as ->. lia.
  - change ((x :: buckets) !! S i) with (buckets !! i) in Hi.
    specialize (IH i Hi). lia.
Qed.

(** Counting a value adds one to exactly one bucket. *)
Lemma countInBucket_total buckets i buckets' :
  countInBucket buckets i = Ok buckets' ->
  counts_nonneg buckets -> totalCount buckets < 2 ^ 63 - 1 ->
  length buckets' = length buckets /\ counts_nonneg buckets'
  /\ totalCount buckets' = totalCount buckets + 1.
Proof.
  unfold countInBucket, index. intros Hc Hnn Htot.
  destruct ((0 <=? i) && (i <? len buckets)); [| discriminate].
  destruct (buckets !! Z.to_nat i) as [b |] eqn:Hb; [| discriminate].
  cbn [bind] in Hc. injection Hc as <-.
  pose proof (totalCount_lookup_le _ _ _ Hnn Hb) as Hle.
  assert (Hb0 : 0 <= HistogramBucket.Count b).
  { unfold counts_nonneg in Hnn. rewrite Forall_lookup in Hnn. apply (Hnn _ _ Hb). }
  assert (Hadd : GoInt.add (HistogramBucket.Count b) 1 = HistogramBucket.Count b + 1).
  { unfold GoInt.add. apply GoIntFacts.wrap_small.
    unfold GoInt.in_range, GoInt.min_int, GoInt.max_int. lia. }
  rewrite Hadd. split; [apply length_insert |]. split.
  - unfold counts_nonneg. apply Forall_insert; [assumption |]. cbn. lia.
  - rewrite (totalCount_insert _ _ _ _ Hb). cbn [HistogramBucket.Count]. lia.
Qed.

Lemma makeBuckets_empty lo hi size :
  counts_nonneg (makeBuckets lo hi size) /\ totalCount (makeBuckets lo hi size) = 0.
Proof.
  unfold makeBuckets, counts_nonneg.
  generalize (seqZ 0 bucketCount) as l. intros l. split.
  - apply Forall_forall. intros b Hb. apply list_elem_of_fmap in Hb as (i & -> & _).
    cbn. lia.
  - induction l as [| i l IH]; [reflexivity |].
    cbn [map]. unfold totalCount in *. cbn [foldr HistogramBucket.Count].
    rewrite IH. reflexivity.
Qed.

(** The histogram loop returns, or panics at a negative bucket index. *)
Lemma bucketIndex_clamped lo size v : bucketIndex lo size v < 10.
Proof.
  unfold bucketIndex, bucketCount.
  destruct (Z.leb_spec 10 (F64.to_int (F64.div (F64.sub v lo) size))); [reflexivity | lia].
Qed.

Lemma countInBucket_cases buckets i :
  len buckets = 10 -> i < 10 ->
  match countInBucket buckets i with
  | Ok _ => 0 <= i
  | Err _ => False
  | Panic p => negative_index p
  end.
Proof.
  intros Hlen Hi. unfold countInBucket, index. rewrite Hlen.
  destruct (Z.leb_spec 0 i) as [Hnn | Hneg]; cbn [andb].
  - destruct (Z.ltb_spec i 10) as [_ | ?]; [| lia].
    unfold len in Hlen.
    destruct (lookup_lt_is_Some_2 buckets (Z.to_nat i) ltac:(lia)) as [b ->].
    cbn [bind]. assumption.
  - exists i. split; [assumption | reflexivity].
Qed.

Lemma histogramLoop_cases lo size numValues buckets :
  len buckets = 10 ->
  counts_nonneg buckets -> totalCount buckets + len numValues < 2 ^ 63 ->
  match histogramLoop lo size numValues buckets with
  | Ok buckets' =>
      len buckets' = 10 /\ totalCount buckets' = totalCount buckets + len numValues
  | Err _ => False
  | Panic p => negative_index p
  end.
Proof.
  revert buckets. induction numValues as [| v rest IH]; intros buckets Hlen Hnn Htot.
  - cbn. unfold len in *. cbn. lia.
  - cbn [histogramLoop]. unfold len in Htot. cbn [length] in Htot.
    pose proof (countInBucket_cases buckets (bucketIndex lo size v) Hlen
                  (bucketIndex_clamped lo size v)) as Hc.
    destruct (countInBucket buckets (bucketIndex lo size v)) as [b1 | |] eqn:Hcb;
      [| contradiction | exact Hc].
    cbn [bind].
    destruct (countInBucket_total _ _ _ Hcb Hnn ltac:(lia)) as (Hlen1 & Hnn1 & Htot1).
    specialize (IH b1 ltac:(unfold len in *; lia) Hnn1 ltac:(unfold len; lia)).
    destruct (histogramLoop lo size rest b1) as [b2 | |]; [| contradiction | exact IH].
    unfold len in *. cbn [length]. lia.
Qed.

Lemma calculateNumericStats_cases col values :
  len values < 2 ^ 63 ->
  parseValues values <> [] ->
  match calculateNumericStats col values with
  | Ok col' =>
      len (ColumnProfile.HistogramBuckets col') = 10
      /\ totalCount (ColumnProfile.HistogramBuckets col') = len (parseValues values)
  | Err _ => False
  | Panic p => negative_index p
  end.
Proof.
  intros Hlen Hne. unfold calculateNumericStats.
  pose proof (parseValues_length values) as Hpl.
  set (numValues := parseValues values) in *.
  assert (Hpos : 0 < len numValues < 2 ^ 63).
  { unfold len in *. destruct numValues; [congruence | cbn [length] in *; lia]. }
  destruct (Z.eqb_spec (len numValues) 0) as [? | _]; [lia |].
  destruct numValues as [| first rest] eqn:En; [congruence |].
  change (index (first :: rest) 0) with (Ok first). cbn [bind].
  rewrite <- En in *.
  set (sorted := insertionSort _ numValues).
  assert (Hsl : len sorted = len numValues).
  { unfold len, sorted. rewrite insertionSort_length. reflexivity. }
  destruct (median_ok sorted ltac:(lia)) as [m ->]. cbn [bind].
  set (s := sumLoop _ _ _).
  set (size := F64.div _ _).
  destruct (makeBuckets_empty (s_min s) (s_max s) size) as [Hnn H0].
  pose proof (histogramLoop_cases (s_min s) size sorted _
                (makeBuckets_length (s_min s) (s_max s) size) Hnn ltac:(lia)) as Hh.
  destruct (histogramLoop _ _ _ _) as [buckets | |]; [| contradiction | exact Hh].
  cbn [bind ColumnProfile.HistogramBuckets]. lia.
Qed.

End NumericStatsFacts.

(** C3. For a numeric column with at least one parsed value,
    [calculateNumericStats] either returns a histogram of 10 buckets whose
    counts sum to the number of parsed values, or panics at a negative
    bucket index and produces no histogram (C4 shows that it does so on
    every constant column). *)
Theorem histogram_counts_sum `{GoLib} (col : ColumnProfile.t) (values : list string) :
  len values < 2 ^ 63 ->
  parseValues values <> [] ->
  match calculateNumericStats col values with
  | Ok col' =>
      len (ColumnProfile.HistogramBuckets col') = 10
      /\ totalCount (ColumnProfile.HistogramBuckets col') = len (parseValues values)
  | Err _ => False
  | Panic p => negative_index p
  end.
Proof. apply calculateNumericStats_cases. Qed.

Lemma histogram_counts_sum_witness :
  (exists col',
      calculateNumericStats (H := Demo.lib) column_n ["1"; "2"; "3"] = Ok col'
      /\ totalCount (ColumnProfile.HistogramBuckets col') = 3)
  /\ (exists p,
         calculateNumericStats (H := Demo.lib) column_n ["5"; "5"] = Panic p
         /\ negative_index p).
Proof.
  split.
  - pose proof (histogram_counts_sum (H := Demo.lib) column_n ["1"; "2"; "3"]%string
                  ltac:(reflexivity) ltac:(discriminate)) as Hw.
    destruct (calculateNumericStats column_n ["1"; "2"; "3"]) as [col' | | p] eqn:Hc;
      [| contradiction | vm_compute in Hc; discriminate Hc].
    exists col'. split; [reflexivity | apply Hw].
  - pose proof (histogram_counts_sum (H := Demo.lib) column_n ["5"; "5"]%string
                  ltac:(reflexivity) ltac:(discriminate)) as Hw.
    destruct (calculateNumericStats column_n ["5"; "5"]) as [col' | | p] eqn:Hc;
      [vm_compute in Hc; discriminate Hc | contradiction |].
    exists p. split; [reflexivity | exact Hw].
Defined.

(** C4. A numeric column whose parsed values are all equal: the bucket
    width is zero, the bucket index of every value is the conversion of
    NaN, the minimal integer, which the clamp (an upper bound only) lets
    through, and the indexing of the 10 buckets panics.  No value is
    counted in bucket 0. *)
Theorem calculateNumericStats_constant_panics `{GoLib}
    (col : ColumnProfile.t) (values : list string) (v : float64) (n : nat) :
  len values < 2 ^ 63 ->
  parseValues values = replicate (S n) v ->
  bucketIndex v (F64.div (F64.sub v v) (F64.of_int bucketCount)) v = GoInt.min_int
  /\ calculateNumericStats col values = Panic (IndexOutOfRange GoInt.min_int 10).
Proof.
  intros Hlen Hparse. split.
  - apply bucketIndex_zero_width.
  - apply (calculateNumericStats_constant col values v n Hlen Hparse).
Qed.

Lemma calculateNumericStats_constant_panics_witness :
  calculateNumericStats (H := Demo.lib) column_n ["5"; "5"]
  = Panic (IndexOutOfRange GoInt.min_int 10).
Proof.
  apply (calculateNumericStats_constant_panics (H := Demo.lib) column_n ["5"; "5"]%string
           (F64.of_int 5) 1 ltac:(reflexivity) ltac:(reflexivity)).
Defined.

(** ** calculatePearsonCorrelation *)

Lemma calculatePearsonCorrelation_guard (x y : list float64) :
  len x <> len y \/ len x = 0 -> calculatePearsonCorrelation x y = Ok F64.zero.
Proof.
  intros Hxy. unfold calculatePearsonCorrelation.
  destruct (Z.eqb_spec (len x) (len y)) as [Heq | Hne]; [| reflexivity].
  destruct (Z.eqb_spec (len x) 0) as [H0 | Hn0]; [reflexivity | lia].
Qed.

(** C5. Two series of different lengths, or empty ones, have correlation
    0.  Two constant series of one length do not always: the sums are
    rounded, the denominator is then not exactly zero and the guard does
    not apply.  Three times 0.3 against three times 1.3 gives NaN, three
    times 0.3 against itself gives 1. *)
Theorem calculatePearsonCorrelation_constant :
  calculatePearsonCorrelation [f0_3; f0_3; f0_3] [f1_3; f1_3; f1_3] = Ok S754_nan
  /\ calculatePearsonCorrelation [f0_3; f0_3; f0_3] [f0_3; f0_3; f0_3] = Ok (F64.of_int 1)
  /\ (forall x y : list float64,
        len x <> len y \/ len x = 0 -> calculatePearsonCorrelation x y = Ok F64.zero).
Proof.
  split; [vm_compute; reflexivity |].
  split; [vm_compute; reflexivity |].
  apply calculatePearsonCorrelation_guard.
Qed.

Lemma calculatePearsonCorrelation_constant_witness :
  calculatePearsonCorrelation [f0_3; f0_3] [f1_3] = Ok F64.zero.
Proof.
  apply (proj2 (proj2 calculatePearsonCorrelation_constant)).
  left. unfold len. cbn [length]. lia.
Defined.

(** ** The CSV reader and ProfileCSV *)

Section ReaderFacts.
Context `{GoLib}.

(** Once the header is read, a record of another length stops the scan
    with an error. *)
Lemma scanLoop_field_count header rows record :
  0 < len header ->
  RawFields record ∈ rows ->
  len record <> len header ->
  forall st st', scanLoop header rows (mkReader (len header) rows) st <> Ok st'.
Proof.
  intros Hh Hin Hlen.
  induction rows as [| row rows IH]; intros st st'.
  - apply elem_of_nil in Hin. contradiction.
  - cbn [scanLoop]. unfold Reader_Read. cbn [pending FieldsPerRecord].
    destruct row as [fields | msg]; [| discriminate].
    destruct (Z.ltb_spec 0 (len header)) as [_ | ?]; [| lia].
    destruct (Z.eqb_spec (len fields) (len header)) as [Heq | Hne]; [| discriminate].
    apply elem_of_cons in Hin as [Hhd | Htl].
    + injection Hhd as ->. contradiction.
    + destruct (scanRecord header st fields) as [st1 | |]; cbn [bind]; try discriminate.
      apply IH, Htl.
Qed.

Lemma ProfileCSV_field_count filePath file size header rows record :
  os_Open filePath = Some file ->
  file_stat file = Some size ->
  file_records file = RawFields header :: rows ->
  header <> [] ->
  RawFields record ∈ rows ->
  len header < len record ->
  forall profile, ProfileCSV filePath <> Ok profile.
Proof.
  intros Ho Hs Hr Hne Hin Hlen profile. unfold ProfileCSV.
  rewrite Ho, Hs. unfold csv_NewReader, Reader_Read. rewrite Hr.
  cbn [pending FieldsPerRecord]. change (0 <? 0) with false. cbv iota.
  change (0 =? 0) with true. cbv iota. cbn [pending].
  assert (Hpos : 0 < len header).
  { destruct header; [congruence | unfold len; cbn [length]; lia]. }
  destruct (scanLoop header rows (mkReader (len header) rows) _) as [st | |] eqn:Hscan;
    cbn [bind]; try discriminate.
  exfalso. eapply (scanLoop_field_count header rows record); eauto. lia.
Qed.

End ReaderFacts.

(** C7. A row with more fields than the header: the loop over the fields
    skips the fields past the header ([scanField] leaves the state as it
    is), but the row never reaches that loop.  The reader was left with
    [FieldsPerRecord] at 0, so [Read] returns the row with
    [ErrFieldCount] and [ProfileCSV] fails. *)
Theorem ProfileCSV_wide_row `{GoLib}
    (filePath : string) (file : File) (size : Z) (header : list string)
    (rows : list rawRecord) (record : list string) :
  os_Open filePath = Some file ->
  file_stat file = Some size ->
  file_records file = RawFields header :: rows ->
  header <> [] ->
  RawFields record ∈ rows ->
  len header < len record ->
  (forall profile, ProfileCSV filePath <> Ok profile)
  /\ (forall st i value, len header <= i -> scanField header st i value = Ok st).
Proof.
  intros Ho Hs Hr Hne Hin Hlen. split.
  - apply (ProfileCSV_field_count filePath file size header rows record); assumption.
  - intros st i value Hi. unfold scanField.
    destruct (Z.leb_spec (len header) i); [reflexivity | lia].
Qed.

Lemma ProfileCSV_wide_row_witness :
  ProfileCSV (H := Demo.lib) "wide.csv"
  = Err (fmt_Errorf "error reading CSV: %w" csv_ErrFieldCount)
  /\ (forall profile, ProfileCSV (H := Demo.lib) "wide.csv" <> Ok profile).
Proof.
  split; [vm_compute; reflexivity |].
  apply (ProfileCSV_wide_row (H := Demo.lib) "wide.csv"
           (mkFile (Some 10) [RawFields ["a"; "b"]; RawFields ["1"; "2"; "3"]])
           10 ["a"; "b"]%string [RawFields ["1"; "2"; "3"]] ["1"; "2"; "3"]%string);
    try reflexivity.
  - discriminate.
  - apply elem_of_cons. left. reflexivity.
Defined.

Section MissingColumn.
Context `{GoLib}.
Variable colName : string.

Lemma index_Ok {A : Type} (s : list A) (i : Z) (a : A) :
  index s i = Ok a -> 0 <= i /\ s !! Z.to_nat i = Some a.
Proof.
  unfold index. destruct (Z.leb_spec 0 i); cbn [andb]; [| discriminate].
  destruct (i <? len s); [| discriminate].
  destruct (s !! Z.to_nat i) as [x |]; [| discriminate].
  intros Hx. injection Hx as ->. split; [assumption | reflexivity].
Qed.

Lemma scanField_no_value header st i value st' :
  scanField header st i value = Ok st' ->
  no_value colName st ->
  (index header i = Ok colName -> value = ""%string) ->
  no_value colName st'.
Proof.
  unfold scanField. intros Hs Hinv Hcell.
  destruct (len header <=? i); [injection Hs as <-; assumption |].
  destruct (index header i) as [c | |] eqn:Hc; cbn [bind] in Hs; try discriminate.
  destruct Hinv as ((k & Hcol) & Hvals & Hcounts).
  destruct (String.eqb_spec value "") as [-> | Hvalue].
  - destruct (columns st !! c) as [col |] eqn:Hlook; [| discriminate].
    injection Hs as <-. unfold no_value. cbn [columns columnValues valueCounts].
    split; [| split; assumption].
    destruct (decide (c = colName)) as [-> | Hne].
    + rewrite lookup_insert_eq. rewrite Hcol in Hlook. injection Hlook as <-.
      eexists. reflexivity.
    + rewrite lookup_insert_ne by assumption. eauto.
  - assert (Hne : c <> colName).
    { intros ->. apply Hvalue, Hcell. reflexivity. }
    destruct (valueCounts st !! c) as [counts |]; [| discriminate].
    injection Hs as <-. unfold no_value. cbn [columns columnValues valueCounts].
    rewrite !lookup_insert_ne by assumption. eauto.
Qed.

Lemma scanFields_no_value header record :
  forall st (i : nat) st',
    scanFields header st (Z.of_nat i) record = Ok st' ->
    no_value colName st ->
    Z.of_nat i + len record < 2 ^ 63 ->
    (forall (j : nat) value,
        header !! (i + j)%nat = Some colName -> record !! j = Some value ->
        value = ""%string) ->
    no_value colName st'.
Proof.
  induction record as [| value rest IH]; intros st i st' Hs Hinv Hlen Hcells.
  - cbn in Hs. injection Hs as <-. assumption.
  - cbn [scanFields] in Hs. unfold len in Hlen. cbn [length] in Hlen.
    destruct (scanField header st (Z.of_nat i) value) as [st1 | |] eqn:Hf;
      cbn [bind] in Hs; try discriminate.
    assert (Hi : GoInt.add (Z.of_nat i) 1 = Z.of_nat (S i)).
    { unfold GoInt.add. rewrite GoIntFacts.wrap_small; [lia |].
      unfold GoInt.in_range, GoInt.min_int, GoInt.max_int. lia. }
    rewrite Hi in Hs.
    apply (IH st1 (S i) st' Hs).
    + apply (scanField_no_value _ _ _ _ _ Hf Hinv).
      intros Hidx. apply index_Ok in Hidx as [_ Hidx]. rewrite Nat2Z.id in Hidx.
      apply (Hcells 0%nat value); [rewrite Nat.add_0_r; assumption | reflexivity].
    + unfold len. lia.
    + intros j v Hh Hr. apply (Hcells (S j) v); [| assumption].
      replace (i + S j)%nat with (S i + j)%nat by lia. assumption.
Qed.

Lemma scanRecord_no_value header st record st' :
  scanRecord header st record = Ok st' ->
  no_value colName st ->
  len record < 2 ^ 63 ->
  cells_missing header colName record ->
  no_value colName st'.
Proof.
  unfold scanRecord. intros Hs Hinv Hlen Hcells.
  apply (scanFields_no_value header record _ 0%nat st' Hs).
  - destruct Hinv as (Hcol & Hvals & Hcounts). unfold no_value.
    cbn [columns columnValues valueCounts]. auto.
  - change (Z.of_nat 0) with 0. lia.
  - intros j v Hh Hr. apply (Hcells j v); assumption.
Qed.

Lemma scanLoop_no_value header rows :
  0 < len header < 2 ^ 63 ->
  (forall record, RawFields record ∈ rows -> cells_missing header colName record) ->
  forall st st',
    scanLoop header rows (mkReader (len header) rows) st = Ok st' ->
    no_value colName st ->
    no_value colName st'.
Proof.
  intros Hh Hcells.
  induction rows as [| row rows IH]; intros st st' Hs Hinv.
  - cbn in Hs. injection Hs as <-. assumption.
  - cbn [scanLoop] in Hs. unfold Reader_Read in Hs. cbn [pending FieldsPerRecord] in Hs.
    destruct row as [fields | msg]; [| discriminate].
    destruct (Z.ltb_spec 0 (len header)) as [_ | ?]; [| lia].
    destruct (Z.eqb_spec (len fields) (len header)) as [Heq | Hne]; [| discriminate].
    destruct (scanRecord header st fields) as [st1 | |] eqn:Hrec;
      cbn [bind] in Hs; try discriminate.
    assert (Hinv1 : no_value colName st1).
    { apply (scanRecord_no_value _ _ _ _ Hrec Hinv); [lia |].
      apply Hcells. apply elem_of_cons. left. reflexivity. }
    apply (IH ltac:(intros r Hr; apply Hcells, elem_of_cons; right; exact Hr)
              st1 st' Hs Hinv1).
Qed.


(** The header's columns, before the scan. *)
Lemma newColumns_lookup header (cols : gmap string ColumnProfile.t) :
  colName ∈ header \/ cols !! colName = Some (newColumn colName) ->
  foldl (fun cols c => <[c := newColumn c]> cols) cols header !! colName
  = Some (newColumn colName).
Proof.
  revert cols. induction header as [| c header IH]; intros cols Hin; cbn [foldl].
  - destruct Hin as [Hin | Hin]; [apply elem_of_nil in Hin; contradiction | assumption].
  - apply IH. destruct Hin as [Hin | Hin].
    + apply elem_of_cons in Hin as [-> | Hin]; [right; apply lookup_insert_eq | left; assumption].
    + destruct (decide (c = colName)) as [-> | Hne].
      * right. apply lookup_insert_eq.
      * right. rewrite lookup_insert_ne by assumption. assumption.
Qed.

(** The loop over [columnValues] finalizes every column once. *)
Lemma finalizeLoop_lookup rowCount vc entries :
  NoDup entries.*1 ->
  forall cols cols',
    finalizeLoop rowCount vc entries cols = Ok cols' ->
    (colName ∉ entries.*1 -> cols' !! colName = cols !! colName)
    /\ (forall values col,
          (colName, values) ∈ entries -> cols !! colName = Some col ->
          exists col',
            finalizeColumn rowCount col values (default ∅ (vc !! colName)) = Ok col'
            /\ cols' !! colName = Some col').
Proof.
  induction entries as [| [c vs] entries IH]; intros Hnd cols cols' Hf.
  - cbn in Hf. injection Hf as <-. split; [reflexivity |].
    intros values col Hin. apply elem_of_nil in Hin. contradiction.
  - cbn [finalizeLoop] in Hf. cbn [fmap list_fmap fst] in Hnd.
    apply NoDup_cons in Hnd as [Hc Hnd].
    destruct (cols !! c) as [col0 |] eqn:Hlook; [| discriminate].
    destruct (finalizeColumn rowCount col0 vs (default ∅ (vc !! c))) as [col1 | |] eqn:Hfin;
      cbn [bind] in Hf; try discriminate.
    destruct (IH Hnd _ _ Hf) as [Hout Hin']. split.
    + intros Hnot. cbn [fmap list_fmap fst] in Hnot.
      apply not_elem_of_cons in Hnot as [Hne Hnot].
      rewrite (Hout Hnot). apply lookup_insert_ne. congruence.
    + intros values col Hin Hcol.
      apply elem_of_cons in Hin as [Heq | Hin].
      * injection Heq as <- <-. rewrite Hlook in Hcol. injection Hcol as <-.
        exists col1. split; [assumption |].
        rewrite (Hout Hc). apply lookup_insert_eq.
      * assert (Hne : c <> colName).
        { intros ->. apply Hc. apply list_elem_of_fmap. exists (colName, values). auto. }
        apply (Hin' values col Hin). rewrite lookup_insert_ne by assumption. assumption.
Qed.

Lemma map_range_empty {V : Type} : map_range (∅ : gmap string V) = [].
Proof.
  pose proof (map_range_perm V ∅) as Hp. rewrite map_to_list_empty in Hp.
  apply Permutation_nil_r in Hp. exact Hp.
Qed.

(** A column without a value is finalized without a failure: its type is
    "unknown", it is not numeric and its statistics are left alone. *)
Lemma finalizeColumn_no_value rowCount col :
  exists col',
    finalizeColumn rowCount col [] ∅ = Ok col'
    /\ ColumnProfile.DataType col' = "unknown"%string
    /\ ColumnProfile.Count col' = 0
    /\ ColumnProfile.UniqueCount col' = 0
    /\ ColumnProfile.IsUnique col' = true
    /\ ColumnProfile.IsNumeric col' = false
    /\ ColumnProfile.TopValues col' = []
    /\ ColumnProfile.Min col' = ColumnProfile.Min col
    /\ ColumnProfile.Max col' = ColumnProfile.Max col
    /\ ColumnProfile.Mean col' = ColumnProfile.Mean col
    /\ ColumnProfile.Median col' = ColumnProfile.Median col
    /\ ColumnProfile.StdDev col' = ColumnProfile.StdDev col
    /\ ColumnProfile.HistogramBuckets col' = ColumnProfile.HistogramBuckets col.
Proof.
  unfold finalizeColumn.
  change (inferDataType []) with (Ok (A := string) "unknown"). cbn [bind].
  change (String.eqb "unknown" "integer") with false.
  change (String.eqb "unknown" "float") with false. cbn [orb bind].
  assert (Htop : getTopValues ∅ 5 = []).
  { unfold getTopValues. rewrite map_range_empty. reflexivity. }
  rewrite Htop, map_size_empty.
  eexists. split; [reflexivity |].
  repeat split; reflexivity.
Qed.

End MissingColumn.


(** The whole run on a file with a constant numeric column. *)
Example ProfileCSV_constant_column :
  ProfileCSV (H := Demo.lib) "constant.csv" = Panic (IndexOutOfRange GoInt.min_int 10).
Proof. vm_compute. reflexivity. Qed.

(** C9. A column whose cells are all missing is finalized without a
    failure, and in every profile [ProfileCSV] returns it has the type
    "unknown", the counts 0, [IsUnique] true, and no numeric statistics
    or histogram. *)
Theorem all_missing_column `{GoLib}
    (filePath : string) (file : File) (header : list string) (rows : list rawRecord)
    (colName : string) :
  os_Open filePath = Some file ->
  file_records file = RawFields header :: rows ->
  len header < 2 ^ 63 ->
  colName ∈ header ->
  (forall record, RawFields record ∈ rows -> cells_missing header colName record) ->
  (forall rowCount k, exists col',
      finalizeColumn rowCount (with_MissingCount (newColumn colName) k) [] ∅ = Ok col')
  /\ (forall profile,
        ProfileCSV filePath = Ok profile ->
        exists col,
          DatasetProfile.Columns profile !! colName = Some col
          /\ ColumnProfile.DataType col = "unknown"%string
          /\ ColumnProfile.Count col = 0
          /\ ColumnProfile.UniqueCount col = 0
          /\ ColumnProfile.IsUnique col = true
          /\ ColumnProfile.IsNumeric col = false
          /\ ColumnProfile.Min col = None
          /\ ColumnProfile.Max col = None
          /\ ColumnProfile.Mean col = F64.zero
          /\ ColumnProfile.Median col = F64.zero
          /\ ColumnProfile.StdDev col = F64.zero
          /\ ColumnProfile.HistogramBuckets col = []).
Proof.
  intros Ho Hr Hlen Hin Hcells. split.
  { intros rc k.
    destruct (finalizeColumn_no_value rc (with_MissingCount (newColumn colName) k))
      as (col' & Hf & _).
    eauto. }
  intros profile. unfold ProfileCSV. rewrite Ho.
  destruct (file_stat file) as [size |]; [| discriminate].
  unfold csv_NewReader, Reader_Read. rewrite Hr.
  cbn [pending FieldsPerRecord]. change (0 <? 0) with false. cbv iota.
  change (0 =? 0) with true. cbv iota. cbn [pending].
  assert (Hpos : 0 < len header).
  { destruct header; [apply elem_of_nil in Hin; contradiction |].
    unfold len. cbn [length]. lia. }
  set (cols0 := foldl (fun cols c => <[c := newColumn c]> cols) ∅ header).
  destruct (scanLoop header rows (mkReader (len header) rows) _) as [st | |] eqn:Hscan;
    cbn [bind]; try discriminate.
  assert (Hinv : no_value colName st).
  { apply (scanLoop_no_value colName header rows ltac:(lia) Hcells _ _ Hscan).
    assert (Hc0 : cols0 !! colName = Some (newColumn colName)).
    { apply newColumns_lookup. left. assumption. }
    unfold no_value. cbn [columns columnValues valueCounts].
    rewrite !lookup_fmap, Hc0. split; [exists 0; reflexivity | split; reflexivity]. }
  destruct Hinv as ((k & Hcol) & Hvals & Hcounts).
  destruct (finalizeLoop _ _ _ _) as [cols' | |] eqn:Hfin; cbn [bind]; try discriminate.
  intros Hp. injection Hp as <-.
  unfold collectDatasetQualityIssues. cbn [DatasetProfile.Columns].
  assert (Hnd : NoDup (map_range (columnValues st)).*1).
  { rewrite (map_range_perm _ (columnValues st)). apply NoDup_fst_map_to_list. }
  assert (Hentry : (colName, []) ∈ map_range (columnValues st)).
  { rewrite (map_range_perm _ (columnValues st)). apply elem_of_map_to_list. assumption. }
  destruct (finalizeLoop_lookup colName _ _ _ Hnd _ _ Hfin) as [_ Hfound].
  destruct (Hfound [] _ Hentry Hcol) as (col' & Hfc & Hlook).
  rewrite Hcounts in Hfc. change (default ∅ (Some ∅)) with (∅ : gmap string Z) in Hfc.
  destruct (finalizeColumn_no_value (rowCount st) (with_MissingCount (newColumn colName) k))
    as (col'' & Hfc' & Hprops).
  rewrite Hfc in Hfc'. injection Hfc' as <-.
  exists col'. split; [assumption |].
  destruct Hprops as (? & ? & ? & ? & ? & ? & ? & ? & ? & ? & ? & ?).
  repeat split; assumption.
Qed.

Lemma all_missing_column_witness :
  exists profile col,
    ProfileCSV (H := Demo.lib) "blank.csv" = Ok profile
    /\ DatasetProfile.Columns profile !! "b"%string = Some col
    /\ ColumnProfile.DataType col = "unknown"%string
    /\ ColumnProfile.Count col = 0
    /\ ColumnProfile.HistogramBuckets col = [].
Proof.
  assert (Hcells : forall record,
             RawFields record ∈ [RawFields ["x"; ""]; RawFields ["y"; ""]]%string ->
             cells_missing ["a"; "b"]%string "b" record).
  { intros record Hin i value Hh Hr.
    apply list_elem_of_In in Hin. cbn in Hin.
    destruct i as [| [| i]]; cbn in Hh; try discriminate Hh.
    destruct Hin as [Hq | [Hq | []]]; injection Hq as <-; cbn in Hr; congruence. }
  destruct (all_missing_column (H := Demo.lib) "blank.csv"
              (mkFile (Some 12)
                 [RawFields ["a"; "b"]; RawFields ["x"; ""]; RawFields ["y"; ""]])
              ["a"; "b"]%string [RawFields ["x"; ""]; RawFields ["y"; ""]] "b"%string
              eq_refl eq_refl eq_refl
              ltac:(apply elem_of_cons; right; apply elem_of_cons; left; reflexivity)
              Hcells)
    as [_ Hcol].
  clear Hcells.
  destruct (ProfileCSV (H := Demo.lib) "blank.csv") as [profile | |] eqn:Hcsv;
    [| vm_compute in Hcsv; discriminate Hcsv | vm_compute in Hcsv; discriminate Hcsv].
  destruct (Hcol profile eq_refl)
    as (col & Hlook & Ht & Hc & _ & _ & _ & _ & _ & _ & _ & _ & Hh).
  exists profile, col. repeat split; assumption.
Defined.

(** ** ProfileDataset *)

Section ProfileDatasetFacts.
Context `{GoLib}.

Lemma CalculateCorrelationMatrix_no_columns profile :
  DatasetProfile.Columns profile = ∅ -> CalculateCorrelationMatrix profile = Ok None.
Proof.
  intros Hc. unfold CalculateCorrelationMatrix. rewrite Hc, map_to_list_empty.
  reflexivity.
Qed.

Lemma enrich_unsupported filePath format description :
  enrich (unsupportedProfile filePath format description)
  = Ok (unsupportedProfile filePath format description).
Proof.
  unfold enrich.
  rewrite CalculateCorrelationMatrix_no_columns by reflexivity.
  reflexivity.
Qed.

Lemma profileByExtension_parquet filePath :
  strings_ToLower (filepath_Ext filePath) = ".parquet" ->
  profileByExtension filePath
  = Ok (unsupportedProfile filePath "Parquet" "Parquet support is coming soon").
Proof. intros He. unfold profileByExtension. rewrite He. reflexivity. Qed.

Lemma profileByExtension_json filePath :
  strings_ToLower (filepath_Ext filePath) = ".json" ->
  profileByExtension filePath
  = Ok (unsupportedProfile filePath "JSON" "JSON support is coming soon").
Proof. intros He. unfold profileByExtension. rewrite He. reflexivity. Qed.

Lemma profileByExtension_default filePath :
  strings_ToLower (filepath_Ext filePath) <> ".csv" ->
  strings_ToLower (filepath_Ext filePath) <> ".parquet" ->
  strings_ToLower (filepath_Ext filePath) <> ".json" ->
  profileByExtension filePath = ProfileCSV filePath.
Proof.
  intros Hc Hp Hj. unfold profileByExtension.
  destruct (String.eqb_spec (strings_ToLower (filepath_Ext filePath)) ".csv"); [reflexivity |].
  destruct (String.eqb_spec (strings_ToLower (filepath_Ext filePath)) ".parquet");
    [contradiction |].
  destruct (String.eqb_spec (strings_ToLower (filepath_Ext filePath)) ".json");
    [contradiction | reflexivity].
Qed.

End ProfileDatasetFacts.


(** C6. For a path whose lower-cased extension is [.parquet] or [.json],
    [ProfileDataset] (in both revisions) returns, without an error, a
    profile with no row and no column, the label of the format, and one
    dataset-level issue "unsupported_format" of severity 2 with its
    message. *)
Theorem ProfileDataset_unsupported `{GoLib} (filePath : string) :
  let extension := strings_ToLower (filepath_Ext filePath) in
  extension = ".parquet" \/ extension = ".json" ->
  exists profile description,
    ProfileDataset filePath = Ok profile
    /\ ProfileDataset_v1 filePath = Ok profile
    /\ DatasetProfile.RowCount profile = 0
    /\ DatasetProfile.ColumnCount profile = 0
    /\ DatasetProfile.Columns profile = ∅
    /\ DatasetProfile.Format profile = formatLabel extension
    /\ DatasetProfile.QualityIssues profile
       = [QualityIssue.mk "unsupported_format" description 2]
    /\ description = (formatLabel extension ++ " support is coming soon")%string.
Proof.
  intros extension [He | He]; subst extension.
  - exists (unsupportedProfile filePath "Parquet" "Parquet support is coming soon"),
      "Parquet support is coming soon"%string.
    unfold ProfileDataset, ProfileDataset_v1.
    rewrite (profileByExtension_parquet _ He), He. cbn [bind].
    rewrite enrich_unsupported. repeat split; reflexivity.
  - exists (unsupportedProfile filePath "JSON" "JSON support is coming soon"),
      "JSON support is coming soon"%string.
    unfold ProfileDataset, ProfileDataset_v1.
    rewrite (profileByExtension_json _ He), He. cbn [bind].
    rewrite enrich_unsupported. repeat split; reflexivity.
Qed.

Lemma ProfileDataset_unsupported_witness :
  exists profile description,
    ProfileDataset (H := Demo.lib) "data.PARQUET" = Ok profile
    /\ ProfileDataset_v1 (H := Demo.lib) "data.PARQUET" = Ok profile
    /\ DatasetProfile.RowCount profile = 0
    /\ DatasetProfile.ColumnCount profile = 0
    /\ DatasetProfile.Columns profile = ∅
    /\ DatasetProfile.Format profile = "Parquet"%string
    /\ DatasetProfile.QualityIssues profile
       = [QualityIssue.mk "unsupported_format" description 2]
    /\ description = "Parquet support is coming soon"%string.
Proof.
  apply (ProfileDataset_unsupported (H := Demo.lib) "data.PARQUET").
  left. reflexivity.
Defined.

Section DefaultFormat.
Context `{GoLib}.

Lemma CalculateQualityScore_fields p q :
  DatasetProfile.RowCount p = DatasetProfile.RowCount q ->
  DatasetProfile.ColumnCount p = DatasetProfile.ColumnCount q ->
  DatasetProfile.MissingCells p = DatasetProfile.MissingCells q ->
  DatasetProfile.DuplicateRows p = DatasetProfile.DuplicateRows q ->
  DatasetProfile.Columns p = DatasetProfile.Columns q ->
  DatasetProfile.QualityIssues p = DatasetProfile.QualityIssues q ->
  CalculateQualityScore p = CalculateQualityScore q.
Proof.
  intros HR HC HM HD Hcols HQ. unfold CalculateQualityScore.
  rewrite HR, HC, HM, HD, Hcols, HQ. reflexivity.
Qed.

(** [ProfileCSV] returns profiles of format CSV that carry their score. *)
Lemma ProfileCSV_score filePath profile :
  ProfileCSV filePath = Ok profile ->
  DatasetProfile.Format profile = "CSV"%string
  /\ DatasetProfile.QualityScore profile = CalculateQualityScore profile.
Proof.
  unfold ProfileCSV.
  destruct (os_Open filePath) as [file |]; [| discriminate].
  destruct (file_stat file) as [size |]; [| discriminate].
  destruct (Reader_Read (csv_NewReader file)) as [[header err] reader].
  destruct err as [e |]; [discriminate |].
  destruct (scanLoop _ _ _ _) as [st | |]; cbn [bind]; try discriminate.
  destruct (finalizeLoop _ _ _ _) as [cols | |]; cbn [bind]; try discriminate.
  intros Hp. injection Hp as <-. split; [reflexivity |].
  cbn [DatasetProfile.QualityScore]. apply CalculateQualityScore_fields; reflexivity.
Qed.

Lemma enrich_same_data profile profile' :
  DatasetProfile.QualityScore profile = CalculateQualityScore profile ->
  enrich profile = Ok profile' -> same_data profile profile'.
Proof.
  unfold enrich. intros Hscore.
  destruct (CalculateCorrelationMatrix profile) as [matrix | |]; cbn [bind]; try discriminate.
  intros Hp. injection Hp as <-. unfold same_data.
  cbn. rewrite Hscore. repeat split; reflexivity.
Qed.

End DefaultFormat.


(** C10 (amended). For a path whose lower-cased extension is not [.csv],
    [.parquet] or [.json], [ProfileDataset] profiles the file through
    [ProfileCSV]: the first revision returns the result of [ProfileCSV];
    the second passes on its error, and a profile it returns is the
    profile of [ProfileCSV] (same file data, counts, columns, issues and
    score, format CSV) with the correlation matrix and the
    recommendations added. *)
Theorem ProfileDataset_default `{GoLib} (filePath : string) :
  let extension := strings_ToLower (filepath_Ext filePath) in
  extension <> ".csv"%string -> extension <> ".parquet"%string ->
  extension <> ".json"%string ->
  ProfileDataset_v1 filePath = ProfileCSV filePath
  /\ ProfileDataset filePath = (profile <- ProfileCSV filePath ;; enrich profile)
  /\ (forall e, ProfileCSV filePath = Err e -> ProfileDataset filePath = Err e)
  /\ (forall profile profile',
        ProfileCSV filePath = Ok profile -> ProfileDataset filePath = Ok profile' ->
        same_data profile profile' /\ DatasetProfile.Format profile' = "CSV"%string).
Proof.
  intros extension Hc Hp Hj. subst extension.
  pose proof (profileByExtension_default filePath Hc Hp Hj) as Hd.
  unfold ProfileDataset, ProfileDataset_v1. rewrite Hd.
  split; [reflexivity |]. split; [reflexivity |]. split.
  - intros e ->. reflexivity.
  - intros profile profile' Hcsv. rewrite Hcsv. cbn [bind]. intros Hen.
    destruct (ProfileCSV_score _ _ Hcsv) as [Hfmt Hscore].
    pose proof (enrich_same_data _ _ Hscore Hen) as Hsame.
    split; [assumption |].
    destruct Hsame as (_ & _ & <- & _). assumption.
Qed.

(** The file [two.txt] has two numeric columns: [ProfileDataset] returns
    the profile of [ProfileCSV] with a correlation matrix, so the two
    results differ. *)
Lemma ProfileDataset_default_differs :
  @strings_ToLower Demo.lib (@filepath_Ext Demo.lib "two.txt") = ".txt"%string
  /\ exists profile profile',
       ProfileCSV (H := Demo.lib) "two.txt" = Ok profile
       /\ ProfileDataset (H := Demo.lib) "two.txt" = Ok profile'
       /\ DatasetProfile.CorrelationMatrix profile = None
       /\ is_Some (DatasetProfile.CorrelationMatrix profile')
       /\ ProfileDataset (H := Demo.lib) "two.txt" <> ProfileCSV (H := Demo.lib) "two.txt".
Proof.
  split; [reflexivity |].
  destruct (ProfileCSV (H := Demo.lib) "two.txt") as [profile | |] eqn:Hcsv;
    [| vm_compute in Hcsv; discriminate Hcsv | vm_compute in Hcsv; discriminate Hcsv].
  destruct (ProfileDataset (H := Demo.lib) "two.txt") as [profile' | |] eqn:Hds;
    [| vm_compute in Hds; discriminate Hds | vm_compute in Hds; discriminate Hds].
  exists profile, profile'.
  assert (H1 : DatasetProfile.CorrelationMatrix profile = None).
  { vm_compute in Hcsv. injection Hcsv as <-. reflexivity. }
  assert (H2 : is_Some (DatasetProfile.CorrelationMatrix profile')).
  { vm_compute in Hds. injection Hds as <-. eexists. reflexivity. }
  repeat split; try assumption.
  intros Heq. injection Heq as ->. rewrite H1 in H2. destruct H2 as [m Hm]. discriminate.
Qed.

Lemma ProfileDataset_default_witness :
  ProfileDataset_v1 (H := Demo.lib) "two.txt" = ProfileCSV (H := Demo.lib) "two.txt".
Proof.
  apply (ProfileDataset_default (H := Demo.lib) "two.txt"); discriminate.
Defined.

(** * Part III: further properties of the code *)

Section SortFacts.
Context {A : Type} (shift : A -> A -> bool).

Lemma insertKey_Permutation key prefix : insertKey shift key prefix ≡ₚ key :: prefix.
Proof.
  induction prefix as [| x rest IH]; cbn [insertKey]; [reflexivity |].
  destruct (shift x key); [| reflexivity].
  rewrite IH. apply Permutation_swap.
Qed.

Lemma insertionSort_Permutation s : insertionSort shift s ≡ₚ s.
Proof.
  unfold insertionSort. rewrite reverse_Permutation.
  assert (Hgen : forall prefix,
             foldl (fun prefix key => insertKey shift key prefix) prefix s ≡ₚ s ++ prefix).
  { induction s as [| key s IH]; intros prefix; cbn [foldl]; [reflexivity |].
    rewrite IH, insertKey_Permutation. symmetry. apply Permutation_middle. }
  rewrite (Hgen []), app_nil_r. reflexivity.
Qed.

Hypothesis shift_asym : forall a b, shift a b = true -> shift b a = false.

Lemma insertKey_Sorted key prefix :
  Sorted (fun a b => shift b a = false) prefix ->
  Sorted (fun a b => shift b a = false) (insertKey shift key prefix).
Proof.
  induction 1 as [| x rest Hs IH Hhd]; cbn [insertKey].
  - repeat constructor.
  - destruct (shift x key) eqn:Hx.
    + constructor; [exact IH |].
      destruct Hhd as [| y rest' Hy]; cbn [insertKey].
      * constructor. apply shift_asym, Hx.
      * destruct (shift y key); constructor; [exact Hy | apply shift_asym, Hx].
    + constructor; [constructor; assumption |]. constructor. exact Hx.
Qed.

Lemma insertionSort_Sorted s : Sorted (fun a b => shift a b = false) (insertionSort shift s).
Proof.
  unfold insertionSort.
  assert (Hgen : forall prefix,
             Sorted (fun a b => shift b a = false) prefix ->
             Sorted (fun a b => shift b a = false)
               (foldl (fun prefix key => insertKey shift key prefix) prefix s)).
  { induction s as [| key s IH]; intros prefix Hp; cbn [foldl]; [exact Hp |].
    apply IH, insertKey_Sorted, Hp. }
  apply (Sorted_reverse (fun a b => shift b a = false)), Hgen. constructor.
Qed.

End SortFacts.

Section TopValuesFacts.
Context `{GoLib}.

Lemma Sorted_counts_descending (l : list ValueCount.t) :
  Sorted (fun a b => (ValueCount.Count a <? ValueCount.Count b) = false) l ->
  StronglySorted (fun a b => ValueCount.Count b <= ValueCount.Count a) l.
Proof.
  intros Hs. apply Sorted_StronglySorted.
  - intros a b c Hab Hbc. lia.
  - induction Hs as [| x l Hs IH Hhd]; constructor; [exact IH |].
    destruct Hhd as [| y l' Hy]; constructor. apply Z.ltb_ge, Hy.
Qed.

(** All the entries of the map, most frequent first. *)
Lemma getTopValues_take (valueCounts : gmap string Z) (limit : Z) :
  0 <= limit ->
  exists all,
    getTopValues valueCounts limit = take (Z.to_nat limit) all
    /\ all ≡ₚ map (fun kv => ValueCount.mk (fst kv) (snd kv)) (map_to_list valueCounts)
    /\ StronglySorted (fun a b => ValueCount.Count b <= ValueCount.Count a) all.
Proof.
  intros Hlimit. unfold getTopValues.
  set (all := insertionSort _ _).
  exists all. split; [| split].
  - destruct (Z.ltb_spec limit (len all)) as [Hlt | Hge]; [reflexivity |].
    symmetry. apply take_ge. unfold len in Hge. lia.
  - unfold all. rewrite insertionSort_Permutation.
    apply fmap_Permutation, map_range_perm.
  - apply Sorted_counts_descending. unfold all.
    apply (insertionSort_Sorted
             (fun x key : ValueCount.t => ValueCount.Count x <? ValueCount.Count key)).
    intros a b Hab. apply Z.ltb_lt in Hab. apply Z.ltb_ge. lia.
Qed.

Lemma getTopValues_spec (valueCounts : gmap string Z) (limit : Z) :
  0 <= limit ->
  let topValues := getTopValues valueCounts limit in
  len topValues = Z.min limit (Z.of_nat (size valueCounts))
  /\ StronglySorted (fun a b => ValueCount.Count b <= ValueCount.Count a) topValues
  /\ NoDup (map ValueCount.Value topValues)
  /\ (forall vc, vc ∈ topValues ->
        valueCounts !! ValueCount.Value vc = Some (ValueCount.Count vc))
  /\ (forall value count,
        valueCounts !! value = Some count ->
        ValueCount.mk value count ∈ topValues
        \/ forall vc, vc ∈ topValues -> count <= ValueCount.Count vc).
Proof.
  intros Hlimit topValues. subst topValues.
  destruct (getTopValues_take valueCounts limit Hlimit) as (all & -> & Hperm & Hsorted).
  set (n := Z.to_nat limit).
  assert (Hall : all = take n all ++ drop n all) by (symmetry; apply take_drop).
  assert (Hin : forall vc, vc ∈ all <->
                  valueCounts !! ValueCount.Value vc = Some (ValueCount.Count vc)).
  { intros vc. rewrite Hperm. split.
    - intros Hvc. apply list_elem_of_fmap in Hvc as ([k c] & -> & Hkc).
      apply elem_of_map_to_list in Hkc. exact Hkc.
    - intros Hvc. apply list_elem_of_fmap. exists (ValueCount.Value vc, ValueCount.Count vc).
      split; [destruct vc; reflexivity | apply elem_of_map_to_list, Hvc]. }
  assert (Hnd : NoDup (map ValueCount.Value all)).
  { assert (Hkeys : map ValueCount.Value all ≡ₚ (map_to_list valueCounts).*1).
    { change (map ValueCount.Value all) with (ValueCount.Value <$> all).
      rewrite Hperm. rewrite <- list_fmap_compose. reflexivity. }
    rewrite Hkeys. apply NoDup_fst_map_to_list. }
  split; [| split; [| split; [| split]]].
  - unfold len. rewrite length_take.
    assert (Hlen : length all = size valueCounts).
    { rewrite Hperm, length_fmap. apply length_map_to_list. }
    rewrite Hlen. lia.
  - rewrite Hall in Hsorted. apply StronglySorted_app_1_l in Hsorted. exact Hsorted.
  - rewrite Hall in Hnd.
    change (map ValueCount.Value (take n all ++ drop n all))
      with (ValueCount.Value <$> (take n all ++ drop n all)) in Hnd.
    rewrite fmap_app in Hnd. apply NoDup_app in Hnd as [Hnd _]. exact Hnd.
  - intros vc Hvc. apply Hin. rewrite Hall. apply elem_of_app. left. exact Hvc.
  - intros value count Hlook.
    assert (Hmem : ValueCount.mk value count ∈ all) by (apply Hin; exact Hlook).
    rewrite Hall in Hmem. apply elem_of_app in Hmem as [Htop | Hrest]; [left; exact Htop |].
    right. intros vc Hvc. rewrite Hall in Hsorted.
    apply (StronglySorted_app_1_elem_of _ _ _ _ _ Hsorted Hvc Hrest).
Qed.

End TopValuesFacts.

(** ** The order of the comparisons of [float64] *)

Module F64Order.

Ltac compare_cases :=
  repeat match goal with
    | |- context [Z.compare ?a ?b] => destruct (Z.compare_spec a b); subst
    | H : context [Z.compare ?a ?b] |- _ => destruct (Z.compare_spec a b); subst
    | |- context [Pos.compare_cont Eq ?a ?b] =>
        change (Pos.compare_cont Eq a b) with (Pos.compare a b);
        destruct (Pos.compare_spec a b); subst
    | H : context [Pos.compare_cont Eq ?a ?b] |- _ =>
        change (Pos.compare_cont Eq a b) with (Pos.compare a b) in H;
        destruct (Pos.compare_spec a b); subst
    end.

Ltac by_cases :=
  unfold F64.ltb, F64.leb, F64.eqb, SFltb, SFleb, SFeqb, SFcompare;
  repeat match goal with
    | f : float64 |- _ => destruct f as [[] | [] | | [] ? ?]
    | f : spec_float |- _ => destruct f as [[] | [] | | [] ? ?]
    end;
  cbn [isNaN CompOpp]; intros; try reflexivity; try discriminate; try congruence;
  compare_cases; cbn [CompOpp] in *; try reflexivity; try discriminate; try lia.

Lemma ltb_asym (a b : float64) : F64.ltb a b = true -> F64.ltb b a = false.
Proof. by_cases. Qed.

Lemma ltb_leb (a b : float64) : F64.ltb a b = true -> F64.leb a b = true.
Proof. by_cases. Qed.

Lemma leb_refl (a : float64) : isNaN a = false -> F64.leb a a = true.
Proof. by_cases. Qed.

(** Without NaN, [a <= b] is the negation of [b < a]. *)
Lemma leb_ltb (a b : float64) :
  isNaN a = false -> isNaN b = false -> F64.leb a b = negb (F64.ltb b a).
Proof. by_cases. Qed.

Lemma leb_trans (a b c : float64) :
  F64.leb a b = true -> F64.leb b c = true -> F64.leb a c = true.
Proof. by_cases. Qed.

Lemma ltb_leb_trans (a b c : float64) :
  F64.ltb a b = true -> F64.leb b c = true -> F64.ltb a c = true.
Proof. by_cases. Qed.

Lemma leb_ltb_trans (a b c : float64) :
  F64.leb a b = true -> F64.ltb b c = true -> F64.ltb a c = true.
Proof. by_cases. Qed.

Lemma leb_not_nan (a b : float64) :
  F64.leb a b = true -> isNaN a = false /\ isNaN b = false.
Proof. by_cases; split; reflexivity. Qed.

Lemma ltb_not_nan (a b : float64) :
  F64.ltb a b = true -> isNaN a = false /\ isNaN b = false.
Proof. by_cases; split; reflexivity. Qed.

End F64Order.

Section NumericRangeFacts.
Context `{GoLib}.

(** After the first value, the loop keeps the least and the greatest of
    the values seen. *)
Lemma sumLoop_extrema numValues : forall i s,
  0 < i -> i + len numValues < 2 ^ 63 ->
  let s' := sumLoop numValues i s in
  (s_min s' = s_min s \/ s_min s' ∈ numValues)
  /\ (s_max s' = s_max s \/ s_max s' ∈ numValues)
  /\ (isNaN (s_min s) = false -> isNaN (s_max s) = false ->
      Forall (fun v => isNaN v = false) numValues ->
      F64.leb (s_min s') (s_min s) = true /\ F64.leb (s_max s) (s_max s') = true
      /\ Forall (fun v => F64.leb (s_min s') v = true /\ F64.leb v (s_max s') = true)
           numValues).
Proof.
  induction numValues as [| v rest IH]; intros i s Hi Hlen; cbn [sumLoop].
  - split; [left; reflexivity |]. split; [left; reflexivity |].
    intros Hmin Hmax _. split; [apply F64Order.leb_refl, Hmin |].
    split; [apply F64Order.leb_refl, Hmax | constructor].
  - unfold len in Hlen. cbn [length] in Hlen.
    destruct (Z.eqb_spec i 0) as [? | _]; [lia |]. cbn [orb].
    assert (Hadd : GoInt.add i 1 = i + 1).
    { unfold GoInt.add. apply GoIntFacts.wrap_small.
      unfold GoInt.in_range, GoInt.min_int, GoInt.max_int. lia. }
    rewrite Hadd.
    set (s1 := mkSums _ _ _ _).
    specialize (IH (i + 1) s1 ltac:(lia) ltac:(unfold len; lia)).
    cbv zeta in IH. destruct IH as (Hlo & Hhi & Hord).
    assert (Hlo1 : s_min s1 = s_min s \/ s_min s1 = v).
    { subst s1. cbn [s_min]. destruct (F64.ltb v (s_min s)); auto. }
    assert (Hhi1 : s_max s1 = s_max s \/ s_max s1 = v).
    { subst s1. cbn [s_max]. destruct (F64.ltb (s_max s) v); auto. }
    split; [| split].
    + destruct Hlo as [-> | Hlo]; [| right; apply elem_of_cons; right; exact Hlo].
      destruct Hlo1 as [-> | ->]; [left; reflexivity | right; apply elem_of_cons; auto].
    + destruct Hhi as [-> | Hhi]; [| right; apply elem_of_cons; right; exact Hhi].
      destruct Hhi1 as [-> | ->]; [left; reflexivity | right; apply elem_of_cons; auto].
    + intros Hmin Hmax Hnan. apply Forall_cons in Hnan as [Hv Hnan].
      assert (Hs1 : F64.leb (s_min s1) (s_min s) = true /\ F64.leb (s_min s1) v = true
                    /\ F64.leb (s_max s) (s_max s1) = true /\ F64.leb v (s_max s1) = true
                    /\ isNaN (s_min s1) = false /\ isNaN (s_max s1) = false).
      { subst s1. cbn [s_min s_max].
        destruct (F64.ltb v (s_min s)) eqn:Hlt1; destruct (F64.ltb (s_max s) v) eqn:Hlt2;
          repeat split;
          first [ assumption
                | apply F64Order.leb_refl; assumption
                | apply F64Order.ltb_leb; assumption
                | rewrite F64Order.leb_ltb by assumption; rewrite ?Hlt1, ?Hlt2; reflexivity ]. }
      destruct Hs1 as (H1 & H2 & H3 & H4 & H5 & H6).
      destruct (Hord H5 H6 Hnan) as (Ha & Hb & Hall).
      split; [eapply F64Order.leb_trans; eassumption |].
      split; [eapply F64Order.leb_trans; eassumption |].
      constructor; [split; eapply F64Order.leb_trans; eassumption | exact Hall].
Qed.

(** The extrema of a slice, as [calculateNumericStats] starts the loop. *)
Lemma sumLoop_first first rest :
  len (first :: rest) < 2 ^ 63 ->
  let s := sumLoop (first :: rest) 0 (mkSums F64.zero F64.zero first first) in
  s_min s ∈ first :: rest /\ s_max s ∈ first :: rest
  /\ (Forall (fun v => isNaN v = false) (first :: rest) ->
      Forall (fun v => F64.leb (s_min s) v = true /\ F64.leb v (s_max s) = true)
        (first :: rest)).
Proof.
  intros Hlen. cbn [sumLoop]. change (0 =? 0) with true. cbn [orb].
  change (GoInt.add 0 1) with 1.
  set (s1 := mkSums _ _ first first).
  unfold len in Hlen. cbn [length] in Hlen.
  pose proof (sumLoop_extrema rest 1 s1 ltac:(lia) ltac:(unfold len; lia)) as He.
  cbv zeta in He |- *. destruct He as (Hlo & Hhi & Hord).
  change (s_min s1) with first in *. change (s_max s1) with first in *.
  split; [| split].
  - apply elem_of_cons. destruct Hlo; auto.
  - apply elem_of_cons. destruct Hhi; auto.
  - intros Hnan. apply Forall_cons in Hnan as [Hf Hnan].
    destruct (Hord Hf Hf Hnan) as (Ha & Hb & Hall).
    constructor; [split; assumption | exact Hall].
Qed.

(** The bucket of NaN is the conversion of NaN. *)
Lemma bucketIndex_nan lo size : bucketIndex lo size S754_nan = GoInt.min_int.
Proof. reflexivity. Qed.

Lemma bucketIndex_nonneg_not_nan lo size v : 0 <= bucketIndex lo size v -> isNaN v = false.
Proof. destruct v; try reflexivity. rewrite bucketIndex_nan. unfold GoInt.min_int. lia. Qed.

(** The histogram loop returns only if every value has a bucket. *)
Lemma histogramLoop_Ok lo size numValues : forall buckets buckets',
  histogramLoop lo size numValues buckets = Ok buckets' ->
  Forall (fun v => 0 <= bucketIndex lo size v) numValues.
Proof.
  induction numValues as [| v rest IH]; intros buckets buckets' Hh; [constructor |].
  cbn [histogramLoop] in Hh.
  destruct (countInBucket buckets (bucketIndex lo size v)) as [b1 | |] eqn:Hc;
    cbn [bind] in Hh; try discriminate Hh.
  constructor; [| apply (IH _ _ Hh)].
  unfold countInBucket in Hc.
  destruct (index buckets (bucketIndex lo size v)) as [b | |] eqn:Hi;
    cbn [bind] in Hc; try discriminate Hc.
  apply index_Ok in Hi. apply Hi.
Qed.

(** What [calculateNumericStats] returns, step by step. *)
Lemma calculateNumericStats_Ok col values col' :
  calculateNumericStats col values = Ok col' ->
  parseValues values <> [] ->
  exists first rest sorted m buckets,
    parseValues values = first :: rest
    /\ sorted = insertionSort (fun x key => F64.ltb key x) (first :: rest)
    /\ median sorted = Ok m
    /\ let s := sumLoop (first :: rest) 0 (mkSums F64.zero F64.zero first first) in
       let n := F64.of_int (len (first :: rest)) in
       let mean := F64.div (s_sum s) n in
       let stdDev :=
         F64.sqrt (F64.sub (F64.div (s_sumSquares s) n) (F64.mul mean mean)) in
       let bucketSize := F64.div (F64.sub (s_max s) (s_min s)) (F64.of_int bucketCount) in
       let outlierCount := countOutliers mean stdDev sorted in
       histogramLoop (s_min s) bucketSize sorted (makeBuckets (s_min s) (s_max s) bucketSize)
       = Ok buckets
       /\ col' = ColumnProfile.mk
                   (ColumnProfile.Name col) (ColumnProfile.DataType col)
                   (ColumnProfile.Count col) (ColumnProfile.MissingCount col)
                   (ColumnProfile.UniqueCount col) (Some (s_min s)) (Some (s_max s))
                   mean m stdDev buckets (ColumnProfile.TopValues col)
                   (ColumnProfile.IsNumeric col) (ColumnProfile.IsCategorical col)
                   (ColumnProfile.IsDateTime col) (ColumnProfile.IsUnique col)
                   (if 0 <? outlierCount
                    then ColumnProfile.QualityIssues col
                         ++ [outlierIssue outlierCount (len sorted)]
                    else ColumnProfile.QualityIssues col).
Proof.
  unfold calculateNumericStats. intros Hc Hne.
  destruct (parseValues values) as [| first rest] eqn:Hp; [congruence |].
  destruct (Z.eqb_spec (len (first :: rest)) 0) as [H0 | _];
    [unfold len in H0; cbn [length] in H0; lia |].
  change (index (first :: rest) 0) with (Ok first) in Hc. cbn [bind] in Hc.
  destruct (median _) as [m | |] eqn:Hm; cbn [bind] in Hc; try discriminate Hc.
  destruct (histogramLoop _ _ _ _) as [buckets | |] eqn:Hh; cbn [bind] in Hc;
    try discriminate Hc.
  injection Hc as <-.
  exists first, rest, (insertionSort (fun x key => F64.ltb key x) (first :: rest)), m, buckets.
  split; [reflexivity |]. split; [reflexivity |]. split; [exact Hm |].
  cbv zeta. split; [exact Hh | reflexivity].
Qed.

(** A column that [calculateNumericStats] accepts holds no NaN. *)
Lemma calculateNumericStats_Ok_not_nan col values col' :
  calculateNumericStats col values = Ok col' ->
  Forall (fun v => isNaN v = false) (parseValues values).
Proof.
  intros Hc.
  destruct (parseValues values) as [| first rest] eqn:Hp; [constructor |].
  destruct (calculateNumericStats_Ok col values col' Hc ltac:(congruence))
    as (first' & rest' & sorted & m & buckets & Hp' & Hs & _ & Hrest).
  rewrite Hp in Hp'. injection Hp' as <- <-.
  cbv zeta in Hrest. destruct Hrest as [Hh _].
  apply histogramLoop_Ok in Hh.
  assert (Hsorted : Forall (fun v => isNaN v = false) sorted).
  { eapply Forall_impl; [exact Hh |]. intros v. apply bucketIndex_nonneg_not_nan. }
  rewrite Hs, insertionSort_Permutation in Hsorted. exact Hsorted.
Qed.

Lemma calculateNumericStats_extrema col values col' :
  len values < 2 ^ 63 ->
  parseValues values <> [] ->
  calculateNumericStats col values = Ok col' ->
  exists lo hi,
    ColumnProfile.Min col' = Some lo /\ ColumnProfile.Max col' = Some hi
    /\ lo ∈ parseValues values /\ hi ∈ parseValues values
    /\ forall v, v ∈ parseValues values -> F64.leb lo v = true /\ F64.leb v hi = true.
Proof.
  intros Hlen Hne Hc.
  pose proof (calculateNumericStats_Ok_not_nan col values col' Hc) as Hnan.
  pose proof (parseValues_length values) as Hpl.
  destruct (calculateNumericStats_Ok col values col' Hc Hne)
    as (first & rest & sorted & m & buckets & Hp & _ & _ & Hrest).
  cbv zeta in Hrest. destruct Hrest as [_ ->]. rewrite Hp in *.
  destruct (sumLoop_first first rest ltac:(unfold len in *; lia)) as (Hlo & Hhi & Hall).
  cbv zeta in Hlo, Hhi, Hall.
  eexists _, _. split; [reflexivity |]. split; [reflexivity |].
  split; [exact Hlo |]. split; [exact Hhi |].
  intros v Hv. specialize (Hall Hnan). rewrite Forall_forall in Hall. apply Hall, Hv.
Qed.

(** A NaN among the values makes the histogram loop panic. *)
Lemma calculateNumericStats_nan col values :
  len values < 2 ^ 63 ->
  S754_nan ∈ parseValues values ->
  exists p, calculateNumericStats col values = Panic p /\ negative_index p.
Proof.
  intros Hlen Hin.
  assert (Hne : parseValues values <> []).
  { intros Hnil. rewrite Hnil in Hin. apply elem_of_nil in Hin. exact Hin. }
  pose proof (calculateNumericStats_cases col values Hlen Hne) as Hcases.
  destruct (calculateNumericStats col values) as [col' | e | p] eqn:Hc.
  - exfalso. pose proof (calculateNumericStats_Ok_not_nan col values col' Hc) as Hnan.
    rewrite Forall_forall in Hnan. specialize (Hnan _ Hin). discriminate Hnan.
  - contradiction.
  - exists p. split; [reflexivity | exact Hcases].
Qed.

End NumericRangeFacts.

Section MedianFacts.
Context `{GoLib}.

(** Without NaN the insertion sort of the values is in ascending order. *)
Lemma insertionSort_ascending (numValues : list float64) :
  Forall (fun v => isNaN v = false) numValues ->
  StronglySorted (fun a b => F64.leb a b = true)
    (insertionSort (fun x key => F64.ltb key x) numValues).
Proof.
  intros Hnan.
  pose proof (insertionSort_Sorted (fun x key : float64 => F64.ltb key x)
                ltac:(intros a b; apply F64Order.ltb_asym) numValues) as Hs.
  assert (Hnan' : Forall (fun v => isNaN v = false)
                    (insertionSort (fun x key => F64.ltb key x) numValues)).
  { rewrite insertionSort_Permutation. exact Hnan. }
  set (sorted := insertionSort _ numValues) in *. clearbody sorted.
  apply Sorted_StronglySorted.
  - intros a b c. apply F64Order.leb_trans.
  - induction Hs as [| x l Hs IH Hhd]; constructor.
    + apply IH. apply Forall_cons in Hnan' as [_ Hl]. exact Hl.
    + apply Forall_cons in Hnan' as [Hx Hl].
      destruct Hhd as [| y l' Hy]; constructor.
      apply Forall_cons in Hl as [Hy' _].
      rewrite F64Order.leb_ltb by assumption. cbv beta in Hy. rewrite Hy. reflexivity.
Qed.

(** The median is the middle value, or the mean of the two middle
    values. *)
Lemma median_Ok (sorted : list float64) (m : float64) :
  len sorted < 2 ^ 63 ->
  median sorted = Ok m ->
  let mid := Z.to_nat (len sorted / 2) in
  if Z.even (len sorted)
  then exists a b, sorted !! (mid - 1)%nat = Some a /\ sorted !! mid = Some b
                   /\ (1 <= mid)%nat
                   /\ m = F64.div (F64.add a b) (F64.of_int 2)
  else sorted !! mid = Some m.
Proof.
  intros Hlen Hm. cbv zeta. unfold median in Hm.
  assert (H0 : 0 <= len sorted) by (unfold len; lia).
  rewrite Z.quot_div_nonneg in Hm by lia.
  rewrite Z.rem_mod_nonneg in Hm by lia.
  rewrite Zeven_mod.
  destruct (Z.eqb_spec (len sorted mod 2) 0) as [Heven | Hodd].
  - destruct (index sorted (GoInt.sub (len sorted / 2) 1)) as [a | |] eqn:Ha;
      cbn [bind] in Hm; try discriminate Hm.
    destruct (index sorted (len sorted / 2)) as [b | |] eqn:Hb;
      cbn [bind] in Hm; try discriminate Hm.
    injection Hm as <-.
    apply index_Ok in Ha as [Ha0 Ha]. apply index_Ok in Hb as [Hb0 Hb].
    pose proof (Z.div_mod (len sorted) 2 ltac:(lia)) as Hdm.
    assert (Hsub : GoInt.sub (len sorted / 2) 1 = len sorted / 2 - 1).
    { unfold GoInt.sub. apply GoIntFacts.wrap_small.
      unfold GoInt.in_range, GoInt.min_int, GoInt.max_int. lia. }
    rewrite Hsub in Ha, Ha0.
    exists a, b.
    replace (Z.to_nat (len sorted / 2) - 1)%nat with (Z.to_nat (len sorted / 2 - 1)) by lia.
    repeat split; try assumption. lia.
  - apply index_Ok in Hm as [_ Hm]. exact Hm.
Qed.

Lemma calculateNumericStats_median col values col' :
  len values < 2 ^ 63 ->
  parseValues values <> [] ->
  calculateNumericStats col values = Ok col' ->
  exists sorted,
    sorted ≡ₚ parseValues values
    /\ StronglySorted (fun a b => F64.leb a b = true) sorted
    /\ let mid := Z.to_nat (len sorted / 2) in
       if Z.even (len sorted)
       then exists a b, sorted !! (mid - 1)%nat = Some a /\ sorted !! mid = Some b
                        /\ (1 <= mid)%nat
                        /\ ColumnProfile.Median col' = F64.div (F64.add a b) (F64.of_int 2)
       else sorted !! mid = Some (ColumnProfile.Median col').
Proof.
  intros Hlen Hne Hc.
  pose proof (calculateNumericStats_Ok_not_nan col values col' Hc) as Hnan.
  pose proof (parseValues_length values) as Hpl.
  destruct (calculateNumericStats_Ok col values col' Hc Hne)
    as (first & rest & sorted & m & buckets & Hp & Hs & Hm & Hrest).
  cbv zeta in Hrest. destruct Hrest as [_ ->]. cbn [ColumnProfile.Median].
  rewrite Hp in *. exists sorted.
  assert (Hperm : sorted ≡ₚ first :: rest) by (rewrite Hs; apply insertionSort_Permutation).
  split; [exact Hperm |]. split.
  - rewrite Hs. apply insertionSort_ascending, Hnan.
  - apply median_Ok; [| exact Hm].
    unfold len in *. rewrite Hperm. lia.
Qed.

End MedianFacts.

(** ** calculatePearsonCorrelation *)

Section PearsonFacts.

Lemma F64_mul_comm (a b : float64) : F64.mul a b = F64.mul b a.
Proof.
  unfold F64.mul, SFmul.
  destruct a as [sa | sa | | sa ma ea], b as [sb | sb | | sb mb eb];
    rewrite ?(xorb_comm sa sb); try reflexivity.
  rewrite (Pos.mul_comm ma mb), (Z.add_comm ea eb). reflexivity.
Qed.

Lemma index_in_range {A : Type} (s : list A) (i : Z) :
  0 <= i < len s -> exists a, index s i = Ok a /\ s !! Z.to_nat i = Some a.
Proof.
  intros Hi. unfold len in Hi.
  destruct (lookup_lt_is_Some_2 s (Z.to_nat i) ltac:(lia)) as [a Ha].
  exists a. split; [| exact Ha].
  rewrite <- (Z2Nat.id i) by lia. apply index_lookup, Ha.
Qed.

(** Two slices of one length fail at the same indices. *)
Lemma index_same_length {A : Type} (x y : list A) (i : Z) :
  len x = len y ->
  match index x i, index y i with
  | Ok _, Ok _ => True
  | Panic p, Panic q => p = q
  | _, _ => False
  end.
Proof.
  intros Hlen. unfold index. rewrite <- Hlen.
  destruct ((0 <=? i) && (i <? len x)) eqn:Hi; [| reflexivity].
  apply andb_prop in Hi as [H0 H1]. apply Z.leb_le in H0. apply Z.ltb_lt in H1.
  destruct (index_in_range x i ltac:(lia)) as (a & _ & ->).
  destruct (index_in_range y i ltac:(lia)) as (b & _ & ->). exact I.
Qed.

(** The number of points the sampling loop takes from the index [i] on. *)
Lemma downSample_spec (x y : list float64) (n step : Z) :
  len x = n -> len y = n -> 1 <= step -> n + step < 2 ^ 63 ->
  forall (fuel : nat) (i : Z) (sampled : list float64 * list float64),
    0 <= i ->
    let count := if i <? n then (n - i - 1) / step + 1 else 0 in
    count <= Z.of_nat fuel ->
    exists sx sy,
      downSample x y n step fuel i sampled = Ok (fst sampled ++ sx, snd sampled ++ sy)
      /\ len sx = count /\ len sy = count
      /\ forall k : nat, Z.of_nat k < count ->
           sx !! k = x !! Z.to_nat (i + Z.of_nat k * step)
           /\ sy !! k = y !! Z.to_nat (i + Z.of_nat k * step).
Proof.
  intros Hx Hy Hstep Hn.
  induction fuel as [| fuel IH]; intros i sampled Hi count Hfuel; subst count.
  - destruct (Z.ltb_spec i n) as [Hlt | Hge].
    + assert (0 <= (n - i - 1) / step) by (apply Z.div_pos; lia). lia.
    + exists [], []. cbn [downSample]. rewrite !app_nil_r.
      split; [destruct sampled; reflexivity |].
      split; [reflexivity |]. split; [reflexivity |]. intros k Hk. lia.
  - cbn [downSample]. destruct (Z.ltb_spec i n) as [Hlt | Hge].
    + destruct (index_in_range x i ltac:(lia)) as (xi & -> & Hxi).
      destruct (index_in_range y i ltac:(lia)) as (yi & -> & Hyi).
      cbn [bind].
      assert (Hadd : GoInt.add i step = i + step).
      { unfold GoInt.add. apply GoIntFacts.wrap_small.
        unfold GoInt.in_range, GoInt.min_int, GoInt.max_int. lia. }
      rewrite Hadd.
      assert (Hcount : (n - i - 1) / step
                       = if i + step <? n then (n - (i + step) - 1) / step + 1 else 0).
      { destruct (Z.ltb_spec (i + step) n) as [Hlt' | Hge'].
        - replace (n - i - 1) with ((n - (i + step) - 1) + 1 * step) by lia.
          rewrite Z.div_add by lia. reflexivity.
        - apply Z.div_small. lia. }
      destruct (IH (i + step) (fst sampled ++ [xi], snd sampled ++ [yi]) ltac:(lia)
                  ltac:(rewrite <- Hcount; lia))
        as (sx & sy & -> & Hlx & Hly & Hk).
      cbn [fst snd]. rewrite <- Hcount in Hlx, Hly, Hk.
      exists (xi :: sx), (yi :: sy). rewrite <- !app_assoc. cbn [app].
      split; [reflexivity |].
      unfold len in *. cbn [length].
      split; [lia |]. split; [lia |].
      intros [| k] Hlt''.
      * change ((xi :: sx) !! 0%nat) with (Some xi).
        change ((yi :: sy) !! 0%nat) with (Some yi).
        rewrite Z.mul_0_l, Z.add_0_r. auto.
      * change ((xi :: sx) !! S k) with (sx !! k).
        change ((yi :: sy) !! S k) with (sy !! k).
        destruct (Hk k ltac:(lia)) as [-> ->].
        replace (i + step + Z.of_nat k * step) with (i + Z.of_nat (S k) * step) by lia.
        auto.
    + exists [], []. rewrite !app_nil_r.
      split; [destruct sampled; reflexivity |].
      split; [reflexivity |]. split; [reflexivity |]. intros k Hk. lia.
Qed.

Lemma sumsLoop_total (x y : list float64) :
  len x = len y -> len x < 2 ^ 63 ->
  forall (left : nat) (i : nat) (s : pearsonSums),
    (i + left <= length x)%nat ->
    exists s', sumsLoop x y left (Z.of_nat i) s = Ok s'.
Proof.
  intros Hlen Hmax. induction left as [| left IH]; intros i s Hi; cbn [sumsLoop].
  - eauto.
  - unfold len in *.
    destruct (index_in_range x (Z.of_nat i) ltac:(unfold len; lia)) as (xi & -> & _).
    destruct (index_in_range y (Z.of_nat i) ltac:(unfold len; lia)) as (yi & -> & _).
    cbn [bind].
    assert (Hadd : GoInt.add (Z.of_nat i) 1 = Z.of_nat (S i)).
    { unfold GoInt.add. rewrite GoIntFacts.wrap_small; [lia |].
      unfold GoInt.in_range, GoInt.min_int, GoInt.max_int. lia. }
    rewrite Hadd. apply IH. lia.
Qed.

(** The size of the sample of a long series. *)
Lemma sample_size_bounds n :
  10000 < n -> 10000 <= (n - 1) / (n / 10000) + 1 < 20000.
Proof.
  intros Hn.
  pose proof (Z.div_mod n 10000 ltac:(lia)) as Hdm.
  pose proof (Z.mod_pos_bound n 10000 ltac:(lia)) as Hr.
  set (step := n / 10000) in *. set (r := n mod 10000) in *.
  assert (Hstep : 1 <= step).
  { subst step. apply Z.div_le_lower_bound; lia. }
  split.
  - assert (9999 <= (n - 1) / step); [| lia].
    apply Z.div_le_lower_bound; [lia |]. nia.
  - assert ((n - 1) / step < 19999); [| lia].
    apply Z.div_lt_upper_bound; [lia |]. nia.
Qed.

Lemma calculatePearsonCorrelation_total (x y : list float64) :
  len x < 2 ^ 62 -> exists r, calculatePearsonCorrelation x y = Ok r.
Proof.
  intros Hmax. unfold calculatePearsonCorrelation.
  destruct (Z.eqb_spec (len x) (len y)) as [Hlen | Hne]; cbn [negb orb]; [| eauto].
  destruct (Z.eqb_spec (len x) 0) as [H0 | Hn0]; [eauto |].
  assert (Hpos : 0 < len x) by (unfold len in *; lia).
  assert (Hfinish : forall (x' y' : list float64),
             len x' = len y' -> len x' < 2 ^ 63 ->
             exists r,
               (s <- sumsLoop x' y' (Z.to_nat (len x')) 0
                       (mkPearsonSums F64.zero F64.zero F64.zero F64.zero F64.zero) ;;
                let nFloat := F64.of_int (len x') in
                let numerator :=
                  F64.sub (F64.mul nFloat (sumXY s)) (F64.mul (sumX s) (sumY s)) in
                let denominator :=
                  F64.sqrt
                    (F64.mul (F64.sub (F64.mul nFloat (sumX2 s)) (F64.mul (sumX s) (sumX s)))
                       (F64.sub (F64.mul nFloat (sumY2 s)) (F64.mul (sumY s) (sumY s)))) in
                if F64.eqb denominator F64.zero then Ok F64.zero
                else Ok (F64.div numerator denominator)) = Ok r).
  { intros x' y' Hl Hm.
    destruct (sumsLoop_total x' y' Hl Hm (Z.to_nat (len x')) 0
                (mkPearsonSums F64.zero F64.zero F64.zero F64.zero F64.zero)
                ltac:(unfold len; lia)) as [s Hs].
    change (Z.of_nat 0) with 0 in Hs. rewrite Hs. cbn [bind]. cbv zeta.
    destruct (F64.eqb _ _); eauto. }
  destruct (Z.ltb_spec 10000 (len x)) as [Hbig | Hsmall].
  - set (step0 := Z.quot (len x) 10000).
    assert (Hq : step0 = len x / 10000) by (apply Z.quot_div_nonneg; lia).
    assert (Hstep : 1 <= step0).
    { rewrite Hq. apply Z.div_le_lower_bound; lia. }
    destruct (Z.ltb_spec step0 1) as [? | _]; [lia |].
    assert (Hle : step0 <= len x).
    { rewrite Hq. apply Z.div_le_upper_bound; lia. }
    pose proof (Z.div_pos (len x - 0 - 1) step0 ltac:(lia) ltac:(lia)) as Hnn.
    assert (Hub : (len x - 0 - 1) / step0 < len x).
    { apply Z.div_lt_upper_bound; nia. }
    destruct (downSample_spec x y (len x) step0 eq_refl (eq_sym Hlen) Hstep ltac:(lia)
                (Z.to_nat (len x)) 0 ([], []) ltac:(lia)) as (sx & sy & Hds & Hlx & Hly & _).
    { destruct (Z.ltb_spec 0 (len x)); lia. }
    rewrite Hds. cbn [bind fst snd app].
    destruct (Z.ltb_spec 0 (len x)) as [_ | ?]; [| lia].
    apply Hfinish; lia.
  - cbn [bind]. apply Hfinish; [exact Hlen | lia].
Qed.

End PearsonFacts.

Section PearsonSymmetry.

Lemma downSample_swap (x y : list float64) (n step : Z) :
  len x = len y ->
  forall (fuel : nat) (i : Z) (a b : list float64),
    match downSample x y n step fuel i (a, b) with
    | Ok (sx, sy) => downSample y x n step fuel i (b, a) = Ok (sy, sx)
    | Err e => downSample y x n step fuel i (b, a) = Err e
    | Panic p => downSample y x n step fuel i (b, a) = Panic p
    end.
Proof.
  intros Hlen. induction fuel as [| fuel IH]; intros i a b; cbn [downSample].
  - reflexivity.
  - destruct (i <? n); [| reflexivity].
    pose proof (index_same_length x y i Hlen) as Hi.
    destruct (index x i) as [xi | |], (index y i) as [yi | |]; try contradiction;
      cbn [bind fst snd].
    + apply IH.
    + congruence.
Qed.

Lemma sumsLoop_swap (x y : list float64) :
  len x = len y ->
  forall (left : nat) (i : Z) (s : pearsonSums),
    match sumsLoop x y left i s with
    | Ok s' =>
        sumsLoop y x left i (mkPearsonSums (sumY s) (sumX s) (sumXY s) (sumY2 s) (sumX2 s))
        = Ok (mkPearsonSums (sumY s') (sumX s') (sumXY s') (sumY2 s') (sumX2 s'))
    | Err e =>
        sumsLoop y x left i (mkPearsonSums (sumY s) (sumX s) (sumXY s) (sumY2 s) (sumX2 s))
        = Err e
    | Panic p =>
        sumsLoop y x left i (mkPearsonSums (sumY s) (sumX s) (sumXY s) (sumY2 s) (sumX2 s))
        = Panic p
    end.
Proof.
  intros Hlen. induction left as [| left IH]; intros i s; cbn [sumsLoop].
  - reflexivity.
  - pose proof (index_same_length x y i Hlen) as Hi.
    destruct (index x i) as [xi | |], (index y i) as [yi | |]; try contradiction;
      cbn [bind].
    + cbn [sumX sumY sumXY sumX2 sumY2]. rewrite (F64_mul_comm yi xi).
      apply (IH (GoInt.add i 1)
               (mkPearsonSums (F64.add (sumX s) xi) (F64.add (sumY s) yi)
                  (F64.add (sumXY s) (F64.mul xi yi))
                  (F64.add (sumX2 s) (F64.mul xi xi))
                  (F64.add (sumY2 s) (F64.mul yi yi)))).
    + congruence.
Qed.

Lemma calculatePearsonCorrelation_sym (x y : list float64) :
  calculatePearsonCorrelation x y = calculatePearsonCorrelation y x.
Proof.
  unfold calculatePearsonCorrelation.
  rewrite (Z.eqb_sym (len y) (len x)).
  destruct (Z.eqb_spec (len x) (len y)) as [Hlen | Hne]; cbn [negb orb]; [| reflexivity].
  rewrite <- Hlen.
  destruct (len x =? 0); [reflexivity |].
  assert (Hfinish : forall (x' y' : list float64) (n : Z),
             len x' = len y' ->
             (s <- sumsLoop x' y' (Z.to_nat n) 0
                     (mkPearsonSums F64.zero F64.zero F64.zero F64.zero F64.zero) ;;
              let nFloat := F64.of_int n in
              let numerator :=
                F64.sub (F64.mul nFloat (sumXY s)) (F64.mul (sumX s) (sumY s)) in
              let denominator :=
                F64.sqrt
                  (F64.mul (F64.sub (F64.mul nFloat (sumX2 s)) (F64.mul (sumX s) (sumX s)))
                     (F64.sub (F64.mul nFloat (sumY2 s)) (F64.mul (sumY s) (sumY s)))) in
              if F64.eqb denominator F64.zero then Ok F64.zero
              else Ok (F64.div numerator denominator))
             = (s <- sumsLoop y' x' (Z.to_nat n) 0
                       (mkPearsonSums F64.zero F64.zero F64.zero F64.zero F64.zero) ;;
                let nFloat := F64.of_int n in
                let numerator :=
                  F64.sub (F64.mul nFloat (sumXY s)) (F64.mul (sumX s) (sumY s)) in
                let denominator :=
                  F64.sqrt
                    (F64.mul (F64.sub (F64.mul nFloat (sumX2 s)) (F64.mul (sumX s) (sumX s)))
                       (F64.sub (F64.mul nFloat (sumY2 s)) (F64.mul (sumY s) (sumY s)))) in
                if F64.eqb denominator F64.zero then Ok F64.zero
                else Ok (F64.div numerator denominator))).
  { intros x' y' n Hl.
    pose proof (sumsLoop_swap x' y' Hl (Z.to_nat n) 0
                  (mkPearsonSums F64.zero F64.zero F64.zero F64.zero F64.zero)) as Hs.
    cbn [sumX sumY sumXY sumX2 sumY2] in Hs.
    destruct (sumsLoop x' y' (Z.to_nat n) 0 _) as [s | e | p]; rewrite Hs; cbn [bind];
      [| reflexivity | reflexivity].
    cbv zeta. cbn [sumX sumY sumXY sumX2 sumY2].
    rewrite (F64_mul_comm (sumY s) (sumX s)).
    rewrite (F64_mul_comm (F64.sub (F64.mul (F64.of_int n) (sumY2 s)) _)
               (F64.sub (F64.mul (F64.of_int n) (sumX2 s)) _)).
    reflexivity. }
  destruct (10000 <? len x).
  - pose proof (downSample_swap x y (len x)
                  (if Z.quot (len x) 10000 <? 1 then 1 else Z.quot (len x) 10000)
                  Hlen (Z.to_nat (len x)) 0 [] []) as Hd.
    destruct (downSample x y _ _ _ _ _) as [[sx sy] | e | p]; rewrite Hd; cbn [bind fst snd];
      [| reflexivity | reflexivity].
    destruct (Z.eq_dec (len sx) (len sy)) as [Hl | Hl].
    + rewrite <- Hl. apply Hfinish, Hl.
    + (* the two samples have one length *)
      exfalso. apply Hl. clear -Hd Hlen.
      assert (Hgen : forall fuel i a b sx sy,
                 length a = length b ->
                 downSample y x (len x)
                   (if Z.quot (len x) 10000 <? 1 then 1 else Z.quot (len x) 10000)
                   fuel i (b, a) = Ok (sy, sx) ->
                 length sx = length sy).
      { induction fuel as [| fuel IH]; intros i a b sx' sy' Hab; cbn [downSample].
        - intros Hq. injection Hq as <- <-. exact Hab.
        - destruct (i <? len x); [| intros Hq; injection Hq as <- <-; exact Hab].
          destruct (index y i) as [yi | |]; cbn [bind]; try discriminate.
          destruct (index x i) as [xi | |]; cbn [bind]; try discriminate.
          cbn [fst snd]. apply IH. rewrite !length_app. cbn [length]. lia. }
      unfold len. f_equal. apply (Hgen _ _ [] [] sx sy eq_refl Hd).
  - cbn [bind]. apply Hfinish, Hlen.
Qed.

End PearsonSymmetry.

(** ** The order of strings *)

Section StringOrder.

Lemma Ascii_compare_trans (a b c : ascii) (r : comparison) :
  r <> Eq -> Ascii.compare a b = r -> Ascii.compare b c = r -> Ascii.compare a c = r.
Proof.
  unfold Ascii.compare. intros Hr Hab Hbc.
  destruct r; [congruence | |].
  - apply N.compare_lt_iff in Hab. apply N.compare_lt_iff in Hbc.
    apply N.compare_lt_iff. eapply N.lt_trans; eassumption.
  - apply N.compare_gt_iff in Hab. apply N.compare_gt_iff in Hbc.
    apply N.compare_gt_iff. eapply N.lt_trans; eassumption.
Qed.

Lemma Ascii_compare_Eq (a b : ascii) : Ascii.compare a b = Eq -> a = b.
Proof. apply Ascii.compare_eq_iff. Qed.

Lemma String_compare_Lt_trans (a b c : string) :
  String.compare a b = Lt -> String.compare b c = Lt -> String.compare a c = Lt.
Proof.
  revert b c. induction a as [| x a IH]; intros [| y b] [| z c]; cbn [String.compare];
    try discriminate; try reflexivity.
  destruct (Ascii.compare x y) eqn:Hxy; try discriminate.
  - apply Ascii_compare_Eq in Hxy. subst y.
    destruct (Ascii.compare x z) eqn:Hxz; try discriminate; [apply IH | reflexivity].
  - intros _. destruct (Ascii.compare y z) eqn:Hyz; try discriminate.
    + apply Ascii_compare_Eq in Hyz. subst z. rewrite Hxy. reflexivity.
    + intros _. rewrite (Ascii_compare_trans x y z Lt); [reflexivity | discriminate | | ];
        assumption.
Qed.

Lemma String_ltb_trans (a b c : string) :
  String.ltb a b = true -> String.ltb b c = true -> String.ltb a c = true.
Proof.
  unfold String.ltb. intros Hab Hbc.
  destruct (String.compare a b) eqn:Eab; try discriminate.
  destruct (String.compare b c) eqn:Ebc; try discriminate.
  rewrite (String_compare_Lt_trans a b c Eab Ebc). reflexivity.
Qed.

Lemma String_ltb_asym (a b : string) : String.ltb a b = true -> String.ltb b a = false.
Proof.
  unfold String.ltb. rewrite (String.compare_antisym a b).
  destruct (String.compare b a); cbn; congruence.
Qed.

Lemma String_ltb_irrefl (a : string) : String.ltb a a = false.
Proof.
  destruct (String.ltb a a) eqn:Ha; [| reflexivity].
  rewrite (String_ltb_asym a a Ha) in Ha. discriminate.
Qed.

(** Two different strings are ordered one way or the other. *)
Lemma String_ltb_total (a b : string) :
  a <> b -> String.ltb b a = false -> String.ltb a b = true.
Proof.
  unfold String.ltb. rewrite (String.compare_antisym a b). intros Hne.
  destruct (String.compare b a) eqn:Hba; cbn; try congruence.
  apply String.compare_eq_iff in Hba. congruence.
Qed.

(** The insertion sort of distinct names is strictly ascending. *)
Lemma insertionSort_names (names : list string) :
  NoDup names ->
  StronglySorted (fun a b => String.ltb a b = true)
    (insertionSort (fun x key => String.ltb key x) names).
Proof.
  intros Hnd.
  pose proof (insertionSort_Sorted (fun x key : string => String.ltb key x)
                ltac:(intros a b; apply String_ltb_asym) names) as Hs.
  assert (Hnd' : NoDup (insertionSort (fun x key => String.ltb key x) names)).
  { rewrite insertionSort_Permutation. exact Hnd. }
  set (sorted := insertionSort _ names) in *. clearbody sorted.
  apply Sorted_StronglySorted.
  - intros a b c. apply String_ltb_trans.
  - induction Hs as [| x l Hs IH Hhd]; constructor.
    + apply IH. apply NoDup_cons in Hnd' as [_ Hl]. exact Hl.
    + apply NoDup_cons in Hnd' as [Hx Hl].
      destruct Hhd as [| y l' Hy]; constructor.
      apply String_ltb_total; [| exact Hy].
      intros ->. apply Hx. apply elem_of_cons. left. reflexivity.
Qed.

Lemma StronglySorted_ltb_NoDup (names : list string) :
  StronglySorted (fun a b => String.ltb a b = true) names -> NoDup names.
Proof.
  induction 1 as [| x l Hs IH Hall]; constructor; [| exact IH].
  intros Hx. rewrite Forall_forall in Hall. specialize (Hall x Hx).
  rewrite String_ltb_irrefl in Hall. discriminate.
Qed.

End StringOrder.

(** ** The correlation matrix *)

Section MatrixFacts.
Context `{GoLib}.

Lemma getValue_setValue values col1 col2 x a b :
  getValue (setValue values col1 col2 x) a b
  = if decide (a = col1 /\ b = col2) then x else getValue values a b.
Proof.
  unfold getValue, setValue.
  destruct (decide (a = col1)) as [-> | Ha].
  - rewrite lookup_insert_eq. cbn [default id].
    destruct (decide (b = col2)) as [-> | Hb].
    + rewrite lookup_insert_eq. rewrite decide_True by auto. reflexivity.
    + rewrite lookup_insert_ne by congruence.
      rewrite decide_False by (intros [_ ?]; contradiction). reflexivity.
  - rewrite lookup_insert_ne by congruence.
    rewrite decide_False by (intros [? _]; contradiction). reflexivity.
Qed.

(** The matrix starts with zeros. *)
Lemma initial_row (cols : list string) : forall (row : gmap string float64) (b : string),
  default F64.zero (row !! b) = F64.zero ->
  default F64.zero (foldl (fun row col2 => <[col2 := F64.zero]> row) row cols !! b) = F64.zero.
Proof.
  induction cols as [| c cols IH]; intros row b Hrow; cbn [foldl]; [exact Hrow |].
  apply IH. destruct (decide (b = c)) as [-> | Hne].
  - rewrite lookup_insert_eq. reflexivity.
  - rewrite lookup_insert_ne by congruence. exact Hrow.
Qed.

Lemma initial_values (cols rows : list string) :
  forall (values : gmap string (gmap string float64)),
    (forall a b, getValue values a b = F64.zero) ->
    forall a b,
      getValue
        (foldl (fun values col1 =>
                  <[col1 := foldl (fun row col2 => <[col2 := F64.zero]> row) ∅ cols]> values)
           values rows) a b = F64.zero.
Proof.
  induction rows as [| c rows IH]; intros values Hv a b; cbn [foldl]; [apply Hv |].
  apply IH. intros a' b'. unfold getValue.
  destruct (decide (a' = c)) as [-> | Hne].
  - rewrite lookup_insert_eq. cbn [default id]. apply initial_row.
    rewrite lookup_empty. reflexivity.
  - rewrite lookup_insert_ne by congruence. apply Hv.
Qed.

(** The diagonal is set to 1. *)
Lemma diagonal_values (cols : list string) :
  forall (values : gmap string (gmap string float64)) a b,
    getValue (foldl (fun values col1 => setValue values col1 col1 (F64.of_int 1)) values cols)
      a b
    = if decide (a = b /\ a ∈ cols) then F64.of_int 1 else getValue values a b.
Proof.
  induction cols as [| c cols IH]; intros values a b; cbn [foldl].
  - rewrite decide_False; [reflexivity |]. intros [_ Hin]. apply elem_of_nil in Hin. exact Hin.
  - rewrite IH, getValue_setValue.
    destruct (decide (a = b /\ a ∈ cols)) as [[-> Hin] | Hn].
    + rewrite decide_True; [reflexivity |]. split; [reflexivity |].
      apply elem_of_cons. right. exact Hin.
    + destruct (decide (a = c /\ b = c)) as [[-> ->] | Hn'].
      * rewrite decide_True; [reflexivity |]. split; [reflexivity |].
        apply elem_of_cons. left. reflexivity.
      * rewrite decide_False; [reflexivity |]. intros [-> Hin].
        apply elem_of_cons in Hin as [-> | Hin]; [apply Hn'; auto | apply Hn; auto].
Qed.

(** After the loop over the pairs, an entry is a coefficient the loop
    computed, or it is as it was. *)
Lemma correlatePairs_values (numericData : gmap string (list float64))
    (pairs : list (string * string)) :
  forall values values',
    correlatePairs numericData pairs values = Ok values' ->
    forall a b,
      (((a, b) ∈ pairs \/ (b, a) ∈ pairs)
       /\ calculatePearsonCorrelation (default [] (numericData !! a))
            (default [] (numericData !! b)) = Ok (getValue values' a b))
      \/ (((a, b) ∉ pairs) /\ ((b, a) ∉ pairs) /\ getValue values' a b = getValue values a b).
Proof.
  induction pairs as [| [c1 c2] pairs IH]; intros values values' Hc a b.
  - cbn in Hc. injection Hc as <-. right.
    split; [apply not_elem_of_nil |]. split; [apply not_elem_of_nil | reflexivity].
  - cbn [correlatePairs] in Hc.
    destruct (calculatePearsonCorrelation _ _) as [corr | |] eqn:Hcorr;
      cbn [bind] in Hc; try discriminate Hc.
    destruct (IH _ _ Hc a b) as [[Hin Hval] | (Hn1 & Hn2 & Hval)].
    + left. split; [| exact Hval].
      destruct Hin as [Hin | Hin]; [left | right]; apply elem_of_cons; right; exact Hin.
    + rewrite !getValue_setValue in Hval.
      destruct (decide (a = c2 /\ b = c1)) as [[-> ->] | Hd1].
      * left. split; [right; apply elem_of_cons; left; reflexivity |].
        rewrite calculatePearsonCorrelation_sym, Hval. exact Hcorr.
      * destruct (decide (a = c1 /\ b = c2)) as [[-> ->] | Hd2].
        -- left. split; [left; apply elem_of_cons; left; reflexivity |].
           rewrite Hval. exact Hcorr.
        -- right. split; [| split; [| exact Hval]].
           ++ intros Hin. apply elem_of_cons in Hin as [Heq | Hin]; [| contradiction].
              injection Heq as -> ->. apply Hd2. auto.
           ++ intros Hin. apply elem_of_cons in Hin as [Heq | Hin]; [| contradiction].
              injection Heq as -> ->. apply Hd1. auto.
Qed.

Lemma elem_of_pairsAbove (cols : list string) (a b : string) :
  (a, b) ∈ pairsAbove cols -> a ∈ cols /\ b ∈ cols.
Proof.
  induction cols as [| c cols IH]; cbn [pairsAbove]; intros Hin.
  - apply elem_of_nil in Hin. contradiction.
  - apply elem_of_app in Hin as [Hin | Hin].
    + apply list_elem_of_fmap in Hin as (b' & Heq & Hb). injection Heq as -> ->.
      split; apply elem_of_cons; auto.
    + destruct (IH Hin). split; apply elem_of_cons; auto.
Qed.

(** In a strictly ascending list the pairs are ascending. *)
Lemma pairsAbove_ascending (cols : list string) (a b : string) :
  StronglySorted (fun a b => String.ltb a b = true) cols ->
  (a, b) ∈ pairsAbove cols -> String.ltb a b = true.
Proof.
  induction 1 as [| c cols Hs IH Hall]; cbn [pairsAbove]; intros Hin.
  - apply elem_of_nil in Hin. contradiction.
  - apply elem_of_app in Hin as [Hin | Hin]; [| apply IH, Hin].
    apply list_elem_of_fmap in Hin as (b' & Heq & Hb). injection Heq as -> ->.
    rewrite Forall_forall in Hall. apply Hall, Hb.
Qed.

Lemma pairsAbove_complete (cols : list string) (a b : string) :
  a ∈ cols -> b ∈ cols -> a <> b -> (a, b) ∈ pairsAbove cols \/ (b, a) ∈ pairsAbove cols.
Proof.
  induction cols as [| c cols IH]; intros Ha Hb Hne.
  - apply elem_of_nil in Ha. contradiction.
  - cbn [pairsAbove].
    apply elem_of_cons in Ha as [-> | Ha]; apply elem_of_cons in Hb as [-> | Hb].
    + contradiction.
    + left. apply elem_of_app. left. apply list_elem_of_fmap. exists b. auto.
    + right. apply elem_of_app. left. apply list_elem_of_fmap. exists a. auto.
    + destruct (IH Ha Hb Hne) as [Hin | Hin]; [left | right]; apply elem_of_app; right;
        exact Hin.
Qed.

End MatrixFacts.

Section MatrixShape.
Context `{GoLib}.

Lemma filter_fst_NoDup {V : Type} (P : string * V -> bool) (l : list (string * V)) :
  NoDup l.*1 -> NoDup (List.filter P l).*1.
Proof.
  induction l as [| kv l IH]; cbn [List.filter fmap list_fmap]; intros Hnd; [constructor |].
  apply NoDup_cons in Hnd as [Hk Hnd].
  destruct (P kv); [| apply IH, Hnd].
  cbn [fmap list_fmap]. apply NoDup_cons. split; [| apply IH, Hnd].
  intros Hin. apply Hk.
  apply list_elem_of_fmap in Hin as (kv' & Heq & Hin).
  apply list_elem_of_fmap. exists kv'. split; [exact Heq |].
  apply list_elem_of_In. apply list_elem_of_In in Hin. apply filter_In in Hin. apply Hin.
Qed.

Lemma numericColumnNames_NoDup profile : NoDup (numericColumnNames profile).
Proof.
  unfold numericColumnNames.
  apply (filter_fst_NoDup _ (map_to_list (DatasetProfile.Columns profile))).
  apply NoDup_fst_map_to_list.
Qed.

Lemma elem_of_numericColumnNames profile c :
  c ∈ numericColumnNames profile
  <-> exists col, DatasetProfile.Columns profile !! c = Some col
                  /\ ColumnProfile.IsNumeric col = true /\ 0 < ColumnProfile.Count col.
Proof.
  unfold numericColumnNames. split.
  - intros Hin. apply list_elem_of_fmap in Hin as ([k col] & -> & Hin).
    apply list_elem_of_In, filter_In in Hin as [Hin HP].
    apply list_elem_of_In, elem_of_map_to_list in Hin.
    cbn [fst snd] in *. apply andb_prop in HP as [Hn Hc]. apply Z.ltb_lt in Hc.
    exists col. auto.
  - intros (col & Hlook & Hn & Hc).
    apply list_elem_of_fmap. exists (c, col). split; [reflexivity |].
    apply list_elem_of_In, filter_In. split.
    + apply list_elem_of_In, elem_of_map_to_list, Hlook.
    + cbn [snd]. rewrite Hn. apply Z.ltb_lt in Hc. rewrite Hc. reflexivity.
Qed.

(** The reconstructed values of the numeric columns. *)
Lemma numericData_lookup profile c col :
  DatasetProfile.Columns profile !! c = Some col ->
  ColumnProfile.IsNumeric col = true -> 0 < ColumnProfile.Count col ->
  (list_to_map
     (map (fun kv => (fst kv, reconstructNumericValues (snd kv)))
        (List.filter
           (fun kv => ColumnProfile.IsNumeric (snd kv) && (0 <? ColumnProfile.Count (snd kv)))
           (map_to_list (DatasetProfile.Columns profile))))
   : gmap string (list float64)) !! c
  = Some (reconstructNumericValues col).
Proof.
  intros Hlook Hn Hc.
  apply elem_of_list_to_map_1.
  - change (map ?f ?l) with (f <$> l). rewrite <- list_fmap_compose.
    apply (filter_fst_NoDup _ (map_to_list (DatasetProfile.Columns profile))).
    apply NoDup_fst_map_to_list.
  - apply list_elem_of_fmap. exists (c, col). split; [reflexivity |].
    apply list_elem_of_In, filter_In. split.
    + apply list_elem_of_In, elem_of_map_to_list, Hlook.
    + cbn [snd]. rewrite Hn. apply Z.ltb_lt in Hc. rewrite Hc. reflexivity.
Qed.

(** The parts of a correlation matrix. *)
Lemma CalculateCorrelationMatrix_Some profile m :
  CalculateCorrelationMatrix profile = Ok (Some m) ->
  let numericData : gmap string (list float64) :=
    list_to_map
      (map (fun kv => (fst kv, reconstructNumericValues (snd kv)))
         (List.filter
            (fun kv => ColumnProfile.IsNumeric (snd kv) && (0 <? ColumnProfile.Count (snd kv)))
            (map_to_list (DatasetProfile.Columns profile)))) in
  let cols := insertionSort (fun x key => String.ltb key x) (numericColumnNames profile) in
  let values0 : gmap string (gmap string float64) :=
    foldl (fun values col1 =>
             <[col1 := foldl (fun row col2 => <[col2 := F64.zero]> row) ∅ cols]> values)
      ∅ cols in
  let values1 :=
    foldl (fun values col1 => setValue values col1 col1 (F64.of_int 1)) values0 cols in
  2 <= len (numericColumnNames profile)
  /\ CorrelationMatrix.Columns m = cols
  /\ correlatePairs numericData (pairsAbove cols) values1 = Ok (CorrelationMatrix.Values m)
  /\ exists sorted limit,
       sorted
       = sort_Slice (fun a b => F64.ltb (F64.abs (CorrelationPair.Correlation b))
                                  (F64.abs (CorrelationPair.Correlation a)))
           (map (fun p => CorrelationPair.mk (fst p) (snd p)
                            (getValue (CorrelationMatrix.Values m) (fst p) (snd p)))
              (pairsAbove cols))
       /\ 0 <= limit <= 10
       /\ CorrelationMatrix.TopPairs m
          = List.filter (fun p => F64.ltb F64.c0_1 (F64.abs (CorrelationPair.Correlation p)))
              (take (Z.to_nat limit) sorted).
Proof.
  unfold CalculateCorrelationMatrix. fold (numericColumnNames profile).
  destruct (Z.ltb_spec (len (numericColumnNames profile)) 2) as [Hlt | Hge]; [discriminate |].
  intros Hc. cbv zeta.
  destruct (correlatePairs _ _ _) as [values | |] eqn:Hcp; cbn [bind] in Hc;
    try discriminate Hc.
  injection Hc as <-. cbn [CorrelationMatrix.Columns CorrelationMatrix.Values
                             CorrelationMatrix.TopPairs].
  split; [lia |]. split; [reflexivity |]. split; [reflexivity |].
  eexists _, _. split; [reflexivity |]. split; [| reflexivity].
  match goal with
  | |- 0 <= (if ?n <? 10 then _ else _) <= 10 =>
      assert (0 <= n) by (unfold len; lia); destruct (Z.ltb_spec n 10); lia
  end.
Qed.

Lemma CalculateCorrelationMatrix_shape profile :
  (len (numericColumnNames profile) < 2 -> CalculateCorrelationMatrix profile = Ok None)
  /\ (forall m,
        CalculateCorrelationMatrix profile = Ok (Some m) ->
        2 <= len (CorrelationMatrix.Columns m)
        /\ StronglySorted (fun a b => String.ltb a b = true) (CorrelationMatrix.Columns m)
        /\ forall c,
             c ∈ CorrelationMatrix.Columns m
             <-> exists col,
                   DatasetProfile.Columns profile !! c = Some col
                   /\ ColumnProfile.IsNumeric col = true /\ 0 < ColumnProfile.Count col).
Proof.
  split.
  - intros Hlt. unfold CalculateCorrelationMatrix. fold (numericColumnNames profile).
    destruct (Z.ltb_spec (len (numericColumnNames profile)) 2); [reflexivity | lia].
  - intros m Hm. apply CalculateCorrelationMatrix_Some in Hm. cbv zeta in Hm.
    destruct Hm as (Hlen & -> & _).
    split; [| split].
    + unfold len in *. rewrite insertionSort_length. exact Hlen.
    + apply insertionSort_names, numericColumnNames_NoDup.
    + intros c. rewrite insertionSort_Permutation. apply elem_of_numericColumnNames.
Qed.

Lemma CalculateCorrelationMatrix_entries profile m :
  CalculateCorrelationMatrix profile = Ok (Some m) ->
  (forall a b,
      getValue (CorrelationMatrix.Values m) a b = getValue (CorrelationMatrix.Values m) b a)
  /\ (forall c, c ∈ CorrelationMatrix.Columns m ->
                getValue (CorrelationMatrix.Values m) c c = F64.of_int 1)
  /\ (forall a b cola colb,
        a ∈ CorrelationMatrix.Columns m -> b ∈ CorrelationMatrix.Columns m -> a <> b ->
        DatasetProfile.Columns profile !! a = Some cola ->
        DatasetProfile.Columns profile !! b = Some colb ->
        calculatePearsonCorrelation (reconstructNumericValues cola)
          (reconstructNumericValues colb)
        = Ok (getValue (CorrelationMatrix.Values m) a b))
  /\ (forall a b,
        a ∉ CorrelationMatrix.Columns m \/ b ∉ CorrelationMatrix.Columns m ->
        getValue (CorrelationMatrix.Values m) a b = F64.zero).
Proof.
  intros Hm.
  pose proof (proj2 (CalculateCorrelationMatrix_shape profile) m Hm) as (_ & Hsorted & Hmem).
  apply CalculateCorrelationMatrix_Some in Hm. cbv zeta in Hm.
  destruct Hm as (Hlen & Hcols & Hcp & _). rewrite <- Hcols in Hcp.
  set (cols := CorrelationMatrix.Columns m) in *.
  set (values := CorrelationMatrix.Values m) in *.
  set (numericData := list_to_map _) in Hcp.
  set (values1 := foldl _ _ cols) in Hcp.
  pose proof (correlatePairs_values numericData (pairsAbove cols) values1 values Hcp) as Hv.
  assert (Hv1 : forall a b,
             getValue values1 a b
             = if decide (a = b /\ a ∈ cols) then F64.of_int 1 else F64.zero).
  { intros a b. unfold values1. rewrite diagonal_values.
    destruct (decide _); [reflexivity |]. apply initial_values.
    intros a' b'. unfold getValue. rewrite lookup_empty. reflexivity. }
  assert (Hirr : forall a, (a, a) ∉ pairsAbove cols).
  { intros a Hin. apply (pairsAbove_ascending cols a a Hsorted) in Hin.
    rewrite String_ltb_irrefl in Hin. discriminate. }
  assert (Hdata : forall c col,
             c ∈ cols -> DatasetProfile.Columns profile !! c = Some col ->
             default [] (numericData !! c) = reconstructNumericValues col).
  { intros c col Hc Hlook. apply Hmem in Hc as (col' & Hlook' & Hn & Hcount).
    rewrite Hlook in Hlook'. injection Hlook' as <-.
    unfold numericData. rewrite (numericData_lookup profile c col Hlook Hn Hcount).
    reflexivity. }
  split; [| split; [| split]].
  - intros a b.
    destruct (Hv a b) as [[Hin Hab] | (Hn1 & Hn2 & Hab)];
      destruct (Hv b a) as [[Hin' Hba] | (Hn1' & Hn2' & Hba)].
    + rewrite calculatePearsonCorrelation_sym, Hab in Hba. injection Hba as ->. reflexivity.
    + destruct Hin; contradiction.
    + destruct Hin'; contradiction.
    + rewrite Hab, Hba, !Hv1.
      destruct (decide (a = b /\ a ∈ cols)) as [[-> Hin] | Hn].
      * rewrite decide_True by auto. reflexivity.
      * rewrite decide_False; [reflexivity |]. intros [-> Hin]. apply Hn. auto.
  - intros c Hc.
    destruct (Hv c c) as [[[Hin | Hin] _] | (_ & _ & Hcc)];
      [exfalso; apply (Hirr c Hin) | exfalso; apply (Hirr c Hin) |].
    rewrite Hcc, Hv1. rewrite decide_True by auto. reflexivity.
  - intros a b cola colb Ha Hb Hne Hla Hlb.
    destruct (Hv a b) as [[_ Hab] | (Hn1 & Hn2 & _)].
    + rewrite (Hdata a cola Ha Hla), (Hdata b colb Hb Hlb) in Hab. exact Hab.
    + destruct (pairsAbove_complete cols a b Ha Hb Hne); contradiction.
  - intros a b Hout.
    destruct (Hv a b) as [[Hin _] | (_ & _ & Hab)].
    + exfalso. destruct Hin as [Hin | Hin]; apply elem_of_pairsAbove in Hin as [H1 H2];
        destruct Hout; contradiction.
    + rewrite Hab, Hv1. rewrite decide_False; [reflexivity |].
      intros [-> Hin]. destruct Hout; contradiction.
Qed.

Lemma CalculateCorrelationMatrix_top profile m :
  CalculateCorrelationMatrix profile = Ok (Some m) ->
  len (CorrelationMatrix.TopPairs m) <= 10
  /\ (forall p, p ∈ CorrelationMatrix.TopPairs m ->
                F64.ltb F64.c0_1 (F64.abs (CorrelationPair.Correlation p)) = true
                /\ isNaN (CorrelationPair.Correlation p) = false)
  /\ ((forall (less : CorrelationPair.t -> CorrelationPair.t -> bool) s,
          sort_Slice less s ≡ₚ s) ->
      forall p, p ∈ CorrelationMatrix.TopPairs m ->
                String.ltb (CorrelationPair.Column1 p) (CorrelationPair.Column2 p) = true
                /\ CorrelationPair.Column1 p ∈ CorrelationMatrix.Columns m
                /\ CorrelationPair.Column2 p ∈ CorrelationMatrix.Columns m
                /\ CorrelationPair.Correlation p
                   = getValue (CorrelationMatrix.Values m) (CorrelationPair.Column1 p)
                       (CorrelationPair.Column2 p)).
Proof.
  intros Hm.
  pose proof (proj2 (CalculateCorrelationMatrix_shape profile) m Hm) as (_ & Hsorted & _).
  apply CalculateCorrelationMatrix_Some in Hm. cbv zeta in Hm.
  destruct Hm as (_ & Hcols & _ & sorted & limit & Hs & Hlimit & Htop).
  rewrite <- Hcols in Hs.
  assert (Hsub : forall p, p ∈ CorrelationMatrix.TopPairs m ->
                   p ∈ sorted
                   /\ F64.ltb F64.c0_1 (F64.abs (CorrelationPair.Correlation p)) = true).
  { intros p Hp. rewrite Htop in Hp.
    apply list_elem_of_In, filter_In in Hp as [Hp Hc]. split; [| exact Hc].
    apply list_elem_of_In in Hp. apply elem_of_take in Hp as (i & Hi & _).
    eapply list_elem_of_lookup_2, Hi. }
  split; [| split].
  - rewrite Htop. unfold len.
    pose proof (filter_length_le
                  (fun p => F64.ltb F64.c0_1 (F64.abs (CorrelationPair.Correlation p)))
                  (take (Z.to_nat limit) sorted)) as Hf.
    rewrite length_take in Hf. lia.
  - intros p Hp. destruct (Hsub p Hp) as [_ Hc]. split; [exact Hc |].
    destruct (CorrelationPair.Correlation p); try reflexivity. discriminate Hc.
  - intros Hperm p Hp. destruct (Hsub p Hp) as [Hin _].
    rewrite Hs, Hperm in Hin.
    apply list_elem_of_fmap in Hin as ([a b] & -> & Hab).
    cbn [CorrelationPair.Column1 CorrelationPair.Column2 CorrelationPair.Correlation fst snd].
    split; [apply (pairsAbove_ascending _ a b Hsorted Hab) |].
    apply elem_of_pairsAbove in Hab as [Ha Hb]. auto.
Qed.

End MatrixShape.

Section ReconstructFacts.
Context `{GoLib}.

Lemma reconstruct_buckets (buckets : list HistogramBucket.t) : forall values : list float64,
  let values' :=
    foldl (fun values bucket =>
             if HistogramBucket.Count bucket <=? 0 then values
             else
               let bucketMidpoint :=
                 F64.div (F64.add (HistogramBucket.LowerBound bucket)
                                  (HistogramBucket.UpperBound bucket))
                         (F64.of_int 2) in
               values ++ replicate (Z.to_nat (HistogramBucket.Count bucket)) bucketMidpoint)
          values buckets in
  exists added,
    values' = values ++ added
    /\ len added = bucketPoints buckets
    /\ Forall (fun v => exists bucket, bucket ∈ buckets /\ 0 < HistogramBucket.Count bucket
                                       /\ v = bucketMidpoint bucket) added.
Proof.
  induction buckets as [| bucket buckets IH]; intros values; cbn [foldl].
  - exists []. rewrite app_nil_r. split; [reflexivity |]. split; [reflexivity | constructor].
  - cbv zeta in IH |- *.
    destruct (Z.leb_spec (HistogramBucket.Count bucket) 0) as [Hle | Hgt].
    + destruct (IH values) as (added & -> & Hlen & Hall).
      exists added. split; [reflexivity |]. split.
      * cbn [bucketPoints foldr]. fold (bucketPoints buckets). lia.
      * eapply Forall_impl; [exact Hall |]. intros v (b & Hb & Hc & ->).
        exists b. split; [apply elem_of_cons; right; exact Hb | auto].
    + destruct (IH (values ++ replicate (Z.to_nat (HistogramBucket.Count bucket))
                               (bucketMidpoint bucket)))
        as (added & Heq & Hlen & Hall).
      unfold bucketMidpoint in Heq at 1. rewrite Heq.
      exists (replicate (Z.to_nat (HistogramBucket.Count bucket)) (bucketMidpoint bucket)
              ++ added).
      split; [rewrite app_assoc; reflexivity |]. split.
      * unfold len in *. rewrite length_app, length_replicate.
        cbn [bucketPoints foldr]. fold (bucketPoints buckets). lia.
      * apply Forall_app. split.
        -- apply Forall_replicate. exists bucket.
           split; [apply elem_of_cons; left; reflexivity | auto].
        -- eapply Forall_impl; [exact Hall |]. intros v (b & Hb & Hc & ->).
           exists b. split; [apply elem_of_cons; right; exact Hb | auto].
Qed.

Lemma reconstruct_top (topValues : list ValueCount.t) : forall values : list float64,
  let values' :=
    foldl (fun values topValue =>
             match strconv_ParseFloat (ValueCount.Value topValue) with
             | Some val => values ++ replicate (Z.to_nat (ValueCount.Count topValue)) val
             | None => values
             end)
          values topValues in
  exists added,
    values' = values ++ added
    /\ len added = topPoints topValues
    /\ Forall (fun v => exists topValue, topValue ∈ topValues
                                         /\ strconv_ParseFloat (ValueCount.Value topValue)
                                            = Some v) added.
Proof.
  induction topValues as [| tv topValues IH]; intros values; cbn [foldl].
  - exists []. rewrite app_nil_r. split; [reflexivity |]. split; [reflexivity | constructor].
  - cbv zeta in IH |- *. cbn [topPoints foldr]. fold (topPoints topValues).
    destruct (strconv_ParseFloat (ValueCount.Value tv)) as [val |] eqn:Hp.
    + destruct (IH (values ++ replicate (Z.to_nat (ValueCount.Count tv)) val))
        as (added & -> & Hlen & Hall).
      exists (replicate (Z.to_nat (ValueCount.Count tv)) val ++ added).
      split; [rewrite app_assoc; reflexivity |]. split.
      * unfold len in *. rewrite length_app, length_replicate. lia.
      * apply Forall_app. split.
        -- apply Forall_replicate. exists tv.
           split; [apply elem_of_cons; left; reflexivity | exact Hp].
        -- eapply Forall_impl; [exact Hall |]. intros v (t & Ht & Hv).
           exists t. split; [apply elem_of_cons; right; exact Ht | exact Hv].
    + destruct (IH values) as (added & -> & Hlen & Hall).
      exists added. split; [reflexivity |]. split; [exact Hlen |].
      eapply Forall_impl; [exact Hall |]. intros v (t & Ht & Hv).
      exists t. split; [apply elem_of_cons; right; exact Ht | exact Hv].
Qed.

Lemma bucketPoints_totalCount (buckets : list HistogramBucket.t) :
  counts_nonneg buckets -> bucketPoints buckets = totalCount buckets.
Proof.
  induction 1 as [| b buckets Hb Hnn IH]; [reflexivity |].
  cbn [bucketPoints totalCount foldr]. fold (bucketPoints buckets). fold (totalCount buckets).
  lia.
Qed.

Lemma reconstructNumericValues_spec (col : ColumnProfile.t) :
  (ColumnProfile.IsNumeric col = false \/ ColumnProfile.HistogramBuckets col = [] ->
   reconstructNumericValues col = [])
  /\ (ColumnProfile.IsNumeric col = true -> ColumnProfile.HistogramBuckets col <> [] ->
      len (reconstructNumericValues col)
      = bucketPoints (ColumnProfile.HistogramBuckets col)
        + topPoints (ColumnProfile.TopValues col)
      /\ Forall (fun v =>
                   (exists bucket, bucket ∈ ColumnProfile.HistogramBuckets col
                                   /\ 0 < HistogramBucket.Count bucket
                                   /\ v = bucketMidpoint bucket)
                   \/ (exists topValue, topValue ∈ ColumnProfile.TopValues col
                                        /\ strconv_ParseFloat (ValueCount.Value topValue)
                                           = Some v))
           (reconstructNumericValues col)).
Proof.
  unfold reconstructNumericValues. split.
  - intros [-> | ->]; [reflexivity |]. rewrite orb_true_r. reflexivity.
  - intros -> Hne. cbn [negb orb].
    destruct (Z.eqb_spec (len (ColumnProfile.HistogramBuckets col)) 0) as [H0 | _].
    { destruct (ColumnProfile.HistogramBuckets col); [congruence |].
      unfold len in H0. cbn [length] in H0. lia. }
    destruct (reconstruct_buckets (ColumnProfile.HistogramBuckets col) [])
      as (fromBuckets & Hb & Hlb & Hab).
    cbv zeta in Hb. rewrite Hb. cbn [app].
    destruct (reconstruct_top (ColumnProfile.TopValues col) fromBuckets)
      as (fromTop & Ht & Hlt & Hat).
    cbv zeta in Ht. rewrite Ht. split.
    + unfold len in *. rewrite length_app. lia.
    + apply Forall_app. split; (eapply Forall_impl; [eassumption |]); cbv beta; auto.
Qed.

End ReconstructFacts.

(** ** The scan of ProfileCSV *)

Section ScanFacts.
Context `{GoLib}.

Lemma wrap_add (a b : Z) : GoInt.add (GoInt.wrap a) b = GoInt.wrap (a + b).
Proof.
  unfold GoInt.add, GoInt.wrap.
  replace ((a + 2 ^ 63) mod 2 ^ 64 - 2 ^ 63 + b + 2 ^ 63)
    with ((a + 2 ^ 63) mod 2 ^ 64 + b) by lia.
  rewrite Zplus_mod_idemp_l. f_equal. f_equal. lia.
Qed.

Lemma present_app (a b : list string) : present (a ++ b) = present a ++ present b.
Proof. unfold present. apply List.filter_app. Qed.

Lemma absent_app (a b : list string) : absent (a ++ b) = absent a + absent b.
Proof. unfold absent, len. rewrite List.filter_app, length_app. lia. Qed.

Lemma present_one (v : string) : present [v] = if String.eqb v "" then [] else [v].
Proof. unfold present. cbn [List.filter]. destruct (String.eqb v ""); reflexivity. Qed.

Lemma absent_one (v : string) : absent [v] = if String.eqb v "" then 1 else 0.
Proof. unfold absent, len. cbn [List.filter]. destruct (String.eqb v ""); reflexivity. Qed.

Lemma absent_nonneg (cells : list string) : 0 <= absent cells.
Proof. unfold absent, len. lia. Qed.

Lemma absent_present (cells : list string) : absent cells + len (present cells) = len cells.
Proof.
  unfold absent, present, len. induction cells as [| v cells IH]; [reflexivity |].
  cbn [List.filter]. destruct (String.eqb v ""); cbn [negb length]; lia.
Qed.

Lemma occurrences_snoc (values : list string) (v : string) :
  occurrences (values ++ [v]) = bump (occurrences values) v.
Proof. unfold occurrences. apply foldl_snoc. Qed.

Lemma columnCells_snoc header c rows record :
  columnCells header c (rows ++ [record]) = columnCells header c rows ++ cellsOf header c record.
Proof.
  unfold columnCells. rewrite map_app, concat_app. cbn [map concat].
  rewrite app_nil_r. reflexivity.
Qed.

Lemma allCells_snoc header rows record :
  allCells header (rows ++ [record]) = allCells header rows ++ (zip header record).*2.
Proof.
  unfold allCells. rewrite map_app, concat_app. cbn [map concat].
  rewrite app_nil_r. reflexivity.
Qed.

(** One more field of a record. *)
Lemma zip_take_S (header record : list string) (i : nat) (c v : string) :
  header !! i = Some c -> record !! i = Some v ->
  zip header (take (S i) record) = zip header (take i record) ++ [(c, v)].
Proof.
  intros Hc Hv. rewrite (take_S_r _ _ _ Hv).
  pose proof (lookup_lt_Some _ _ _ Hv) as Hlt.
  rewrite zip_with_app_r.
  rewrite length_take, Nat.min_l by lia.
  rewrite zip_with_take_l' by (rewrite length_take; lia).
  rewrite (drop_S _ _ _ Hc). cbn [zip_with]. rewrite zip_with_nil_r. reflexivity.
Qed.

Lemma cellsOf_take_S (header record : list string) (i : nat) (c v c' : string) :
  header !! i = Some c -> record !! i = Some v ->
  cellsOf header c' (take (S i) record)
  = cellsOf header c' (take i record) ++ (if String.eqb c c' then [v] else []).
Proof.
  intros Hc Hv. unfold cellsOf. rewrite (zip_take_S _ _ _ _ _ Hc Hv).
  rewrite List.filter_app, fmap_app. cbn [List.filter fst].
  destruct (String.eqb c c'); reflexivity.
Qed.

Lemma with_MissingCount_twice col a b :
  with_MissingCount (with_MissingCount col a) b = with_MissingCount col b.
Proof. reflexivity. Qed.

(** The body of the loop over the fields, at the field [i] of the record
    [record]. *)
Lemma scanField_step header rows record (i : nat) (c v : string) st :
  len header < 2 ^ 63 ->
  header !! i = Some c -> record !! i = Some v ->
  scannedColumns header (rows ++ [take i record]) st ->
  exists st',
    scanField header st (Z.of_nat i) v = Ok st'
    /\ scannedColumns header (rows ++ [take (S i) record]) st'
    /\ rowCount st' = rowCount st /\ rowHashes st' = rowHashes st.
Proof.
  intros Hlen Hc Hv [Hmiss Hcols].
  pose proof (lookup_lt_Some _ _ _ Hc) as Hlt.
  assert (Hin : c ∈ header) by (eapply list_elem_of_lookup_2, Hc).
  unfold scanField.
  destruct (Z.leb_spec (len header) (Z.of_nat i)) as [Hge | _]; [unfold len in Hge; lia |].
  rewrite (index_lookup _ _ _ Hc). cbn [bind].
  pose proof (Hcols c) as Hcc. rewrite decide_True in Hcc by exact Hin.
  destruct Hcc as (Hcol & Hvals & Hcounts).
  assert (Hall : allCells header (rows ++ [take (S i) record])
                 = allCells header (rows ++ [take i record]) ++ [v]).
  { rewrite !allCells_snoc, (zip_take_S _ _ _ _ _ Hc Hv), fmap_app, app_assoc. reflexivity. }
  assert (Hcells : forall c',
             columnCells header c' (rows ++ [take (S i) record])
             = columnCells header c' (rows ++ [take i record])
               ++ (if String.eqb c c' then [v] else [])).
  { intros c'. rewrite !columnCells_snoc, (cellsOf_take_S _ _ _ _ _ _ Hc Hv), app_assoc.
    reflexivity. }
  destruct (String.eqb_spec v "") as [-> | Hvalue].
  - rewrite Hcol. eexists. split; [reflexivity |].
    split; [| split; reflexivity]. split.
    + cbn [missingCells]. rewrite Hmiss, wrap_add, Hall, absent_app. reflexivity.
    + intros c'. specialize (Hcols c'). cbn [columns columnValues valueCounts].
      rewrite (Hcells c').
      destruct (String.eqb_spec c c') as [<- | Hne].
      * rewrite decide_True by exact Hin. rewrite lookup_insert_eq.
        rewrite absent_app, present_app, app_nil_r.
        split; [| split; assumption].
        rewrite with_MissingCount_twice. cbn [ColumnProfile.MissingCount with_MissingCount].
        rewrite wrap_add. reflexivity.
      * rewrite app_nil_r. rewrite lookup_insert_ne by exact Hne. exact Hcols.
  - destruct (String.eqb v "") eqn:Hvb; [apply String.eqb_eq in Hvb; contradiction |].
    rewrite Hcounts, Hvals. cbn [default id]. eexists. split; [reflexivity |].
    split; [| split; reflexivity]. split.
    + cbn [missingCells]. rewrite Hmiss, Hall, absent_app, absent_one, Hvb.
      f_equal. lia.
    + intros c'. specialize (Hcols c'). cbn [columns columnValues valueCounts].
      rewrite (Hcells c').
      destruct (String.eqb_spec c c') as [<- | Hne].
      * rewrite decide_True by exact Hin. rewrite !lookup_insert_eq.
        rewrite absent_app, present_app, absent_one, present_one, Hvb, Z.add_0_r.
        split; [exact Hcol |]. split; [reflexivity |].
        rewrite occurrences_snoc. reflexivity.
      * rewrite app_nil_r. rewrite !lookup_insert_ne by exact Hne. exact Hcols.
Qed.

(** The loop over the fields of a record as long as the header. *)
Lemma scanFields_steps header rows record : forall (n i : nat) st,
  len header < 2 ^ 63 ->
  length record = length header ->
  (i + n)%nat = length record ->
  scannedColumns header (rows ++ [take i record]) st ->
  exists st',
    scanFields header st (Z.of_nat i) (drop i record) = Ok st'
    /\ scannedColumns header (rows ++ [record]) st'
    /\ rowCount st' = rowCount st /\ rowHashes st' = rowHashes st.
Proof.
  induction n as [| n IH]; intros i st Hlen Hrec Hi Hst.
  - rewrite drop_ge by lia. rewrite take_ge in Hst by lia.
    exists st. cbn [scanFields]. auto.
  - destruct (lookup_lt_is_Some_2 record i ltac:(lia)) as [v Hv].
    destruct (lookup_lt_is_Some_2 header i ltac:(lia)) as [c Hc].
    rewrite (drop_S _ _ _ Hv). cbn [scanFields].
    destruct (scanField_step header rows record i c v st Hlen Hc Hv Hst)
      as (st1 & -> & Hst1 & Hr1 & Hh1).
    cbn [bind].
    assert (Hadd : GoInt.add (Z.of_nat i) 1 = Z.of_nat (S i)).
    { unfold GoInt.add. rewrite GoIntFacts.wrap_small; [lia |].
      unfold len in Hlen.
      unfold GoInt.in_range, GoInt.min_int, GoInt.max_int. lia. }
    rewrite Hadd.
    destruct (IH (S i) st1 Hlen Hrec ltac:(lia) Hst1) as (st' & -> & Hst' & Hr' & Hh').
    exists st'. split; [reflexivity |]. split; [exact Hst' |]. split; congruence.
Qed.

Lemma scannedColumns_nil_row header rows st :
  scannedColumns header rows st -> scannedColumns header (rows ++ [[]]) st.
Proof.
  intros [Hmiss Hcols]. split.
  - rewrite allCells_snoc. rewrite zip_with_nil_r, app_nil_r. exact Hmiss.
  - intros c. specialize (Hcols c). rewrite columnCells_snoc. unfold cellsOf.
    rewrite zip_with_nil_r. cbn [List.filter fmap list_fmap]. rewrite app_nil_r. exact Hcols.
Qed.

(** The scan of one record as long as the header. *)
Lemma scanRecord_step header rows record st :
  len header < 2 ^ 63 ->
  length record = length header ->
  scanned header rows st ->
  exists st', scanRecord header st record = Ok st' /\ scanned header (rows ++ [record]) st'.
Proof.
  intros Hlen Hrec (Hrows & Hhashes & Hcols). unfold scanRecord.
  set (st1 := mkScan _ _ _ _ _ _).
  assert (Hst1 : scannedColumns header (rows ++ [take 0 record]) st1).
  { change (take 0 record) with (@nil string). apply scannedColumns_nil_row.
    destruct Hcols as [Hmiss Hc]. split; [exact Hmiss | exact Hc]. }
  destruct (scanFields_steps header rows record (length record) 0 st1 Hlen Hrec
              ltac:(lia) Hst1) as (st' & Hs & Hst' & Hr & Hh).
  change (Z.of_nat 0) with 0 in Hs. change (drop 0 record) with record in Hs.
  exists st'. split; [exact Hs |]. split; [| split; [| exact Hst']].
  - rewrite Hr. subst st1. cbn [rowCount]. rewrite Hrows, wrap_add.
    unfold len. rewrite length_app. cbn [length]. f_equal. lia.
  - rewrite Hh. subst st1. cbn [rowHashes].
    rewrite map_app. cbn [map]. rewrite occurrences_snoc, Hhashes.
    fold (rowHash record). unfold bump.
    destruct (occurrences (map rowHash rows) !! rowHash record) as [count |];
      reflexivity.
Qed.

(** The state before the first record. *)
Lemma newColumns_absent (c : string) (header : list string) :
  forall cols : gmap string ColumnProfile.t,
    c ∉ header -> cols !! c = None ->
    foldl (fun cols c => <[c := newColumn c]> cols) cols header !! c = None.
Proof.
  induction header as [| h header IH]; intros cols Hnot Hc; cbn [foldl]; [exact Hc |].
  apply not_elem_of_cons in Hnot as [Hne Hnot].
  apply IH; [exact Hnot |]. rewrite lookup_insert_ne by congruence. exact Hc.
Qed.

Lemma scanned_initial header :
  let cols := foldl (fun cols c => <[c := newColumn c]> cols) ∅ header in
  scanned header [] (mkScan 0 0 ∅ cols ((fun _ => []) <$> cols) ((fun _ => ∅) <$> cols)).
Proof.
  intros cols. split; [reflexivity |]. split; [reflexivity |]. split; [reflexivity |].
  intros c. cbn [columns columnValues valueCounts]. rewrite !lookup_fmap.
  destruct (decide (c ∈ header)) as [Hin | Hnot].
  - unfold cols. rewrite (newColumns_lookup c header ∅) by (left; exact Hin).
    repeat split; reflexivity.
  - unfold cols. rewrite (newColumns_absent c header ∅ Hnot) by apply lookup_empty.
    repeat split; reflexivity.
Qed.

(** The scan returns only on records as long as the header, and then it
    has read them all. *)
Lemma scanLoop_Ok header (raws : list rawRecord) : forall rows st st',
  0 < len header < 2 ^ 63 ->
  scanned header rows st ->
  scanLoop header raws (mkReader (len header) raws) st = Ok st' ->
  exists rest,
    raws = map RawFields rest
    /\ Forall (fun record => length record = length header) rest
    /\ scanned header (rows ++ rest) st'.
Proof.
  induction raws as [| raw raws IH]; intros rows st st' Hh Hst Hs.
  - cbn in Hs. injection Hs as <-. exists []. rewrite app_nil_r.
    split; [reflexivity |]. split; [constructor | exact Hst].
  - cbn [scanLoop] in Hs. unfold Reader_Read in Hs. cbn [pending FieldsPerRecord] in Hs.
    destruct raw as [fields | msg]; [| discriminate Hs].
    destruct (Z.ltb_spec 0 (len header)) as [_ | ?]; [| lia].
    destruct (Z.eqb_spec (len fields) (len header)) as [Heq | Hne]; [| discriminate Hs].
    assert (Hlen : length fields = length header) by (unfold len in Heq; lia).
    destruct (scanRecord_step header rows fields st ltac:(lia) Hlen Hst) as (st1 & Hr & Hst1).
    rewrite Hr in Hs. cbn [bind] in Hs.
    destruct (IH _ _ _ Hh Hst1 Hs) as (rest & -> & Hall & Hst').
    exists (fields :: rest). split; [reflexivity |].
    split; [constructor; assumption |].
    rewrite <- app_assoc in Hst'. exact Hst'.
Qed.

(** On records as long as the header the scan does not fail. *)
Lemma scanLoop_total header (rest : list (list string)) : forall rows st,
  0 < len header < 2 ^ 63 ->
  Forall (fun record => length record = length header) rest ->
  scanned header rows st ->
  exists st',
    scanLoop header (map RawFields rest) (mkReader (len header) (map RawFields rest)) st
    = Ok st'.
Proof.
  induction rest as [| fields rest IH]; intros rows st Hh Hall Hst.
  - exists st. reflexivity.
  - apply Forall_cons in Hall as [Hlen Hall].
    cbn [map scanLoop]. unfold Reader_Read. cbn [pending FieldsPerRecord].
    destruct (Z.ltb_spec 0 (len header)) as [_ | ?]; [| lia].
    destruct (Z.eqb_spec (len fields) (len header)) as [_ | Hne];
      [| unfold len in Hne; lia].
    destruct (scanRecord_step header rows fields st ltac:(lia) Hlen Hst) as (st1 & -> & Hst1).
    cbn [bind]. apply (IH _ _ Hh Hall Hst1).
Qed.

End ScanFacts.

(** ** Counters *)

Section CounterFacts.

Lemma sum_snd_Permutation (l k : list (string * Z)) :
  l ≡ₚ k ->
  foldr (fun kv acc => snd kv + acc) 0 l = foldr (fun kv acc => snd kv + acc) 0 k.
Proof.
  induction 1 as [| x l k Hp IH | x y l | l k m Hp1 IH1 Hp2 IH2]; cbn [foldr];
    [reflexivity | rewrite IH; reflexivity | lia | congruence].
Qed.

Lemma sumCounts_empty : sumCounts ∅ = 0.
Proof. unfold sumCounts. rewrite map_to_list_empty. reflexivity. Qed.

Lemma sumCounts_insert_fresh (m : gmap string Z) k c :
  m !! k = None -> sumCounts (<[k := c]> m) = c + sumCounts m.
Proof.
  intros Hk. unfold sumCounts.
  rewrite (sum_snd_Permutation _ _ (map_to_list_insert m k c Hk)). reflexivity.
Qed.

Lemma sumCounts_insert (m : gmap string Z) k c :
  sumCounts (<[k := c]> m) = c + sumCounts m - default 0 (m !! k).
Proof.
  destruct (m !! k) as [c0 |] eqn:Hk.
  - rewrite <- (insert_delete_eq m k c).
    rewrite sumCounts_insert_fresh by apply lookup_delete_eq.
    rewrite <- (insert_delete_id m k c0 Hk) at 2.
    rewrite sumCounts_insert_fresh by apply lookup_delete_eq.
    cbn [default id]. lia.
  - rewrite sumCounts_insert_fresh by exact Hk. cbn [default]. lia.
Qed.

(** The counters of a list of values: one counter for every different
    value, holding the number of its occurrences. *)
Lemma countOf_snoc v values x :
  countOf v (values ++ [x]) = countOf v values + (if String.eqb v x then 1 else 0).
Proof.
  unfold countOf, len. rewrite List.filter_app, length_app. cbn [List.filter].
  destruct (String.eqb v x); cbn [length]; lia.
Qed.

Lemma countOf_bounds v values : 0 <= countOf v values <= len values.
Proof.
  unfold countOf, len. pose proof (filter_length_le (String.eqb v) values). lia.
Qed.

Lemma countOf_pos v values : v ∈ values <-> 0 < countOf v values.
Proof.
  unfold countOf, len. induction values as [| x values IH].
  - split; [intros Hin; apply elem_of_nil in Hin; contradiction | cbn; lia].
  - cbn [List.filter]. destruct (String.eqb_spec v x) as [-> | Hne].
    + cbn [length]. split; [lia |]. intros _. apply elem_of_cons. auto.
    + rewrite elem_of_cons, IH. split; [intros [? | ?]; [contradiction | assumption] | auto].
Qed.

Lemma occurrences_lookup (values : list string) :
  len values < 2 ^ 63 ->
  forall v,
    occurrences values !! v
    = if decide (v ∈ values) then Some (countOf v values) else None.
Proof.
  induction values as [| x values IH] using rev_ind; intros Hlen v.
  - rewrite decide_False by apply not_elem_of_nil. apply lookup_empty.
  - unfold len in Hlen. rewrite length_app in Hlen. cbn [length] in Hlen.
    specialize (IH ltac:(unfold len; lia)).
    rewrite occurrences_snoc. unfold bump.
    assert (Hx : GoInt.add (default 0 (occurrences values !! x)) 1 = countOf x values + 1).
    { rewrite (IH x). pose proof (countOf_bounds x values) as Hb. unfold len in Hb.
      destruct (decide (x ∈ values)) as [Hin | Hnot]; cbn [default id].
      - unfold GoInt.add. apply GoIntFacts.wrap_small.
        unfold GoInt.in_range, GoInt.min_int, GoInt.max_int. lia.
      - assert (countOf x values = 0).
        { destruct (Z.eq_dec (countOf x values) 0) as [? | Hne]; [assumption |].
          exfalso. apply Hnot, countOf_pos. lia. }
        change (GoInt.add 0 1) with 1. lia. }
    rewrite Hx, countOf_snoc.
    destruct (String.eqb_spec v x) as [-> | Hne].
    + rewrite lookup_insert_eq. rewrite decide_True; [reflexivity |].
      apply elem_of_app. right. apply elem_of_cons. left. reflexivity.
    + rewrite lookup_insert_ne by congruence. rewrite IH, Z.add_0_r.
      destruct (decide (v ∈ values)) as [Hin | Hnot].
      * rewrite decide_True; [reflexivity |]. apply elem_of_app. auto.
      * rewrite decide_False; [reflexivity |]. intros Hin.
        apply elem_of_app in Hin as [? | Hin]; [contradiction |].
        apply elem_of_cons in Hin as [? | Hin]; [contradiction |].
        apply elem_of_nil in Hin. exact Hin.
Qed.

Lemma occurrences_dom (values : list string) :
  dom (occurrences values) = (list_to_set values : gset string).
Proof.
  induction values as [| x values IH] using rev_ind.
  - unfold occurrences. cbn [foldl]. rewrite dom_empty_L. reflexivity.
  - rewrite occurrences_snoc. unfold bump. rewrite dom_insert_L, IH.
    rewrite list_to_set_app_L. cbn [list_to_set].
    rewrite union_empty_r_L. apply (comm_L (∪)).
Qed.

Lemma occurrences_size (values : list string) :
  Z.of_nat (size (occurrences values)) = distinct values.
Proof. unfold distinct. rewrite <- occurrences_dom, size_dom. reflexivity. Qed.

Lemma occurrences_sum (values : list string) :
  len values < 2 ^ 63 -> sumCounts (occurrences values) = len values.
Proof.
  induction values as [| x values IH] using rev_ind; intros Hlen.
  - apply sumCounts_empty.
  - unfold len in Hlen. rewrite length_app in Hlen. cbn [length] in Hlen.
    specialize (IH ltac:(unfold len; lia)).
    pose proof (occurrences_lookup values ltac:(unfold len; lia) x) as Hx.
    rewrite occurrences_snoc. unfold bump. rewrite sumCounts_insert, IH, Hx.
    pose proof (countOf_bounds x values) as Hb. unfold len in Hb |- *.
    rewrite length_app. cbn [length].
    destruct (decide (x ∈ values)); cbn [default id].
    + unfold GoInt.add. rewrite GoIntFacts.wrap_small; [lia |].
      unfold GoInt.in_range, GoInt.min_int, GoInt.max_int. lia.
    + change (GoInt.add 0 1) with 1. lia.
Qed.

Lemma distinct_bounds (values : list string) : 0 <= distinct values <= len values.
Proof.
  unfold distinct, len. split; [lia |].
  induction values as [| x values IH]; cbn [list_to_set length].
  - rewrite size_empty. lia.
  - pose proof (size_union_alt ({[x]} : gset string) (list_to_set values)) as Hs.
    assert (size (list_to_set values ∖ {[x]} : gset string) <= size (list_to_set values : gset string))%nat.
    { apply subseteq_size. apply subseteq_difference_l. reflexivity. }
    rewrite size_singleton in Hs. lia.
Qed.

Lemma distinct_pos (values : list string) : values <> [] -> 1 <= distinct values.
Proof.
  intros Hne. unfold distinct. destruct values as [| x values]; [congruence |].
  assert (size (list_to_set (x :: values) : gset string) <> 0)%nat; [| lia].
  apply size_non_empty_iff. cbn [list_to_set].
  apply (non_empty_inhabited x). apply elem_of_union. left. apply elem_of_singleton.
  reflexivity.
Qed.

(** The loop that counts the duplicate rows: every counter above 1 adds
    its excess. *)
Lemma countDuplicates_list (entries : list (string * Z)) : forall acc,
  Forall (fun kv => 1 <= snd kv) entries ->
  0 <= acc ->
  acc + foldr (fun kv acc => snd kv + acc) 0 entries < 2 ^ 63 ->
  foldl (fun duplicateRows kv =>
           if 1 <? snd kv then GoInt.add duplicateRows (GoInt.sub (snd kv) 1)
           else duplicateRows)
        acc entries
  = acc + foldr (fun kv acc => snd kv + acc) 0 entries - len entries.
Proof.
  induction entries as [| kv entries IH]; intros acc Hall Hacc Hsum.
  - unfold len. cbn. lia.
  - apply Forall_cons in Hall as [Hkv Hall]. cbn [foldl foldr] in *.
    assert (Hrest : 0 <= foldr (fun kv acc => snd kv + acc) 0 entries).
    { clear -Hall. induction Hall as [| x l Hx Hl IHl]; cbn [foldr]; lia. }
    unfold len in *. cbn [length].
    destruct (Z.ltb_spec 1 (snd kv)) as [Hgt | Hle].
    + assert (Hstep : GoInt.add acc (GoInt.sub (snd kv) 1) = acc + (snd kv - 1)).
      { unfold GoInt.add, GoInt.sub.
        rewrite (GoIntFacts.wrap_small (snd kv - 1)), GoIntFacts.wrap_small;
          unfold GoInt.in_range, GoInt.min_int, GoInt.max_int; lia. }
      rewrite Hstep, IH by (try assumption; lia). lia.
    + rewrite IH by (try assumption; lia). lia.
Qed.

Lemma countDuplicates_occurrences (hashes : list string) :
  len hashes < 2 ^ 63 ->
  countDuplicates (occurrences hashes) = len hashes - distinct hashes.
Proof.
  intros Hlen. unfold countDuplicates.
  pose proof (occurrences_sum hashes Hlen) as Hsum. unfold sumCounts in Hsum.
  rewrite countDuplicates_list.
  - rewrite Hsum. unfold len at 2. rewrite length_map_to_list.
    rewrite occurrences_size. lia.
  - apply Forall_forall. intros [k c] Hin. apply elem_of_map_to_list in Hin.
    rewrite (occurrences_lookup hashes Hlen k) in Hin. cbn [snd].
    destruct (decide (k ∈ hashes)) as [Hk | ?]; [| discriminate Hin].
    injection Hin as <-. apply countOf_pos in Hk. lia.
  - lia.
  - rewrite Hsum. lia.
Qed.

End CounterFacts.

(** ** The issues a column gets *)

Section IssueFacts.
Context `{GoLib}.

Lemma severityOf_range (pct : float64) : 1 <= severityOf pct <= 3.
Proof.
  unfold severityOf.
  destruct (F64.ltb (F64.of_int 20) pct), (F64.ltb (F64.of_int 5) pct); lia.
Qed.

Lemma outlierIssue_severity outlierCount n :
  severity_ok (outlierIssue outlierCount n) = true.
Proof.
  unfold outlierIssue, severity_ok. cbn [QualityIssue.Severity].
  set (outlierPct := F64.mul _ _).
  destruct (F64.ltb (F64.of_int 10) outlierPct), (F64.ltb (F64.of_int 5) outlierPct);
    reflexivity.
Qed.

(** [calculateNumericStats] sets the statistics and may add one issue;
    it leaves the rest of the column as it is. *)
Lemma calculateNumericStats_frame col values col' :
  calculateNumericStats col values = Ok col' ->
  ColumnProfile.Name col' = ColumnProfile.Name col
  /\ ColumnProfile.DataType col' = ColumnProfile.DataType col
  /\ ColumnProfile.Count col' = ColumnProfile.Count col
  /\ ColumnProfile.MissingCount col' = ColumnProfile.MissingCount col
  /\ ColumnProfile.UniqueCount col' = ColumnProfile.UniqueCount col
  /\ ColumnProfile.TopValues col' = ColumnProfile.TopValues col
  /\ ColumnProfile.IsNumeric col' = ColumnProfile.IsNumeric col
  /\ ColumnProfile.IsCategorical col' = ColumnProfile.IsCategorical col
  /\ ColumnProfile.IsDateTime col' = ColumnProfile.IsDateTime col
  /\ ColumnProfile.IsUnique col' = ColumnProfile.IsUnique col
  /\ exists added,
       ColumnProfile.QualityIssues col' = ColumnProfile.QualityIssues col ++ added
       /\ (length added <= 1)%nat /\ forallb severity_ok added = true
       /\ Forall (fun issue => QualityIssue.Type_ issue = "outliers"%string) added.
Proof.
  intros Hc.
  destruct (parseValues values) as [| first rest] eqn:Hp.
  - unfold calculateNumericStats in Hc. rewrite Hp in Hc.
    change (len (@nil float64) =? 0) with true in Hc. injection Hc as <-.
    repeat split. exists []. rewrite app_nil_r. repeat split; auto.
  - destruct (calculateNumericStats_Ok col values col' Hc ltac:(congruence))
      as (f & r & sorted & m & buckets & _ & _ & _ & Hrest).
    cbv zeta in Hrest. destruct Hrest as [_ ->]. cbn.
    repeat split.
    destruct (0 <? countOutliers _ _ _).
    + eexists [_]. split; [reflexivity |]. split; [cbn; lia |].
      split; [cbn [forallb]; rewrite outlierIssue_severity; reflexivity |].
      repeat constructor.
    + exists []. rewrite app_nil_r. repeat split; auto.
Qed.

(** [detectQualityIssues] adds at most three issues and changes nothing
    else. *)
Lemma detectQualityIssues_frame col rowCount :
  let col' := detectQualityIssues col rowCount in
  ColumnProfile.Name col' = ColumnProfile.Name col
  /\ ColumnProfile.DataType col' = ColumnProfile.DataType col
  /\ ColumnProfile.Count col' = ColumnProfile.Count col
  /\ ColumnProfile.MissingCount col' = ColumnProfile.MissingCount col
  /\ ColumnProfile.UniqueCount col' = ColumnProfile.UniqueCount col
  /\ ColumnProfile.Min col' = ColumnProfile.Min col
  /\ ColumnProfile.Max col' = ColumnProfile.Max col
  /\ ColumnProfile.Mean col' = ColumnProfile.Mean col
  /\ ColumnProfile.Median col' = ColumnProfile.Median col
  /\ ColumnProfile.StdDev col' = ColumnProfile.StdDev col
  /\ ColumnProfile.HistogramBuckets col' = ColumnProfile.HistogramBuckets col
  /\ ColumnProfile.TopValues col' = ColumnProfile.TopValues col
  /\ ColumnProfile.IsNumeric col' = ColumnProfile.IsNumeric col
  /\ ColumnProfile.IsCategorical col' = ColumnProfile.IsCategorical col
  /\ ColumnProfile.IsDateTime col' = ColumnProfile.IsDateTime col
  /\ ColumnProfile.IsUnique col' = ColumnProfile.IsUnique col
  /\ exists added,
       ColumnProfile.QualityIssues col' = ColumnProfile.QualityIssues col ++ added
       /\ (length added <= 3)%nat /\ forallb severity_ok added = true.
Proof.
  cbv zeta. unfold detectQualityIssues, with_QualityIssues.
  cbn [ColumnProfile.Name ColumnProfile.DataType ColumnProfile.Count
       ColumnProfile.MissingCount ColumnProfile.UniqueCount ColumnProfile.Min
       ColumnProfile.Max ColumnProfile.Mean ColumnProfile.Median ColumnProfile.StdDev
       ColumnProfile.HistogramBuckets ColumnProfile.TopValues ColumnProfile.IsNumeric
       ColumnProfile.IsCategorical ColumnProfile.IsDateTime ColumnProfile.IsUnique
       ColumnProfile.QualityIssues].
  repeat (split; [reflexivity |]).
  set (i1 := QualityIssue.mk "missing_values" _ _).
  assert (H1 : severity_ok i1 = true).
  { unfold severity_ok, i1. cbn [QualityIssue.Severity].
    pose proof (severityOf_range
                  (percentage (ColumnProfile.MissingCount col) rowCount)) as Hr.
    apply andb_true_intro. split; apply Z.leb_le; lia. }
  clearbody i1.
  set (issues := ColumnProfile.QualityIssues col).
  destruct (0 <? ColumnProfile.MissingCount col);
    destruct ((ColumnProfile.UniqueCount col =? ColumnProfile.Count col)
              && strings_Contains (strings_ToLower (ColumnProfile.Name col)) "id");
    destruct (ColumnProfile.TopValues col) as [| top ?];
    try destruct (ColumnProfile.IsCategorical col);
    try destruct (F64.ltb (F64.of_int 90)
                    (percentage (ValueCount.Count top) (ColumnProfile.Count col)));
    (eexists; split;
     [ first [ rewrite <- ?app_assoc; reflexivity | symmetry; apply app_nil_r ]
     | split; [cbn [length app]; lia | cbn [forallb app]; rewrite ?H1; reflexivity] ]).
Qed.

End IssueFacts.

(** ** The columns of ProfileCSV *)

Section FinalizeFacts.
Context `{GoLib}.

Lemma finalizeColumn_Ok rowCount col values counts col' :
  finalizeColumn rowCount col values counts = Ok col' ->
  exists dataType,
    inferDataType values = Ok dataType
    /\ ColumnProfile.Name col' = ColumnProfile.Name col
    /\ ColumnProfile.DataType col' = dataType
    /\ ColumnProfile.Count col' = len values
    /\ ColumnProfile.MissingCount col' = ColumnProfile.MissingCount col
    /\ ColumnProfile.UniqueCount col' = Z.of_nat (size counts)
    /\ ColumnProfile.TopValues col' = getTopValues counts 5
    /\ ColumnProfile.IsNumeric col'
       = (String.eqb dataType "integer" || String.eqb dataType "float")
    /\ ColumnProfile.IsDateTime col' = String.eqb dataType "datetime"
    /\ ColumnProfile.IsCategorical col'
       = ((Z.of_nat (size counts) <=? Z.quot rowCount 10) && (Z.of_nat (size counts) <=? 100))
    /\ ColumnProfile.IsUnique col' = (Z.of_nat (size counts) =? len values)
    /\ exists added,
         ColumnProfile.QualityIssues col' = ColumnProfile.QualityIssues col ++ added
         /\ (length added <= 4)%nat /\ forallb severity_ok added = true.
Proof.
  unfold finalizeColumn. intros Hf.
  destruct (inferDataType values) as [dataType | |]; cbn [bind] in Hf; try discriminate Hf.
  exists dataType. split; [reflexivity |].
  set (col1 := ColumnProfile.mk _ _ _ _ _ _ _ _ _ _ _ _ _ _ _ _ _) in Hf.
  assert (Hstats : exists col2 added,
             Ok col2 = (if String.eqb dataType "integer" || String.eqb dataType "float"
                        then calculateNumericStats col1 values else Ok col1)
             /\ ColumnProfile.Name col2 = ColumnProfile.Name col1
             /\ ColumnProfile.DataType col2 = ColumnProfile.DataType col1
             /\ ColumnProfile.Count col2 = ColumnProfile.Count col1
             /\ ColumnProfile.MissingCount col2 = ColumnProfile.MissingCount col1
             /\ ColumnProfile.UniqueCount col2 = ColumnProfile.UniqueCount col1
             /\ ColumnProfile.TopValues col2 = ColumnProfile.TopValues col1
             /\ ColumnProfile.IsNumeric col2 = ColumnProfile.IsNumeric col1
             /\ ColumnProfile.IsCategorical col2 = ColumnProfile.IsCategorical col1
             /\ ColumnProfile.IsDateTime col2 = ColumnProfile.IsDateTime col1
             /\ ColumnProfile.IsUnique col2 = ColumnProfile.IsUnique col1
             /\ ColumnProfile.QualityIssues col2 = ColumnProfile.QualityIssues col1 ++ added
             /\ (length added <= 1)%nat /\ forallb severity_ok added = true).
  { destruct (String.eqb dataType "integer" || String.eqb dataType "float").
    - destruct (calculateNumericStats col1 values) as [col2 | |] eqn:Hc;
        cbn [bind] in Hf; try discriminate Hf.
      destruct (calculateNumericStats_frame _ _ _ Hc)
        as (? & ? & ? & ? & ? & ? & ? & ? & ? & ? & added & ? & ? & ? & _).
      exists col2, added. repeat split; assumption.
    - exists col1, []. rewrite app_nil_r. repeat split; auto. }
  destruct Hstats as (col2 & added & Heq & Hn & Hd & Hc & Hm & Hu & Ht & Hnum & Hcat & Hdt
                      & Hun & Hq & Hlen & Hsev).
  rewrite <- Heq in Hf. cbn [bind] in Hf. injection Hf as <-.
  destruct (detectQualityIssues_frame col2 rowCount)
    as (Hn' & Hd' & Hc' & Hm' & Hu' & _ & _ & _ & _ & _ & _ & Ht' & Hnum' & Hcat' & Hdt'
        & Hun' & added' & Hq' & Hlen' & Hsev').
  rewrite Hn', Hd', Hc', Hm', Hu', Ht', Hnum', Hcat', Hdt', Hun', Hq'.
  rewrite Hn, Hd, Hc, Hm, Hu, Ht, Hnum, Hcat, Hdt, Hun, Hq.
  subst col1. cbn.
  repeat (split; [reflexivity |]).
  exists (added ++ added'). rewrite <- app_assoc. split; [reflexivity |].
  rewrite length_app, forallb_app, Hsev, Hsev'. split; [lia | reflexivity].
Qed.

(** A column is finalized, unless its histogram panics. *)
Lemma finalizeColumn_cases rowCount col values counts :
  len values < 2 ^ 63 ->
  match finalizeColumn rowCount col values counts with
  | Ok _ => True
  | Err _ => False
  | Panic p => negative_index p
  end.
Proof.
  intros Hlen. unfold finalizeColumn.
  rewrite (inferDataType_refines values Hlen). cbn [bind].
  destruct (String.eqb _ "integer" || String.eqb _ "float"); [| exact I].
  set (col1 := ColumnProfile.mk _ _ _ _ _ _ _ _ _ _ _ _ _ _ _ _ _).
  destruct (parseValues values) as [| first rest] eqn:Hp.
  - unfold calculateNumericStats. rewrite Hp.
    change (len (@nil float64) =? 0) with true. exact I.
  - assert (Hne : parseValues values <> []) by (rewrite Hp; discriminate).
    pose proof (calculateNumericStats_cases col1 values Hlen Hne) as Hc.
    destruct (calculateNumericStats col1 values) as [col2 | |]; cbn [bind];
      [exact I | contradiction | exact Hc].
Qed.

Lemma finalizeLoop_cases rowCount vc (entries : list (string * list string)) :
  forall cols : gmap string ColumnProfile.t,
    (forall c vs, (c, vs) ∈ entries -> is_Some (cols !! c) /\ len vs < 2 ^ 63) ->
    match finalizeLoop rowCount vc entries cols with
    | Ok cols' => dom cols' = dom cols
    | Err _ => False
    | Panic p => negative_index p
    end.
Proof.
  induction entries as [| [c vs] entries IH]; intros cols Hall; cbn [finalizeLoop].
  - reflexivity.
  - destruct (Hall c vs ltac:(apply elem_of_cons; left; reflexivity)) as [[col Hcol] Hlen].
    rewrite Hcol.
    pose proof (finalizeColumn_cases rowCount col vs (default ∅ (vc !! c)) Hlen) as Hf.
    destruct (finalizeColumn rowCount col vs _) as [col' | |]; cbn [bind];
      [| contradiction | exact Hf].
    specialize (IH (<[c := col']> cols)).
    assert (Hdom : dom (<[c := col']> cols) = dom cols).
    { rewrite dom_insert_L. apply subseteq_union_1_L.
      apply singleton_subseteq_l. apply elem_of_dom. eauto. }
    rewrite <- Hdom.
    apply IH. intros c' vs' Hin.
    destruct (Hall c' vs' ltac:(apply elem_of_cons; right; exact Hin)) as [Hsome Hl].
    split; [| exact Hl].
    destruct (decide (c = c')) as [<- | Hne].
    + rewrite lookup_insert_eq. eauto.
    + rewrite lookup_insert_ne by exact Hne. exact Hsome.
Qed.

End FinalizeFacts.

(** ** The runs of ProfileCSV *)

Section ProfileCSVFacts.
Context `{GoLib}.

(** The scan ends with the state of all the records, or with the error
    of the reader; it does not panic. *)
Lemma scanLoop_cases header (raws : list rawRecord) : forall rows st,
  0 < len header < 2 ^ 63 ->
  scanned header rows st ->
  match scanLoop header raws (mkReader (len header) raws) st with
  | Ok st' =>
      exists rest,
        raws = map RawFields rest
        /\ Forall (fun record => length record = length header) rest
        /\ scanned header (rows ++ rest) st'
  | Err e =>
      (e = fmt_Errorf "error reading CSV: %w" csv_ErrFieldCount
       /\ exists record, RawFields record ∈ raws /\ len record <> len header)
      \/ (exists msg, e = fmt_Errorf "error reading CSV: %w" (csv_ErrSyntax msg)
                      /\ RawError msg ∈ raws)
  | Panic _ => False
  end.
Proof.
  induction raws as [| raw raws IH]; intros rows st Hh Hst.
  - cbn [scanLoop]. exists []. rewrite app_nil_r.
    split; [reflexivity |]. split; [constructor | exact Hst].
  - cbn [scanLoop]. unfold Reader_Read. cbn [pending FieldsPerRecord].
    destruct raw as [fields | msg].
    + destruct (Z.ltb_spec 0 (len header)) as [_ | ?]; [| lia].
      destruct (Z.eqb_spec (len fields) (len header)) as [Heq | Hne].
      * assert (Hlen : length fields = length header) by (unfold len in Heq; lia).
        destruct (scanRecord_step header rows fields st ltac:(lia) Hlen Hst)
          as (st1 & -> & Hst1).
        cbn [bind]. specialize (IH _ _ Hh Hst1).
        destruct (scanLoop header raws _ st1) as [st' | e | p]; [| | exact IH].
        -- destruct IH as (rest & -> & Hall & Hst').
           exists (fields :: rest). split; [reflexivity |].
           split; [constructor; assumption |].
           rewrite <- app_assoc in Hst'. exact Hst'.
        -- destruct IH as [[-> (record & Hin & Hr)] | (msg & -> & Hin)].
           ++ left. split; [reflexivity |]. exists record.
              split; [apply elem_of_cons; right; exact Hin | exact Hr].
           ++ right. exists msg. split; [reflexivity |]. apply elem_of_cons. right. exact Hin.
      * left. split; [reflexivity |]. exists fields.
        split; [apply elem_of_cons; left; reflexivity | exact Hne].
    + right. exists msg. split; [reflexivity |]. apply elem_of_cons. left. reflexivity.
Qed.

(** What the columns of a scanned state hold. *)
Lemma scanned_entries header rows st c vs :
  scanned header rows st ->
  (c, vs) ∈ map_range (columnValues st) ->
  c ∈ header /\ vs = present (columnCells header c rows)
  /\ columns st !! c
     = Some (with_MissingCount (newColumn c)
               (GoInt.wrap (absent (columnCells header c rows))))
  /\ valueCounts st !! c = Some (occurrences (present (columnCells header c rows))).
Proof.
  intros (_ & _ & _ & Hcols) Hin.
  rewrite (map_range_perm _ (columnValues st)) in Hin.
  apply elem_of_map_to_list in Hin. specialize (Hcols c).
  destruct (decide (c ∈ header)) as [Hc | Hc].
  - destruct Hcols as (Hcol & Hvals & Hcounts). rewrite Hvals in Hin. injection Hin as <-.
    auto.
  - destruct Hcols as (_ & Hvals & _). rewrite Hvals in Hin. discriminate Hin.
Qed.

Lemma columnCells_length header c rows :
  Forall (fun record => length record = length header) rows ->
  len (columnCells header c rows) <= len rows * len header.
Proof.
  intros Hall. unfold columnCells, len.
  induction Hall as [| record rows Hr Hall IH]; cbn [map concat length]; [lia |].
  rewrite length_app.
  assert (length (cellsOf header c record) <= length header)%nat; [| lia].
  unfold cellsOf. rewrite length_fmap.
  pose proof (filter_length_le (fun cell : string * string => String.eqb (fst cell) c)
                (zip header record)) as Hf.
  rewrite length_zip_with in Hf. lia.
Qed.

Lemma present_length cells : len (present cells) <= len cells.
Proof. pose proof (absent_present cells). pose proof (absent_nonneg cells). lia. Qed.

(** The outcomes of [ProfileCSV] on a file with a header. *)
Lemma ProfileCSV_cases filePath file header raws :
  os_Open filePath = Some file ->
  file_records file = RawFields header :: raws ->
  0 < len header < 2 ^ 63 ->
  len raws * len header < 2 ^ 63 ->
  match ProfileCSV filePath with
  | Ok profile =>
      exists fileSize rows st cols,
        file_stat file = Some fileSize
        /\ raws = map RawFields rows
        /\ Forall (fun record => length record = length header) rows
        /\ scanned header rows st
        /\ finalizeLoop (rowCount st) (valueCounts st) (map_range (columnValues st))
             (columns st) = Ok cols
        /\ profile = csvProfile filePath fileSize header st cols
  | Err e =>
      (file_stat file = None
       /\ e = fmt_Errorf "failed to get file stats: %w" (os_ErrStat filePath))
      \/ (e = fmt_Errorf "error reading CSV: %w" csv_ErrFieldCount
          /\ exists record, RawFields record ∈ raws /\ len record <> len header)
      \/ (exists msg, e = fmt_Errorf "error reading CSV: %w" (csv_ErrSyntax msg)
                      /\ RawError msg ∈ raws)
  | Panic p => negative_index p
  end.
Proof.
  intros Ho Hr Hh Hsize. unfold ProfileCSV. rewrite Ho.
  destruct (file_stat file) as [fileSize |]; [| left; auto].
  unfold csv_NewReader, Reader_Read. rewrite Hr.
  cbn [pending FieldsPerRecord]. change (0 <? 0) with false. cbv iota.
  change (0 =? 0) with true. cbv iota. cbn [pending].
  pose proof (scanned_initial header) as Hinit. cbv zeta in Hinit.
  pose proof (scanLoop_cases header raws [] _ Hh Hinit) as Hscan.
  destruct (scanLoop header raws _ _) as [st | e | p]; cbn [bind];
    [| right; exact Hscan | contradiction].
  destruct Hscan as (rows & -> & Hall & Hst). cbn [app] in Hst.
  assert (Hentries : forall c vs,
             (c, vs) ∈ map_range (columnValues st) ->
             is_Some (columns st !! c) /\ len vs < 2 ^ 63).
  { intros c vs Hin.
    destruct (scanned_entries header rows st c vs Hst Hin) as (_ & -> & Hcol & _).
    split; [eauto |].
    pose proof (present_length (columnCells header c rows)).
    pose proof (columnCells_length header c rows Hall).
    unfold len in Hsize. rewrite length_map in Hsize. unfold len in *. lia. }
  pose proof (finalizeLoop_cases (rowCount st) (valueCounts st)
                (map_range (columnValues st)) (columns st) Hentries) as Hfin.
  destruct (finalizeLoop _ _ _ _) as [cols | e | p] eqn:Hfl; cbn [bind];
    [| contradiction | exact Hfin].
  exists fileSize, rows, st, cols.
  split; [reflexivity |]. split; [reflexivity |]. split; [exact Hall |].
  split; [exact Hst |]. split; [exact Hfl | reflexivity].
Qed.

End ProfileCSVFacts.

Section ProfileCSVColumns.
Context `{GoLib}.

(** Records as long as the header have all their cells under a name. *)
Lemma allCells_rectangular header rows :
  Forall (fun record => length record = length header) rows ->
  allCells header rows = concat rows.
Proof.
  unfold allCells. induction 1 as [| record rows Hr Hall IH]; cbn [map concat]; [reflexivity |].
  rewrite IH, snd_zip by lia. reflexivity.
Qed.

Lemma concat_length_rectangular (header : list string) (rows : list (list string)) :
  Forall (fun record => length record = length header) rows ->
  len (concat rows) = len rows * len header.
Proof.
  unfold len. induction 1 as [| record rows Hr Hall IH]; cbn [concat length]; [lia |].
  rewrite length_app. lia.
Qed.

Lemma cellsOf_other (header : list string) (c : string) : forall record : list string,
  c ∉ header -> cellsOf header c record = [].
Proof.
  unfold cellsOf. induction header as [| a header IH]; intros [| b record] Hc; try reflexivity.
  apply not_elem_of_cons in Hc as [Hne Hc]. cbn [zip_with List.filter fst].
  destruct (String.eqb_spec a c) as [-> | _]; [contradiction |]. apply IH, Hc.
Qed.

(** With distinct names, a column has one cell in every record. *)
Lemma cellsOf_distinct (header : list string) : forall (record : list string) (k : nat) c v,
  NoDup header -> header !! k = Some c -> record !! k = Some v ->
  cellsOf header c record = [v].
Proof.
  induction header as [| a header IH]; intros [| b record] k c v Hnd Hc Hv;
    try discriminate Hc; try discriminate Hv.
  apply NoDup_cons in Hnd as [Ha Hnd].
  destruct k as [| k].
  - cbn in Hc, Hv. injection Hc as ->. injection Hv as ->.
    pose proof (cellsOf_other header c record Ha) as Hrest.
    unfold cellsOf in *. cbn [zip_with List.filter fst].
    rewrite String.eqb_refl. cbn [fmap list_fmap snd]. f_equal. exact Hrest.
  - change ((a :: header) !! S k) with (header !! k) in Hc.
    change ((b :: record) !! S k) with (record !! k) in Hv.
    pose proof (IH record k c v Hnd Hc Hv) as Hrest.
    unfold cellsOf in *. cbn [zip_with List.filter fst].
    destruct (String.eqb_spec a c) as [-> | _]; [| exact Hrest].
    exfalso. apply Ha. eapply list_elem_of_lookup_2, Hc.
Qed.

Lemma columnCells_distinct (header : list string) (rows : list (list string)) k c :
  NoDup header -> header !! k = Some c ->
  Forall (fun record => length record = length header) rows ->
  columnCells header c rows = omap (fun record => record !! k) rows
  /\ len (columnCells header c rows) = len rows.
Proof.
  intros Hnd Hc Hall. unfold columnCells, len.
  pose proof (lookup_lt_Some _ _ _ Hc) as Hk.
  induction Hall as [| record rows Hr Hall IH]; cbn [map concat omap list_omap];
    [split; reflexivity |].
  destruct (lookup_lt_is_Some_2 record k ltac:(lia)) as [v Hv].
  rewrite (cellsOf_distinct header record k c v Hnd Hc Hv).
  destruct IH as [IH1 IH2]. rewrite Hv.
  split; [cbn [app]; f_equal; exact IH1 |]. cbn [app length]. lia.
Qed.

(** The dataset-level issues: at most two, of severity 1 to 3. *)
Lemma collectDatasetQualityIssues_frame (profile : DatasetProfile.t) :
  let profile' := collectDatasetQualityIssues profile in
  DatasetProfile.Filename profile' = DatasetProfile.Filename profile
  /\ DatasetProfile.FileSize profile' = DatasetProfile.FileSize profile
  /\ DatasetProfile.Format profile' = DatasetProfile.Format profile
  /\ DatasetProfile.RowCount profile' = DatasetProfile.RowCount profile
  /\ DatasetProfile.ColumnCount profile' = DatasetProfile.ColumnCount profile
  /\ DatasetProfile.MissingCells profile' = DatasetProfile.MissingCells profile
  /\ DatasetProfile.DuplicateRows profile' = DatasetProfile.DuplicateRows profile
  /\ DatasetProfile.Columns profile' = DatasetProfile.Columns profile
  /\ DatasetProfile.QualityScore profile' = DatasetProfile.QualityScore profile
  /\ DatasetProfile.CorrelationMatrix profile' = DatasetProfile.CorrelationMatrix profile
  /\ DatasetProfile.Recommendations profile' = DatasetProfile.Recommendations profile
  /\ exists added,
       DatasetProfile.QualityIssues profile' = DatasetProfile.QualityIssues profile ++ added
       /\ (length added <= 2)%nat /\ forallb severity_ok added = true
       /\ (DatasetProfile.RowCount profile <= 0 -> added = []).
Proof.
  cbv zeta. unfold collectDatasetQualityIssues.
  cbn [DatasetProfile.Filename DatasetProfile.FileSize DatasetProfile.Format
       DatasetProfile.RowCount DatasetProfile.ColumnCount DatasetProfile.MissingCells
       DatasetProfile.DuplicateRows DatasetProfile.Columns DatasetProfile.QualityScore
       DatasetProfile.CorrelationMatrix DatasetProfile.Recommendations
       DatasetProfile.QualityIssues].
  repeat (split; [reflexivity |]).
  set (i2 := QualityIssue.mk "duplicate_rows" _ _).
  assert (H2 : severity_ok i2 = true).
  { unfold severity_ok, i2. cbn [QualityIssue.Severity].
    pose proof (severityOf_range
                  (percentage (DatasetProfile.DuplicateRows profile)
                     (DatasetProfile.RowCount profile))) as Hr.
    apply andb_true_intro. split; apply Z.leb_le; lia. }
  clearbody i2.
  set (issues := DatasetProfile.QualityIssues profile).
  set (pct := percentage (DatasetProfile.MissingCells profile) _).
  destruct (Z.ltb_spec 0 (DatasetProfile.RowCount profile)) as [Hpos | Hle]; cbn [andb].
  - destruct (0 <? DatasetProfile.ColumnCount profile);
      try destruct (F64.ltb (F64.of_int 5) pct);
      try destruct (F64.ltb (F64.of_int 20) pct);
      destruct (0 <? DatasetProfile.DuplicateRows profile);
      (eexists; split;
       [ first [ rewrite <- ?app_assoc; reflexivity | symmetry; apply app_nil_r ]
       | split; [cbn [length app]; lia
                | split; [cbn [forallb app]; rewrite ?H2; reflexivity | intros; lia] ] ]).
  - exists []. rewrite app_nil_r. repeat split; auto.
Qed.

(** The fields of the profile of a CSV file. *)
Lemma csvProfile_fields filePath fileSize header st cols :
  let profile := csvProfile filePath fileSize header st cols in
  DatasetProfile.Filename profile = filepath_Base filePath
  /\ DatasetProfile.FileSize profile = fileSize
  /\ DatasetProfile.Format profile = "CSV"%string
  /\ DatasetProfile.RowCount profile = rowCount st
  /\ DatasetProfile.ColumnCount profile = len header
  /\ DatasetProfile.MissingCells profile = missingCells st
  /\ DatasetProfile.DuplicateRows profile = countDuplicates (rowHashes st)
  /\ DatasetProfile.Columns profile = cols
  /\ DatasetProfile.CorrelationMatrix profile = None
  /\ DatasetProfile.Recommendations profile = []
  /\ DatasetProfile.QualityScore profile = CalculateQualityScore profile
  /\ (length (DatasetProfile.QualityIssues profile) <= 2)%nat
  /\ forallb severity_ok (DatasetProfile.QualityIssues profile) = true
  /\ (rowCount st <= 0 -> DatasetProfile.QualityIssues profile = []).
Proof.
  cbv zeta. unfold csvProfile.
  remember (DatasetProfile.mk (filepath_Base filePath) fileSize "CSV" (rowCount st)
              (len header) (missingCells st) (countDuplicates (rowHashes st)) cols [] 0
              None []) as base eqn:Hbase.
  destruct (collectDatasetQualityIssues_frame base)
    as (H1 & H2 & H3 & H4 & H5 & H6 & H7 & H8 & H9 & H10 & H11 & added & Hq & Hlen & Hsev
        & Hnone).
  cbn [DatasetProfile.Filename DatasetProfile.FileSize DatasetProfile.Format
       DatasetProfile.RowCount DatasetProfile.ColumnCount DatasetProfile.MissingCells
       DatasetProfile.DuplicateRows DatasetProfile.Columns DatasetProfile.QualityScore
       DatasetProfile.CorrelationMatrix DatasetProfile.Recommendations
       DatasetProfile.QualityIssues].
  split; [rewrite H1, Hbase; reflexivity |]. split; [rewrite H2, Hbase; reflexivity |].
  split; [rewrite H3, Hbase; reflexivity |]. split; [rewrite H4, Hbase; reflexivity |].
  split; [rewrite H5, Hbase; reflexivity |]. split; [rewrite H6, Hbase; reflexivity |].
  split; [rewrite H7, Hbase; reflexivity |]. split; [rewrite H8, Hbase; reflexivity |].
  split; [rewrite H10, Hbase; reflexivity |]. split; [rewrite H11, Hbase; reflexivity |].
  split; [apply CalculateQualityScore_fields; reflexivity |].
  assert (Hq' : DatasetProfile.QualityIssues (collectDatasetQualityIssues base) = added).
  { rewrite Hq, Hbase. reflexivity. }
  rewrite Hq'. split; [exact Hlen |]. split; [exact Hsev |].
  intros Hr. apply Hnone. rewrite Hbase. exact Hr.
Qed.

(** The finalized columns: one for every name of the header, made from
    the cells of that name. *)
Lemma finalized_columns header rows st cols :
  scanned header rows st ->
  finalizeLoop (rowCount st) (valueCounts st) (map_range (columnValues st)) (columns st)
  = Ok cols ->
  forall c,
    if decide (c ∈ header) then
      exists col,
        cols !! c = Some col
        /\ finalizeColumn (rowCount st)
             (with_MissingCount (newColumn c)
                (GoInt.wrap (absent (columnCells header c rows))))
             (present (columnCells header c rows))
             (occurrences (present (columnCells header c rows))) = Ok col
    else cols !! c = None.
Proof.
  intros Hst Hfin c.
  assert (Hnd : NoDup (map_range (columnValues st)).*1).
  { rewrite (map_range_perm _ (columnValues st)). apply NoDup_fst_map_to_list. }
  destruct (finalizeLoop_lookup c _ _ _ Hnd _ _ Hfin) as [Hout Hin].
  pose proof Hst as (_ & _ & _ & Hcols). specialize (Hcols c).
  destruct (decide (c ∈ header)) as [Hc | Hc].
  - destruct Hcols as (Hcol & Hvals & Hcounts).
    assert (Hentry : (c, present (columnCells header c rows)) ∈ map_range (columnValues st)).
    { rewrite (map_range_perm _ (columnValues st)). apply elem_of_map_to_list, Hvals. }
    destruct (Hin _ _ Hentry Hcol) as (col & Hf & Hlook).
    rewrite Hcounts in Hf. cbn [default id] in Hf. exists col. auto.
  - destruct Hcols as (Hcol & Hvals & _). rewrite <- Hcol. apply Hout.
    intros Hk. apply list_elem_of_fmap in Hk as ([c' vs] & -> & Hk).
    rewrite (map_range_perm _ (columnValues st)) in Hk.
    apply elem_of_map_to_list in Hk. cbn [fst] in Hvals. rewrite Hvals in Hk.
    discriminate Hk.
Qed.

End ProfileCSVColumns.

Section ProfileCSVResults.
Context `{GoLib}.

Lemma RawFields_inj (rows rows' : list (list string)) :
  map RawFields rows = map RawFields rows' -> rows = rows'.
Proof.
  revert rows'. induction rows as [| r rows IH]; intros [| r' rows'] Heq;
    try discriminate Heq; [reflexivity |].
  cbn [map] in Heq. injection Heq as -> Heq. f_equal. apply IH, Heq.
Qed.

Lemma size_bounds (header : list string) (n : Z) :
  header <> [] -> (n + 1) * len header < 2 ^ 63 -> 0 <= n ->
  0 < len header < 2 ^ 63 /\ n * len header < 2 ^ 63 /\ n < 2 ^ 63.
Proof.
  intros Hne Hsize Hn.
  assert (0 < len header) by (destruct header; [congruence | unfold len; cbn [length]; lia]).
  nia.
Qed.

(** A profile that [ProfileCSV] returns comes from a scan of all the
    records and from the finalized columns. *)
Lemma ProfileCSV_Ok filePath file header rows profile :
  os_Open filePath = Some file ->
  file_records file = RawFields header :: map RawFields rows ->
  header <> [] ->
  (len rows + 1) * len header < 2 ^ 63 ->
  ProfileCSV filePath = Ok profile ->
  exists fileSize st cols,
    file_stat file = Some fileSize
    /\ Forall (fun record => length record = length header) rows
    /\ scanned header rows st
    /\ finalizeLoop (rowCount st) (valueCounts st) (map_range (columnValues st))
         (columns st) = Ok cols
    /\ profile = csvProfile filePath fileSize header st cols.
Proof.
  intros Ho Hr Hne Hsize Hp.
  destruct (size_bounds header (len rows) Hne Hsize ltac:(unfold len; lia)) as (Hh & Hcells & _).
  pose proof (ProfileCSV_cases filePath file header (map RawFields rows) Ho Hr Hh
                ltac:(unfold len in *; rewrite length_map; exact Hcells)) as Hc.
  rewrite Hp in Hc.
  destruct Hc as (fileSize & rows' & st & cols & Hs & Heq & Hall & Hst & Hfin & ->).
  apply RawFields_inj in Heq. subst rows'. exists fileSize, st, cols. auto.
Qed.

(** The counts of the dataset. *)
Lemma ProfileCSV_dataset filePath file header rows profile :
  os_Open filePath = Some file ->
  file_records file = RawFields header :: map RawFields rows ->
  header <> [] ->
  (len rows + 1) * len header < 2 ^ 63 ->
  ProfileCSV filePath = Ok profile ->
  Forall (fun record => len record = len header) rows
  /\ DatasetProfile.Filename profile = filepath_Base filePath
  /\ file_stat file = Some (DatasetProfile.FileSize profile)
  /\ DatasetProfile.Format profile = "CSV"%string
  /\ DatasetProfile.RowCount profile = len rows
  /\ DatasetProfile.ColumnCount profile = len header
  /\ DatasetProfile.MissingCells profile = absent (concat rows)
  /\ DatasetProfile.DuplicateRows profile = len rows - distinct (map rowHash rows)
  /\ DatasetProfile.CorrelationMatrix profile = None
  /\ DatasetProfile.Recommendations profile = []
  /\ DatasetProfile.QualityScore profile = CalculateQualityScore profile.
Proof.
  intros Ho Hr Hne Hsize Hp.
  destruct (size_bounds header (len rows) Hne Hsize ltac:(unfold len; lia))
    as (Hh & Hcells & Hrows).
  destruct (ProfileCSV_Ok _ _ _ _ _ Ho Hr Hne Hsize Hp)
    as (fileSize & st & cols & Hs & Hall & Hst & Hfin & ->).
  destruct (csvProfile_fields filePath fileSize header st cols)
    as (H1 & H2 & H3 & H4 & H5 & H6 & H7 & H8 & H9 & H10 & H11 & _).
  destruct Hst as (Hrc & Hrh & Hmiss & _).
  rewrite H1, H2, H3, H4, H5, H6, H7, H9, H10.
  split; [eapply Forall_impl; [exact Hall |]; intros r Hlen; cbv beta in *; unfold len; lia |].
  split; [reflexivity |]. split; [exact Hs |]. split; [reflexivity |].
  split; [rewrite Hrc; apply GoIntFacts.wrap_small;
          unfold GoInt.in_range, GoInt.min_int, GoInt.max_int, len in *; lia |].
  split; [reflexivity |].
  split.
  { rewrite Hmiss, (allCells_rectangular header rows Hall).
    apply GoIntFacts.wrap_small.
    pose proof (absent_present (concat rows)) as Hap.
    pose proof (absent_nonneg (concat rows)).
    pose proof (concat_length_rectangular header rows Hall).
    unfold GoInt.in_range, GoInt.min_int, GoInt.max_int, len in *. lia. }
  split.
  { rewrite Hrh. rewrite countDuplicates_occurrences; unfold len; rewrite length_map;
      [reflexivity | unfold len in Hrows; lia]. }
  split; [reflexivity |]. split; [reflexivity | exact H11].
Qed.

(** The columns of the profile. *)
Lemma ProfileCSV_column filePath file header rows profile c :
  os_Open filePath = Some file ->
  file_records file = RawFields header :: map RawFields rows ->
  header <> [] ->
  (len rows + 1) * len header < 2 ^ 63 ->
  ProfileCSV filePath = Ok profile ->
  if decide (c ∈ header) then
    exists col,
      DatasetProfile.Columns profile !! c = Some col
      /\ finalizeColumn (len rows)
           (with_MissingCount (newColumn c) (absent (columnCells header c rows)))
           (present (columnCells header c rows))
           (occurrences (present (columnCells header c rows))) = Ok col
  else DatasetProfile.Columns profile !! c = None.
Proof.
  intros Ho Hr Hne Hsize Hp.
  destruct (size_bounds header (len rows) Hne Hsize ltac:(unfold len; lia))
    as (Hh & Hcells & Hrows).
  destruct (ProfileCSV_Ok _ _ _ _ _ Ho Hr Hne Hsize Hp)
    as (fileSize & st & cols & Hs & Hall & Hst & Hfin & ->).
  destruct (csvProfile_fields filePath fileSize header st cols)
    as (_ & _ & _ & _ & _ & _ & _ & H8 & _).
  rewrite H8.
  pose proof (finalized_columns header rows st cols Hst Hfin c) as Hc.
  destruct (decide (c ∈ header)); [| exact Hc].
  destruct Hc as (col & Hlook & Hf). exists col. split; [exact Hlook |].
  destruct Hst as (Hrc & _).
  rewrite Hrc in Hf.
  rewrite (GoIntFacts.wrap_small (len rows)) in Hf
    by (unfold GoInt.in_range, GoInt.min_int, GoInt.max_int, len in *; lia).
  rewrite (GoIntFacts.wrap_small (absent _)) in Hf; [exact Hf |].
  pose proof (absent_present (columnCells header c rows)) as Hap.
  pose proof (absent_nonneg (columnCells header c rows)).
  pose proof (columnCells_length header c rows Hall).
  unfold GoInt.in_range, GoInt.min_int, GoInt.max_int, len in *. lia.
Qed.

End ProfileCSVResults.

Section ScoreBounds.

(** The score of a profile whose issues are well formed. *)
Lemma CalculateQualityScore_bounds (profile : DatasetProfile.t) :
  valid_issues profile = true -> 0 <= CalculateQualityScore profile <= 100.
Proof.
  intros Hv. unfold CalculateQualityScore.
  destruct (_ || _); [lia |].
  pose proof (issuePenalty_bounds profile Hv) as Hip.
  set (raw := columnsIssuePenalty _ _) in *.
  set (ip := if 40 <? raw then 40 else raw).
  assert (Hip' : 0 <= ip <= 40) by (subst ip; destruct (Z.ltb_spec 40 raw); lia).
  set (totalCells := GoInt.mul _ _).
  set (d1 := fun s : Z =>
               if 0 <? totalCells
               then deduct s (percentage (DatasetProfile.MissingCells profile) totalCells) 3 30
               else s).
  set (d3 := fun s : Z =>
               if 0 <? DatasetProfile.RowCount profile
               then deduct s (percentage (DatasetProfile.DuplicateRows profile)
                                (DatasetProfile.RowCount profile)) 2 15
               else s).
  apply (score_steps ip d1 d3 Hip').
  - subst d1. cbv beta. destruct (0 <? totalCells); [| left; reflexivity].
    apply deduct_cases; [lia |]. vm_compute. eauto.
  - intros s. subst d3. cbv beta.
    destruct (0 <? DatasetProfile.RowCount profile); [| left; reflexivity].
    apply deduct_cases; [lia |]. vm_compute. eauto.
Qed.

(** The score of a well-formed profile with a row and a column. *)
Lemma CalculateQualityScore_lower (profile : DatasetProfile.t) :
  0 < DatasetProfile.RowCount profile ->
  0 < DatasetProfile.ColumnCount profile ->
  valid_issues profile = true ->
  valid_counts profile = true ->
  15 <= CalculateQualityScore profile.
Proof.
  intros HR HC Hv Hc. unfold CalculateQualityScore.
  unfold valid_counts in Hc.
  repeat (apply andb_prop in Hc as [Hc ?]).
  repeat match goal with
         | H : (_ <=? _) = true |- _ => apply Z.leb_le in H
         | H : (_ <? _) = true |- _ => apply Z.ltb_lt in H
         end.
  destruct (Z.eqb_spec (DatasetProfile.RowCount profile) 0) as [? | _]; [lia |].
  destruct (Z.eqb_spec (DatasetProfile.ColumnCount profile) 0) as [? | _]; [lia |].
  cbn [orb].
  pose proof (issuePenalty_bounds profile Hv) as Hip.
  set (raw := columnsIssuePenalty _ _) in *.
  set (ip := if 40 <? raw then 40 else raw).
  assert (Hip' : 0 <= ip <= 40) by (subst ip; destruct (Z.ltb_spec 40 raw); lia).
  set (R := DatasetProfile.RowCount profile) in *.
  set (C := DatasetProfile.ColumnCount profile) in *.
  assert (HRC : 0 < R * C) by nia.
  assert (HR63 : R < 2 ^ 63) by nia.
  unfold GoInt.mul. rewrite (GoIntFacts.wrap_small (R * C))
    by (unfold GoInt.in_range, GoInt.min_int, GoInt.max_int; lia).
  destruct (Z.ltb_spec 0 (R * C)) as [_ | ?]; [| lia].
  destruct (Z.ltb_spec 0 R) as [_ | ?]; [| lia].
  set (s1 := deduct 100 _ 3 30).
  assert (Hs1 : 70 <= s1 <= 100).
  { subst s1.
    destruct (deduct_valid 100 (DatasetProfile.MissingCells profile) (R * C) 3 30)
      as [-> | (p & Hp & ->)]; try lia.
    unfold GoInt.sub. rewrite GoIntFacts.wrap_small
      by (unfold GoInt.in_range, GoInt.min_int, GoInt.max_int; lia).
    lia. }
  set (s2 := GoInt.sub s1 ip).
  assert (Hs2 : 30 <= s2 <= 100).
  { subst s2. unfold GoInt.sub. rewrite GoIntFacts.wrap_small
      by (unfold GoInt.in_range, GoInt.min_int, GoInt.max_int; lia).
    lia. }
  set (s3 := deduct s2 _ 2 15).
  assert (Hs3 : 15 <= s3 <= 100).
  { subst s3.
    destruct (deduct_valid s2 (DatasetProfile.DuplicateRows profile) R 2 15)
      as [-> | (p & Hp & ->)]; try lia.
    unfold GoInt.sub. rewrite GoIntFacts.wrap_small
      by (unfold GoInt.in_range, GoInt.min_int, GoInt.max_int; lia).
    lia. }
  destruct (Z.ltb_spec s3 0); lia.
Qed.

End ScoreBounds.

Section ProfileCSVWellFormed.
Context `{GoLib}.

Lemma column_issues_bound (cols : gmap string ColumnProfile.t) :
  (forall c col, cols !! c = Some col ->
     (length (ColumnProfile.QualityIssues col) <= 4)%nat
     /\ forallb severity_ok (ColumnProfile.QualityIssues col) = true) ->
  forallb severity_ok (column_issues cols) = true
  /\ (length (column_issues cols) <= 4 * size cols)%nat.
Proof.
  intros Hall. unfold column_issues. rewrite <- (length_map_to_list cols).
  assert (Hl : Forall (fun kv : string * ColumnProfile.t =>
                         (length (ColumnProfile.QualityIssues (snd kv)) <= 4)%nat
                         /\ forallb severity_ok (ColumnProfile.QualityIssues (snd kv)) = true)
                 (map_to_list cols)).
  { apply Forall_forall. intros [c col] Hin. apply elem_of_map_to_list in Hin.
    apply (Hall c col Hin). }
  induction Hl as [| kv l [Hlen Hsev] Hl IH]; cbn [map concat length]; [split; [reflexivity | lia] |].
  destruct IH as [IH1 IH2]. rewrite forallb_app, length_app, Hsev, IH1.
  split; [reflexivity | lia].
Qed.

Lemma distinct_NoDup (values : list string) : distinct values = len values <-> NoDup values.
Proof.
  unfold distinct, len. split.
  - induction values as [| x values IH]; intros Hs; [constructor |].
    cbn [list_to_set length] in Hs.
    pose proof (distinct_bounds values) as Hb. unfold distinct, len in Hb.
    destruct (decide (x ∈ values)) as [Hin | Hnot].
    + exfalso.
      assert (Heq : ({[x]} ∪ list_to_set values : gset string) = list_to_set values).
      { apply subseteq_union_1_L, singleton_subseteq_l, elem_of_list_to_set, Hin. }
      rewrite Heq in Hs. lia.
    + constructor; [exact Hnot |]. apply IH.
      rewrite size_union in Hs
        by (apply disjoint_singleton_l; rewrite elem_of_list_to_set; exact Hnot).
      rewrite size_singleton in Hs. lia.
  - intros Hnd. rewrite size_list_to_set by exact Hnd. reflexivity.
Qed.

Lemma size_columns_le (header : list string) (cols : gmap string ColumnProfile.t) :
  (forall c, is_Some (cols !! c) -> c ∈ header) -> (size cols <= length header)%nat.
Proof.
  intros Hkeys. rewrite <- (length_map_to_list cols), <- (length_fmap fst).
  apply submseteq_length, NoDup_submseteq; [apply NoDup_fst_map_to_list |].
  intros c Hc. apply list_elem_of_fmap in Hc as ([c' col] & -> & Hin).
  apply elem_of_map_to_list in Hin. apply Hkeys. eauto.
Qed.

(** The profile of a CSV file is well formed. *)
Lemma ProfileCSV_valid filePath file header rows profile :
  os_Open filePath = Some file ->
  file_records file = RawFields header :: map RawFields rows ->
  header <> [] ->
  (len rows + 1) * len header < 2 ^ 63 ->
  len header < 2 ^ 56 ->
  ProfileCSV filePath = Ok profile ->
  valid_issues profile = true /\ valid_counts profile = true.
Proof.
  intros Ho Hr Hne Hsize Hcols Hp.
  destruct (size_bounds header (len rows) Hne Hsize ltac:(unfold len; lia))
    as (Hh & Hcells & Hrows).
  destruct (ProfileCSV_dataset _ _ _ _ _ Ho Hr Hne Hsize Hp)
    as (Hall & _ & _ & _ & HR & HC & HM & HD & _).
  assert (Hall' : Forall (fun record : list string => length record = length header) rows).
  { eapply Forall_impl; [exact Hall |]. intros r Hl. cbv beta in *. unfold len in *. lia. }
  split.
  - assert (Hcolumn : forall c col,
               DatasetProfile.Columns profile !! c = Some col ->
               c ∈ header
               /\ (length (ColumnProfile.QualityIssues col) <= 4)%nat
               /\ forallb severity_ok (ColumnProfile.QualityIssues col) = true).
    { intros c col Hlook.
      pose proof (ProfileCSV_column _ _ _ _ _ c Ho Hr Hne Hsize Hp) as Hc.
      destruct (decide (c ∈ header)) as [Hin | Hnot]; [| congruence].
      destruct Hc as (col' & Hlook' & Hf). rewrite Hlook in Hlook'. injection Hlook' as <-.
      apply finalizeColumn_Ok in Hf
        as (dt & _ & _ & _ & _ & _ & _ & _ & _ & _ & _ & _ & added & Hq & Hlen & Hsev).
      cbn [ColumnProfile.QualityIssues with_MissingCount newColumn app] in Hq.
      rewrite Hq. auto. }
    destruct (column_issues_bound (DatasetProfile.Columns profile)
                ltac:(intros c col Hl; apply (Hcolumn c col Hl))) as [Hsev Hlen].
    pose proof (size_columns_le header (DatasetProfile.Columns profile)
                  ltac:(intros c [col Hl]; apply (Hcolumn c col Hl))) as Hsz.
    destruct (ProfileCSV_Ok _ _ _ _ _ Ho Hr Hne Hsize Hp)
      as (fileSize & st & cols & _ & _ & _ & _ & Heq).
    destruct (csvProfile_fields filePath fileSize header st cols)
      as (_ & _ & _ & _ & _ & _ & _ & _ & _ & _ & _ & Hdl & Hds & _).
    rewrite <- Heq in Hdl, Hds.
    unfold valid_issues, all_issues.
    rewrite forallb_app, Hds, Hsev, length_app. cbn [andb].
    apply Z.ltb_lt. unfold len in Hcols. lia.
  - unfold valid_counts. rewrite HR, HC, HM, HD.
    pose proof (absent_present (concat rows)) as Hap.
    pose proof (absent_nonneg (concat rows)).
    pose proof (concat_length_rectangular header rows Hall').
    pose proof (distinct_bounds (map rowHash rows)) as Hd.
    unfold len in Hd. rewrite length_map in Hd.
    repeat (apply andb_true_intro; split);
      first [apply Z.leb_le | apply Z.ltb_lt]; unfold len in *; lia.
Qed.

(** The names and the sizes of the columns. *)
Lemma ProfileCSV_names filePath file header rows profile :
  os_Open filePath = Some file ->
  file_records file = RawFields header :: map RawFields rows ->
  header <> [] ->
  (len rows + 1) * len header < 2 ^ 63 ->
  ProfileCSV filePath = Ok profile ->
  (forall c, c ∈ header <-> is_Some (DatasetProfile.Columns profile !! c))
  /\ (forall c col, DatasetProfile.Columns profile !! c = Some col ->
                    ColumnProfile.Name col = c)
  /\ Z.of_nat (size (DatasetProfile.Columns profile)) = distinct header
  /\ distinct header <= DatasetProfile.ColumnCount profile.
Proof.
  intros Ho Hr Hne Hsize Hp.
  assert (Hkeys : forall c, c ∈ header <-> is_Some (DatasetProfile.Columns profile !! c)).
  { intros c. pose proof (ProfileCSV_column _ _ _ _ _ c Ho Hr Hne Hsize Hp) as Hc.
    destruct (decide (c ∈ header)) as [Hin | Hnot].
    - destruct Hc as (col & Hl & _). split; eauto.
    - rewrite Hc. split; [contradiction | intros [? Hx]; discriminate Hx]. }
  split; [exact Hkeys |]. split; [| split].
  - intros c col Hlook.
    pose proof (ProfileCSV_column _ _ _ _ _ c Ho Hr Hne Hsize Hp) as Hc.
    destruct (decide (c ∈ header)) as [Hin | Hnot]; [| congruence].
    destruct Hc as (col' & Hlook' & Hf). rewrite Hlook in Hlook'. injection Hlook' as <-.
    apply finalizeColumn_Ok in Hf as (dt & _ & Hn & _).
    cbn [ColumnProfile.Name with_MissingCount newColumn] in Hn. exact Hn.
  - unfold distinct. rewrite <- size_dom. f_equal. f_equal.
    apply set_eq. intros c. rewrite elem_of_dom, elem_of_list_to_set. symmetry. apply Hkeys.
  - destruct (ProfileCSV_dataset _ _ _ _ _ Ho Hr Hne Hsize Hp)
      as (_ & _ & _ & _ & _ & -> & _).
    apply distinct_bounds.
Qed.

(** A column, when the names of the header are distinct. *)
Lemma ProfileCSV_counts filePath file header rows profile (k : nat) c :
  os_Open filePath = Some file ->
  file_records file = RawFields header :: map RawFields rows ->
  (len rows + 1) * len header < 2 ^ 63 ->
  NoDup header ->
  header !! k = Some c ->
  ProfileCSV filePath = Ok profile ->
  let cells := omap (fun record : list string => record !! k) rows in
  exists col,
    DatasetProfile.Columns profile !! c = Some col
    /\ ColumnProfile.Name col = c
    /\ ColumnProfile.Count col = len (present cells)
    /\ ColumnProfile.MissingCount col = absent cells
    /\ ColumnProfile.Count col + ColumnProfile.MissingCount col
       = DatasetProfile.RowCount profile
    /\ ColumnProfile.UniqueCount col = distinct (present cells)
    /\ (ColumnProfile.IsUnique col = true <-> NoDup (present cells))
    /\ ColumnProfile.DataType col = inferDataType_spec (present cells)
    /\ len (ColumnProfile.TopValues col) = Z.min 5 (distinct (present cells))
    /\ forall tv, tv ∈ ColumnProfile.TopValues col ->
                  ValueCount.Count tv = countOf (ValueCount.Value tv) (present cells)
                  /\ 0 < ValueCount.Count tv.
Proof.
  intros Ho Hr Hsize Hnd Hk Hp cells.
  assert (Hne : header <> []) by (intros ->; discriminate Hk).
  assert (Hin : c ∈ header) by (eapply list_elem_of_lookup_2, Hk).
  destruct (size_bounds header (len rows) Hne Hsize ltac:(unfold len; lia))
    as (Hh & Hcells & Hrows).
  destruct (ProfileCSV_dataset _ _ _ _ _ Ho Hr Hne Hsize Hp)
    as (Hall & _ & _ & _ & HR & _).
  assert (Hall' : Forall (fun record : list string => length record = length header) rows).
  { eapply Forall_impl; [exact Hall |]. intros r Hl. cbv beta in *. unfold len in *. lia. }
  pose proof (ProfileCSV_column _ _ _ _ _ c Ho Hr Hne Hsize Hp) as Hc.
  rewrite decide_True in Hc by exact Hin.
  destruct Hc as (col & Hlook & Hf).
  destruct (columnCells_distinct header rows k c Hnd Hk Hall') as [Hcc Hcl].
  fold cells in Hcc. rewrite Hcc in Hf, Hcl.
  assert (Hplen : len (present cells) < 2 ^ 63).
  { pose proof (present_length cells). lia. }
  apply finalizeColumn_Ok in Hf
    as (dt & Hdt & Hn & Hd & Hcount & Hm & Hu & Ht & _ & _ & _ & Hun & _).
  cbn [ColumnProfile.Name ColumnProfile.MissingCount with_MissingCount newColumn] in Hn, Hm.
  rewrite (inferDataType_refines _ Hplen) in Hdt. injection Hdt as <-.
  rewrite occurrences_size in Hu, Hun.
  exists col. split; [exact Hlook |]. split; [exact Hn |]. split; [exact Hcount |].
  split; [exact Hm |].
  split; [rewrite Hcount, Hm, HR; pose proof (absent_present cells); lia |].
  split; [exact Hu |].
  split.
  { rewrite Hun, <- distinct_NoDup. split; [apply Z.eqb_eq | intros ->; apply Z.eqb_refl]. }
  split; [exact Hd |].
  destruct (getTopValues_spec (occurrences (present cells)) 5 ltac:(lia))
    as (Hlen & _ & _ & Hmem & _).
  rewrite <- Ht in Hlen, Hmem. rewrite occurrences_size in Hlen.
  split; [exact Hlen |].
  intros tv Htv. specialize (Hmem tv Htv).
  rewrite (occurrences_lookup _ Hplen) in Hmem.
  destruct (decide (ValueCount.Value tv ∈ present cells)) as [Hv | ?]; [| discriminate Hmem].
  injection Hmem as Hmem. split; [symmetry; exact Hmem |].
  rewrite <- Hmem. apply countOf_pos, Hv.
Qed.

End ProfileCSVWellFormed.

Section ProfileCSVReturns.
Context `{GoLib}.

Lemma finalizeLoop_total rowCount vc (entries : list (string * list string)) :
  forall cols : gmap string ColumnProfile.t,
    (forall c vs, (c, vs) ∈ entries ->
       is_Some (cols !! c)
       /\ forall col, exists col',
            finalizeColumn rowCount col vs (default ∅ (vc !! c)) = Ok col') ->
    exists cols', finalizeLoop rowCount vc entries cols = Ok cols'.
Proof.
  induction entries as [| [c vs] entries IH]; intros cols Hall; cbn [finalizeLoop]; [eauto |].
  destruct (Hall c vs ltac:(apply elem_of_cons; left; reflexivity)) as [[col Hcol] Hfin].
  rewrite Hcol. destruct (Hfin col) as [col' ->]. cbn [bind].
  apply IH. intros c' vs' Hin.
  destruct (Hall c' vs' ltac:(apply elem_of_cons; right; exact Hin)) as [Hsome Hfin'].
  split; [| exact Hfin'].
  destruct (decide (c' = c)) as [-> | Hne];
    [rewrite lookup_insert_eq; eauto | rewrite lookup_insert_ne by congruence; exact Hsome].
Qed.

(** [ProfileCSV] returns a profile when the records are well formed and
    every column can be finalized. *)
Lemma ProfileCSV_returns filePath file fileSize header rows :
  os_Open filePath = Some file ->
  file_stat file = Some fileSize ->
  file_records file = RawFields header :: map RawFields rows ->
  0 < len header < 2 ^ 63 ->
  len rows < 2 ^ 63 ->
  Forall (fun record => length record = length header) rows ->
  (forall c col, c ∈ header ->
     exists col',
       finalizeColumn (len rows) col (present (columnCells header c rows))
         (occurrences (present (columnCells header c rows))) = Ok col') ->
  exists profile, ProfileCSV filePath = Ok profile.
Proof.
  intros Ho Hs Hr Hh Hrows Hall Hfin. unfold ProfileCSV. rewrite Ho, Hs.
  unfold csv_NewReader, Reader_Read. rewrite Hr.
  cbn [pending FieldsPerRecord]. change (0 <? 0) with false. cbv iota.
  change (0 =? 0) with true. cbv iota. cbn [pending].
  pose proof (scanned_initial header) as Hinit. cbv zeta in Hinit.
  pose proof (scanLoop_cases header (map RawFields rows) [] _ Hh Hinit) as Hscan.
  destruct (scanLoop_total header rows [] _ Hh Hall Hinit) as [st Hst].
  rewrite Hst in Hscan. rewrite Hst. cbn [bind].
  destruct Hscan as (rows' & Heq & _ & Hsc). apply RawFields_inj in Heq. subst rows'.
  cbn [app] in Hsc.
  assert (Hrc : rowCount st = len rows).
  { destruct Hsc as (-> & _). apply GoIntFacts.wrap_small.
    unfold GoInt.in_range, GoInt.min_int, GoInt.max_int, len in *. lia. }
  destruct (finalizeLoop_total (rowCount st) (valueCounts st)
              (map_range (columnValues st)) (columns st)) as [cols ->]; [| cbn [bind]; eauto].
  intros c vs Hin.
  destruct (scanned_entries header rows st c vs Hsc Hin) as (Hc & -> & Hcol & Hvc).
  split; [eauto |]. intros col. rewrite Hvc, Hrc. cbn [default id]. apply Hfin, Hc.
Qed.

(** A file that holds a header and no record. *)
Lemma ProfileCSV_no_record filePath file fileSize header :
  os_Open filePath = Some file ->
  file_stat file = Some fileSize ->
  file_records file = [RawFields header] ->
  0 < len header < 2 ^ 63 ->
  exists profile,
    ProfileCSV filePath = Ok profile
    /\ DatasetProfile.RowCount profile = 0
    /\ DatasetProfile.ColumnCount profile = len header
    /\ DatasetProfile.MissingCells profile = 0
    /\ DatasetProfile.DuplicateRows profile = 0
    /\ DatasetProfile.QualityIssues profile = []
    /\ DatasetProfile.QualityScore profile = 0
    /\ forall c, c ∈ header ->
         exists col,
           DatasetProfile.Columns profile !! c = Some col
           /\ ColumnProfile.DataType col = "unknown"%string
           /\ ColumnProfile.Count col = 0
           /\ ColumnProfile.MissingCount col = 0
           /\ ColumnProfile.UniqueCount col = 0
           /\ ColumnProfile.IsUnique col = true
           /\ ColumnProfile.TopValues col = []
           /\ ColumnProfile.QualityIssues col
              = if strings_Contains (strings_ToLower c) "id"
                then [QualityIssue.mk "likely_id" "Likely ID column" 1]
                else [].
Proof.
  intros Ho Hs Hr Hh.
  assert (Hne : header <> []) by (intros ->; unfold len in Hh; cbn in Hh; lia).
  destruct (ProfileCSV_returns filePath file fileSize header [] Ho Hs Hr Hh
              ltac:(unfold len; cbn; lia) ltac:(constructor)) as [profile Hp].
  { intros c col _. destruct (finalizeColumn_no_value (len (@nil (list string))) col) as (col' & Hf & _).
    exists col'. exact Hf. }
  exists profile. split; [exact Hp |].
  assert (Hsize : (len (@nil (list string)) + 1) * len header < 2 ^ 63)
    by (unfold len in *; cbn [length]; lia).
  destruct (ProfileCSV_dataset filePath file header [] profile Ho Hr Hne Hsize Hp)
    as (_ & _ & _ & _ & HR & HC & HM & HD & _ & _ & HQ).
  destruct (ProfileCSV_Ok filePath file header [] profile Ho Hr Hne Hsize Hp)
    as (fileSize' & st & cols & _ & _ & Hsc & _ & Heq).
  destruct (csvProfile_fields filePath fileSize' header st cols)
    as (_ & _ & _ & Hrc & _ & _ & _ & _ & _ & _ & _ & _ & _ & Hnone).
  rewrite <- Heq in Hrc, Hnone.
  split; [exact HR |]. split; [exact HC |]. split; [exact HM |]. split; [exact HD |].
  split; [apply Hnone; rewrite <- Hrc, HR; reflexivity |].
  split.
  { rewrite HQ. unfold CalculateQualityScore. rewrite HR. reflexivity. }
  intros c Hc.
  pose proof (ProfileCSV_column filePath file header [] profile c Ho Hr Hne Hsize Hp) as Hcol.
  rewrite decide_True in Hcol by exact Hc.
  destruct Hcol as (col & Hlook & Hf).
  exists col. split; [exact Hlook |].
  assert (Htop : getTopValues ∅ 5 = []).
  { unfold getTopValues. rewrite map_range_empty. reflexivity. }
  unfold finalizeColumn in Hf.
  change (present (columnCells header c [])) with (@nil string) in Hf.
  change (occurrences []) with (∅ : gmap string Z) in Hf.
  change (inferDataType []) with (Ok (A := string) "unknown") in Hf. cbn [bind] in Hf.
  change (String.eqb "unknown" "integer") with false in Hf.
  change (String.eqb "unknown" "float") with false in Hf. cbn [orb bind] in Hf.
  rewrite Htop, map_size_empty in Hf. injection Hf as <-.
  unfold detectQualityIssues. cbn.
  destruct (strings_Contains (strings_ToLower c) "id"); cbn; repeat split; reflexivity.
Qed.

End ProfileCSVReturns.

Section LabelFacts.

Lemma abs_nan (c : float64) : isNaN (F64.abs c) = isNaN c.
Proof. destruct c; reflexivity. Qed.

Lemma abs_opp (c : float64) : F64.abs (SFopp c) = F64.abs c.
Proof. destruct c; reflexivity. Qed.

(** The bands of the strength, for an absolute value that is a number. *)
Lemma strength_bands (a : float64) :
  isNaN a = false ->
  let label :=
    if F64.leb F64.c0_9 a then "Very Strong"
    else if F64.leb F64.c0_7 a then "Strong"
    else if F64.leb c0_5 a then "Moderate"
    else if F64.leb c0_3 a then "Weak"
    else if F64.leb F64.c0_1 a then "Very Weak"
    else "Negligible" in
  (label = "Very Strong" <-> F64.leb F64.c0_9 a = true)
  /\ (label = "Strong" <-> F64.leb F64.c0_7 a = true /\ F64.ltb a F64.c0_9 = true)
  /\ (label = "Moderate" <-> F64.leb c0_5 a = true /\ F64.ltb a F64.c0_7 = true)
  /\ (label = "Weak" <-> F64.leb c0_3 a = true /\ F64.ltb a c0_5 = true)
  /\ (label = "Very Weak" <-> F64.leb F64.c0_1 a = true /\ F64.ltb a c0_3 = true)
  /\ (label = "Negligible" <-> F64.ltb a F64.c0_1 = true).
Proof.
  intros Hn label. subst label.
  pose proof (F64Order.leb_ltb F64.c0_9 a eq_refl Hn) as H9.
  pose proof (F64Order.leb_ltb F64.c0_7 a eq_refl Hn) as H7.
  pose proof (F64Order.leb_ltb c0_5 a eq_refl Hn) as H5.
  pose proof (F64Order.leb_ltb c0_3 a eq_refl Hn) as H3.
  pose proof (F64Order.leb_ltb F64.c0_1 a eq_refl Hn) as H1.
  pose proof (F64Order.leb_trans F64.c0_7 F64.c0_9 a eq_refl) as M9.
  pose proof (F64Order.leb_trans c0_5 F64.c0_7 a eq_refl) as M7.
  pose proof (F64Order.leb_trans c0_3 c0_5 a eq_refl) as M5.
  pose proof (F64Order.leb_trans F64.c0_1 c0_3 a eq_refl) as M3.
  destruct (F64.ltb a F64.c0_9), (F64.ltb a F64.c0_7), (F64.ltb a c0_5), (F64.ltb a c0_3),
    (F64.ltb a F64.c0_1);
    cbn [negb] in H9, H7, H5, H3, H1; rewrite H9, H7, H5, H3, H1 in *;
    try (specialize (M9 eq_refl); discriminate M9);
    try (specialize (M7 eq_refl); discriminate M7);
    try (specialize (M5 eq_refl); discriminate M5);
    try (specialize (M3 eq_refl); discriminate M3);
    clear; repeat split; intros; try reflexivity; try discriminate;
    repeat match goal with H : _ /\ _ |- _ => destruct H end; try discriminate.
Qed.

Lemma GetCorrelationStrength_nan (c : float64) :
  isNaN c = true -> GetCorrelationStrength c = "Negligible"%string.
Proof. destruct c; try discriminate. reflexivity. Qed.

Lemma direction_cases (c : float64) :
  (GetCorrelationDirection c = "Positive"%string <-> F64.ltb F64.zero c = true)
  /\ (GetCorrelationDirection c = "Negative"%string <-> F64.ltb c F64.zero = true)
  /\ (GetCorrelationDirection c = "None"%string
      <-> isNaN c = true \/ F64.eqb c F64.zero = true).
Proof.
  unfold GetCorrelationDirection.
  destruct c as [[] | [] | | [] m e]; cbn; repeat split; intros; try reflexivity;
    try discriminate; auto;
    repeat match goal with H : _ \/ _ |- _ => destruct H end; try discriminate.
Qed.

Lemma direction_opp (c : float64) :
  GetCorrelationDirection (SFopp c)
  = (if String.eqb (GetCorrelationDirection c) "Positive" then "Negative"
     else if String.eqb (GetCorrelationDirection c) "Negative" then "Positive"
     else "None")%string.
Proof. destruct c as [[] | [] | | [] m e]; reflexivity. Qed.

(** A correlation above 0.1 in absolute value has a strength and a
    direction. *)
Lemma labels_above_threshold (c : float64) :
  F64.ltb F64.c0_1 (F64.abs c) = true ->
  GetCorrelationStrength c <> "Negligible"%string
  /\ GetCorrelationDirection c <> "None"%string.
Proof.
  intros Hlt.
  destruct (F64Order.ltb_not_nan _ _ Hlt) as [_ Hn].
  split.
  - intros Heq. unfold GetCorrelationStrength in Heq. cbv zeta in Heq.
    apply (strength_bands (F64.abs c) Hn) in Heq.
    apply F64Order.ltb_asym in Hlt. congruence.
  - intros Heq. apply direction_cases in Heq. rewrite abs_nan in Hn.
    destruct Heq as [Heq | Heq]; [congruence |].
    destruct c as [[] | [] | | [] m e]; try discriminate Heq; discriminate Hlt.
Qed.

End LabelFacts.

Section UniformColumns.
Context `{GoLib}.

Lemma reaches90_iff (count sampleSize : Z) :
  reaches90 count sampleSize = true <-> 9 * sampleSize <= 10 * count.
Proof.
  unfold reaches90. rewrite Qle_bool_iff. unfold Qle, Qmult, inject_Z.
  cbn [Qnum Qden]. rewrite Pos.mul_1_r. cbn [Z.mul Pos.mul]. lia.
Qed.

Lemma countClass_uniform (c c' : ValueClass) (sample : list string) :
  Forall (fun v => classOf v = c) sample ->
  countClass c' sample = if ValueClass_eqb c c' then len sample else 0.
Proof.
  induction 1 as [| v sample Hv _ IH].
  - unfold countClass, len. cbn. destruct (ValueClass_eqb c c'); reflexivity.
  - rewrite countClass_cons, IH, Hv. unfold len. cbn [length].
    destruct (ValueClass_eqb c c'); lia.
Qed.

Lemma inferDataType_uniform (values : list string) (c : ValueClass) :
  len values < 2 ^ 63 ->
  values <> [] ->
  Forall (fun v => classOf v = c) (take 100 values) ->
  inferDataType values = Ok (classLabel c).
Proof.
  intros Hlen Hne Hall.
  rewrite (inferDataType_refines values Hlen), inferDataType_spec_take.
  destruct values as [| v0 values0]; [congruence |].
  change (take 100 (v0 :: values0)) with (v0 :: take 99 values0) in *.
  set (sample := v0 :: take 99 values0) in *.
  assert (Ht : take (Nat.min (length sample) 100) sample = sample).
  { apply take_ge. unfold sample. cbn [length]. rewrite length_take. lia. }
  unfold inferDataType_spec. fold sample. rewrite Ht.
  assert (Hpos : 1 <= len sample) by (unfold len, sample; cbn [length]; lia).
  rewrite !(countClass_uniform c _ sample Hall).
  assert (Hfull : reaches90 (len sample) (len sample) = true)
    by (apply reaches90_iff; lia).
  assert (Hnone : reaches90 0 (len sample) = false).
  { destruct (reaches90 0 (len sample)) eqn:Hr; [| reflexivity].
    apply reaches90_iff in Hr. lia. }
  f_equal.
  destruct c; cbn [ValueClass_eqb classLabel];
    rewrite ?Z.add_0_l, ?Z.add_0_r, ?Hfull, ?Hnone; reflexivity.
Qed.

End UniformColumns.

Section ScoreFormula.

Lemma datasetIssuePenalty_exact issues acc :
  forallb severity_ok issues = true ->
  0 <= acc -> acc + 15 * Z.of_nat (length issues) < 2 ^ 63 ->
  datasetIssuePenalty issues acc = acc + 5 * severitySum issues.
Proof.
  unfold datasetIssuePenalty.
  revert acc. induction issues as [| i issues IH]; intros acc Hok Hacc Hlen.
  - cbn. lia.
  - cbn [forallb] in Hok. apply andb_prop in Hok as [Hi Hok].
    unfold severity_ok in Hi. apply andb_prop in Hi as [Hi1 Hi3].
    apply Z.leb_le in Hi1, Hi3.
    cbn [fold_left length severitySum foldr] in *.
    assert (Hstep : GoInt.add acc (GoInt.mul (QualityIssue.Severity i) 5)
                    = acc + 5 * QualityIssue.Severity i).
    { unfold GoInt.add, GoInt.mul.
      rewrite (GoIntFacts.wrap_small (_ * 5)), GoIntFacts.wrap_small;
        unfold GoInt.in_range, GoInt.min_int, GoInt.max_int; lia. }
    rewrite Hstep, IH by (assumption || lia). fold (severitySum issues). lia.
Qed.

Lemma columnIssuePenalty_exact issues acc :
  forallb severity_ok issues = true ->
  0 <= acc -> acc + 15 * Z.of_nat (length issues) < 2 ^ 63 ->
  columnIssuePenalty issues acc = acc + severitySum issues.
Proof.
  unfold columnIssuePenalty.
  revert acc. induction issues as [| i issues IH]; intros acc Hok Hacc Hlen.
  - cbn. lia.
  - cbn [forallb] in Hok. apply andb_prop in Hok as [Hi Hok].
    unfold severity_ok in Hi. apply andb_prop in Hi as [Hi1 Hi3].
    apply Z.leb_le in Hi1, Hi3.
    cbn [fold_left length severitySum foldr] in *.
    assert (Hstep : GoInt.add acc (QualityIssue.Severity i)
                    = acc + QualityIssue.Severity i).
    { unfold GoInt.add. rewrite GoIntFacts.wrap_small;
        unfold GoInt.in_range, GoInt.min_int, GoInt.max_int; lia. }
    rewrite Hstep, IH by (assumption || lia). fold (severitySum issues). lia.
Qed.

Lemma severitySum_app (a b : list QualityIssue.t) :
  severitySum (a ++ b) = severitySum a + severitySum b.
Proof.
  unfold severitySum. induction a as [| i a IH]; cbn [app foldr]; [lia |].
  rewrite IH. lia.
Qed.

Lemma severitySum_bounds issues :
  forallb severity_ok issues = true ->
  Z.of_nat (length issues) <= severitySum issues <= 3 * Z.of_nat (length issues).
Proof.
  induction issues as [| i issues IH]; intros Hok; [cbn; lia |].
  cbn [forallb] in Hok. apply andb_prop in Hok as [Hi Hok].
  unfold severity_ok in Hi. apply andb_prop in Hi as [Hi1 Hi3].
  apply Z.leb_le in Hi1, Hi3. specialize (IH Hok).
  cbn [severitySum foldr length]. fold (severitySum issues). lia.
Qed.

Lemma columnsIssuePenalty_exact cols acc :
  forallb severity_ok (column_issues cols) = true ->
  0 <= acc -> acc + 15 * Z.of_nat (length (column_issues cols)) < 2 ^ 63 ->
  columnsIssuePenalty cols acc = acc + severitySum (column_issues cols).
Proof.
  unfold columnsIssuePenalty, column_issues.
  generalize (map_to_list cols) as kvs.
  intros kvs. revert acc.
  induction kvs as [| kv kvs IH]; intros acc Hok Hacc Hlen.
  - cbn. lia.
  - cbn [map concat fold_left] in *.
    rewrite forallb_app in Hok. apply andb_prop in Hok as [Hkv Hok].
    rewrite length_app, Nat2Z.inj_add in Hlen.
    rewrite (columnIssuePenalty_exact _ acc Hkv Hacc ltac:(lia)).
    pose proof (severitySum_bounds _ Hkv).
    rewrite IH by (assumption || lia). rewrite severitySum_app. lia.
Qed.

(** No part of a positive total is no percentage above 0. *)
Lemma percentage_zero (total : Z) :
  0 < total < 2 ^ 63 -> F64.ltb F64.zero (percentage 0 total) = false.
Proof.
  intros Ht. unfold percentage.
  destruct total as [| p | p]; try lia.
  destruct (F64Facts.of_int_pos p) as (m & e & Hm & _).
  { pose proof (F64Facts.Zdigits2_lt_pow (Z.pos p) 63 ltac:(lia) ltac:(lia) ltac:(lia)) as Hd.
    cbn [Zdigits2] in Hd. lia. }
  rewrite Hm. reflexivity.
Qed.

Lemma CalculateQualityScore_exact (profile : DatasetProfile.t) :
  valid_issues profile = true ->
  0 < DatasetProfile.RowCount profile ->
  0 < DatasetProfile.ColumnCount profile ->
  DatasetProfile.RowCount profile * DatasetProfile.ColumnCount profile < 2 ^ 63 ->
  DatasetProfile.MissingCells profile = 0 ->
  DatasetProfile.DuplicateRows profile = 0 ->
  CalculateQualityScore profile
  = 100 - Z.min 40 (5 * severitySum (DatasetProfile.QualityIssues profile)
                    + severitySum (column_issues (DatasetProfile.Columns profile))).
Proof.
  intros Hv HR HC HRC HM HD. unfold CalculateQualityScore.
  destruct (Z.eqb_spec (DatasetProfile.RowCount profile) 0) as [? | _]; [lia |].
  destruct (Z.eqb_spec (DatasetProfile.ColumnCount profile) 0) as [? | _]; [lia |].
  cbn [orb]. rewrite HM, HD.
  set (R := DatasetProfile.RowCount profile) in *.
  set (C := DatasetProfile.ColumnCount profile) in *.
  assert (HRCpos : 0 < R * C) by nia.
  assert (HR63 : R < 2 ^ 63) by nia.
  unfold GoInt.mul. rewrite (GoIntFacts.wrap_small (R * C))
    by (unfold GoInt.in_range, GoInt.min_int, GoInt.max_int; lia).
  destruct (Z.ltb_spec 0 (R * C)) as [_ | ?]; [| lia].
  destruct (Z.ltb_spec 0 R) as [_ | ?]; [| lia].
  unfold deduct. rewrite !percentage_zero by lia.
  unfold valid_issues, all_issues in Hv.
  apply andb_prop in Hv as [Hok Hlen]. apply Z.ltb_lt in Hlen.
  rewrite forallb_app in Hok. apply andb_prop in Hok as [Hd Hc].
  rewrite length_app, Nat2Z.inj_add in Hlen.
  pose proof (severitySum_bounds _ Hd) as Hb1.
  pose proof (severitySum_bounds _ Hc) as Hb2.
  rewrite (datasetIssuePenalty_exact _ 0 Hd ltac:(lia) ltac:(lia)).
  rewrite columnsIssuePenalty_exact by (assumption || lia).
  rewrite Z.add_0_l.
  set (p := 5 * severitySum _ + severitySum _) in *.
  assert (Hp : 0 <= p) by (subst p; lia).
  destruct (Z.ltb_spec 40 p).
  - rewrite Z.min_l by lia. reflexivity.
  - rewrite Z.min_r by lia. unfold GoInt.sub.
    rewrite GoIntFacts.wrap_small
      by (unfold GoInt.in_range, GoInt.min_int, GoInt.max_int; lia).
    destruct (Z.ltb_spec (100 - p) 0); [lia | reflexivity].
Qed.

End ScoreFormula.

Section EnrichFacts.
Context `{GoLib}.

Lemma histogramLoop_nonneg lo size numValues : forall buckets buckets',
  histogramLoop lo size numValues buckets = Ok buckets' ->
  counts_nonneg buckets -> totalCount buckets + len numValues < 2 ^ 63 ->
  counts_nonneg buckets' /\ totalCount buckets' = totalCount buckets + len numValues.
Proof.
  induction numValues as [| v rest IH]; intros buckets buckets' Hh Hnn Htot.
  - cbn in Hh. injection Hh as <-. unfold len. cbn. split; [exact Hnn | lia].
  - cbn [histogramLoop] in Hh. unfold len in Htot. cbn [length] in Htot.
    destruct (countInBucket buckets (bucketIndex lo size v)) as [b1 | |] eqn:Hcb;
      cbn [bind] in Hh; try discriminate Hh.
    destruct (countInBucket_total _ _ _ Hcb Hnn ltac:(lia)) as (_ & Hnn1 & Htot1).
    destruct (IH b1 buckets' Hh Hnn1 ltac:(unfold len; lia)) as [Hnn2 Htot2].
    split; [exact Hnn2 |]. unfold len in *. cbn [length]. lia.
Qed.

(** The histogram of a finalized column stands for no more points than
    the column has values. *)
Lemma calculateNumericStats_points col values col' :
  len values < 2 ^ 63 ->
  ColumnProfile.HistogramBuckets col = [] ->
  calculateNumericStats col values = Ok col' ->
  0 <= bucketPoints (ColumnProfile.HistogramBuckets col') <= len values.
Proof.
  intros Hlen Hb Hc.
  pose proof (parseValues_length values) as Hpl.
  destruct (parseValues values) as [| first rest] eqn:Hp.
  - unfold calculateNumericStats in Hc. rewrite Hp in Hc. cbn in Hc.
    injection Hc as <-. rewrite Hb. unfold len. cbn. lia.
  - destruct (calculateNumericStats_Ok col values col' Hc ltac:(rewrite Hp; discriminate))
      as (first' & rest' & sorted & m & buckets & Hp' & Hsorted & _ & Hrest).
    cbv zeta in Hrest. destruct Hrest as [Hh ->]. cbn [ColumnProfile.HistogramBuckets].
    rewrite Hp in Hp'. injection Hp' as <- <-.
    assert (Hsl : len sorted = len (first :: rest)).
    { unfold len. rewrite Hsorted. rewrite insertionSort_length. reflexivity. }
    match type of Hh with
    | histogramLoop ?lo ?size _ (makeBuckets ?a ?b ?c) = _ =>
        destruct (makeBuckets_empty a b c) as [Hnn H0];
        destruct (histogramLoop_nonneg lo size sorted _ _ Hh Hnn
                    ltac:(rewrite H0, Hsl; unfold len in *; lia)) as [Hnn' Htot];
        rewrite H0 in Htot
    end.
    rewrite (bucketPoints_totalCount _ Hnn'), Htot, Hsl. unfold len in *. lia.
Qed.

Lemma topPoints_le (l : list ValueCount.t) :
  0 <= topPoints l <= foldr (fun tv acc => Z.max 0 (ValueCount.Count tv) + acc) 0 l.
Proof.
  unfold topPoints. induction l as [| tv l IH]; cbn [foldr]; [lia |].
  destruct (strconv_ParseFloat (ValueCount.Value tv)); lia.
Qed.

Lemma posSum_take (n : nat) (l : list ValueCount.t) :
  0 <= foldr (fun tv acc => Z.max 0 (ValueCount.Count tv) + acc) 0 (take n l)
    <= foldr (fun tv acc => Z.max 0 (ValueCount.Count tv) + acc) 0 l.
Proof.
  revert n. induction l as [| tv l IH]; intros [| n]; cbn [take foldr]; try lia.
  - specialize (IH 0%nat). rewrite take_0 in IH. cbn [foldr] in IH. lia.
  - specialize (IH n). lia.
Qed.

Lemma posSum_Permutation (l k : list ValueCount.t) :
  l ≡ₚ k ->
  foldr (fun tv acc => Z.max 0 (ValueCount.Count tv) + acc) 0 l
  = foldr (fun tv acc => Z.max 0 (ValueCount.Count tv) + acc) 0 k.
Proof.
  induction 1 as [| x l k Hp IH | x y l | l k m Hp1 IH1 Hp2 IH2]; cbn [foldr];
    [reflexivity | rewrite IH; reflexivity | lia | congruence].
Qed.

Lemma posSum_entries (entries : list (string * Z)) :
  Forall (fun kv => 0 <= snd kv) entries ->
  foldr (fun tv acc => Z.max 0 (ValueCount.Count tv) + acc) 0
    (map (fun kv => ValueCount.mk (fst kv) (snd kv)) entries)
  = foldr (fun kv acc => snd kv + acc) 0 entries.
Proof.
  induction 1 as [| kv entries Hkv _ IH]; cbn [map foldr ValueCount.Count]; [reflexivity |].
  rewrite IH. lia.
Qed.

Lemma topPoints_occurrences (values : list string) :
  len values < 2 ^ 63 ->
  0 <= topPoints (getTopValues (occurrences values) 5) <= len values.
Proof.
  intros Hlen.
  destruct (getTopValues_take (occurrences values) 5 ltac:(lia)) as (all & -> & Hperm & _).
  pose proof (topPoints_le (take (Z.to_nat 5) all)) as H1.
  pose proof (posSum_take (Z.to_nat 5) all) as H2.
  rewrite (posSum_Permutation _ _ Hperm) in H2.
  rewrite posSum_entries in H2.
  - fold (sumCounts (occurrences values)) in H2. rewrite occurrences_sum in H2 by exact Hlen.
    lia.
  - apply Forall_forall. intros [v c] Hin. apply elem_of_map_to_list in Hin.
    rewrite (occurrences_lookup values Hlen) in Hin.
    destruct (decide (v ∈ values)); [| discriminate Hin]. injection Hin as <-.
    cbn [snd]. pose proof (countOf_bounds v values). lia.
Qed.

(** The values reconstructed from a finalized column are at most twice
    as many as the values of the column. *)
Lemma finalizeColumn_points rowCount col values col' :
  len values < 2 ^ 61 ->
  ColumnProfile.HistogramBuckets col = [] ->
  finalizeColumn rowCount col values (occurrences values) = Ok col' ->
  len (reconstructNumericValues col') < 2 ^ 62.
Proof.
  intros Hlen Hb Hf.
  assert (Hlen' : len values < 2 ^ 63) by lia.
  destruct (reconstructNumericValues_spec col') as [Hnone Hsome].
  destruct (ColumnProfile.IsNumeric col') eqn:Hnum;
    [| rewrite Hnone by (left; reflexivity); unfold len; cbn; lia].
  destruct (ColumnProfile.HistogramBuckets col') as [| b0 bs] eqn:Hbuckets;
    [rewrite Hnone by (right; reflexivity); unfold len; cbn; lia |].
  destruct (Hsome eq_refl ltac:(discriminate)) as [-> _].
  rewrite <- Hbuckets. clear Hnone Hsome.
  pose proof (finalizeColumn_Ok rowCount col values _ col' Hf)
    as (dt & _ & _ & _ & _ & _ & _ & Ht & _).
  rewrite Ht. pose proof (topPoints_occurrences values Hlen') as Htop.
  unfold finalizeColumn in Hf.
  destruct (inferDataType values) as [dataType | |]; cbn [bind] in Hf; try discriminate Hf.
  set (col1 := ColumnProfile.mk _ _ _ _ _ _ _ _ _ _ _ _ _ _ _ _ _) in Hf.
  assert (Hb1 : ColumnProfile.HistogramBuckets col1 = []) by exact Hb.
  assert (Hpts : forall col2,
             (if String.eqb dataType "integer" || String.eqb dataType "float"
              then calculateNumericStats col1 values else Ok col1) = Ok col2 ->
             0 <= bucketPoints (ColumnProfile.HistogramBuckets col2) <= len values).
  { intros col2 Hc2. destruct (String.eqb dataType "integer" || String.eqb dataType "float").
    - apply (calculateNumericStats_points col1 values col2 Hlen' Hb1 Hc2).
    - injection Hc2 as <-. rewrite Hb1. unfold len. cbn. lia. }
  destruct (if String.eqb dataType "integer" || String.eqb dataType "float"
            then calculateNumericStats col1 values else Ok col1) as [col2 | |];
    cbn [bind] in Hf; try discriminate Hf.
  injection Hf as <-. specialize (Hpts col2 eq_refl).
  destruct (detectQualityIssues_frame col2 rowCount)
    as (_ & _ & _ & _ & _ & _ & _ & _ & _ & _ & -> & _).
  lia.
Qed.

Lemma correlatePairs_total (numericData : gmap string (list float64))
    (pairs : list (string * string)) :
  (forall c, len (default [] (numericData !! c)) < 2 ^ 62) ->
  forall values, exists values', correlatePairs numericData pairs values = Ok values'.
Proof.
  intros Hlen. induction pairs as [| [col1 col2] pairs IH]; intros values;
    cbn [correlatePairs]; [eauto |].
  destruct (calculatePearsonCorrelation_total (default [] (numericData !! col1))
              (default [] (numericData !! col2)) (Hlen col1)) as [r ->].
  cbn [bind]. apply IH.
Qed.

(** The correlation matrix of a profile whose reconstructed columns are
    short enough is computed without a failure. *)
Lemma CalculateCorrelationMatrix_total (profile : DatasetProfile.t) :
  (forall c col, DatasetProfile.Columns profile !! c = Some col ->
                 len (reconstructNumericValues col) < 2 ^ 62) ->
  exists matrix, CalculateCorrelationMatrix profile = Ok matrix.
Proof.
  intros Hlen. unfold CalculateCorrelationMatrix.
  destruct (_ <? 2); [eauto |].
  match goal with
  | |- context [correlatePairs ?data ?pairs ?vals] =>
      assert (Hdata : forall c, len (default [] (data !! c)) < 2 ^ 62);
      [| destruct (correlatePairs_total data pairs Hdata vals) as [values' ->];
         cbn [bind]; eauto]
  end.
  intros c.
  match goal with
  | |- context [?m !! c] => destruct (m !! c) as [vs |] eqn:Hlook
  end; [| unfold len; cbn; lia].
  cbn [default id].
  apply elem_of_list_to_map_2 in Hlook.
  apply list_elem_of_fmap in Hlook as ([c' col] & Heq & Hin).
  cbn [fst snd] in Heq. injection Heq as -> ->.
  apply list_elem_of_In, filter_In in Hin as [Hin _].
  apply list_elem_of_In, elem_of_map_to_list in Hin.
  apply (Hlen c' col Hin).
Qed.

Lemma enrich_total (profile : DatasetProfile.t) :
  (forall c col, DatasetProfile.Columns profile !! c = Some col ->
                 len (reconstructNumericValues col) < 2 ^ 62) ->
  exists profile', enrich profile = Ok profile'.
Proof.
  intros Hlen. unfold enrich.
  destruct (CalculateCorrelationMatrix_total profile Hlen) as [matrix ->].
  cbn [bind]. eauto.
Qed.

(** The columns of a profile of [ProfileCSV] can be correlated. *)
Lemma ProfileCSV_points filePath file header rows profile :
  os_Open filePath = Some file ->
  file_records file = RawFields header :: map RawFields rows ->
  header <> [] ->
  (len rows + 1) * len header < 2 ^ 61 ->
  ProfileCSV filePath = Ok profile ->
  forall c col, DatasetProfile.Columns profile !! c = Some col ->
                len (reconstructNumericValues col) < 2 ^ 62.
Proof.
  intros Ho Hr Hne Hsize Hp c col Hlook.
  assert (Hsize' : (len rows + 1) * len header < 2 ^ 63) by lia.
  destruct (ProfileCSV_dataset _ _ _ _ _ Ho Hr Hne Hsize' Hp) as (Hall & _).
  assert (Hall' : Forall (fun record : list string => length record = length header) rows).
  { eapply Forall_impl; [exact Hall |]. intros r Hl. cbv beta in *. unfold len in *. lia. }
  pose proof (ProfileCSV_column _ _ _ _ _ c Ho Hr Hne Hsize' Hp) as Hc.
  destruct (decide (c ∈ header)) as [Hin | Hnot]; [| congruence].
  destruct Hc as (col' & Hlook' & Hf). rewrite Hlook in Hlook'. injection Hlook' as <-.
  assert (Hcells : len (present (columnCells header c rows)) < 2 ^ 61).
  { pose proof (present_length (columnCells header c rows)).
    pose proof (columnCells_length header c rows Hall').
    assert (0 <= len header) by (unfold len; lia).
    assert (len rows * len header <= (len rows + 1) * len header) by lia.
    lia. }
  apply (finalizeColumn_points _ _ _ _ Hcells) in Hf; [exact Hf | reflexivity].
Qed.

End EnrichFacts.

Section DatasetFacts.
Context `{GoLib}.

(** The test [math.Abs(c) >= 0.7] of [ProfileDataset], in the labels of
    [GetCorrelationStrength]. *)
Lemma strong_labels (c : float64) :
  F64.leb F64.c0_7 (F64.abs c)
  = String.eqb (GetCorrelationStrength c) "Strong"
    || String.eqb (GetCorrelationStrength c) "Very Strong".
Proof.
  unfold GetCorrelationStrength. cbv zeta.
  destruct (F64.leb F64.c0_9 (F64.abs c)) eqn:H9.
  - rewrite (F64Order.leb_trans F64.c0_7 F64.c0_9 (F64.abs c) eq_refl H9). reflexivity.
  - destruct (F64.leb F64.c0_7 (F64.abs c)); [reflexivity |].
    destruct (F64.leb c0_5 (F64.abs c)); [reflexivity |].
    destruct (F64.leb c0_3 (F64.abs c)); [reflexivity |].
    destruct (F64.leb F64.c0_1 (F64.abs c)); reflexivity.
Qed.

Lemma filter_length_le_take {A : Type} (f : A -> bool) (l : list A) (n : nat) :
  (length (List.filter f (take n l)) <= n)%nat.
Proof.
  pose proof (filter_length_le f (take n l)). rewrite length_take in *. lia.
Qed.

(** What [enrich] adds to a profile. *)
Lemma enrich_Ok (profile profile' : DatasetProfile.t) :
  enrich profile = Ok profile' ->
  DatasetProfile.Filename profile' = DatasetProfile.Filename profile
  /\ DatasetProfile.FileSize profile' = DatasetProfile.FileSize profile
  /\ DatasetProfile.Format profile' = DatasetProfile.Format profile
  /\ DatasetProfile.RowCount profile' = DatasetProfile.RowCount profile
  /\ DatasetProfile.ColumnCount profile' = DatasetProfile.ColumnCount profile
  /\ DatasetProfile.MissingCells profile' = DatasetProfile.MissingCells profile
  /\ DatasetProfile.DuplicateRows profile' = DatasetProfile.DuplicateRows profile
  /\ DatasetProfile.Columns profile' = DatasetProfile.Columns profile
  /\ DatasetProfile.QualityIssues profile' = DatasetProfile.QualityIssues profile
  /\ DatasetProfile.QualityScore profile' = CalculateQualityScore profile
  /\ CalculateCorrelationMatrix profile = Ok (DatasetProfile.CorrelationMatrix profile')
  /\ DatasetProfile.Recommendations profile'
     = DatasetProfile.Recommendations profile
       ++ map recommendation
            (List.filter
               (fun pair =>
                  String.eqb (GetCorrelationStrength (CorrelationPair.Correlation pair))
                    "Strong"
                  || String.eqb (GetCorrelationStrength (CorrelationPair.Correlation pair))
                       "Very Strong")
               (match DatasetProfile.CorrelationMatrix profile' with
                | Some m => CorrelationMatrix.TopPairs m
                | None => []
                end)).
Proof.
  unfold enrich. intros He.
  destruct (CalculateCorrelationMatrix profile) as [matrix | |]; cbn [bind] in He;
    try discriminate He.
  injection He as <-.
  cbn [DatasetProfile.Filename DatasetProfile.FileSize DatasetProfile.Format
       DatasetProfile.RowCount DatasetProfile.ColumnCount DatasetProfile.MissingCells
       DatasetProfile.DuplicateRows DatasetProfile.Columns DatasetProfile.QualityIssues
       DatasetProfile.QualityScore DatasetProfile.CorrelationMatrix
       DatasetProfile.Recommendations].
  repeat (split; [reflexivity |]).
  destruct matrix as [m |]; [| cbn [map List.filter]; rewrite app_nil_r; reflexivity].
  assert (Hf : forall l : list CorrelationPair.t,
             List.filter
               (fun pair => F64.leb F64.c0_7 (F64.abs (CorrelationPair.Correlation pair))) l
             = List.filter
                 (fun pair =>
                    String.eqb (GetCorrelationStrength (CorrelationPair.Correlation pair))
                      "Strong"
                    || String.eqb (GetCorrelationStrength (CorrelationPair.Correlation pair))
                         "Very Strong") l).
  { intros l. apply List.filter_ext. intros pair. apply strong_labels. }
  rewrite <- Hf.
  destruct (Z.ltb_spec 0 (len (CorrelationMatrix.TopPairs m))) as [_ | Hle]; [reflexivity |].
  destruct (CorrelationMatrix.TopPairs m); [| unfold len in Hle; cbn [length] in Hle; lia].
  cbn [map List.filter]. rewrite app_nil_r. reflexivity.
Qed.

End DatasetFacts.

(** ** Further properties of the column statistics *)

(** X1. [getTopValues] ranks the values of a column: for a limit that is
    not negative it returns [min limit (number of distinct values)]
    entries, in descending order of their counts, each value once and with
    the count the map gives it; no value left out has a larger count than
    a value returned. *)
Theorem getTopValues_ranking `{GoLib} (valueCounts : gmap string Z) (limit : Z) :
  0 <= limit ->
  let topValues := getTopValues valueCounts limit in
  len topValues = Z.min limit (Z.of_nat (size valueCounts))
  /\ StronglySorted (fun a b => ValueCount.Count b <= ValueCount.Count a) topValues
  /\ NoDup (map ValueCount.Value topValues)
  /\ (forall vc, vc ∈ topValues ->
        valueCounts !! ValueCount.Value vc = Some (ValueCount.Count vc))
  /\ (forall value count,
        valueCounts !! value = Some count ->
        ValueCount.mk value count ∈ topValues
        \/ forall vc, vc ∈ topValues -> count <= ValueCount.Count vc).
Proof. apply getTopValues_spec. Qed.

Lemma getTopValues_ranking_witness :
  0 <= 1
  /\ len (getTopValues (H := Demo.lib) {["x" := 2; "y" := 5; "z" := 1]} 1) = 1
  /\ forall vc, vc ∈ getTopValues (H := Demo.lib) {["x" := 2; "y" := 5; "z" := 1]} 1 ->
                2 <= ValueCount.Count vc.
Proof.
  split; [lia |].
  destruct (getTopValues_ranking (H := Demo.lib) {["x" := 2; "y" := 5; "z" := 1]} 1
              ltac:(lia)) as (Hlen & _ & _ & _ & Hrest).
  split; [exact Hlen |].
  intros vc Hvc.
  destruct (Hrest "x"%string 2 eq_refl) as [Hin | Hle]; [| apply Hle, Hvc].
  vm_compute in Hin, Hvc.
  apply list_elem_of_In in Hin, Hvc. cbn in Hin, Hvc.
  destruct Hin as [Hq | []]. discriminate Hq.
Defined.

(** X2. When [calculateNumericStats] returns, [Min] and [Max] are set to
    parsed values of the column, and every parsed value lies between
    them. *)
Theorem calculateNumericStats_min_max `{GoLib}
    (col : ColumnProfile.t) (values : list string) (col' : ColumnProfile.t) :
  len values < 2 ^ 63 ->
  parseValues values <> [] ->
  calculateNumericStats col values = Ok col' ->
  exists lo hi,
    ColumnProfile.Min col' = Some lo /\ ColumnProfile.Max col' = Some hi
    /\ lo ∈ parseValues values /\ hi ∈ parseValues values
    /\ forall v, v ∈ parseValues values -> F64.leb lo v = true /\ F64.leb v hi = true.
Proof. apply calculateNumericStats_extrema. Qed.

Lemma calculateNumericStats_min_max_witness :
  exists col',
    calculateNumericStats (H := Demo.lib) column_n ["2"; "1"; "3"] = Ok col'
    /\ exists lo hi,
         ColumnProfile.Min col' = Some lo /\ ColumnProfile.Max col' = Some hi
         /\ F64.leb lo (F64.of_int 2) = true /\ F64.leb (F64.of_int 2) hi = true.
Proof.
  destruct (calculateNumericStats (H := Demo.lib) column_n ["2"; "1"; "3"])
    as [col' | |] eqn:Hc;
    [| vm_compute in Hc; discriminate Hc | vm_compute in Hc; discriminate Hc].
  exists col'. split; [reflexivity |].
  destruct (calculateNumericStats_min_max (H := Demo.lib) column_n ["2"; "1"; "3"]%string col'
              ltac:(reflexivity) ltac:(discriminate) Hc)
    as (lo & hi & Hlo & Hhi & _ & _ & Hall).
  exists lo, hi. split; [exact Hlo |]. split; [exact Hhi |].
  apply Hall. vm_compute. left.
Defined.

(** X3. The median that [calculateNumericStats] returns is the median of
    the parsed values in ascending order: the middle one of an odd number
    of values, the mean of the two middle ones of an even number. *)
Theorem calculateNumericStats_median_sorted `{GoLib}
    (col : ColumnProfile.t) (values : list string) (col' : ColumnProfile.t) :
  len values < 2 ^ 63 ->
  parseValues values <> [] ->
  calculateNumericStats col values = Ok col' ->
  exists sorted,
    sorted ≡ₚ parseValues values
    /\ StronglySorted (fun a b => F64.leb a b = true) sorted
    /\ let mid := Z.to_nat (len sorted / 2) in
       if Z.even (len sorted)
       then exists a b, sorted !! (mid - 1)%nat = Some a /\ sorted !! mid = Some b
                        /\ (1 <= mid)%nat
                        /\ ColumnProfile.Median col' = F64.div (F64.add a b) (F64.of_int 2)
       else sorted !! mid = Some (ColumnProfile.Median col').
Proof. apply calculateNumericStats_median. Qed.

Lemma calculateNumericStats_median_sorted_witness :
  exists col' sorted,
    calculateNumericStats (H := Demo.lib) column_n ["2"; "1"; "3"] = Ok col'
    /\ sorted ≡ₚ parseValues (H := Demo.lib) ["2"; "1"; "3"]
    /\ StronglySorted (fun a b => F64.leb a b = true) sorted
    /\ sorted !! 1%nat = Some (ColumnProfile.Median col').
Proof.
  destruct (calculateNumericStats (H := Demo.lib) column_n ["2"; "1"; "3"])
    as [col' | |] eqn:Hc;
    [| vm_compute in Hc; discriminate Hc | vm_compute in Hc; discriminate Hc].
  destruct (calculateNumericStats_median_sorted (H := Demo.lib) column_n
              ["2"; "1"; "3"]%string col' ltac:(reflexivity) ltac:(discriminate) Hc)
    as (sorted & Hperm & Hsorted & Hmed).
  exists col', sorted. split; [reflexivity |]. split; [exact Hperm |].
  split; [exact Hsorted |].
  assert (Hlen : len sorted = 3).
  { unfold len. rewrite (Permutation_length Hperm). reflexivity. }
  rewrite Hlen in Hmed. exact Hmed.
Defined.

(** X4. [strconv.ParseFloat] accepts the spelling of NaN; a column with
    such a value makes [calculateNumericStats] panic, at the negative
    bucket index that the conversion of NaN to [int] gives. *)
Theorem calculateNumericStats_nan_panics `{GoLib}
    (col : ColumnProfile.t) (values : list string) :
  len values < 2 ^ 63 ->
  S754_nan ∈ parseValues values ->
  exists p, calculateNumericStats col values = Panic p /\ negative_index p.
Proof. apply calculateNumericStats_nan. Qed.

Lemma calculateNumericStats_nan_panics_witness :
  exists p,
    calculateNumericStats (H := Demo2.lib) column_n ["1"; "NaN"; "3"] = Panic p
    /\ negative_index p.
Proof.
  apply (calculateNumericStats_nan_panics (H := Demo2.lib) column_n ["1"; "NaN"; "3"]%string).
  - reflexivity.
  - vm_compute. right. left.
Defined.

(** ** Further properties of the correlation engine *)

(** X5. [calculatePearsonCorrelation] returns a number for every pair of
    slices of fewer than 2^62 elements: it never panics and never fails,
    whether or not the lengths agree and whatever the values are. *)
Theorem calculatePearsonCorrelation_returns (x y : list float64) :
  len x < 2 ^ 62 -> exists r, calculatePearsonCorrelation x y = Ok r.
Proof. apply calculatePearsonCorrelation_total. Qed.

Lemma calculatePearsonCorrelation_returns_witness :
  exists r,
    calculatePearsonCorrelation [F64.of_int 1; F64.of_int 2; F64.of_int 4]
      [F64.of_int 3; F64.of_int 1] = Ok r.
Proof.
  apply (calculatePearsonCorrelation_returns [F64.of_int 1; F64.of_int 2; F64.of_int 4]
           [F64.of_int 3; F64.of_int 1]).
  reflexivity.
Defined.

(** X6. The correlation is symmetric: exchanging the two slices gives the
    same result, bit for bit. *)
Theorem calculatePearsonCorrelation_symmetric (x y : list float64) :
  calculatePearsonCorrelation x y = calculatePearsonCorrelation y x.
Proof. apply calculatePearsonCorrelation_sym. Qed.


(** X8. The down-sampling of [calculatePearsonCorrelation], for more than
    [maxSampleSize = 10000] pairs: with [step = n / 10000] the loop keeps
    the pairs at the indices [0], [step], [2 * step], ..., and their
    number lies between 10000 and 19999, so the sample can be almost twice
    as large as [maxSampleSize]. *)
Theorem downSample_stride (x y : list float64) (n : Z) :
  len x = n -> len y = n -> 10000 < n -> n < 2 ^ 62 ->
  let step := Z.quot n 10000 in
  exists sx sy,
    downSample x y n step (Z.to_nat n) 0 ([], []) = Ok (sx, sy)
    /\ len sx = (n - 1) / step + 1 /\ len sy = len sx
    /\ 10000 <= len sx < 20000
    /\ forall k : nat, Z.of_nat k < len sx ->
         sx !! k = x !! Z.to_nat (Z.of_nat k * step)
         /\ sy !! k = y !! Z.to_nat (Z.of_nat k * step).
Proof.
  intros Hx Hy Hn Hmax step.
  assert (Hq : step = n / 10000) by (subst step; apply Z.quot_div_nonneg; lia).
  assert (Hstep : 1 <= step).
  { rewrite Hq. apply Z.div_le_lower_bound; lia. }
  assert (Hle : step <= n).
  { rewrite Hq. apply Z.div_le_upper_bound; lia. }
  destruct (downSample_spec x y n step Hx Hy Hstep ltac:(lia) (Z.to_nat n) 0 ([], [])
              ltac:(lia)) as (sx & sy & Heq & Hsx & Hsy & Hk).
  { cbv zeta. destruct (Z.ltb_spec 0 n); [| lia].
    replace (n - 0 - 1) with (n - 1) by lia.
    assert ((n - 1) / step <= n - 1) by (apply Z.div_le_upper_bound; nia).
    lia. }
  cbv zeta in Hsx, Hsy, Hk.
  destruct (Z.ltb_spec 0 n); [| lia].
  replace (n - 0 - 1) with (n - 1) in * by lia.
  exists sx, sy. split; [exact Heq |]. split; [exact Hsx |]. split; [lia |].
  split; [rewrite Hsx, Hq; apply sample_size_bounds; exact Hn |].
  intros k Hlt. rewrite Hsx in Hlt. apply (Hk k Hlt).
Qed.

Lemma downSample_stride_witness :
  exists sx sy,
    downSample (replicate (Z.to_nat 20001) F64.zero) (replicate (Z.to_nat 20001) F64.zero) 20001 2
      (Z.to_nat 20001) 0 ([], []) = Ok (sx, sy)
    /\ len sx = 10001.
Proof.
  destruct (downSample_stride (replicate (Z.to_nat 20001) F64.zero) (replicate (Z.to_nat 20001) F64.zero) 20001
              ltac:(unfold len; rewrite length_replicate; lia)
              ltac:(unfold len; rewrite length_replicate; lia)
              ltac:(lia) ltac:(lia))
    as (sx & sy & Heq & Hsx & _).
  exists sx, sy. split; [exact Heq | exact Hsx].
Defined.

Section DemoFacts.

Lemma insert_by_Permutation {A : Type} (less : A -> A -> bool) (x : A) (s : list A) :
  Demo.insert_by less x s ≡ₚ x :: s.
Proof.
  induction s as [| y s IH]; cbn [Demo.insert_by]; [reflexivity |].
  destruct (less x y); [reflexivity |].
  rewrite IH. apply Permutation_swap.
Qed.

Lemma Slice_Permutation {A : Type} (less : A -> A -> bool) (s : list A) :
  Demo.Slice A less s ≡ₚ s.
Proof.
  unfold Demo.Slice. induction s as [| x s IH]; cbn [foldr]; [reflexivity |].
  rewrite insert_by_Permutation, IH. reflexivity.
Qed.

Lemma profile_two_eq : ProfileCSV (H := Demo.lib) "two.csv" = Ok profile_two.
Proof. vm_compute. reflexivity. Qed.

Lemma matrix_two_eq :
  CalculateCorrelationMatrix (H := Demo.lib) profile_two = Ok (Some matrix_two).
Proof. vm_compute. reflexivity. Qed.

End DemoFacts.

(** X9. The columns of the correlation matrix.  [CalculateCorrelationMatrix]
    returns no matrix when fewer than two columns are numeric and hold a
    value; the matrix it returns otherwise lists exactly those columns, at
    least two of them, in strictly ascending order of their names. *)
Theorem CalculateCorrelationMatrix_columns `{GoLib} (profile : DatasetProfile.t) :
  (len (numericColumnNames profile) < 2 -> CalculateCorrelationMatrix profile = Ok None)
  /\ (forall m,
        CalculateCorrelationMatrix profile = Ok (Some m) ->
        2 <= len (CorrelationMatrix.Columns m)
        /\ StronglySorted (fun a b => String.ltb a b = true) (CorrelationMatrix.Columns m)
        /\ forall c,
             c ∈ CorrelationMatrix.Columns m
             <-> exists col,
                   DatasetProfile.Columns profile !! c = Some col
                   /\ ColumnProfile.IsNumeric col = true /\ 0 < ColumnProfile.Count col).
Proof. apply CalculateCorrelationMatrix_shape. Qed.

(** X10. The values of the correlation matrix: it is symmetric, its
    diagonal is 1, the entry of two different columns is the Pearson
    correlation of the values reconstructed from their profiles, and it
    reads as 0 outside its columns. *)
Theorem CalculateCorrelationMatrix_values `{GoLib}
    (profile : DatasetProfile.t) (m : CorrelationMatrix.t) :
  CalculateCorrelationMatrix profile = Ok (Some m) ->
  (forall a b,
      getValue (CorrelationMatrix.Values m) a b = getValue (CorrelationMatrix.Values m) b a)
  /\ (forall c, c ∈ CorrelationMatrix.Columns m ->
                getValue (CorrelationMatrix.Values m) c c = F64.of_int 1)
  /\ (forall a b cola colb,
        a ∈ CorrelationMatrix.Columns m -> b ∈ CorrelationMatrix.Columns m -> a <> b ->
        DatasetProfile.Columns profile !! a = Some cola ->
        DatasetProfile.Columns profile !! b = Some colb ->
        calculatePearsonCorrelation (reconstructNumericValues cola)
          (reconstructNumericValues colb)
        = Ok (getValue (CorrelationMatrix.Values m) a b))
  /\ (forall a b,
        a ∉ CorrelationMatrix.Columns m \/ b ∉ CorrelationMatrix.Columns m ->
        getValue (CorrelationMatrix.Values m) a b = F64.zero).
Proof. apply CalculateCorrelationMatrix_entries. Qed.

Lemma CalculateCorrelationMatrix_values_witness :
  CalculateCorrelationMatrix (H := Demo.lib) profile_two = Ok (Some matrix_two)
  /\ getValue (CorrelationMatrix.Values matrix_two) "a" "b"
     = getValue (CorrelationMatrix.Values matrix_two) "b" "a"
  /\ getValue (CorrelationMatrix.Values matrix_two) "a" "a" = F64.of_int 1.
Proof.
  split; [exact matrix_two_eq |].
  destruct (CalculateCorrelationMatrix_values (H := Demo.lib) profile_two matrix_two
              matrix_two_eq) as (Hsym & Hdiag & _).
  split; [apply Hsym |]. apply Hdiag. vm_compute. left.
Defined.

(** X11. The top pairs of the correlation matrix: at most 10; each has a
    correlation that is a number of absolute value above 0.1; and, as
    [sort.Slice] permutes its slice, each is a pair of two columns of the
    matrix, the first before the second, with the value of the matrix. *)
Theorem CalculateCorrelationMatrix_top_pairs `{GoLib}
    (profile : DatasetProfile.t) (m : CorrelationMatrix.t) :
  (forall (less : CorrelationPair.t -> CorrelationPair.t -> bool) s,
      sort_Slice less s ≡ₚ s) ->
  CalculateCorrelationMatrix profile = Ok (Some m) ->
  len (CorrelationMatrix.TopPairs m) <= 10
  /\ forall p, p ∈ CorrelationMatrix.TopPairs m ->
       F64.ltb F64.c0_1 (F64.abs (CorrelationPair.Correlation p)) = true
       /\ isNaN (CorrelationPair.Correlation p) = false
       /\ String.ltb (CorrelationPair.Column1 p) (CorrelationPair.Column2 p) = true
       /\ CorrelationPair.Column1 p ∈ CorrelationMatrix.Columns m
       /\ CorrelationPair.Column2 p ∈ CorrelationMatrix.Columns m
       /\ CorrelationPair.Correlation p
          = getValue (CorrelationMatrix.Values m) (CorrelationPair.Column1 p)
              (CorrelationPair.Column2 p).
Proof.
  intros Hsort Hm.
  destruct (CalculateCorrelationMatrix_top profile m Hm) as (Hlen & Habs & Hpairs).
  split; [exact Hlen |].
  intros p Hp. destruct (Habs p Hp) as [Ha Hn].
  destruct (Hpairs Hsort p Hp) as (H1 & H2 & H3 & H4).
  repeat split; assumption.
Qed.

Lemma CalculateCorrelationMatrix_top_pairs_witness :
  CalculateCorrelationMatrix (H := Demo.lib) profile_two = Ok (Some matrix_two)
  /\ len (CorrelationMatrix.TopPairs matrix_two) = 1
  /\ forall p, p ∈ CorrelationMatrix.TopPairs matrix_two ->
               CorrelationPair.Column1 p ∈ CorrelationMatrix.Columns matrix_two.
Proof.
  split; [exact matrix_two_eq |]. split; [vm_compute; reflexivity |].
  intros p Hp.
  destruct (CalculateCorrelationMatrix_top_pairs (H := Demo.lib) profile_two matrix_two
              (fun less s => Slice_Permutation less s) matrix_two_eq) as [_ Hall].
  apply (Hall p Hp).
Defined.

(** ** Further properties of ProfileCSV *)



(** X13. The columns of a profile that [ProfileCSV] returns are keyed by
    the names of the header: a name has a column exactly when it stands in
    the header, and the column carries that name.  The map has one column
    for each different name, so that with a repeated name it has fewer
    columns than [ColumnCount] says. *)
Theorem ProfileCSV_column_names `{GoLib} (filePath : string) (file : File)
    (header : list string) (rows : list (list string)) (profile : DatasetProfile.t) :
  os_Open filePath = Some file ->
  file_records file = RawFields header :: map RawFields rows ->
  header <> [] ->
  (len rows + 1) * len header < 2 ^ 63 ->
  ProfileCSV filePath = Ok profile ->
  (forall c, c ∈ header <-> is_Some (DatasetProfile.Columns profile !! c))
  /\ (forall c col, DatasetProfile.Columns profile !! c = Some col ->
                    ColumnProfile.Name col = c)
  /\ Z.of_nat (size (DatasetProfile.Columns profile)) = distinct header
  /\ distinct header <= DatasetProfile.ColumnCount profile.
Proof. apply ProfileCSV_names. Qed.

Lemma ProfileCSV_column_names_witness :
  exists profile,
    ProfileCSV (H := Demo2.lib) "people.csv" = Ok profile
    /\ is_Some (DatasetProfile.Columns profile !! "name"%string)
    /\ Z.of_nat (size (DatasetProfile.Columns profile)) = 2.
Proof.
  destruct (ProfileCSV (H := Demo2.lib) "people.csv") as [profile | |] eqn:Hp;
    [| vm_compute in Hp; discriminate Hp | vm_compute in Hp; discriminate Hp].
  exists profile. split; [reflexivity |].
  destruct (ProfileCSV_column_names (H := Demo2.lib) "people.csv"
              (mkFile (Some 40)
                 [RawFields ["id"; "name"]; RawFields ["1"; "ann"]; RawFields ["2"; ""];
                  RawFields ["2"; ""]])
              ["id"; "name"]%string [["1"; "ann"]; ["2"; ""]; ["2"; ""]]%string profile
              eq_refl eq_refl ltac:(discriminate) ltac:(vm_compute; reflexivity) Hp)
    as (Hkeys & _ & Hsize & _).
  split; [apply Hkeys; vm_compute; right; left | exact Hsize].
Defined.

(** X14. A column of a profile that [ProfileCSV] returns, when the names
    of the header are distinct.  The column of the [k]-th name describes
    the [k]-th fields of the records: [Count] is the number of fields
    that are not empty and [MissingCount] the number of empty ones, which
    add up to [RowCount]; [UniqueCount] is the number of different values;
    [IsUnique] holds exactly when no value occurs twice; the type is the
    one inferred from the values; [TopValues] lists [min 5 UniqueCount]
    values, each with the number of its occurrences. *)
Theorem ProfileCSV_column_counts `{GoLib} (filePath : string) (file : File)
    (header : list string) (rows : list (list string)) (profile : DatasetProfile.t)
    (k : nat) (c : string) :
  os_Open filePath = Some file ->
  file_records file = RawFields header :: map RawFields rows ->
  (len rows + 1) * len header < 2 ^ 63 ->
  NoDup header ->
  header !! k = Some c ->
  ProfileCSV filePath = Ok profile ->
  let cells := omap (fun record : list string => record !! k) rows in
  exists col,
    DatasetProfile.Columns profile !! c = Some col
    /\ ColumnProfile.Name col = c
    /\ ColumnProfile.Count col = len (present cells)
    /\ ColumnProfile.MissingCount col = absent cells
    /\ ColumnProfile.Count col + ColumnProfile.MissingCount col
       = DatasetProfile.RowCount profile
    /\ ColumnProfile.UniqueCount col = distinct (present cells)
    /\ (ColumnProfile.IsUnique col = true <-> NoDup (present cells))
    /\ ColumnProfile.DataType col = inferDataType_spec (present cells)
    /\ len (ColumnProfile.TopValues col) = Z.min 5 (distinct (present cells))
    /\ forall tv, tv ∈ ColumnProfile.TopValues col ->
                  ValueCount.Count tv = countOf (ValueCount.Value tv) (present cells)
                  /\ 0 < ValueCount.Count tv.
Proof. apply ProfileCSV_counts. Qed.

Lemma ProfileCSV_column_counts_witness :
  exists profile col,
    ProfileCSV (H := Demo2.lib) "people.csv" = Ok profile
    /\ DatasetProfile.Columns profile !! "name"%string = Some col
    /\ ColumnProfile.Count col = 1
    /\ ColumnProfile.MissingCount col = 2
    /\ ColumnProfile.UniqueCount col = 1.
Proof.
  destruct (ProfileCSV (H := Demo2.lib) "people.csv") as [profile | |] eqn:Hp;
    [| vm_compute in Hp; discriminate Hp | vm_compute in Hp; discriminate Hp].
  destruct (ProfileCSV_column_counts (H := Demo2.lib) "people.csv"
              (mkFile (Some 40)
                 [RawFields ["id"; "name"]; RawFields ["1"; "ann"]; RawFields ["2"; ""];
                  RawFields ["2"; ""]])
              ["id"; "name"]%string [["1"; "ann"]; ["2"; ""]; ["2"; ""]]%string profile
              1%nat "name"%string
              eq_refl eq_refl ltac:(vm_compute; reflexivity)
              ltac:(repeat constructor; vm_compute; intros Hin;
                    repeat (apply list_elem_of_In in Hin; cbn in Hin);
                    intuition discriminate)
              eq_refl Hp)
    as (col & Hlook & _ & Hcount & Hmiss & _ & Hu & _).
  exists profile, col. split; [reflexivity |]. split; [exact Hlook |].
  split; [exact Hcount |]. split; [exact Hmiss |]. exact Hu.
Defined.

(** X15. The quality score of a profile that [ProfileCSV] returns (for a
    header of fewer than 2^56 fields) lies between 0 and 100; it is 0 for
    a file without a record and at least 15 for a file with one. *)
Theorem ProfileCSV_quality_score `{GoLib} (filePath : string) (file : File)
    (header : list string) (rows : list (list string)) (profile : DatasetProfile.t) :
  os_Open filePath = Some file ->
  file_records file = RawFields header :: map RawFields rows ->
  header <> [] ->
  (len rows + 1) * len header < 2 ^ 63 ->
  len header < 2 ^ 56 ->
  ProfileCSV filePath = Ok profile ->
  0 <= DatasetProfile.QualityScore profile <= 100
  /\ (rows = [] -> DatasetProfile.QualityScore profile = 0)
  /\ (rows <> [] -> 15 <= DatasetProfile.QualityScore profile).
Proof.
  intros Ho Hr Hne Hsize Hcols Hp.
  destruct (ProfileCSV_valid _ _ _ _ _ Ho Hr Hne Hsize Hcols Hp) as [Hvi Hvc].
  destruct (ProfileCSV_dataset _ _ _ _ _ Ho Hr Hne Hsize Hp)
    as (_ & _ & _ & _ & HR & HC & _ & _ & _ & _ & HQ).
  rewrite HQ. split; [apply CalculateQualityScore_bounds, Hvi |]. split.
  - intros ->. unfold CalculateQualityScore. rewrite HR. reflexivity.
  - intros Hrows. apply CalculateQualityScore_lower; [| | exact Hvi | exact Hvc].
    + rewrite HR. destruct rows; [congruence | unfold len; cbn [length]; lia].
    + rewrite HC. destruct header; [congruence | unfold len; cbn [length]; lia].
Qed.

Lemma ProfileCSV_quality_score_witness :
  exists profile,
    ProfileCSV (H := Demo2.lib) "people.csv" = Ok profile
    /\ 15 <= DatasetProfile.QualityScore profile <= 100.
Proof.
  destruct (ProfileCSV (H := Demo2.lib) "people.csv") as [profile | |] eqn:Hp;
    [| vm_compute in Hp; discriminate Hp | vm_compute in Hp; discriminate Hp].
  exists profile. split; [reflexivity |].
  destruct (ProfileCSV_quality_score (H := Demo2.lib) "people.csv"
              (mkFile (Some 40)
                 [RawFields ["id"; "name"]; RawFields ["1"; "ann"]; RawFields ["2"; ""];
                  RawFields ["2"; ""]])
              ["id"; "name"]%string [["1"; "ann"]; ["2"; ""]; ["2"; ""]]%string profile
              eq_refl eq_refl ltac:(discriminate) ltac:(vm_compute; reflexivity)
              ltac:(vm_compute; reflexivity) Hp)
    as (Hrange & _ & Hlow).
  split; [apply Hlow; discriminate | apply Hrange].
Defined.

(** X16. The outcomes of [ProfileCSV] on a file that opens and starts
    with a header.  A profile is returned only when every later record is
    well formed and has as many fields as the header.  An error is the
    failure of [Stat], a record with another number of fields, or a
    malformed record.  A panic is an index below 0 in the histogram of a
    numeric column; nothing else panics. *)
Theorem ProfileCSV_outcomes `{GoLib} (filePath : string) (file : File)
    (header : list string) (raws : list rawRecord) :
  os_Open filePath = Some file ->
  file_records file = RawFields header :: raws ->
  0 < len header < 2 ^ 63 ->
  len raws * len header < 2 ^ 63 ->
  match ProfileCSV filePath with
  | Ok profile =>
      exists rows,
        raws = map RawFields rows
        /\ Forall (fun record => len record = len header) rows
        /\ file_stat file = Some (DatasetProfile.FileSize profile)
  | Err e =>
      (file_stat file = None
       /\ e = fmt_Errorf "failed to get file stats: %w" (os_ErrStat filePath))
      \/ (e = fmt_Errorf "error reading CSV: %w" csv_ErrFieldCount
          /\ exists record, RawFields record ∈ raws /\ len record <> len header)
      \/ (exists msg, e = fmt_Errorf "error reading CSV: %w" (csv_ErrSyntax msg)
                      /\ RawError msg ∈ raws)
  | Panic p => negative_index p
  end.
Proof.
  intros Ho Hr Hh Hsize.
  pose proof (ProfileCSV_cases filePath file header raws Ho Hr Hh Hsize) as Hc.
  destruct (ProfileCSV filePath) as [profile | e | p]; [| exact Hc | exact Hc].
  destruct Hc as (fileSize & rows & st & cols & Hs & -> & Hall & _ & _ & ->).
  exists rows. split; [reflexivity |]. split.
  - eapply Forall_impl; [exact Hall |]. intros r Hl. cbv beta in *. unfold len. lia.
  - destruct (csvProfile_fields filePath fileSize header st cols) as (_ & -> & _).
    exact Hs.
Qed.

Lemma ProfileCSV_outcomes_witness :
  (exists profile, ProfileCSV (H := Demo2.lib) "people.csv" = Ok profile)
  /\ (exists e, ProfileCSV (H := Demo2.lib) "wide.csv" = Err e)
  /\ (exists p, ProfileCSV (H := Demo2.lib) "constant.csv" = Panic p /\ negative_index p).
Proof.
  split; [| split].
  - destruct (ProfileCSV (H := Demo2.lib) "people.csv") as [profile | |] eqn:Hp;
      [| vm_compute in Hp; discriminate Hp | vm_compute in Hp; discriminate Hp].
    exists profile. reflexivity.
  - destruct (ProfileCSV (H := Demo2.lib) "wide.csv") as [| e |] eqn:Hp;
      [vm_compute in Hp; discriminate Hp | | vm_compute in Hp; discriminate Hp].
    exists e. reflexivity.
  - pose proof (ProfileCSV_outcomes (H := Demo2.lib) "constant.csv"
                  (mkFile (Some 8) [RawFields ["n"]; RawFields ["5"]; RawFields ["5"]])
                  ["n"]%string [RawFields ["5"]; RawFields ["5"]]%string
                  eq_refl eq_refl ltac:(vm_compute; split; reflexivity)
                  ltac:(vm_compute; reflexivity)) as Hc.
    destruct (ProfileCSV (H := Demo2.lib) "constant.csv") as [| | p] eqn:Hp;
      [vm_compute in Hp; discriminate Hp | vm_compute in Hp; discriminate Hp |].
    exists p. split; [reflexivity | exact Hc].
Defined.

(** X17. A file that holds a header and no record is profiled without a
    failure: no rows, no issues of the dataset and a score of 0; every
    column is of type "unknown", empty and unique, and, as 0 values are 0
    different values, it is reported as a likely ID column when its name
    contains "id". *)
Theorem ProfileCSV_header_only `{GoLib} (filePath : string) (file : File) (fileSize : Z)
    (header : list string) :
  os_Open filePath = Some file ->
  file_stat file = Some fileSize ->
  file_records file = [RawFields header] ->
  0 < len header < 2 ^ 63 ->
  exists profile,
    ProfileCSV filePath = Ok profile
    /\ DatasetProfile.RowCount profile = 0
    /\ DatasetProfile.ColumnCount profile = len header
    /\ DatasetProfile.MissingCells profile = 0
    /\ DatasetProfile.DuplicateRows profile = 0
    /\ DatasetProfile.QualityIssues profile = []
    /\ DatasetProfile.QualityScore profile = 0
    /\ forall c, c ∈ header ->
         exists col,
           DatasetProfile.Columns profile !! c = Some col
           /\ ColumnProfile.DataType col = "unknown"%string
           /\ ColumnProfile.Count col = 0
           /\ ColumnProfile.MissingCount col = 0
           /\ ColumnProfile.UniqueCount col = 0
           /\ ColumnProfile.IsUnique col = true
           /\ ColumnProfile.TopValues col = []
           /\ ColumnProfile.QualityIssues col
              = if strings_Contains (strings_ToLower c) "id"
                then [QualityIssue.mk "likely_id" "Likely ID column" 1]
                else [].
Proof. apply ProfileCSV_no_record. Qed.

Lemma ProfileCSV_header_only_witness :
  exists profile col,
    ProfileCSV (H := Demo2.lib) "header.csv" = Ok profile
    /\ DatasetProfile.QualityScore profile = 0
    /\ DatasetProfile.Columns profile !! "id"%string = Some col
    /\ ColumnProfile.QualityIssues col = [QualityIssue.mk "likely_id" "Likely ID column" 1].
Proof.
  destruct (ProfileCSV_header_only (H := Demo2.lib) "header.csv"
              (mkFile (Some 9) [RawFields ["id"; "name"]]) 9 ["id"; "name"]%string
              eq_refl eq_refl eq_refl ltac:(vm_compute; split; reflexivity))
    as (profile & Hp & _ & _ & _ & _ & _ & Hscore & Hcols).
  destruct (Hcols "id"%string ltac:(vm_compute; left))
    as (col & Hlook & _ & _ & _ & _ & _ & _ & Hissues).
  exists profile, col. split; [exact Hp |]. split; [exact Hscore |].
  split; [exact Hlook | exact Hissues].
Defined.

(** ** The labels of a correlation *)

(** X18. [GetCorrelationStrength] cuts the absolute value of a correlation
    into six bands at 0.9, 0.7, 0.5, 0.3 and 0.1: each label stands for
    exactly one band, NaN is "Negligible", and the sign of the correlation
    does not matter. *)
Theorem GetCorrelationStrength_bands (c : float64) :
  let a := F64.abs c in
  let label := GetCorrelationStrength c in
  (label = "Very Strong"%string <-> F64.leb F64.c0_9 a = true)
  /\ (label = "Strong"%string <-> F64.leb F64.c0_7 a = true /\ F64.ltb a F64.c0_9 = true)
  /\ (label = "Moderate"%string <-> F64.leb c0_5 a = true /\ F64.ltb a F64.c0_7 = true)
  /\ (label = "Weak"%string <-> F64.leb c0_3 a = true /\ F64.ltb a c0_5 = true)
  /\ (label = "Very Weak"%string <-> F64.leb F64.c0_1 a = true /\ F64.ltb a c0_3 = true)
  /\ (label = "Negligible"%string <-> isNaN c = true \/ F64.ltb a F64.c0_1 = true)
  /\ GetCorrelationStrength (SFopp c) = label.
Proof.
  intros a label. subst a label.
  destruct (isNaN c) eqn:Hn.
  - destruct c; try discriminate Hn. cbn.
    repeat split; intros; try discriminate; auto;
      repeat match goal with H : _ /\ _ |- _ => destruct H end; discriminate.
  - pose proof (strength_bands (F64.abs c) ltac:(rewrite abs_nan; exact Hn)) as Hb.
    cbv zeta in Hb. fold (GetCorrelationStrength c) in Hb.
    destruct Hb as (H9 & H7 & H5 & H3 & H1 & H0).
    split; [exact H9 |]. split; [exact H7 |]. split; [exact H5 |]. split; [exact H3 |].
    split; [exact H1 |]. split.
    + rewrite H0. split; [auto | intros [Hx | Hx]; [discriminate Hx | exact Hx]].
    + unfold GetCorrelationStrength. rewrite abs_opp. reflexivity.
Qed.

(** X19. [GetCorrelationDirection] is "Positive" exactly above 0,
    "Negative" exactly below 0, and "None" exactly for a zero of either
    sign and for NaN; the opposite correlation has the opposite
    direction. *)
Theorem GetCorrelationDirection_sign (c : float64) :
  (GetCorrelationDirection c = "Positive"%string <-> F64.ltb F64.zero c = true)
  /\ (GetCorrelationDirection c = "Negative"%string <-> F64.ltb c F64.zero = true)
  /\ (GetCorrelationDirection c = "None"%string
      <-> isNaN c = true \/ F64.eqb c F64.zero = true)
  /\ GetCorrelationDirection (SFopp c)
     = (if String.eqb (GetCorrelationDirection c) "Positive" then "Negative"
        else if String.eqb (GetCorrelationDirection c) "Negative" then "Positive"
        else "None")%string.
Proof.
  destruct (direction_cases c) as (Hp & Hn & Hz).
  split; [exact Hp |]. split; [exact Hn |]. split; [exact Hz | apply direction_opp].
Qed.

(** X20. Every top pair of a correlation matrix has a strength other than
    "Negligible" and a direction other than "None": the threshold of the
    top pairs, above 0.1, lies in the band "Very Weak" or above. *)
Theorem CalculateCorrelationMatrix_top_pair_labels `{GoLib}
    (profile : DatasetProfile.t) (m : CorrelationMatrix.t) :
  CalculateCorrelationMatrix profile = Ok (Some m) ->
  forall p, p ∈ CorrelationMatrix.TopPairs m ->
    GetCorrelationStrength (CorrelationPair.Correlation p) <> "Negligible"%string
    /\ GetCorrelationDirection (CorrelationPair.Correlation p) <> "None"%string.
Proof.
  intros Hm p Hp.
  destruct (CalculateCorrelationMatrix_top profile m Hm) as (_ & Habs & _).
  destruct (Habs p Hp) as [Hlt _].
  apply labels_above_threshold, Hlt.
Qed.

Lemma CalculateCorrelationMatrix_top_pair_labels_witness :
  CalculateCorrelationMatrix (H := Demo.lib) profile_two = Ok (Some matrix_two)
  /\ CorrelationMatrix.TopPairs matrix_two <> []
  /\ forall p, p ∈ CorrelationMatrix.TopPairs matrix_two ->
               GetCorrelationStrength (CorrelationPair.Correlation p) <> "Negligible"%string.
Proof.
  split; [exact matrix_two_eq |]. split; [vm_compute; discriminate |].
  intros p Hp.
  apply (CalculateCorrelationMatrix_top_pair_labels (H := Demo.lib) profile_two matrix_two
           matrix_two_eq p Hp).
Defined.

(** ** The quality issues *)

(** X21. [detectQualityIssues] keeps the issues a column has and appends
    at most one issue of each of the types "missing_values", "likely_id"
    and "imbalanced", in this order and with severities from 1 to 3:
    "missing_values" exactly when a value is missing, "likely_id" exactly
    when all values differ and the lower-cased name contains "id",
    "imbalanced" exactly when the column is categorical and its first top
    value makes up more than 90 percent of the values. *)
Theorem detectQualityIssues_reports `{GoLib} (col : ColumnProfile.t) (rowCount : Z) :
  exists added,
    ColumnProfile.QualityIssues (detectQualityIssues col rowCount)
    = ColumnProfile.QualityIssues col ++ added
    /\ sublist (map QualityIssue.Type_ added) ["missing_values"; "likely_id"; "imbalanced"]%string
    /\ forallb severity_ok added = true
    /\ ("missing_values"%string ∈ map QualityIssue.Type_ added
        <-> 0 < ColumnProfile.MissingCount col)
    /\ ("likely_id"%string ∈ map QualityIssue.Type_ added
        <-> ColumnProfile.UniqueCount col = ColumnProfile.Count col
            /\ strings_Contains (strings_ToLower (ColumnProfile.Name col)) "id" = true)
    /\ ("imbalanced"%string ∈ map QualityIssue.Type_ added
        <-> ColumnProfile.IsCategorical col = true
            /\ exists top rest,
                 ColumnProfile.TopValues col = top :: rest
                 /\ F64.ltb (F64.of_int 90)
                      (percentage (ValueCount.Count top) (ColumnProfile.Count col)) = true).
Proof.
  unfold detectQualityIssues, with_QualityIssues. cbn [ColumnProfile.QualityIssues].
  set (i1 := QualityIssue.mk "missing_values" _ _).
  assert (H1 : severity_ok i1 = true).
  { unfold severity_ok, i1. cbn [QualityIssue.Severity].
    pose proof (severityOf_range
                  (percentage (ColumnProfile.MissingCount col) rowCount)) as Hr.
    apply andb_true_intro. split; apply Z.leb_le; lia. }
  assert (T1 : QualityIssue.Type_ i1 = "missing_values"%string) by reflexivity.
  clearbody i1.
  set (issues := ColumnProfile.QualityIssues col).
  destruct (Z.ltb_spec 0 (ColumnProfile.MissingCount col)) as [Hm | Hm];
    destruct (Z.eqb_spec (ColumnProfile.UniqueCount col) (ColumnProfile.Count col))
      as [Hu | Hu];
    destruct (strings_Contains (strings_ToLower (ColumnProfile.Name col)) "id") eqn:Hid;
    cbn [andb];
    destruct (ColumnProfile.TopValues col) as [| top rest];
    try destruct (ColumnProfile.IsCategorical col) eqn:Hcat;
    try destruct (F64.ltb (F64.of_int 90)
                    (percentage (ValueCount.Count top) (ColumnProfile.Count col))) eqn:Hpct;
    (eexists; split;
     [ first [ rewrite <- ?app_assoc; reflexivity | symmetry; apply app_nil_r ]
     | cbn [map app QualityIssue.Type_ forallb]; rewrite ?T1, ?H1;
       split;
       [ repeat first [ apply sublist_nil | apply sublist_skip | apply sublist_cons ]
       | split; [reflexivity |];
         rewrite ?elem_of_cons, ?elem_of_nil;
         repeat split; intros;
         repeat match goal with
           | H : _ \/ _ |- _ => destruct H
           | H : _ /\ _ |- _ => destruct H
           | H : exists _, _ |- _ => destruct H
           end;
         try discriminate; try contradiction; try lia; try congruence; eauto 6 ] ]).
Qed.

(** X22. [collectDatasetQualityIssues] keeps the issues of the dataset and
    appends at most "high_missing_values" and then "duplicate_rows":
    the first exactly when there are rows and columns and more than 5
    percent of the cells are missing, with severity 2 or 3; the second
    exactly when there are rows and a duplicated row, with a severity from
    1 to 3. *)
Theorem collectDatasetQualityIssues_reports `{GoLib} (profile : DatasetProfile.t) :
  exists added,
    DatasetProfile.QualityIssues (collectDatasetQualityIssues profile)
    = DatasetProfile.QualityIssues profile ++ added
    /\ sublist (map QualityIssue.Type_ added) ["high_missing_values"; "duplicate_rows"]%string
    /\ forallb severity_ok added = true
    /\ ("high_missing_values"%string ∈ map QualityIssue.Type_ added
        <-> 0 < DatasetProfile.RowCount profile /\ 0 < DatasetProfile.ColumnCount profile
            /\ F64.ltb (F64.of_int 5)
                 (percentage (DatasetProfile.MissingCells profile)
                    (GoInt.mul (DatasetProfile.RowCount profile)
                       (DatasetProfile.ColumnCount profile))) = true)
    /\ ("duplicate_rows"%string ∈ map QualityIssue.Type_ added
        <-> 0 < DatasetProfile.RowCount profile /\ 0 < DatasetProfile.DuplicateRows profile)
    /\ (forall issue, issue ∈ added ->
          QualityIssue.Type_ issue = "high_missing_values"%string ->
          2 <= QualityIssue.Severity issue).
Proof.
  unfold collectDatasetQualityIssues. cbn [DatasetProfile.QualityIssues].
  set (i2 := QualityIssue.mk "duplicate_rows" _ _).
  assert (H2 : severity_ok i2 = true).
  { unfold severity_ok, i2. cbn [QualityIssue.Severity].
    pose proof (severityOf_range
                  (percentage (DatasetProfile.DuplicateRows profile)
                     (DatasetProfile.RowCount profile))) as Hr.
    apply andb_true_intro. split; apply Z.leb_le; lia. }
  assert (T2 : QualityIssue.Type_ i2 = "duplicate_rows"%string) by reflexivity.
  clearbody i2.
  set (i1 := QualityIssue.mk "high_missing_values" _ _).
  assert (H1 : severity_ok i1 = true /\ 2 <= QualityIssue.Severity i1).
  { unfold severity_ok, i1. cbn [QualityIssue.Severity].
    destruct (F64.ltb (F64.of_int 20) _); split; (reflexivity || lia). }
  destruct H1 as [H1 S1].
  assert (T1 : QualityIssue.Type_ i1 = "high_missing_values"%string) by reflexivity.
  clearbody i1.
  destruct (Z.ltb_spec 0 (DatasetProfile.RowCount profile)) as [Hr | Hr];
    destruct (Z.ltb_spec 0 (DatasetProfile.ColumnCount profile)) as [Hc | Hc];
    destruct (Z.ltb_spec 0 (DatasetProfile.DuplicateRows profile)) as [Hd | Hd];
    cbn [andb];
    try destruct (F64.ltb (F64.of_int 5) _) eqn:Hpct;
    (eexists; split;
     [ first [ rewrite <- ?app_assoc; reflexivity | symmetry; apply app_nil_r ]
     | cbn [map app QualityIssue.Type_ forallb]; rewrite ?T1, ?T2, ?H1, ?H2;
       split;
       [ repeat first [ apply sublist_nil | apply sublist_skip | apply sublist_cons ]
       | split; [reflexivity |];
         rewrite ?elem_of_cons, ?elem_of_nil;
         repeat split; intros;
         repeat match goal with
           | H : _ \/ _ |- _ => destruct H
           | H : _ /\ _ |- _ => destruct H
           | H : _ ∈ _ |- _ => rewrite ?elem_of_cons, ?elem_of_nil in H
           end;
         subst;
         try discriminate; try contradiction; try lia; try congruence; eauto 6 ] ]).
Qed.

(** ** Uniform columns and the score without missing cells *)

(** X23. [inferDataType] on a column whose first 100 values are all of
    one kind returns the label of that kind: "integer" for integers (each
    of which would also parse as a float), "float" for other numbers,
    "datetime" for dates, and "string" for values that no parser
    accepts. *)
Theorem inferDataType_uniform_column `{GoLib} (values : list string) (c : ValueClass) :
  len values < 2 ^ 63 ->
  values <> [] ->
  Forall (fun v => classOf v = c) (take 100 values) ->
  inferDataType values = Ok (classLabel c).
Proof. apply inferDataType_uniform. Qed.

Lemma inferDataType_uniform_column_witness :
  inferDataType (H := Demo.lib) ["1.5"; "2.5"; "7.25"] = Ok "float"%string
  /\ inferDataType (H := Demo.lib) ["ann"; "bob"] = Ok "string"%string.
Proof.
  split.
  - apply (inferDataType_uniform_column (H := Demo.lib) ["1.5"; "2.5"; "7.25"]%string
             ClassFloat); [reflexivity | discriminate |].
    repeat constructor.
  - apply (inferDataType_uniform_column (H := Demo.lib) ["ann"; "bob"]%string ClassOther);
      [reflexivity | discriminate |].
    repeat constructor.
Defined.

(** X24. The score of a dataset with rows and columns, without a missing
    cell and without a duplicated row, is 100 less the issue penalty: 5
    points for each severity point of an issue of the dataset and 1 point
    for each severity point of an issue of a column, 40 points at most.
    Such a dataset never scores below 60, and scores 100 exactly when it
    has no issue. *)
Theorem CalculateQualityScore_formula (profile : DatasetProfile.t) :
  valid_issues profile = true ->
  0 < DatasetProfile.RowCount profile ->
  0 < DatasetProfile.ColumnCount profile ->
  DatasetProfile.RowCount profile * DatasetProfile.ColumnCount profile < 2 ^ 63 ->
  DatasetProfile.MissingCells profile = 0 ->
  DatasetProfile.DuplicateRows profile = 0 ->
  CalculateQualityScore profile
  = 100 - Z.min 40 (5 * severitySum (DatasetProfile.QualityIssues profile)
                    + severitySum (column_issues (DatasetProfile.Columns profile)))
  /\ 60 <= CalculateQualityScore profile <= 100
  /\ (CalculateQualityScore profile = 100 <-> all_issues profile = []).
Proof.
  intros Hv HR HC HRC HM HD.
  rewrite (CalculateQualityScore_exact profile Hv HR HC HRC HM HD).
  unfold valid_issues, all_issues in *.
  apply andb_prop in Hv as [Hok _].
  rewrite forallb_app in Hok. apply andb_prop in Hok as [Hd Hc].
  pose proof (severitySum_bounds _ Hd) as Hb1.
  pose proof (severitySum_bounds _ Hc) as Hb2.
  split; [reflexivity |]. split; [lia |].
  split.
  - intros Hs.
    assert (H1 : length (DatasetProfile.QualityIssues profile) = 0%nat) by lia.
    assert (H2 : length (column_issues (DatasetProfile.Columns profile)) = 0%nat) by lia.
    apply length_zero_iff_nil in H1, H2. rewrite H1, H2. reflexivity.
  - intros Hnil. apply app_eq_nil in Hnil as [-> ->]. reflexivity.
Qed.

Lemma CalculateQualityScore_formula_witness :
  CalculateQualityScore profile_one_issue = 90.
Proof.
  destruct (CalculateQualityScore_formula profile_one_issue
              ltac:(vm_compute; reflexivity) ltac:(reflexivity) ltac:(reflexivity)
              ltac:(reflexivity) eq_refl eq_refl) as (Hs & _).
  rewrite Hs. vm_compute. reflexivity.
Defined.

(** ** Further properties of ProfileDataset *)

(** X25. What the second revision of [ProfileDataset] adds to the profile
    of the dispatch on the extension: the data, the columns and the issues
    are the same; the score is computed again; the correlation matrix is
    the one of [CalculateCorrelationMatrix]; and one recommendation is
    appended for each top pair that [GetCorrelationStrength] calls
    "Strong" or "Very Strong", so at most 10. *)
Theorem ProfileDataset_enrichment `{GoLib} (filePath : string)
    (profile' : DatasetProfile.t) :
  ProfileDataset filePath = Ok profile' ->
  exists profile,
    ProfileDataset_v1 filePath = Ok profile
    /\ DatasetProfile.RowCount profile' = DatasetProfile.RowCount profile
    /\ DatasetProfile.ColumnCount profile' = DatasetProfile.ColumnCount profile
    /\ DatasetProfile.MissingCells profile' = DatasetProfile.MissingCells profile
    /\ DatasetProfile.DuplicateRows profile' = DatasetProfile.DuplicateRows profile
    /\ DatasetProfile.Columns profile' = DatasetProfile.Columns profile
    /\ DatasetProfile.QualityIssues profile' = DatasetProfile.QualityIssues profile
    /\ DatasetProfile.QualityScore profile' = CalculateQualityScore profile
    /\ CalculateCorrelationMatrix profile = Ok (DatasetProfile.CorrelationMatrix profile')
    /\ DatasetProfile.Recommendations profile'
       = DatasetProfile.Recommendations profile
         ++ map recommendation
              (List.filter
                 (fun pair =>
                    String.eqb (GetCorrelationStrength (CorrelationPair.Correlation pair))
                      "Strong"
                    || String.eqb
                         (GetCorrelationStrength (CorrelationPair.Correlation pair))
                         "Very Strong")
                 (match DatasetProfile.CorrelationMatrix profile' with
                  | Some m => CorrelationMatrix.TopPairs m
                  | None => []
                  end))
    /\ len (DatasetProfile.Recommendations profile')
       <= len (DatasetProfile.Recommendations profile) + 10.
Proof.
  unfold ProfileDataset, ProfileDataset_v1. intros Hp.
  destruct (profileByExtension filePath) as [profile | |]; cbn [bind] in Hp;
    try discriminate Hp.
  exists profile. split; [reflexivity |].
  destruct (enrich_Ok profile profile' Hp)
    as (_ & _ & _ & HR & HC & HM & HD & Hcols & Hq & Hs & Hm & Hrec).
  repeat (split; [assumption |]).
  rewrite Hrec. unfold len. rewrite length_app, length_map.
  pose proof (filter_length_le
                (fun pair =>
                   String.eqb (GetCorrelationStrength (CorrelationPair.Correlation pair))
                     "Strong"
                   || String.eqb (GetCorrelationStrength (CorrelationPair.Correlation pair))
                        "Very Strong")
                (match DatasetProfile.CorrelationMatrix profile' with
                 | Some m => CorrelationMatrix.TopPairs m
                 | None => []
                 end)) as Hle.
  destruct (DatasetProfile.CorrelationMatrix profile') as [m |];
    [| cbn [List.filter length] in *; lia].
  destruct (CalculateCorrelationMatrix_top profile m Hm) as (Htop & _).
  unfold len in Htop. lia.
Qed.

Lemma ProfileDataset_enrichment_witness :
  exists profile',
    ProfileDataset (H := Demo.lib) "two.csv" = Ok profile'
    /\ DatasetProfile.RowCount profile' = 2
    /\ DatasetProfile.CorrelationMatrix profile' = Some matrix_two
    /\ len (DatasetProfile.Recommendations profile') = 1.
Proof.
  destruct (ProfileDataset (H := Demo.lib) "two.csv") as [profile' | |] eqn:Hp;
    [| vm_compute in Hp; discriminate Hp | vm_compute in Hp; discriminate Hp].
  exists profile'. split; [reflexivity |].
  destruct (ProfileDataset_enrichment (H := Demo.lib) "two.csv" profile' Hp)
    as (profile & Hv1 & HR & _ & _ & _ & _ & _ & _ & Hm & Hrec & _).
  assert (Hprofile : profile = profile_two).
  { assert (Heq : ProfileDataset_v1 (H := Demo.lib) "two.csv" = Ok profile_two)
      by (vm_compute; reflexivity).
    rewrite Heq in Hv1.
    apply (f_equal (fun r => match r with Ok p => p | _ => profile_two end)) in Hv1.
    symmetry. exact Hv1. }
  subst profile. rewrite matrix_two_eq in Hm.
  apply (f_equal (fun r => match r with Ok m => m | _ => None end)) in Hm.
  cbv beta iota in Hm.
  split; [rewrite HR; vm_compute; reflexivity |]. split; [symmetry; exact Hm |].
  rewrite Hrec, <- Hm. vm_compute. reflexivity.
Defined.

(** X26. The second revision of [ProfileDataset] fails only where the
    dispatch on the extension fails, and then in the same way: on a file
    that opens (of fewer than 2^61 cells), the correlation step never
    panics and never returns an error. *)
Theorem ProfileDataset_no_new_failure `{GoLib} (filePath : string) (file : File)
    (header : list string) (rows : list (list string)) :
  os_Open filePath = Some file ->
  file_records file = RawFields header :: map RawFields rows ->
  header <> [] ->
  (len rows + 1) * len header < 2 ^ 61 ->
  match ProfileDataset_v1 filePath with
  | Ok _ => exists profile', ProfileDataset filePath = Ok profile'
  | Err e => ProfileDataset filePath = Err e
  | Panic p => ProfileDataset filePath = Panic p
  end.
Proof.
  intros Ho Hr Hne Hsize. unfold ProfileDataset, ProfileDataset_v1.
  assert (Hcsv : forall profile, ProfileCSV filePath = Ok profile ->
                                 exists profile', enrich profile = Ok profile').
  { intros profile Hp. apply enrich_total.
    apply (ProfileCSV_points filePath file header rows profile Ho Hr Hne Hsize Hp). }
  unfold profileByExtension.
  destruct (String.eqb _ ".csv").
  - destruct (ProfileCSV filePath) as [profile | |]; cbn [bind]; [| reflexivity ..].
    apply Hcsv. reflexivity.
  - destruct (String.eqb _ ".parquet"); [cbn [bind]; rewrite enrich_unsupported; eauto |].
    destruct (String.eqb _ ".json"); [cbn [bind]; rewrite enrich_unsupported; eauto |].
    destruct (ProfileCSV filePath) as [profile | |]; cbn [bind]; [| reflexivity ..].
    apply Hcsv. reflexivity.
Qed.

Lemma ProfileDataset_no_new_failure_witness :
  (exists profile', ProfileDataset (H := Demo2.lib) "people.csv" = Ok profile')
  /\ (exists p, ProfileDataset (H := Demo2.lib) "constant.csv" = Panic p).
Proof.
  split.
  - pose proof (ProfileDataset_no_new_failure (H := Demo2.lib) "people.csv"
                  (mkFile (Some 40)
                     [RawFields ["id"; "name"]; RawFields ["1"; "ann"]; RawFields ["2"; ""];
                      RawFields ["2"; ""]])
                  ["id"; "name"]%string [["1"; "ann"]; ["2"; ""]; ["2"; ""]]%string
                  eq_refl eq_refl ltac:(discriminate) ltac:(vm_compute; reflexivity)) as Hw.
    destruct (ProfileDataset_v1 (H := Demo2.lib) "people.csv") as [profile | |] eqn:Hp;
      [exact Hw | vm_compute in Hp; discriminate Hp | vm_compute in Hp; discriminate Hp].
  - pose proof (ProfileDataset_no_new_failure (H := Demo2.lib) "constant.csv"
                  (mkFile (Some 8) [RawFields ["n"]; RawFields ["5"]; RawFields ["5"]])
                  ["n"]%string [["5"]; ["5"]]%string
                  eq_refl eq_refl ltac:(discriminate) ltac:(vm_compute; reflexivity)) as Hw.
    destruct (ProfileDataset_v1 (H := Demo2.lib) "constant.csv") as [| | p] eqn:Hp;
      [vm_compute in Hp; discriminate Hp | vm_compute in Hp; discriminate Hp |].
    exists p. exact Hw.
Defined.
